(* ===== verification/_CoqProject ===== *)
-Q . S2P
Prelude.v
PyFloat.v
FloatFacts.v
FloatRound.v
FloatOrder.v
FloatTimes.v
PyValue.v
Templates.v
PyRead.v
Normalizer.v
Player.v
PlayerSpec.v
PlayerHeld.v
PlayerMonitor.v
Schema.v
PlayerSteps.v
PlayerEquiv.v
Loader.v
Ingestion.v
