(* ===== verification/Prelude.v ===== *)
(** * reelaigen: a verification development for the ingestion and rendering code

    The repository has two source files and two uncoupled flows.

    - [src/src/main_generator.py] is the rendering flow.  [TEMPLATE_MAP] is a
      registry of twelve template names; [convert_content_to_string]
      normalises the [content] of a timeline entry by the shape of the value;
      [ManimSceneGenerator] loads a JSON timeline ([__init__], [_load_json])
      and plays it ([construct]): for each entry it computes the duration,
      skips the entry when the duration is not positive or the template is
      unknown, builds the object with the template's constructor (a failure
      is printed and the entry skipped), fades the object on screen out,
      fades the new one in, waits, and records the new object in
      [current_objects]; a last fade-out follows the loop.
    - [src/src/ingestion/content.py] is the ingestion flow: [Content._ingest]
      calls the partitioner, joins the non-empty texts with a blank line and
      counts the elements.

    ** Files, in the order they are compiled

    - [Prelude] (this file): exceptions ([exn]) and results ([result]), the
      state-and-exception monad [M] in which the methods of a Python object
      are written and its [for_each] loop, the do-notation of
      scope [py_scope], the tactic [run_simpl], the
      hint and rewrite database [py], and the lemmas on [str.join] ([join])
      and on the decimal printing of integers ([string_of_Z]).
    - [PyFloat]: Python's [float] as IEEE binary64, on the Standard Library's
      [SpecFloat] (an executable specification without axioms): the literals
      [0.3], [1.0] and [0.5] of the source, multiplication, subtraction, the
      conversion of an [int] that raises [OverflowError], the exact
      comparison of numbers of either kind ([num_compare]), and [min] and
      [max] of two arguments.  Numbers keep Python's two representations
      ([num]: an unbounded [int] as [Z], or a [float]).
    - [FloatFacts]: what rounding keeps, proved on [SpecFloat] directly:
      the sign of a conversion and of a product, the exact conversion of
      an [int] below [2 ^ 53], the exact difference of two such floats,
      and that a product whose exact value is at least one does not round
      below [1.0].
    - [FloatRound]: rounding to nearest, by value.  A right shift keeps
      the quotient, the first digit dropped and whether any later digit
      is set ([shifted]); the result of [binary_round_aux] is canonical
      and half a unit in the last place from its input at most, on
      either side ([binary_round_aux_spec]); a float is valid
      when its mantissa is canonical and its exponent at most [971]
      ([float_wf_finite]); comparison of canonical floats is comparison
      of their values in units of [2 ^ -1074] ([canonical_compare]);
      a number that is at most a float rounds to at most that float
      ([binary_round_le]); conversions, products and differences of
      valid floats are valid.
    - [FloatOrder]: the same specification on whole numbers, counted in
      units of [2 ^ - K]: the grid of the format at a number ([grid]),
      floats as the numbers on their own grid ([is_float]), and
      [rounds x r], with the rule of ties.  Rounding in this sense has
      one result, does not pass a float on either side and is monotone
      ([rounds_mono_le]); when a float grows, the rounding of a share of
      it of one half at most grows by no more ([rounds_share]); a float
      less a quarter of its unit or less rounds back to the float
      ([rounds_absorb]);
      [binary_round_aux] and [binary_round] round in this sense.
    - [FloatTimes]: the floats of lines 110, 111 and 115: thirty percent
      of a float above zero is a float below it, thirty percent of a
      larger float is not smaller and exceeds by no more than the float
      does, the difference of a float and a smaller one is the exact
      difference rounded, above zero and at most the float, a float
      compares with an [int] below [2 ^ 53] as with its float, the float
      of an [int] is the [int] rounded, a float from [2 ^ 54] on less
      [1.0] is the float again, and thirty percent of a float is zero
      for the least float only.
    - [PyValue]: the values [json.load] returns ([value]: [None], [bool],
      [int], [float], [str], [list], [dict] with insertion order), their
      induction principle and decidable equality, [isinstance], [in],
      iteration, [item.get], hashability, the subtraction of two values
      that may not be numbers ([py_sub]) and [str]/[repr] ([py_str],
      [py_repr], with the quoting and escaping of [repr] of a string,
      and the reader [read_str] that reads such a literal back).
    - [PyRead]: a reader of what [repr] prints ([read_value], with the
      length of the text as fuel in [read_repr]): keywords, numerals,
      string literals, lists and dictionaries, each read as a prefix of
      the input with the rest returned.
    - [Templates]: the registry [TEMPLATE_MAP] and the interface [Engine]
      (a type class: the type of renderable objects and the constructor of
      each template), which is what the player is proved against; an
      executable instance [test_engine] serves the witnesses.
    - [Normalizer]: [convert_content_to_string], one branch per line of the
      source, with the theorems of 4.2 of the specification, and the
      tagged variant of section 9 ([shape], [decode], [render_shape]).
    - [Player]: the state of a [ManimSceneGenerator] ([scene]: its three
      attributes and the observable output, the list of [event]s: [play],
      [wait] and [print] calls in order), [fade_in_time] and [wait_time]
      (lines 110 and 111), [render] (lines 106 to 118), [construct_item]
      (the body of the loop of [construct]) and [construct]; the theorems
      on skipping, warnings, errors, the two times and the slot invariant.
    - [PlayerSpec]: the abstract specification of the player (the entries
      that render, each contributing fade-out of the previous object,
      fade-in, wait) and the refinement theorem: the output of [construct]
      is the specification's trace; the trace language of the output
      ([screen_trace]); what is faded in and out, and in which order.
    - [PlayerHeld]: the executable check [held] (every fade-in of an
      output is followed at once by a wait) and the theorem that the
      output of [construct] passes it on every timeline whose floats are
      finite values of binary64.
    - [PlayerMonitor]: [monitor], the function that runs an output
      against the slot and decides [screen_trace].
    - [Schema]: the data model of the timeline as the executable check
      [timeline_conforms], and the theorem that a timeline that conforms
      plays without an exception.
    - [PlayerSteps]: [construct] as a transition system.  A configuration
      is a control point of the method ([control]: the head of the loop,
      the four statements of lines 106 to 118 that act on the engine or on
      [current_objects], the fade-out after the loop, and the two ways the
      method ends) with the attributes ([scene]); [step] is the relation,
      one rule for each statement and each way it can raise, and [next]
      the function that computes it.  The file proves that the system is
      deterministic, never stuck, terminates, and has [construct] as its
      big-step semantics; an invariant of the reachable configurations;
      and that what is on the screen is eventually faded out.
    - [PlayerEquiv]: entries of which the loop reads the same name,
      content, duration and timestamp are equivalent ([same_reading]);
      entries that agree on the five keys are, and so is an entry moved on
      the time axis ([shift_entry]); [construct] is a morphism for the
      equivalence.
    - [Loader]: [ManimSceneGenerator.__init__] and [_load_json] against the
      interface [FileSystem] (existence of a path, [open] followed by
      [json.load]), and [run], a generator built and then played, with the
      end-to-end theorems; [main], the module run as a script.
    - [Ingestion]: the module [Content] with [__init__] and [_ingest]
      against the interface [Content.Partitioner], [str.strip] with its
      specification ([trimmed], the decomposition of a string into
      whitespace, core and whitespace) and the warning.

    ** How the model reads the code

    A method of a Python object is a computation of the monad [M S A]
    ([S -> result A * S]): the state survives an exception, as the
    attributes and the output of a Python program do.  [continue] is the
    early [mret tt] of the loop body; the one [try/except Exception] of
    the source wraps a single call, whose outcome is the sum [constructed]
    (the object, or the text of the exception); an exception that no
    handler catches ends [for_each] and is the result of the method.
    Calls into the animation engine ([play], [wait]) and [print] append an
    event to the output; what the engine does with them is not modelled.

    Numbers are kept as Python has them: [int] is [Z] and never overflows,
    [float] is binary64 with rounding to nearest even, NaN and the
    infinities included (the JSON parser of Python accepts [NaN] and
    [Infinity]).  Strings are [string]: a sequence of code points below
    256.

    ** Bounds and fuel

    Every loop of the source is a [for] over a finite list, so the
    methods are structurally recursive and take no fuel.  The one
    definition with fuel is [PlayerSteps.run], which iterates [next]: an
    entry takes at most five steps (the head of the loop and the four
    statements of an entry that is shown) and the method three more (the
    first step, the exhausted loop, the last fade-out), so
    [5 * length timeline + 3] steps reach the end; [construct_terminates]
    proves that this fuel, or any larger, gives the result of
    [construct], and that no run is infinite.  Two bounds on integers
    appear in hypotheses: [2 ^ 53], below which an [int] has a float of
    its own, and [2 ^ 52] on a time of the data model, so that the
    difference of two times is below [2 ^ 53].  The bounds of binary64
    appear in [FloatRound]: a mantissa of [53] bits, the least exponent
    [-1074] and the greatest [971]; a float is a value of the format
    ([float_wf]) when its mantissa fills the [53] bits or its exponent is
    the least one.  The theorems on the waiting time take a duration that
    is such a value ([valid_num]); every float [json.load] returns is.

    ** What is not modelled

    The animation engine (manim), the template constructors
    ([manim_helpers._templates], not under [src/]), the partitioner
    ([unstructured]) and the JSON parser are collaborators: they appear as
    the fields of the type classes [Engine], [Partitioner] and
    [FileSystem], and as [float_repr] of [PyRuntime] (the shortest
    round-trip printing of a float).  What [play] and [wait] do inside the
    engine (rendering, and the engine's own checks of a run time) is not
    modelled.  Exceptions that are no [Exception] (keyboard interrupts),
    the interpreter's limit on the digits of a printed [int], and code
    points above 255 are outside the model.  Nothing more of the two
    source files is left to model: the lines no definition translates are
    the imports, the [class] lines and blank lines.

    ** What the theorems show

    - Player: an entry of non-positive duration changes nothing; an
      unknown template or a failing constructor only prints; an entry that
      renders plays fade-out, fade-in and wait in that order; the fade-in
      time is from [0] to [1.0] and the waiting time at least [0]; the
      waiting time of every duration that is shown and is not NaN is
      above zero, so the wait is played ([wait_is_played]), and it is at
      most the duration when the duration has a float of its own
      ([wait_time_in_range]); both times are the exact values rounded to
      nearest, ties to even, which fixes them
      ([times_correctly_rounded]); a longer entry does not fade in faster
      and does not wait less ([times_monotone]); an entry from four time
      units to [2 ^ 53], a float or an [int], fades in over [1.0] and
      waits its duration less one, exactly ([render_long]); from
      [2 ^ 54] on, infinity included, it waits its whole duration, the
      second of the fade-in being lost in the rounding of line 111
      ([render_huge]); the fade-in time is zero for the least float above
      zero and for no other duration, and the wait is left out for NaN
      and for no other duration ([times_degenerate]); [current_objects]
      never holds more than one object; the exceptions of the loop
      ([TypeError], [AttributeError], [OverflowError]) and the state they
      leave.
    - PlayerSpec: [construct] refines the slot machine run on the plans of
      the entries (a functional refinement, stated as a simulation); the
      output is a word of the language [screen_trace]; the objects faded
      in are those of the entries that render, in timeline order, and
      each is faded out once; two entries give the six events of the
      specification; an entry that only warns, wherever it stands, adds
      its warning and nothing else ([construct_continues_after_warning]);
      the slot is left filled after the last fade-out.
    - PlayerHeld: on a timeline whose floats are finite, every object
      faded in is held, also when the run ends in an exception; a time
      that is NaN is the counterexample ([nan_entry_is_not_held]).
    - PlayerMonitor: the monitor accepts exactly the words of
      [screen_trace], which is therefore decidable and leaves one slot;
      the output of [construct] is accepted.
    - Schema: on a timeline of the data model no entry raises.
    - PlayerSteps: the transition system and [construct] agree
      ([steps_are_construct]); termination, with the fuel above; the
      invariant of reachable configurations, by induction on the steps;
      liveness: an object on screen is faded out unless an exception ends
      the method.
    - PlayerEquiv: keys the loop does not read, the order of the keys
      and the place of an entry on the time axis change nothing of what
      is played: only the difference of the two times is used.
    - Normalizer: the function never raises and is the table [normalize],
      which is the match on the decoded content; priority of the rules;
      the result is a string except in the equation branch; the
      separators are not escaped, so different contents give one string
      ([convert_separator_ambiguous]).
    - Templates: names and constructors round-trip through the registry.
    - PyRead: [repr] of a value without floats reads back, to any depth
      of lists and dictionaries, so distinct such values print
      differently.
    - Loader and Ingestion: the error paths (missing file, parser and
      partitioner exceptions), the loaded state, the end-to-end run of a
      file of the data model, the joined text and the count, the
      condition of the warning; [strip] removes the whitespace at both
      ends and nothing else, and its result is the only such string.
    - Every theorem with hypotheses is applied to a concrete input by a
      lemma named after it with the suffix [_witness].

    ** Open ends

    The arithmetic facts proved of binary64 are those the player needs:
    order, the cap and the clamp, signs, exactness on integers below
    [2 ^ 53], validity of the results, that the waiting time is above
    zero and at most the duration, and that both times are monotone in
    the duration.  Rounding is specified in full for numbers above zero
    (half a unit from the input at most, and even at a midpoint); the
    times are given digit by digit for durations from [4] to [2 ^ 53]
    and from [2 ^ 54] on; between [2 ^ 53] and [2 ^ 54] the wait is the
    duration less one rounded, to one side or the other by the rule of
    ties.  The shift on the time axis is
    proved for whole times; for float times the two differences can round
    differently.  [repr] is proved to read back on values without
    floats: the digits of a float are [float_repr] of the interpreter,
    of which the development assumes nothing. *)

From Stdlib Require Import ZArith Lia String Ascii List DecimalString DecimalPos
  DecimalZ.
From stdpp Require Import base tactics option list strings.

(** ** Exceptions and results *)

(** The exceptions the modelled code can meet.  The interpreter's own
    ([TypeError], [AttributeError], [OverflowError], [KeyError]) carry no
    text: the program never prints them.  [FileNotFoundError] carries the
    text [_load_json] builds; [ExternalError] is any exception of a
    collaborator, with the text [str(e)] gives. *)
Inductive exn : Type :=
| TypeError
| AttributeError
| OverflowError
| KeyError
| FileNotFoundError (msg : string)
| ExternalError (msg : string).

#[export] Instance exn_eq_dec : EqDecision exn.
Proof. solve_decision. Defined.

(** The outcome of an expression: a value, or a raised exception. *)
Inductive result (A : Type) : Type :=
| Ok (a : A)
| Raise (e : exn).
Arguments Ok {A} a.
Arguments Raise {A} e.

#[export] Instance result_eq_dec `{EqDecision A} : EqDecision (result A).
Proof. solve_decision. Defined.

#[export] Instance result_ret : MRet result := @Ok.
#[export] Instance result_bind : MBind result :=
  fun A B f r => match r with Ok a => f a | Raise e => Raise e end.

(** ** The monad of methods: state and exceptions *)

(** A computation over a state [S]: the state is returned on both outcomes,
    so what a method did before it raised is kept. *)
Definition M (S A : Type) : Type := S -> result A * S.

#[export] Instance M_ret {S} : MRet (M S) := fun A a s => (Ok a, s).
#[export] Instance M_bind {S} : MBind (M S) :=
  fun A B f m s =>
    match m s with
    | (Ok a, s') => f a s'
    | (Raise e, s') => (Raise e, s')
    end.

Declare Scope py_scope.
Delimit Scope py_scope with py.
Notation "x <- c ;; k" := (mbind (fun x => k) c)
  (at level 100, c at next level, right associativity) : py_scope.
Notation "c ;; k" := (mbind (fun _ => k) c)
  (at level 100, right associativity) : py_scope.
#[global] Open Scope py_scope.

Section Monad.
Context {S : Type}.

Definition get : M S S := fun s => (Ok s, s).
Definition put (s : S) : M S unit := fun _ => (Ok tt, s).
Definition modify (f : S -> S) : M S unit := fun s => (Ok tt, f s).
Definition raise {A} (e : exn) : M S A := fun s => (Raise e, s).
(** An expression that reads no state. *)
Definition lift {A} (r : result A) : M S A := fun s => (r, s).

(** [for x in l: body x]; an exception of the body ends the loop. *)
Fixpoint for_each {A} (body : A -> M S unit) (l : list A) : M S unit :=
  match l with
  | [] => mret tt
  | x :: l' => body x ;; for_each body l'
  end.

(** The state a computation ends in, and its outcome. *)
Definition exec {A} (m : M S A) (s : S) : S := snd (m s).
Definition eval {A} (m : M S A) (s : S) : result A := fst (m s).

Lemma run_ret {A} (a : A) (s : S) : mret (M := M S) a s = (Ok a, s).
Proof. reflexivity. Qed.

Lemma run_bind {A B} (m : M S A) (f : A -> M S B) (s : S) :
  (m ≫= f) s =
  match m s with (Ok a, s') => f a s' | (Raise e, s') => (Raise e, s') end.
Proof. reflexivity. Qed.

Lemma run_lift_bind {A B} (r : result A) (f : A -> M S B) (s : S) :
  (lift r ≫= f) s = match r with Ok a => f a s | Raise e => (Raise e, s) end.
Proof. rewrite run_bind. unfold lift. destruct r; reflexivity. Qed.

Lemma for_each_nil {A} (body : A -> M S unit) s :
  for_each body [] s = (Ok tt, s).
Proof. reflexivity. Qed.

Lemma for_each_cons {A} (body : A -> M S unit) x l s :
  for_each body (x :: l) s =
  match body x s with
  | (Ok _, s') => for_each body l s'
  | (Raise e, s') => (Raise e, s')
  end.
Proof. reflexivity. Qed.

(** A loop over [l1 ++ l2] is the loop over [l1] followed by the loop over
    [l2], unless the first raised. *)
Lemma for_each_app {A} (body : A -> M S unit) l1 l2 s :
  for_each body (l1 ++ l2) s =
  match for_each body l1 s with
  | (Ok _, s') => for_each body l2 s'
  | (Raise e, s') => (Raise e, s')
  end.
Proof.
  revert s. induction l1 as [|x l1 IH]; intros s; [reflexivity|].
  cbn [app]. rewrite !for_each_cons.
  destruct (body x s) as [[[]|e] s']; [apply IH | reflexivity].
Qed.

(** An invariant of the body is an invariant of the loop, whatever its
    outcome. *)
Lemma for_each_invariant {A} (P : S -> Prop) (body : A -> M S unit) l :
  (forall x s, P s -> P (exec (body x) s)) ->
  forall s, P s -> P (exec (for_each body l) s).
Proof.
  intros Hbody. unfold exec in *.
  induction l as [|x l IH]; intros s Hs; [exact Hs|].
  rewrite for_each_cons. specialize (Hbody x s Hs).
  destruct (body x s) as [[[]|e] s']; cbn in *; auto.
Qed.

(** Loops over lists whose elements make the body behave alike behave
    alike. *)
Lemma for_each_Forall2 {A} (body : A -> M S unit) l1 l2 :
  Forall2 (fun x y => forall s, body x s = body y s) l1 l2 ->
  forall s, for_each body l1 s = for_each body l2 s.
Proof.
  induction 1 as [|x y l1 l2 Hxy _ IH]; intros s; [reflexivity|].
  rewrite !for_each_cons, Hxy. destruct (body y s) as [[[]|e] s']; auto.
Qed.

(** A loop whose body raises on no element of the list never raises. *)
Lemma for_each_ok {A} (body : A -> M S unit) l :
  Forall (fun x => forall s, eval (body x) s = Ok tt) l ->
  forall s, eval (for_each body l) s = Ok tt.
Proof.
  unfold eval. induction 1 as [|x l Hx _ IH]; intros s; [reflexivity|].
  rewrite for_each_cons. specialize (Hx s).
  destruct (body x s) as [[[]|e] s']; cbn in *; [apply IH | discriminate].
Qed.

End Monad.

(** ** Lists *)

(** Filtering through [f] the images under [g]. *)
Lemma omap_fmap {A B C} (g : A -> B) (f : B -> option C) (l : list A) :
  omap f (g <$> l) = omap (fun x => f (g x)) l.
Proof.
  induction l as [|x l IH]; [done|]. simpl.
  destruct (f (g x)); [f_equal|]; exact IH.
Qed.

(** ** Strings *)

(** [sep.join(l)]. *)
Definition join (sep : string) (l : list string) : string := String.concat sep l.

(** [str(z)] for an [int]: decimal digits, a minus sign when negative. *)
Definition string_of_Z (z : Z) : string := NilZero.string_of_int (Z.to_int z).

(** Reading a decimal numeral back, to state the round trip. *)
Definition Z_of_string (s : string) : option Z :=
  Z.of_int <$> NilZero.int_of_string s.

Lemma join_nil sep : join sep [] = "".
Proof. reflexivity. Qed.

Lemma join_singleton sep x : join sep [x] = x.
Proof. reflexivity. Qed.

Lemma join_cons sep x y l :
  join sep (x :: y :: l) = x +:+ sep +:+ join sep (y :: l).
Proof. reflexivity. Qed.

Lemma string_app_nil_l (s : string) : "" +:+ s = s.
Proof. reflexivity. Qed.

Lemma string_app_cons c (s1 s2 : string) :
  String c s1 +:+ s2 = String c (s1 +:+ s2).
Proof. reflexivity. Qed.

Lemma string_app_nil_r (s : string) : s +:+ "" = s.
Proof. induction s as [|c s IH]; rewrite ?string_app_cons, ?string_app_nil_l; congruence. Qed.

Lemma string_app_assoc (s1 s2 s3 : string) :
  (s1 +:+ s2) +:+ s3 = s1 +:+ (s2 +:+ s3).
Proof. induction s1 as [|c s1 IH]; rewrite ?string_app_cons, ?string_app_nil_l; congruence. Qed.

Lemma string_app_length (s1 s2 : string) :
  String.length (s1 +:+ s2) = String.length s1 + String.length s2.
Proof.
  induction s1 as [|c s1 IH]; rewrite ?string_app_cons, ?string_app_nil_l; cbn; congruence.
Qed.

Lemma string_app_eq_nil (s1 s2 : string) :
  s1 +:+ s2 = "" <-> s1 = "" /\ s2 = "".
Proof.
  destruct s1 as [|c s1]; rewrite ?string_app_cons, ?string_app_nil_l.
  - tauto.
  - split; [discriminate | intros [H _]; discriminate].
Qed.

(** Joining two lists: the separator stands between them when neither is
    empty. *)
Lemma join_app sep l1 l2 :
  l1 <> [] -> l2 <> [] ->
  join sep (l1 ++ l2) = join sep l1 +:+ sep +:+ join sep l2.
Proof.
  intros H1 H2. induction l1 as [|x [|y l1] IH]; [congruence| |].
  - destruct l2; [congruence | reflexivity].
  - change ((x :: y :: l1) ++ l2) with (x :: (y :: l1) ++ l2).
    cbn [app] in *. rewrite !join_cons, IH by congruence.
    now rewrite !string_app_assoc.
Qed.

(** The length of a joined text: the parts, and one separator less than
    there are parts. *)
Lemma join_length sep l :
  String.length (join sep l) =
  (list_sum (String.length <$> l) + String.length sep * (length l - 1))%nat.
Proof.
  induction l as [|x [|y l] IH].
  - cbn. lia.
  - cbn. lia.
  - rewrite join_cons, !string_app_length, IH. cbn [length].
    replace (S (S (length l)) - 1)%nat with (S (S (length l) - 1)) by lia.
    rewrite Nat.mul_succ_r, !fmap_cons. simpl list_sum. lia.
Qed.

(** [str] of an [int] is a decimal numeral that reads back as the same
    integer, so distinct integers print differently. *)
Theorem string_of_Z_roundtrip (z : Z) : Z_of_string (string_of_Z z) = Some z.
Proof.
  unfold Z_of_string, string_of_Z. rewrite NilZero.isi.
  - cbn. f_equal. apply DecimalZ.of_to.
  - destruct z; cbn; [discriminate | | discriminate].
    intros [= H]. exact (DecimalPos.Unsigned.to_uint_nonnil _ H).
  - destruct z; cbn; [discriminate | discriminate |].
    intros [= H]. exact (DecimalPos.Unsigned.to_uint_nonnil _ H).
Qed.

(** ** Dictionaries with string keys

    A Python [dict] keeps its keys in insertion order, and [str(d)] shows
    it: a dictionary is an association list whose keys are distinct
    ([dict_wf]); the operations read the first binding of a key.  A list
    with a repeated key is no dictionary: of a repeated key in a file,
    [json.load] keeps the last value only, and the list that stands for
    its result holds that key once ([dict_lookup_wf]: on such a list
    every binding is the one that is read). *)

Section Dict.
Context {A : Type}.
Implicit Types (d : list (string * A)) (k : string).

(** The binding of [k], if any. *)
Fixpoint dict_lookup k d : option A :=
  match d with
  | [] => None
  | (k', v) :: d' => if String.eqb k' k then Some v else dict_lookup k d'
  end.

(** [k in d]. *)
Definition dict_mem k d : bool :=
  match dict_lookup k d with Some _ => true | None => false end.

(** [d.get(k, default)]. *)
Definition dict_get k (default : A) d : A :=
  match dict_lookup k d with Some v => v | None => default end.

(** [d[k]]: raises [KeyError] when [k] is not a key. *)
Definition dict_getitem k d : result A :=
  match dict_lookup k d with Some v => Ok v | None => Raise KeyError end.

Definition dict_wf d : Prop := NoDup d.*1.

Lemma dict_lookup_cons k k' v d :
  dict_lookup k ((k', v) :: d) = if decide (k' = k) then Some v else dict_lookup k d.
Proof.
  cbn. destruct (String.eqb_spec k' k), (decide (k' = k)); congruence.
Qed.

Lemma dict_lookup_Some k v d : dict_lookup k d = Some v -> (k, v) ∈ d.
Proof.
  induction d as [|[k' v'] d IH]; [discriminate|].
  rewrite dict_lookup_cons. case_decide; subst.
  - intros [= ->]. left.
  - intros Hl. right. auto.
Qed.

Lemma dict_lookup_None k d : dict_lookup k d = None <-> k ∉ d.*1.
Proof.
  induction d as [|[k' v'] d IH]; [split; [intros _; apply not_elem_of_nil | done]|].
  rewrite dict_lookup_cons, fmap_cons, not_elem_of_cons. cbn.
  case_decide; subst; [split; [discriminate | tauto]|].
  rewrite IH. split; [auto | tauto].
Qed.

(** In a well-formed dictionary every binding is the one read. *)
Lemma dict_lookup_wf k v d : dict_wf d -> (k, v) ∈ d -> dict_lookup k d = Some v.
Proof.
  unfold dict_wf. induction d as [|[k' v'] d IH]; [intros _ H; inv H|].
  rewrite fmap_cons, NoDup_cons, dict_lookup_cons. cbn. intros [Hk Hd] Hin.
  apply elem_of_cons in Hin as [[= -> ->]|Hin]; [by rewrite decide_True|].
  rewrite decide_False; [auto|]. intros ->. apply Hk.
  apply (list_elem_of_fmap_2 fst) in Hin. exact Hin.
Qed.

Lemma dict_mem_true k d : dict_mem k d = true <-> is_Some (dict_lookup k d).
Proof.
  unfold dict_mem. destruct (dict_lookup k d); split; done.
Qed.

(** Subscripting a key that is present never raises. *)
Lemma dict_getitem_mem k d :
  dict_mem k d = true -> exists v, dict_getitem k d = Ok v /\ dict_lookup k d = Some v.
Proof.
  unfold dict_mem, dict_getitem. destruct (dict_lookup k d); [eauto | discriminate].
Qed.

Lemma dict_get_lookup k default d v :
  dict_lookup k d = Some v -> dict_get k default d = v.
Proof. unfold dict_get. now intros ->. Qed.

Lemma dict_get_absent k default d :
  dict_lookup k d = None -> dict_get k default d = default.
Proof. unfold dict_get. now intros ->. Qed.

End Dict.

(** ** Tactics and hints *)

Create HintDb py discriminated.
Create Rewrite HintDb py.
#[export] Hint Rewrite @run_ret @run_bind @run_lift_bind @for_each_nil
  @for_each_cons : py.
#[export] Hint Rewrite join_nil join_singleton join_cons string_app_nil_l
  string_app_cons string_app_nil_r : py.
#[export] Hint Resolve for_each_ok : py.

(** Run the monad's operations that are in head position of the goal. *)
Ltac run_simpl :=
  repeat first
    [ progress autorewrite with py
    | progress cbn [get put modify raise lift exec eval fst snd
                    mret mbind M_ret M_bind result_ret result_bind] ].
