(* ===== verification/PyFloat.v ===== *)
(** * PyFloat: Python numbers

    Python's [float] is IEEE binary64; it is modelled on the Standard
    Library's [SpecFloat] at precision 53 and maximal exponent 1024, whose
    operations round to nearest even and are executable.  An [int] is a [Z].
    [num] is a Python number of either kind, with the subtraction,
    multiplication and comparisons of [construct]
    ([src/src/main_generator.py], lines 87 to 115), mixed operands included:
    arithmetic converts the [int] operand (and raises [OverflowError] when
    it has no finite binary64 value); a comparison is exact. *)

From Stdlib Require Import ZArith Lia SpecFloat PrimFloat FloatOps.
From stdpp Require Import base tactics.
From S2P Require Import Prelude.

#[local] Open Scope Z_scope.

(** ** binary64 *)

Definition float : Type := spec_float.
Definition prec : Z := 53.
Definition emax : Z := 1024.

#[export] Instance float_eq_dec : EqDecision float.
Proof. solve_decision. Defined.

(** A value of binary64: a canonical mantissa and an exponent in range. *)
Definition float_wf (f : float) : bool := valid_binary prec emax f.

Definition fmul (x y : float) : float := SFmul prec emax x y.
Definition fsub (x y : float) : float := SFsub prec emax x y.

(** [float(z)]: the nearest binary64 value, ties to even; CPython raises
    [OverflowError] when that value is not finite. *)
Definition float_of_Z (z : Z) : result float :=
  match binary_normalize prec emax z 0 false with
  | S754_infinity _ => Raise OverflowError
  | f => Ok f
  end.

(** The float literals of the source, by mantissa and exponent. *)
Definition f_0_3 : float := S754_finite false 5404319552844595 (-54).
Definition f_1_0 : float := S754_finite false 4503599627370496 (-52).
Definition f_0_5 : float := S754_finite false 4503599627370496 (-53).

(** ** Numbers *)

Inductive num : Type :=
| NInt (z : Z)
| NFloat (f : float).

#[export] Instance num_eq_dec : EqDecision num.
Proof. solve_decision. Defined.

Definition num_to_float (a : num) : result float :=
  match a with
  | NInt z => float_of_Z z
  | NFloat f => Ok f
  end.

(** [a - b]: exact on two [int]s, binary64 otherwise. *)
Definition num_sub (a b : num) : result num :=
  match a, b with
  | NInt x, NInt y => Ok (NInt (x - y))
  | _, _ =>
      x <- num_to_float a ;;
      y <- num_to_float b ;;
      Ok (NFloat (fsub x y))
  end.

(** [a * b]. *)
Definition num_mul (a b : num) : result num :=
  match a, b with
  | NInt x, NInt y => Ok (NInt (x * y))
  | _, _ =>
      x <- num_to_float a ;;
      y <- num_to_float b ;;
      Ok (NFloat (fmul x y))
  end.

(** The exact order of an [int] and a [float]: [None] for NaN. *)
Definition Z_float_compare (z : Z) (f : float) : option comparison :=
  match f with
  | S754_nan => None
  | S754_infinity s => Some (if s then Gt else Lt)
  | S754_zero _ => Some (z ?= 0)
  | S754_finite s m e =>
      let mz := cond_Zopp s (Zpos m) in
      Some (if 0 <=? e then z ?= mz * 2 ^ e else z * 2 ^ (- e) ?= mz)
  end.

(** Python compares numbers by value, whatever their kinds. *)
Definition num_compare (a b : num) : option comparison :=
  match a, b with
  | NInt x, NInt y => Some (x ?= y)
  | NInt x, NFloat g => Z_float_compare x g
  | NFloat f, NInt y => CompOpp <$> Z_float_compare y f
  | NFloat f, NFloat g => SFcompare f g
  end.

Definition num_lt (a b : num) : bool :=
  match num_compare a b with Some Lt => true | _ => false end.
Definition num_le (a b : num) : bool :=
  match num_compare a b with Some (Lt | Eq) => true | _ => false end.
Definition num_gt (a b : num) : bool :=
  match num_compare a b with Some Gt => true | _ => false end.

(** [min(a, b)] and [max(a, b)] of two arguments: the first is kept unless
    the second is strictly smaller (larger). *)
Definition py_min (a b : num) : num := if num_lt b a then b else a.
Definition py_max (a b : num) : num := if num_gt b a then b else a.

(** ** The literals are the values Rocq's own binary64 reads *)

#[local] Set Warnings "-inexact-float".

(** The constants of the model are the binary64 values of the
    literals [0.3], [1.0] and [0.5] of the source, as the kernel's own
    floating-point numbers read them, and each is a well-formed binary64
    number. *)
Theorem literals_are_binary64 :
  Prim2SF 0.3%float = f_0_3 /\ Prim2SF 1.0%float = f_1_0 /\
  Prim2SF 0.5%float = f_0_5 /\
  float_wf f_0_3 && float_wf f_1_0 && float_wf f_0_5 = true.
Proof. repeat split; reflexivity. Qed.

(** ** Order lemmas *)

Lemma num_lt_le a b : num_lt a b = true -> num_le a b = true.
Proof. unfold num_lt, num_le. destruct (num_compare a b) as [[]|]; done. Qed.

Lemma num_gt_not_le a b : num_gt a b = true -> num_le a b = false.
Proof. unfold num_gt, num_le. destruct (num_compare a b) as [[]|]; done. Qed.

Lemma num_le_not_gt a b : num_le a b = true -> num_gt a b = false.
Proof. unfold num_gt, num_le. destruct (num_compare a b) as [[]|]; done. Qed.

Lemma SFcompare_refl_finite s m e :
  SFcompare (S754_finite s m e) (S754_finite s m e) = Some Eq.
Proof.
  cbn. rewrite Z.compare_refl, Pos.compare_cont_refl. now destruct s.
Qed.

(** Swapping the operands of a comparison reverses its result. *)
Lemma SFcompare_antisym f g : SFcompare g f = CompOpp <$> SFcompare f g.
Proof.
  destruct f as [s1|s1| |s1 m1 e1], g as [s2|s2| |s2 m2 e2]; cbn;
    try reflexivity; try (now destruct s1); try (now destruct s2);
    try (now destruct s1, s2).
  rewrite (Z.compare_antisym e1 e2).
  assert (Hm : Pos.compare_cont Eq m2 m1 = CompOpp (Pos.compare_cont Eq m1 m2))
    by (now rewrite Pos.compare_cont_antisym).
  rewrite Hm.
  destruct s1, s2, (e1 ?= e2); cbn; try reflexivity;
    now rewrite ?CompOpp_involutive.
Qed.

Lemma num_compare_antisym a b : num_compare b a = CompOpp <$> num_compare a b.
Proof.
  destruct a as [x|f], b as [y|g]; cbn.
  - now rewrite (Z.compare_antisym x y).
  - reflexivity.
  - destruct (Z_float_compare y f) as [c|]; cbn; [|reflexivity].
    now rewrite CompOpp_involutive.
  - apply SFcompare_antisym.
Qed.

Lemma num_gt_lt a b : num_gt b a = num_lt a b.
Proof.
  unfold num_gt, num_lt. rewrite (num_compare_antisym a b).
  now destruct (num_compare a b) as [[]|].
Qed.

(** A number that is not NaN is at most itself. *)
Lemma num_le_refl a : a <> NFloat S754_nan -> num_le a a = true.
Proof.
  unfold num_le. destruct a as [z|[s|s| |s m e]]; intros H; cbn.
  - now rewrite Z.compare_refl.
  - reflexivity.
  - now destruct s.
  - congruence.
  - rewrite Z.compare_refl, Pos.compare_cont_refl. now destruct s.
Qed.

(** [min(a, b)] is at most [a], when [a] is not NaN. *)
Lemma py_min_le_l a b : a <> NFloat S754_nan -> num_le (py_min a b) a = true.
Proof.
  intros H. unfold py_min. destruct (num_lt b a) eqn:E.
  - now apply num_lt_le.
  - now apply num_le_refl.
Qed.

(** [max(a, b)] is [a] or exceeds it. *)
Lemma py_max_cases a b :
  (py_max a b = a /\ num_gt b a = false) \/ (py_max a b = b /\ num_gt b a = true).
Proof. unfold py_max. destruct (num_gt b a); auto. Qed.

(** [max(0, b)] is never below zero: it is the [int] zero unless [b] is
    strictly above. *)
Lemma py_max_zero_nonneg b : num_le (NInt 0) (py_max (NInt 0) b) = true.
Proof.
  destruct (py_max_cases (NInt 0) b) as [[-> _]|[-> Hgt]]; [reflexivity|].
  apply num_lt_le. now rewrite <- num_gt_lt.
Qed.

(** Arithmetic on two [int]s never raises and is exact. *)
Lemma num_sub_int x y : num_sub (NInt x) (NInt y) = Ok (NInt (x - y)).
Proof. reflexivity. Qed.

(** A float operand makes the result a float, when it is defined. *)
Lemma num_sub_float_r a g r :
  num_sub a (NFloat g) = Ok r -> exists f, r = NFloat f.
Proof.
  destruct a as [x|f]; cbn.
  - destruct (float_of_Z x); cbn; [|discriminate]. intros [= <-]. eauto.
  - intros [= <-]. eauto.
Qed.

(** A difference that is defined: of two [int]s, or of the floats of its
    operands. *)
Lemma num_sub_inv a b r :
  num_sub a b = Ok r ->
  (exists x y, a = NInt x /\ b = NInt y /\ r = NInt (x - y)) \/
  (exists f g, num_to_float a = Ok f /\ num_to_float b = Ok g /\ r = NFloat (fsub f g)).
Proof.
  destruct a as [x|f], b as [y|g]; cbn.
  - intros [= <-]. left. eauto.
  - destruct (float_of_Z x); cbn; [|discriminate]. intros [= <-]. right. eauto.
  - destruct (float_of_Z y); cbn; [|discriminate]. intros [= <-]. right. eauto.
  - intros [= <-]. right. eauto.
Qed.

Lemma num_mul_float_r a g r :
  num_mul a (NFloat g) = Ok r -> exists f, r = NFloat f.
Proof.
  destruct a as [x|f]; cbn.
  - destruct (float_of_Z x); cbn; [|discriminate]. intros [= <-]. eauto.
  - intros [= <-]. eauto.
Qed.

(** Arithmetic on floats never raises. *)
Lemma num_sub_floats f g : num_sub (NFloat f) (NFloat g) = Ok (NFloat (fsub f g)).
Proof. reflexivity. Qed.

Lemma num_mul_floats f g : num_mul (NFloat f) (NFloat g) = Ok (NFloat (fmul f g)).
Proof. reflexivity. Qed.

#[export] Hint Rewrite num_sub_int num_sub_floats num_mul_floats : py.
#[export] Hint Resolve num_lt_le num_gt_not_le num_le_not_gt py_min_le_l : py.
