(* ===== verification/FloatFacts.v ===== *)
(** * FloatFacts: what rounding keeps

    Facts of binary64 arithmetic the player relies on, proved on the
    definitions of [SpecFloat]: rounding keeps the sign; an [int] below
    [2 ^ 53] in magnitude converts without rounding; the difference of
    the floats of two such integers is the float of their difference; a
    product whose exact value is at least one is at least [1.0] after
    rounding. *)

From Stdlib Require Import ZArith Lia SpecFloat PrimFloat FloatOps.
From stdpp Require Import base tactics.
From S2P Require Import Prelude PyFloat.

#[local] Open Scope Z_scope.

(** What a product with a float is made of. *)
Lemma num_mul_float_inv a g x :
  num_mul a (NFloat g) = Ok (NFloat x) ->
  exists d, num_to_float a = Ok d /\ x = fmul d g.
Proof.
  destruct a as [z|f]; cbn.
  - destruct (float_of_Z z) as [d|]; cbn; [|discriminate]. intros [= <-]. eauto.
  - intros [= <-]. eauto.
Qed.

(** ** Signs

    Rounding keeps the sign: the facts below follow the sign through the
    conversion of an [int] and through a product without looking at the
    mantissa. *)

(** [f] is NaN, or has the sign [s] ([true] for negative), zeros and
    infinities included. *)
Definition has_sign (s : bool) (f : float) : bool :=
  match f with
  | S754_nan => true
  | S754_zero s' | S754_infinity s' | S754_finite s' _ _ => Bool.eqb s s'
  end.

Lemma binary_round_aux_sign s mx ex lx :
  has_sign s (binary_round_aux prec emax s mx ex lx) = true.
Proof.
  unfold binary_round_aux. destruct (shr_fexp _ _ _ _ _) as [mrs' e'].
  destruct (shr_fexp _ _ _ _ _) as [mrs'' e'']. destruct (shr_m mrs''); cbn;
    [|case_match|]; cbn; auto using Bool.eqb_reflx.
Qed.

Lemma binary_normalize_sign z :
  has_sign (z <? 0) (binary_normalize prec emax z 0 false) = true.
Proof.
  destruct z as [|p|p]; [reflexivity| |]; cbn [binary_normalize];
    unfold binary_round; destruct (shl_align _ _ _) as [mz ez];
    apply binary_round_aux_sign.
Qed.

Lemma float_of_Z_sign z f : float_of_Z z = Ok f -> has_sign (z <? 0) f = true.
Proof.
  unfold float_of_Z. pose proof (binary_normalize_sign z) as Hs.
  destruct (binary_normalize prec emax z 0 false); intros [= <-]; exact Hs.
Qed.

(** The sign of a product is the exclusive or of the signs. *)
Lemma fmul_sign sx sy x y :
  has_sign sx x = true -> has_sign sy y = true ->
  has_sign (xorb sx sy) (fmul x y) = true.
Proof.
  destruct x as [s1|s1| |s1 m1 e1], y as [s2|s2| |s2 m2 e2]; cbn;
    try reflexivity; intros ->%Bool.eqb_prop ->%Bool.eqb_prop;
    auto using Bool.eqb_reflx, binary_round_aux_sign.
Qed.

(** A number of positive sign that is not NaN is at least zero. *)
Lemma has_sign_nonneg f :
  has_sign false f = true -> f <> S754_nan -> num_le (NInt 0) (NFloat f) = true.
Proof.
  unfold num_le. destruct f as [[]|[]| |[] m e]; cbn; try done.
  intros _ _. destruct (0 <=? e) eqn:He; [|reflexivity].
  assert (0 < Z.pos m * 2 ^ e) as Hp
    by (apply Z.mul_pos_pos; [lia|]; apply Z.pow_pos_nonneg; lia).
  destruct (Z.pos m * 2 ^ e); [lia | reflexivity | lia].
Qed.

(** A number above zero has the positive sign as a float. *)
Lemma positive_sign a d :
  num_le a (NInt 0) = false -> num_to_float a = Ok d -> has_sign false d = true.
Proof.
  destruct a as [z|f]; cbn [num_to_float].
  - intros Hz Hd. apply float_of_Z_sign in Hd. unfold num_le in Hz. cbn in Hz.
    destruct (Z.ltb_spec z 0) as [Hlt|_]; [|exact Hd].
    apply Z.compare_lt_iff in Hlt. now rewrite Hlt in Hz.
  - intros Hf [= <-]. unfold num_le in Hf. cbn in Hf.
    destruct f as [[]|[]| |[] m e]; cbn in *; try done.
    destruct (0 <=? e) eqn:He; [|discriminate].
    assert (Z.neg m * 2 ^ e < 0) as Hn
      by (apply Z.mul_neg_pos; [lia|]; apply Z.pow_pos_nonneg; lia).
    change (- Z.pos m) with (Z.neg m) in Hf.
    destruct (Z.neg m * 2 ^ e); [lia | lia | discriminate].
Qed.

(** ** Integers below [2 ^ 53]

    An [int] whose magnitude is below [2 ^ 53] has a float of its own: the
    conversion shifts its digits to the left and rounds nothing. *)

Lemma digits2_pos_iter_xO p k :
  digits2_pos (Pos.iter xO p k) = (digits2_pos p + k)%positive.
Proof.
  induction k as [|k IH] using Pos.peano_ind.
  - cbn. lia.
  - rewrite Pos.iter_succ. cbn. rewrite IH. lia.
Qed.

Lemma iter_xO_mul p k : Z.pos (Pos.iter xO p k) = Z.pos p * 2 ^ Z.pos k.
Proof.
  induction k as [|k IH] using Pos.peano_ind.
  - cbn. lia.
  - rewrite Pos.iter_succ, Pos2Z.inj_succ, Z.pow_succ_r by lia.
    rewrite Pos2Z.inj_xO, IH. lia.
Qed.

(** A positive number of [d] binary digits is from [2 ^ (d - 1)] to
    [2 ^ d - 1]. *)
Lemma digits2_pos_bounds p :
  2 ^ (Z.pos (digits2_pos p) - 1) <= Z.pos p < 2 ^ Z.pos (digits2_pos p).
Proof.
  induction p as [p IH|p IH|]; cbn [digits2_pos]; [| |cbn; lia];
    rewrite Pos2Z.inj_succ, Z.pow_succ_r by lia;
    replace (Z.succ (Z.pos (digits2_pos p)) - 1)
      with (Z.succ (Z.pos (digits2_pos p) - 1)) by lia;
    rewrite Z.pow_succ_r by lia; lia.
Qed.

Lemma digits2_pos_small p : Z.pos p < 2 ^ 53 -> Z.pos (digits2_pos p) <= 53.
Proof.
  intros Hp. destruct (Z.le_gt_cases (Z.pos (digits2_pos p)) 53) as [|Hd]; [done|].
  pose proof (digits2_pos_bounds p) as [Hlo _].
  assert (2 ^ 53 <= 2 ^ (Z.pos (digits2_pos p) - 1)) by (apply Z.pow_le_mono_r; lia).
  lia.
Qed.

(** A mantissa of 53 digits with an exponent in range is not shifted, and
    not rounded. *)
Lemma shr_fexp_exact m e :
  Z.pos (digits2_pos m) = 53 -> -1074 <= e ->
  shr_fexp prec emax (Z.pos m) e loc_Exact =
  ({| shr_m := Z.pos m; shr_r := false; shr_s := false |}, e).
Proof.
  intros Hd He. unfold shr_fexp, fexp, emin, prec, emax, Zdigits2. rewrite Hd.
  replace (Z.max (53 + e - 53) (3 - 1024 - 53) - e) with 0 by lia. reflexivity.
Qed.

Lemma binary_round_aux_exact s m e :
  Z.pos (digits2_pos m) = 53 -> -1074 <= e <= 971 ->
  binary_round_aux prec emax s (Z.pos m) e loc_Exact = S754_finite s m e.
Proof.
  intros Hd He. unfold binary_round_aux. rewrite shr_fexp_exact by lia.
  cbn [shr_m loc_of_shr_record round_nearest_even]. rewrite shr_fexp_exact by lia.
  cbn [shr_m]. unfold prec, emax. destruct (Z.leb_spec e (1024 - 53)); [done | lia].
Qed.

Lemma binary_round_small s p :
  Z.pos p < 2 ^ 53 ->
  exists m e, binary_round prec emax s p 0 = S754_finite s m e /\
              e <= 0 /\ Z.pos m = Z.pos p * 2 ^ (- e).
Proof.
  intros Hp%digits2_pos_small. unfold binary_round.
  set (d := Z.pos (digits2_pos p)) in *.
  assert (Hf : fexp prec emax (d + 0) = d - 53)
    by (unfold fexp, emin, prec, emax; lia).
  rewrite Hf. unfold shl_align.
  destruct (d - 53 - 0) as [|k|k] eqn:Hk; [|lia|].
  - exists p, 0. split; [apply binary_round_aux_exact; lia|]. cbn. lia.
  - exists (Pos.iter xO p k), (d - 53). split; [|split; [lia|]].
    + apply binary_round_aux_exact; [|lia]. rewrite digits2_pos_iter_xO. lia.
    + rewrite iter_xO_mul. f_equal. f_equal. lia.
Qed.

(** The float of a small [int]: zero, or a mantissa that is the magnitude
    shifted to the left. *)
Lemma float_of_Z_small z :
  Z.abs z < 2 ^ 53 ->
  (z = 0 /\ float_of_Z z = Ok (S754_zero false)) \/
  exists m e, float_of_Z z = Ok (S754_finite (z <? 0) m e) /\
              e <= 0 /\ Z.pos m = Z.abs z * 2 ^ (- e).
Proof.
  intros Hz. unfold float_of_Z. destruct z as [|p|p]; [by left|right..];
    cbn [binary_normalize Z.abs Z.ltb Z.compare] in *.
  - destruct (binary_round_small false p Hz) as (m & e & -> & He & Hm); eauto.
  - destruct (binary_round_small true p Hz) as (m & e & -> & He & Hm); eauto.
Qed.

Lemma float_of_Z_defined z : Z.abs z < 2 ^ 53 -> exists f, float_of_Z z = Ok f.
Proof. intros [[_ ->]|(m & e & -> & _)]%float_of_Z_small; eauto. Qed.

(** Small integers convert exactly.  The float of an [int] of
    magnitude below [2 ^ 53] compares with every [int] as the [int] itself
    does: no such conversion in the player loses anything. *)
Theorem float_of_Z_exact z f z' :
  Z.abs z < 2 ^ 53 -> float_of_Z z = Ok f -> Z_float_compare z' f = Some (z' ?= z).
Proof.
  intros [[-> ->]|(m & e & -> & He & Hm)]%float_of_Z_small [= <-]; [done|].
  cbn [Z_float_compare]. f_equal.
  assert (Hmz : cond_Zopp (z <? 0) (Z.pos m) = z * 2 ^ (- e))
    by (rewrite Hm; destruct z; cbn [Z.ltb Z.compare cond_Zopp Z.abs]; lia).
  rewrite Hmz. destruct (Z.leb_spec 0 e) as [H0|H0].
  - replace e with 0 by lia. cbn [Z.opp]. now rewrite Z.pow_0_r, !Z.mul_1_r.
  - symmetry. apply Zmult_compare_compat_r. apply Z.lt_gt, Z.pow_pos_nonneg; lia.
Qed.

Lemma float_of_Z_exact_witness :
  Z_float_compare 3 (S754_finite false 4503599627370496 (-51)) = Some (3 ?= 2).
Proof.
  exact (float_of_Z_exact 2 (S754_finite false 4503599627370496 (-51)) 3
           eq_refl eq_refl).
Defined.

(** ** Differences of small integers

    A number [M * 2 ^ E] that is also [q * 2 ^ e], for a mantissa [q] of 53
    digits and an exponent [e] in range, rounds to the float of [q] and
    [e], whichever way the digits have to be shifted.  The subtraction of
    binary64 aligns its operands and rounds their difference: on the
    floats of two small integers it is exact. *)

(** Shifting out zeros loses nothing. *)
Lemma iter_shr_1_exact n q :
  iter_pos shr_1 n {| shr_m := Z.pos (Pos.iter xO q n); shr_r := false; shr_s := false |} =
  {| shr_m := Z.pos q; shr_r := false; shr_s := false |}.
Proof.
  revert q. induction n as [n IH|n IH|]; intros q;
    cbn [iter_pos Pos.iter shr_1 shr_m shr_r shr_s orb]; now rewrite ?IH.
Qed.

Lemma binary_round_aux_shr s q n e :
  Z.pos (digits2_pos q) = 53 -> -1074 <= e + Z.pos n <= 971 ->
  binary_round_aux prec emax s (Z.pos (Pos.iter xO q n)) e loc_Exact =
  S754_finite s q (e + Z.pos n).
Proof.
  intros Hd He. unfold binary_round_aux.
  assert (Hshr : shr_fexp prec emax (Z.pos (Pos.iter xO q n)) e loc_Exact =
                 ({| shr_m := Z.pos q; shr_r := false; shr_s := false |}, e + Z.pos n)).
  { unfold shr_fexp, fexp, emin, prec, emax, Zdigits2.
    rewrite digits2_pos_iter_xO, Pos2Z.inj_add, Hd.
    replace (Z.max (53 + Z.pos n + e - 53) (3 - 1024 - 53) - e) with (Z.pos n) by lia.
    cbn [shr shr_record_of_loc]. now rewrite iter_shr_1_exact. }
  rewrite Hshr. cbn [shr_m loc_of_shr_record round_nearest_even].
  rewrite shr_fexp_exact by lia. cbn [shr_m]. unfold prec, emax.
  destruct (Z.leb_spec (e + Z.pos n) (1024 - 53)); [done | lia].
Qed.

Lemma fexp_normal d : -1074 <= d - 53 -> fexp prec emax d = d - 53.
Proof. unfold fexp, emin, prec, emax. lia. Qed.

(** [shl_align] keeps the value. *)
Lemma shl_align_fst m ex ex' :
  ex' <= ex -> Z.pos (fst (shl_align m ex ex')) = Z.pos m * 2 ^ (ex - ex').
Proof.
  intros H. unfold shl_align. destruct (ex' - ex) as [|k|k] eqn:Hk; cbn [fst]; [|lia|].
  - replace (ex - ex') with 0 by lia. lia.
  - rewrite iter_xO_mul. do 2 f_equal. lia.
Qed.

(** The float of [M * 2 ^ E], when that number is [q * 2 ^ e] for a
    mantissa [q] of 53 digits and an exponent [e] in range: nothing is
    rounded. *)
Lemma binary_round_dyadic s M E q e :
  Z.pos (digits2_pos q) = 53 -> -1074 <= e <= 971 ->
  Z.pos M * 2 ^ Z.max 0 (E - e) = Z.pos q * 2 ^ Z.max 0 (e - E) ->
  binary_round prec emax s M E = S754_finite s q e.
Proof.
  intros Hd He Hv. unfold binary_round, shl_align.
  destruct (E - e) as [|n|n] eqn:Hn.
  - assert (E = e) as -> by lia. rewrite Z.sub_diag in Hv.
    change (2 ^ Z.max 0 0) with 1 in Hv. rewrite !Z.mul_1_r in Hv.
    injection Hv as ->. rewrite Hd, fexp_normal by lia.
    replace (53 + e - 53 - e) with 0 by lia. apply binary_round_aux_exact; lia.
  - replace (e - E) with (Z.neg n) in * by lia.
    rewrite Z.max_r, Z.max_l, <- iter_xO_mul, Z.pow_0_r, Z.mul_1_r in Hv by lia.
    injection Hv as <-.
    rewrite digits2_pos_iter_xO, Pos2Z.inj_add in Hd. rewrite fexp_normal by lia.
    replace (Z.pos (digits2_pos M) + E - 53) with e by lia.
    replace (e - E) with (Z.neg n) by lia.
    apply binary_round_aux_exact; [|lia].
    now rewrite digits2_pos_iter_xO, Pos2Z.inj_add.
  - replace (e - E) with (Z.pos n) in * by lia.
    rewrite Z.max_l, Z.max_r, <- iter_xO_mul, Z.pow_0_r, Z.mul_1_r in Hv by lia.
    injection Hv as ->.
    rewrite digits2_pos_iter_xO, Pos2Z.inj_add, Hd, fexp_normal by lia.
    replace (53 + Z.pos n + E - 53 - E) with (Z.pos n) by lia.
    replace e with (E + Z.pos n) by lia. apply binary_round_aux_shr; [done | lia].
Qed.

(** The float of a positive [int] below [2 ^ 53], by mantissa and
    exponent. *)
Lemma float_of_Z_canonical z :
  0 < z < 2 ^ 53 ->
  exists q e, float_of_Z z = Ok (S754_finite false q e) /\
    Z.pos (digits2_pos q) = 53 /\ -52 <= e <= 0 /\ Z.pos q = z * 2 ^ (- e).
Proof.
  intros [H0 Hz]. destruct z as [|p|p]; try lia.
  pose proof (digits2_pos_small p Hz) as Hd.
  set (e := Z.pos (digits2_pos p) - 53).
  destruct (Z.eq_dec e 0) as [He|He].
  - exists p, 0. unfold float_of_Z. cbn [binary_normalize].
    rewrite (binary_round_dyadic false p 0 p 0); try lia. split; [done|]. 
    split; [lia|]. split; [lia|]. cbn. lia.
  - destruct (- e) as [|k|k] eqn:Hk; try lia.
    exists (Pos.iter xO p k), e. unfold float_of_Z. cbn [binary_normalize].
    assert (Hdk : Z.pos (digits2_pos (Pos.iter xO p k)) = 53)
      by (rewrite digits2_pos_iter_xO; lia).
    rewrite (binary_round_dyadic false p 0 (Pos.iter xO p k) e); try lia.
    + split; [done|]. split; [done|]. split; [lia|]. now rewrite iter_xO_mul, Hk.
    + rewrite iter_xO_mul. replace (Z.max 0 (0 - e)) with (Z.pos k) by lia.
      replace (Z.max 0 (e - 0)) with 0 by lia. lia.
Qed.

(** Such a float is above zero. *)
Lemma float_of_Z_positive z f :
  0 < z < 2 ^ 53 -> float_of_Z z = Ok f -> num_gt (NFloat f) (NInt 0) = true.
Proof.
  intros (q & e & -> & _ & He & _)%float_of_Z_canonical [= <-].
  unfold num_gt, num_compare, Z_float_compare. cbn [cond_Zopp].
  destruct (Z.leb_spec 0 e) as [H0|H0]; [|reflexivity].
  assert (e = 0) as -> by lia. now rewrite Z.pow_0_r, Z.mul_1_r.
Qed.

Lemma pow2_balance u v :
  u <= 0 -> v <= 0 ->
  2 ^ (- u) * 2 ^ Z.max 0 (u - v) = 2 ^ (- v) * 2 ^ Z.max 0 (v - u).
Proof. intros Hu Hv. rewrite <- !Z.pow_add_r by lia. f_equal. lia. Qed.

(** The difference of the floats of two positive [int]s below [2 ^ 53],
    the larger first, is the float of their difference. *)
Lemma fsub_exact a b x y :
  0 < b < a -> a < 2 ^ 53 ->
  float_of_Z a = Ok x -> float_of_Z b = Ok y ->
  float_of_Z (a - b) = Ok (fsub x y).
Proof.
  intros Hb Ha Hx Hy.
  destruct (float_of_Z_canonical a) as (qa & ea & Ea & _ & Hea & Hqa); [lia|].
  destruct (float_of_Z_canonical b) as (qb & eb & Eb & _ & Heb & Hqb); [lia|].
  destruct (float_of_Z_canonical (a - b)) as (q & e & -> & Hd & He & Hq); [lia|].
  rewrite Ea in Hx. rewrite Eb in Hy. injection Hx as <-. injection Hy as <-.
  f_equal. unfold fsub, SFsub. cbn [cond_Zopp].
  set (ez := Z.min ea eb).
  assert (Hval : Z.pos (fst (shl_align qa ea ez)) - Z.pos (fst (shl_align qb eb ez))
                 = (a - b) * 2 ^ (- ez)).
  { rewrite !shl_align_fst, Hqa, Hqb by lia.
    rewrite <- !Z.mul_assoc, <- !Z.pow_add_r by lia.
    replace (- ea + (ea - ez)) with (- ez) by lia.
    replace (- eb + (eb - ez)) with (- ez) by lia. lia. }
  rewrite Hval.
  assert (Hpos : 0 < (a - b) * 2 ^ (- ez))
    by (apply Z.mul_pos_pos; [lia | apply Z.pow_pos_nonneg; lia]).
  destruct ((a - b) * 2 ^ (- ez)) as [|M|M] eqn:HM; try lia.
  cbn [binary_normalize]. symmetry. apply binary_round_dyadic; [done | lia |].
  rewrite <- HM, Hq, <- !Z.mul_assoc. f_equal. apply pow2_balance; lia.
Qed.

(** ** Products that are at least one

    [binary_round_aux] shifts the mantissa of a product to 53 digits,
    rounds it, and shifts once more when rounding carried.  The lemmas
    follow the number of digits through the two shifts, to the point the
    player needs: a product whose exact value is at least one does not
    round below [1.0]. *)

(** A shift removes one digit. *)
Lemma shr_1_digits s :
  Zdigits2 (shr_m (shr_1 s)) = Z.max 0 (Zdigits2 (shr_m s) - 1).
Proof.
  destruct s as [[|[p|p|]|[p|p|]] r t]; cbn [shr_1 shr_m Zdigits2 digits2_pos]; lia.
Qed.

Lemma shr_1_nonneg s : 0 <= shr_m s -> 0 <= shr_m (shr_1 s).
Proof. destruct s as [[|[p|p|]|[p|p|]] r t]; cbn [shr_1 shr_m]; lia. Qed.

Lemma iter_shr_1_digits p s :
  Zdigits2 (shr_m (iter_pos shr_1 p s)) = Z.max 0 (Zdigits2 (shr_m s) - Z.pos p).
Proof.
  revert s. induction p as [p IH|p IH|]; intros s; cbn [iter_pos];
    rewrite ?IH, ?shr_1_digits; lia.
Qed.

Lemma iter_shr_1_nonneg p s : 0 <= shr_m s -> 0 <= shr_m (iter_pos shr_1 p s).
Proof.
  revert s. induction p as [p IH|p IH|]; intros s Hs; cbn [iter_pos];
    auto using shr_1_nonneg.
Qed.

Lemma Zdigits2_pos_inv z d : 0 <= z -> Zdigits2 z = Z.pos d -> exists m, z = Z.pos m /\ digits2_pos m = d.
Proof. destruct z as [|m|m]; cbn; intros Hz [=]; [|lia]. eauto. Qed.

(** [f] is at least [1.0]: its exponent exceeds that of [1.0], or is the
    same with a mantissa that is not smaller. *)
Definition at_least_one (f : float) : Prop :=
  match f with
  | S754_infinity false => True
  | S754_finite false m e => -52 < e \/ (e = -52 /\ 2 ^ 52 <= Z.pos m)
  | _ => False
  end.

Lemma round_nearest_even_cases m l :
  round_nearest_even m l = m \/ round_nearest_even m l = m + 1.
Proof. destruct l as [|[]]; cbn; auto. destruct (Z.even m); auto. Qed.

Lemma digits2_pos_ge p d : 2 ^ (d - 1) <= Z.pos p -> 0 < d -> d <= Z.pos (digits2_pos p).
Proof.
  intros Hp Hd. pose proof (digits2_pos_bounds p) as [_ Hhi].
  destruct (Z.le_gt_cases d (Z.pos (digits2_pos p))) as [|Hlt]; [done|].
  assert (2 ^ Z.pos (digits2_pos p) <= 2 ^ (d - 1)) by (apply Z.pow_le_mono_r; lia).
  lia.
Qed.

Lemma digits2_pos_le p d : Z.pos p < 2 ^ d -> 0 <= d -> Z.pos (digits2_pos p) <= d.
Proof.
  intros Hp Hd. pose proof (digits2_pos_bounds p) as [Hlo _].
  destruct (Z.le_gt_cases (Z.pos (digits2_pos p)) d) as [|Hlt]; [done|].
  assert (2 ^ d <= 2 ^ (Z.pos (digits2_pos p) - 1)) by (apply Z.pow_le_mono_r; lia).
  lia.
Qed.

(** The second shift of [binary_round_aux], on a mantissa of at most 54
    digits. *)
Lemma finish_at_least_one m e :
  Z.pos (digits2_pos m) <= 54 -> -52 <= e ->
  (e = -52 -> 53 <= Z.pos (digits2_pos m)) ->
  at_least_one
    (let '(mrs, e') := shr_fexp prec emax (Z.pos m) e loc_Exact in
     match shr_m mrs with
     | 0 => S754_zero false
     | Z.pos m' => if e' <=? emax - prec then S754_finite false m' e' else S754_infinity false
     | Z.neg _ => S754_nan
     end).
Proof.
  intros Hd He He'. unfold shr_fexp, fexp, emin, prec, emax.
  cbn [Zdigits2 shr_record_of_loc].
  pose proof (digits2_pos_bounds m) as Hb.
  set (d := Z.pos (digits2_pos m)) in *.
  replace (Z.max (d + e - 53) (3 - 1024 - 53) - e) with (d - 53) by lia.
  destruct (d - 53) as [|p|p] eqn:Hp; cbn [shr shr_m].
  - destruct (e <=? 1024 - 53); [|done]. cbn.
    destruct (Z.eq_dec e (-52)) as [->|]; [right|left; lia].
    split; [done|]. replace d with 53 in Hb by lia. cbn in Hb. lia.
  - replace p with 1%positive by lia. cbn [iter_pos].
    pose proof (shr_1_digits {| shr_m := Z.pos m; shr_r := false; shr_s := false |}) as Hdig.
    pose proof (shr_1_nonneg {| shr_m := Z.pos m; shr_r := false; shr_s := false |}) as Hnn.
    cbn [shr_m Zdigits2] in Hdig, Hnn. fold d in Hdig.
    destruct (shr_m (shr_1 _)) as [|m'|m']; cbn [Zdigits2] in Hdig; [lia| |lia].
    destruct (e + 1 <=? 1024 - 53); [|done]. cbn. left. lia.
  - destruct (e <=? 1024 - 53); [|done]. cbn. left. lia.
Qed.

Lemma binary_round_aux_at_least_one M E :
  1 <= Z.pos (digits2_pos M) + E ->
  at_least_one (binary_round_aux prec emax false (Z.pos M) E loc_Exact).
Proof.
  intros Hge. unfold binary_round_aux.
  set (d := Z.pos (digits2_pos M)) in *.
  assert (Hn : fexp prec emax (Zdigits2 (Z.pos M) + E) - E = d - 53)
    by (unfold fexp, emin, prec, emax; cbn [Zdigits2]; fold d; lia).
  assert (Hshr : shr_fexp prec emax (Z.pos M) E loc_Exact =
                 shr {| shr_m := Z.pos M; shr_r := false; shr_s := false |} E (d - 53))
    by (unfold shr_fexp; now rewrite Hn).
  rewrite Hshr. clear Hshr Hn.
  destruct (d - 53) as [|p|p] eqn:Hp; cbn [shr].
  - cbn [shr_m loc_of_shr_record round_nearest_even].
    apply finish_at_least_one; fold d; lia.
  - pose proof (iter_shr_1_digits p {| shr_m := Z.pos M; shr_r := false; shr_s := false |}) as Hdig.
    pose proof (iter_shr_1_nonneg p {| shr_m := Z.pos M; shr_r := false; shr_s := false |}) as Hnn.
    cbn [shr_m Zdigits2] in Hdig, Hnn. fold d in Hdig.
    set (mrs := iter_pos shr_1 p _) in *.
    destruct (Zdigits2_pos_inv (shr_m mrs) 53) as (m1 & Hm1 & Hd1); [lia | lia |].
    rewrite Hm1.
    pose proof (digits2_pos_bounds m1) as Hb1. rewrite Hd1 in Hb1.
    destruct (round_nearest_even_cases (Z.pos m1) (loc_of_shr_record mrs)) as [->| ->].
    + apply finish_at_least_one; rewrite ?Hd1; lia.
    + change (Z.pos m1 + 1) with (Z.pos (m1 + 1)).
      apply finish_at_least_one; [|lia|intros _].
      * apply digits2_pos_le; [|lia]. cbn in *. lia.
      * apply digits2_pos_ge; [|lia]. cbn in *. lia.
  - cbn [shr_m loc_of_shr_record round_nearest_even].
    apply finish_at_least_one; fold d; lia.
Qed.

Lemma compare_cont_Lt p q : Pos.compare_cont Eq p q = Lt -> Z.pos p < Z.pos q.
Proof.
  rewrite Pos.compare_cont_spec. destruct (Pos.compare_spec p q); try discriminate.
  intros _. now apply Pos2Z.pos_lt_pos.
Qed.

(** A float that is at least [1.0] is not below it. *)
Lemma at_least_one_not_lt f :
  at_least_one f -> num_lt (NFloat f) (NFloat f_1_0) = false.
Proof.
  unfold num_lt, f_1_0.
  destruct f as [[]|[]| |[] m e]; cbn [at_least_one num_compare SFcompare].
  1-6: by intros [].
  intros [He|[-> Hm]].
  - apply Z.lt_gt in He. unfold Z.gt in He. now rewrite He.
  - rewrite Z.compare_refl.
    destruct (Pos.compare_cont Eq m 4503599627370496) eqn:E; try reflexivity.
    apply compare_cont_Lt in E. lia.
Qed.

Lemma le_of_compare a b :
  match a ?= b with Gt => false | _ => true end = true -> a <= b.
Proof. destruct (Z.compare_spec a b); [lia | lia | discriminate]. Qed.

(** An [int] that is at most a finite float is at most its value. *)
Lemma Z_le_finite z s m e :
  num_le (NInt z) (NFloat (S754_finite s m e)) = true ->
  if 0 <=? e then z <= cond_Zopp s (Z.pos m) * 2 ^ e
  else z * 2 ^ (- e) <= cond_Zopp s (Z.pos m).
Proof.
  unfold num_le. cbn [num_compare Z_float_compare].
  destruct (0 <=? e); apply le_of_compare.
Qed.

(** The product of a float that is at least four with [0.3] is at least
    [1.0]: the mantissa of [0.3] is at least [2 ^ 52], with exponent
    [-54]. *)
Lemma fmul_at_least_one d :
  num_le (NInt 4) (NFloat d) = true -> at_least_one (fmul d f_0_3).
Proof.
  destruct d as [[]|[]| |s m e]; try done.
  intros Hle%Z_le_finite. destruct (Z.leb_spec 0 e) as [H0|H0].
  - assert (0 < 2 ^ e) by (apply Z.pow_pos_nonneg; lia).
    destruct s; cbn [cond_Zopp] in Hle; [nia|].
    apply binary_round_aux_at_least_one.
    destruct (Z.le_gt_cases 55 e) as [|He]; [lia|].
    enough (55 - e <= Z.pos (digits2_pos (m * 5404319552844595))) by lia.
    apply digits2_pos_ge; [|lia]. replace (55 - e - 1) with (54 - e) by lia.
    rewrite Pos2Z.inj_mul.
    assert (2 ^ (54 - e) * 2 ^ e = 2 ^ 54) as Hp
      by (rewrite <- Z.pow_add_r by lia; f_equal; lia).
    change (2 ^ 54) with 18014398509481984 in Hp. nia.
  - assert (0 < 2 ^ (- e)) by (apply Z.pow_pos_nonneg; lia).
    destruct s; cbn [cond_Zopp] in Hle; [nia|].
    apply binary_round_aux_at_least_one.
    enough (55 - e <= Z.pos (digits2_pos (m * 5404319552844595))) by lia.
    apply digits2_pos_ge; [|lia]. replace (55 - e - 1) with (52 + (2 + - e)) by lia.
    rewrite Pos2Z.inj_mul, !Z.pow_add_r by lia.
    change (2 ^ 2) with 4. change (2 ^ 52) with 4503599627370496. nia.
Qed.

(** ** Numbers the player computes with exactly *)

(** A float, or an [int] below [2 ^ 53] in magnitude. *)
Definition exact_num (n : num) : Prop :=
  match n with
  | NInt z => Z.abs z < 2 ^ 53
  | NFloat _ => True
  end.

Lemma num_to_float_defined n : exact_num n -> exists f, num_to_float n = Ok f.
Proof. destruct n as [z|f]; cbn; [apply float_of_Z_defined | eauto]. Qed.

(** The float of such a number compares with an [int] as the number
    does. *)
Lemma num_to_float_le z n d :
  exact_num n -> num_to_float n = Ok d ->
  num_le (NInt z) (NFloat d) = num_le (NInt z) n.
Proof.
  destruct n as [x|f]; cbn [exact_num num_to_float]; [|now intros _ [= ->]].
  intros Hx Hd. unfold num_le. cbn [num_compare].
  now rewrite (float_of_Z_exact _ _ z Hx Hd).
Qed.
