(* ===== verification/FloatRound.v ===== *)
(** * FloatRound: rounding to nearest, by value

    What the operations of binary64 return, proved on the definitions of
    [SpecFloat] without real numbers.  [binary_round_aux] shifts a
    mantissa to the exponent of the format, rounds it to nearest, and
    shifts once more when rounding carried: its result is a canonical
    mantissa and exponent whose value exceeds the number that is rounded
    by half a unit of the last place at most.  On canonical floats the
    comparison of binary64 is the order of the values.  From these: a
    number that is at most a float rounds to at most that float, and the
    conversion of an [int], the product and the difference of valid
    floats are valid.  [FloatTimes] applies them to lines 110, 111 and
    115 of [src/src/main_generator.py]. *)

From Stdlib Require Import ZArith Lia SpecFloat.
From stdpp Require Import base tactics.
From S2P Require Import Prelude PyFloat FloatFacts.

#[local] Open Scope Z_scope.

(** ** Binary digits *)

Lemma Zdigits2_nonneg m : 0 <= Zdigits2 m.
Proof. destruct m; cbn; lia. Qed.

Lemma Zdigits2_bounds m :
  0 < m -> 2 ^ (Zdigits2 m - 1) <= m < 2 ^ Zdigits2 m.
Proof. destruct m as [|p|p]; try lia. intros _. apply digits2_pos_bounds. Qed.

(** The number of digits is the [d] with [2 ^ (d - 1) <= m < 2 ^ d]. *)
Lemma Zdigits2_unique m d :
  0 < d -> 2 ^ (d - 1) <= m < 2 ^ d -> Zdigits2 m = d.
Proof.
  intros Hd [Hlo Hhi].
  assert (0 < m) by (pose proof (Z.pow_pos_nonneg 2 (d - 1)); lia).
  destruct m as [|p|p]; try lia. cbn.
  pose proof (digits2_pos_ge p d Hlo Hd). pose proof (digits2_pos_le p d Hhi). lia.
Qed.

(** Adding one adds a digit only on reaching a power of two. *)
Lemma Zdigits2_succ m :
  0 <= m ->
  Zdigits2 (m + 1) = Zdigits2 m \/
  (m + 1 = 2 ^ Zdigits2 m /\ Zdigits2 (m + 1) = Zdigits2 m + 1).
Proof.
  intros Hm. destruct (Z.eq_dec m 0) as [->|]; [right; now cbn|].
  pose proof (Zdigits2_bounds m ltac:(lia)) as [Hlo Hhi].
  pose proof (Zdigits2_nonneg m) as Hd.
  assert (0 < Zdigits2 m) by (destruct m; cbn in *; lia).
  destruct (Z.eq_dec (m + 1) (2 ^ Zdigits2 m)) as [E|E].
  - right. split; [done|]. apply Zdigits2_unique; [lia|].
    replace (Zdigits2 m + 1 - 1) with (Zdigits2 m) by lia.
    rewrite Z.pow_add_r, Z.pow_1_r by lia. lia.
  - left. apply Zdigits2_unique; [lia|]. lia.
Qed.

(** The digits of a product. *)
Lemma digits2_pos_mul p q :
  Z.pos (digits2_pos p) + Z.pos (digits2_pos q) - 1 <= Z.pos (digits2_pos (p * q)) <=
  Z.pos (digits2_pos p) + Z.pos (digits2_pos q).
Proof.
  pose proof (digits2_pos_bounds p) as [Hp1 Hp2].
  pose proof (digits2_pos_bounds q) as [Hq1 Hq2].
  set (a := Z.pos (digits2_pos p)) in *. set (b := Z.pos (digits2_pos q)) in *.
  split.
  - apply digits2_pos_ge; [|lia].
    replace (a + b - 1 - 1) with ((a - 1) + (b - 1)) by lia.
    rewrite Z.pow_add_r, Pos2Z.inj_mul by lia. apply Z.mul_le_mono_nonneg; lia.
  - apply digits2_pos_le; [|lia].
    rewrite Z.pow_add_r, Pos2Z.inj_mul by lia. apply Z.mul_lt_mono_nonneg; lia.
Qed.

(** A smaller number has no more digits. *)
Lemma digits_scaled_le a p b q :
  0 <= p -> 0 <= q -> Z.pos a * 2 ^ p <= Z.pos b * 2 ^ q ->
  Z.pos (digits2_pos a) + p <= Z.pos (digits2_pos b) + q.
Proof.
  intros Hp Hq Hle.
  pose proof (digits2_pos_bounds a) as [Ha _]. pose proof (digits2_pos_bounds b) as [_ Hb].
  assert (H : 2 ^ (Z.pos (digits2_pos a) - 1 + p) < 2 ^ (Z.pos (digits2_pos b) + q)).
  { rewrite !Z.pow_add_r by lia.
    pose proof (Z.pow_pos_nonneg 2 p). pose proof (Z.pow_pos_nonneg 2 q). nia. }
  apply Z.pow_lt_mono_r_iff in H; lia.
Qed.

(** ** Shifting to the right *)

Lemma pow2_half k : 0 < k -> 2 ^ k = 2 * 2 ^ (k - 1).
Proof. intros. rewrite <- Z.pow_succ_r by lia. f_equal. lia. Qed.

(** [s'] is the number [M] shifted right by [k] digits: its mantissa is
    the quotient, its round bit is the first digit that was dropped, and
    its sticky bit says whether any digit after that one is set.  [t] is
    the number the digits after the first dropped one make. *)
Definition shifted (k M : Z) (s' : shr_record) : Prop :=
  0 <= shr_m s' /\
  exists t, 0 <= t /\ (t = 0 \/ t < 2 ^ (k - 1)) /\
    M = shr_m s' * 2 ^ k + (if shr_r s' then 2 ^ (k - 1) else 0) + t /\
    (shr_s s' = false <-> t = 0) /\ (shr_r s' = true -> 0 < k).

(** Nothing is dropped by no shift. *)
Lemma shifted_0 M : 0 <= M -> shifted 0 M (Build_shr_record M false false).
Proof. intros HM. split; [done|]. exists 0. cbn. repeat split; (done || lia). Qed.

(** One more digit. *)
Lemma shifted_succ k M s' : 0 <= k -> shifted k M s' -> shifted (k + 1) M (shr_1 s').
Proof.
  intros Hk (Hm & t & Ht & Hlt & -> & Hs & Hr). unfold shifted.
  replace (k + 1 - 1) with k by lia. rewrite (Z.pow_add_r 2 k 1), Z.pow_1_r by lia.
  pose proof (Z.pow_pos_nonneg 2 k ltac:(lia) Hk) as Hp.
  assert (Hh : 0 < k -> 2 ^ k = 2 * 2 ^ (k - 1) /\ 0 < 2 ^ (k - 1)).
  { intros H. split; [now apply pow2_half | apply Z.pow_pos_nonneg; lia]. }
  destruct s' as [m r s]. cbn [shr_m shr_r shr_s] in *.
  assert (Hrs : orb r s = false <-> (if r then 2 ^ (k - 1) else 0) + t = 0).
  { destruct r; cbn [orb]; [|exact Hs]. specialize (Hr eq_refl). split; [done | lia]. }
  assert (Hb : (if r then 2 ^ (k - 1) else 0) + t = 0 \/
               (if r then 2 ^ (k - 1) else 0) + t < 2 ^ k).
  { destruct r; [specialize (Hr eq_refl); lia|]. destruct (Z.eq_dec k 0) as [->|]; [lia|].
    right. lia. }
  destruct m as [|[p|p|]|p]; try lia; cbn [shr_1 shr_m shr_r shr_s];
    (split; [lia|]); exists ((if r then 2 ^ (k - 1) else 0) + t);
    (split; [destruct r; lia|]); (split; [exact Hb|]);
    (split; [lia|]); (split; [exact Hrs | lia]).
Qed.

(** [k] more digits, whatever the order in which [iter_pos] takes them. *)
Lemma iter_shr_1_add p k M s' :
  0 <= k -> shifted k M s' -> shifted (k + Z.pos p) M (iter_pos shr_1 p s').
Proof.
  revert k s'. induction p as [p IH|p IH|]; intros k s' Hk Hs; cbn [iter_pos].
  - replace (k + Z.pos p~1) with (k + 1 + Z.pos p + Z.pos p) by lia.
    apply IH; [lia|]. apply IH; [lia|]. now apply shifted_succ.
  - replace (k + Z.pos p~0) with (k + Z.pos p + Z.pos p) by lia.
    apply IH; [lia|]. now apply IH.
  - now apply shifted_succ.
Qed.

Lemma iter_shr_1_shifted p M :
  0 <= M -> shifted (Z.pos p) M (iter_pos shr_1 p (Build_shr_record M false false)).
Proof. intros HM. apply (iter_shr_1_add p 0); [done | now apply shifted_0]. Qed.

(** Rounding to nearest the result of a shift by [k] digits gives a
    mantissa from the quotient to one more, at most half a unit of the
    last place from the number that was shifted, on either side, and
    even when the number is half a unit away. *)
Lemma round_shifted k M s' :
  0 < k -> shifted k M s' ->
  let m := round_nearest_even (shr_m s') (loc_of_shr_record s') in
  shr_m s' <= m <= shr_m s' + 1 /\
  M - 2 ^ (k - 1) <= m * 2 ^ k <= M + 2 ^ (k - 1) /\
  (2 * Z.abs (m * 2 ^ k - M) = 2 ^ k -> Z.even m = true).
Proof.
  intros Hk (H0 & t & Ht & Hlt & -> & Hs & _).
  pose proof (pow2_half k Hk) as Hh.
  pose proof (Z.pow_pos_nonneg 2 (k - 1) ltac:(lia) ltac:(lia)).
  destruct s' as [m' [] []]; cbn [shr_m shr_r shr_s loc_of_shr_record round_nearest_even] in *;
    try (assert (t = 0) by now apply Hs);
    try (assert (t <> 0) by (intros ?; now assert (true = false) by now apply Hs));
    try (destruct (Z.even m') eqn:Hev; [|rewrite Z.even_add, Hev]);
    (split; [lia|]); (split; [lia|]); (done || lia).
Qed.

(** ** What [binary_round_aux] returns *)

#[local] Abbreviation fexp := (SpecFloat.fexp prec emax).

Lemma fexp_eq d : fexp d = Z.max (d - 53) (-1074).
Proof. reflexivity. Qed.

(** The float of a mantissa and an exponent, as the last step of
    [binary_round_aux] builds it. *)
Definition finish (s : bool) (m e : Z) : float :=
  match m with
  | 0 => S754_zero s
  | Z.pos p => if e <=? emax - prec then S754_finite s p e else S754_infinity s
  | Z.neg _ => S754_nan
  end.

(** The first shift, to the exponent of the format, and the rounding. *)
Lemma shr_fexp_round M E :
  let e1 := fexp (Z.pos (digits2_pos M) + E) in
  E <= e1 ->
  exists s1, shr_fexp prec emax (Z.pos M) E loc_Exact = (s1, e1) /\
    0 <= shr_m s1 /\
    Zdigits2 (shr_m s1) = Z.max 0 (Z.pos (digits2_pos M) - (e1 - E)) /\
    let m := round_nearest_even (shr_m s1) (loc_of_shr_record s1) in
    shr_m s1 <= m <= shr_m s1 + 1 /\
    Z.pos M - 2 ^ (e1 - E - 1) <= m * 2 ^ (e1 - E) <= Z.pos M + 2 ^ (e1 - E - 1) /\
    (2 * Z.abs (m * 2 ^ (e1 - E) - Z.pos M) = 2 ^ (e1 - E) -> Z.even m = true).
Proof.
  intros e1 He. unfold shr_fexp. cbn [Zdigits2 shr_record_of_loc]. fold e1.
  set (s0 := {| shr_m := Z.pos M; shr_r := false; shr_s := false |}).
  destruct (e1 - E) as [|p|p] eqn:Hn; [| |lia]; cbn [shr].
  - exists s0. replace e1 with E by lia. cbn. repeat split; lia.
  - exists (iter_pos shr_1 p s0). replace (E + Z.pos p) with e1 by lia.
    pose proof (iter_shr_1_shifted p (Z.pos M) ltac:(lia)) as Hsh. fold s0 in Hsh.
    split; [done|]. split; [apply Hsh|]. split; [now rewrite iter_shr_1_digits|].
    now apply (round_shifted (Z.pos p) (Z.pos M)).
Qed.

(** The second shift: rounding has added a digit at most, and then the
    mantissa is a power of two. *)
Lemma shr_fexp_carry m1 m2 e1 :
  0 <= m1 -> m1 <= m2 <= m1 + 1 -> fexp (Zdigits2 m1 + e1) = e1 ->
  exists s3 e2, shr_fexp prec emax m2 e1 loc_Exact = (s3, e2) /\
    0 <= shr_m s3 /\ fexp (Zdigits2 (shr_m s3) + e2) = e2 /\ e1 <= e2 /\
    shr_m s3 * 2 ^ (e2 - e1) = m2.
Proof.
  intros H1 H2 Hc. unfold shr_fexp. cbn [shr_record_of_loc].
  set (s0 := {| shr_m := m2; shr_r := false; shr_s := false |}).
  assert (Hsame : fexp (Zdigits2 m2 + e1) = e1 ->
    exists s3 e2, shr s0 e1 (fexp (Zdigits2 m2 + e1) - e1) = (s3, e2) /\
      0 <= shr_m s3 /\ fexp (Zdigits2 (shr_m s3) + e2) = e2 /\ e1 <= e2 /\
      shr_m s3 * 2 ^ (e2 - e1) = m2).
  { intros Hf. rewrite Hf, Z.sub_diag. exists s0, e1. cbn [shr shr_m s0].
    rewrite Z.sub_diag, Z.pow_0_r. repeat split; lia. }
  destruct (Z.eq_dec m2 m1) as [->|Hne]; [now apply Hsame|].
  assert (m2 = m1 + 1) as E2 by lia.
  destruct (Zdigits2_succ m1 H1) as [Hd|[Hp Hd]]; rewrite <- E2 in *;
    [apply Hsame; now rewrite Hd|].
  destruct (Z.eq_dec (fexp (Zdigits2 m2 + e1)) e1) as [|Hf]; [now apply Hsame|].
  rewrite !fexp_eq in *. pose proof (Zdigits2_nonneg m1).
  assert (Zdigits2 m1 = 53) as H53 by lia.
  replace (Z.max (Zdigits2 m2 + e1 - 53) (-1074) - e1) with 1 by lia.
  rewrite H53 in Hp. subst s0. rewrite Hp.
  exists {| shr_m := 2 ^ 52; shr_r := false; shr_s := false |}, (e1 + 1).
  split; [reflexivity|]. cbn [shr_m]. replace (e1 + 1 - e1) with 1 by lia.
  split; [apply Z.pow_nonneg; lia|]. split; [|split; [lia | reflexivity]].
  change (Zdigits2 (2 ^ 52)) with 53. rewrite fexp_eq. lia.
Qed.

(** [binary_round_aux] on an exact mantissa whose exponent is at most
    that of the format: the mantissa [m] and the exponent [e] it ends
    with are canonical, [m * 2 ^ e] is half a unit of the last place at
    most from the number that is rounded, and [m] is positive unless the
    shift discards every digit. *)
Lemma binary_round_aux_spec s M E :
  let e1 := fexp (Z.pos (digits2_pos M) + E) in
  E <= e1 ->
  exists m e, binary_round_aux prec emax s (Z.pos M) E loc_Exact = finish s m e /\
    0 <= m /\ fexp (Zdigits2 m + e) = e /\ e1 <= e /\
    Z.pos M - 2 ^ (e1 - E - 1) <= m * 2 ^ (e - E) <= Z.pos M + 2 ^ (e1 - E - 1) /\
    (e1 - E < Z.pos (digits2_pos M) -> 0 < m) /\
    (2 * Z.abs (m * 2 ^ (e - E) - Z.pos M) = 2 ^ (e1 - E) ->
     Z.even (m * 2 ^ (e - e1)) = true).
Proof.
  intros e1 He. unfold binary_round_aux.
  destruct (shr_fexp_round M E He) as (s1 & -> & Hs1 & Hd1 & Hm & Hb & Ht).
  fold e1 in Hd1, Hb, Ht.
  cbv beta iota. fold e1.
  set (m2 := round_nearest_even (shr_m s1) (loc_of_shr_record s1)) in *.
  destruct (shr_fexp_carry (shr_m s1) m2 e1 Hs1 Hm) as (s3 & e2 & -> & H3 & Hc & He2 & Hx).
  { subst e1. rewrite !fexp_eq in *. lia. }
  exists (shr_m s3), e2. split; [reflexivity|]. split; [done|]. split; [done|].
  assert (Hv : shr_m s3 * 2 ^ (e2 - E) = m2 * 2 ^ (e1 - E)).
  { replace (e2 - E) with ((e2 - e1) + (e1 - E)) by lia.
    now rewrite Z.pow_add_r, Z.mul_assoc, Hx by lia. }
  rewrite Hv, Hx. split; [done|]. split; [exact Hb|]. split; [|exact Ht].
  intros Hpos. assert (0 < Zdigits2 (shr_m s1)) by lia.
  assert (0 < shr_m s1) by (destruct (shr_m s1); cbn in *; lia).
  pose proof (Z.pow_pos_nonneg 2 (e2 - e1)). nia.
Qed.

(** [binary_round] first shifts to the left, to the exponent of the
    format or below it: the value is kept, and nothing that is discarded
    afterwards is the whole mantissa. *)
Lemma shl_align_fexp_spec M E :
  -1074 <= E ->
  exists M' E',
    shl_align M E (fexp (Z.pos (digits2_pos M) + E)) = (M', E') /\
    -1074 <= E' /\
    E' <= fexp (Z.pos (digits2_pos M') + E') /\
    fexp (Z.pos (digits2_pos M') + E') - E' < Z.pos (digits2_pos M') /\
    Z.pos M' * 2 ^ (E' + 1074) = Z.pos M * 2 ^ (E + 1074).
Proof.
  intros HE. unfold shl_align. set (d := Z.pos (digits2_pos M)).
  destruct (fexp (d + E) - E) as [|k|k] eqn:Hk.
  - exists M, E. fold d. rewrite fexp_eq in *. repeat split; lia.
  - exists M, E. fold d. rewrite fexp_eq in *. repeat split; lia.
  - exists (Pos.iter xO M k), (fexp (d + E)).
    rewrite digits2_pos_iter_xO, Pos2Z.inj_add, iter_xO_mul. fold d.
    replace (d + Z.pos k + fexp (d + E)) with (d + E) by lia.
    rewrite fexp_eq in *. repeat split; try lia.
    rewrite <- Z.mul_assoc, <- Z.pow_add_r by lia. do 2 f_equal. lia.
Qed.

(** So its result is never zero. *)
Lemma binary_round_spec s M E :
  -1074 <= E ->
  exists m e, binary_round prec emax s M E = finish s (Z.pos m) e /\
    fexp (Z.pos (digits2_pos m) + e) = e.
Proof.
  intros HE. unfold binary_round.
  destruct (shl_align_fexp_spec M E HE) as (M' & E' & -> & _ & H1 & H2 & _).
  destruct (binary_round_aux_spec s M' E' H1) as (m & e & -> & _ & Hc & _ & _ & Hpos & _).
  specialize (Hpos H2). destruct m as [|m|m]; try lia. now exists m, e.
Qed.

(** ** Canonical floats and their order *)

(** A mantissa and an exponent of the format: 53 digits, or fewer at the
    least exponent. *)
Definition canonical (m : positive) (e : Z) : Prop :=
  fexp (Z.pos (digits2_pos m) + e) = e.

Lemma float_wf_finite s m e :
  float_wf (S754_finite s m e) = true <-> canonical m e /\ e <= 971.
Proof.
  unfold float_wf, valid_binary, bounded, canonical_mantissa, canonical.
  rewrite andb_true_iff, Z.eqb_eq, Z.leb_le. reflexivity.
Qed.

Lemma canonical_bounds m e :
  canonical m e -> -1074 <= e /\ Z.pos m < 2 ^ 53 /\ (-1074 < e -> 2 ^ 52 <= Z.pos m).
Proof.
  unfold canonical. rewrite fexp_eq. intros Hc.
  pose proof (digits2_pos_bounds m) as [Hlo Hhi].
  split; [lia|]. split.
  - eapply Z.lt_le_trans; [exact Hhi|]. apply Z.pow_le_mono_r; lia.
  - intros He. replace (Z.pos (digits2_pos m)) with 53 in Hlo by lia. exact Hlo.
Qed.

(** The value of a float as a multiple of the least positive float. *)
Definition scaled (m : positive) (e : Z) : Z := Z.pos m * 2 ^ (e + 1074).

Lemma scaled_lt_exp m1 e1 m2 e2 :
  canonical m1 e1 -> canonical m2 e2 -> e1 < e2 -> scaled m1 e1 < scaled m2 e2.
Proof.
  intros (He1 & Hm1 & _)%canonical_bounds (_ & _ & Hm2)%canonical_bounds He.
  unfold scaled. replace (e2 + 1074) with ((e2 - e1 - 1) + 1 + (e1 + 1074)) by lia.
  rewrite (Z.pow_add_r 2 (e2 - e1 - 1 + 1)), (Z.pow_add_r 2 (e2 - e1 - 1) 1), Z.pow_1_r
    by lia.
  pose proof (Z.pow_pos_nonneg 2 (e2 - e1 - 1)). pose proof (Z.pow_pos_nonneg 2 (e1 + 1074)).
  specialize (Hm2 ltac:(lia)).
  set (X := 2 ^ (e1 + 1074)) in *. set (Y := 2 ^ (e2 - e1 - 1)) in *.
  change (2 ^ 53) with (2 * 2 ^ 52) in Hm1.
  assert (Z.pos m2 <= Z.pos m2 * Y) by nia.
  rewrite Z.mul_assoc. apply Z.mul_lt_mono_pos_r; lia.
Qed.

(** On canonical floats the comparison of binary64, which looks at the
    exponents first, is the comparison of the values. *)
Lemma canonical_compare m1 e1 m2 e2 :
  canonical m1 e1 -> canonical m2 e2 ->
  SFcompare (S754_finite false m1 e1) (S754_finite false m2 e2) =
  Some (scaled m1 e1 ?= scaled m2 e2).
Proof.
  intros H1 H2. cbn [SFcompare]. f_equal.
  destruct (Z.compare_spec e1 e2) as [->|He|He].
  - change (Pos.compare_cont Eq m1 m2) with (m1 ?= m2)%positive. unfold scaled.
    pose proof (canonical_bounds _ _ H2) as (He2 & _).
    rewrite Pos2Z.inj_compare. apply Zmult_compare_compat_r.
    apply Z.lt_gt, Z.pow_pos_nonneg; lia.
  - symmetry. apply Z.compare_lt_iff. now apply scaled_lt_exp.
  - symmetry. apply Z.compare_gt_iff. now apply scaled_lt_exp.
Qed.

(** ** Rounding does not pass a float *)

(** Two multiples of a unit, the first at most half a unit above a
    number that is at most the second: the first is at most the second. *)
Lemma round_units_le (m a mx b M U W h : Z) :
  0 < U -> 0 < W -> 0 <= h < U ->
  m * (a * U) <= M + h -> M * W <= mx * (b * (U * W)) ->
  m * (a * (U * W)) <= mx * (b * (U * W)).
Proof.
  intros HU HW Hh Hb Hle.
  assert (HM : M <= mx * b * U).
  { apply (Z.mul_le_mono_pos_r _ _ W HW). now replace (mx * b * U * W) with (mx * (b * (U * W))) by ring. }
  assert (Hab : m * a <= mx * b).
  { apply Z.lt_succ_r, (Z.mul_lt_mono_pos_r U); [exact HU|].
    replace (m * a * U) with (m * (a * U)) by ring.
    replace (Z.succ (mx * b) * U) with (mx * b * U + U) by ring. lia. }
  replace (m * (a * (U * W))) with (m * a * (U * W)) by ring.
  replace (mx * (b * (U * W))) with (mx * b * (U * W)) by ring.
  apply Z.mul_le_mono_nonneg_r; [nia | exact Hab].
Qed.

(** A number that is at most a float rounds to at most that float. *)
Lemma binary_round_le s M E mx ex :
  -1074 <= E -> canonical mx ex -> Z.pos M * 2 ^ (E + 1074) <= scaled mx ex ->
  exists m e, binary_round prec emax s M E = finish s (Z.pos m) e /\
    canonical m e /\ scaled m e <= scaled mx ex.
Proof.
  intros HE Hx Hle. unfold binary_round.
  destruct (shl_align_fexp_spec M E HE) as (M' & E' & -> & HE' & H1 & H2 & Hv).
  rewrite <- Hv in Hle. clear Hv.
  destruct (binary_round_aux_spec s M' E' H1) as (m & e & -> & _ & Hc & He & [_ Hb] & Hpos & _).
  specialize (Hpos H2). destruct m as [|m|m]; try lia. exists m, e.
  split; [done|]. split; [exact Hc|].
  set (e1 := fexp (Z.pos (digits2_pos M') + E')) in *.
  pose proof (canonical_bounds _ _ Hx) as (Hex & _).
  unfold scaled in *.
  assert (He1 : e1 <= ex).
  { pose proof (digits_scaled_le M' (E' + 1074) mx (ex + 1074) ltac:(lia) ltac:(lia) Hle).
    unfold canonical in Hx. subst e1. rewrite fexp_eq in *. lia. }
  replace (e + 1074) with ((e - e1) + ((e1 - E') + (E' + 1074))) by lia.
  replace (ex + 1074) with ((ex - e1) + ((e1 - E') + (E' + 1074))) in * by lia.
  replace (e - E') with ((e - e1) + (e1 - E')) in Hb by lia.
  rewrite !(Z.pow_add_r 2 (e - e1)), !(Z.pow_add_r 2 (ex - e1)) in * by lia.
  rewrite !(Z.pow_add_r 2 (e1 - E')) in * by lia.
  apply (round_units_le _ _ _ _ (Z.pos M') _ _ (2 ^ (e1 - E' - 1))); try done;
    try (apply Z.pow_pos_nonneg; lia).
  destruct (Z.eq_dec e1 E') as [->|Hne].
  - now rewrite Z.sub_diag.
  - rewrite (pow2_half (e1 - E')) by lia.
    pose proof (Z.pow_pos_nonneg 2 (e1 - E' - 1)). lia.
Qed.


(** ** The operations return values of binary64 *)

Lemma finish_valid s m e :
  0 <= m -> fexp (Zdigits2 m + e) = e ->
  float_wf (finish s m e) = true /\ finish s m e <> S754_nan.
Proof.
  intros Hm Hc. destruct m as [|m|m]; [done | | lia]. unfold finish.
  destruct (Z.leb_spec e (emax - prec)); [|done].
  split; [now apply float_wf_finite | done].
Qed.

Lemma binary_normalize_valid z E :
  -1074 <= E ->
  float_wf (binary_normalize prec emax z E false) = true /\
  binary_normalize prec emax z E false <> S754_nan.
Proof.
  intros HE. destruct z as [|p|p]; cbn [binary_normalize]; [done|..].
  - destruct (binary_round_spec false p E HE) as (m & e & -> & Hc).
    now apply finish_valid.
  - destruct (binary_round_spec true p E HE) as (m & e & -> & Hc).
    now apply finish_valid.
Qed.

(** A float that is a number: not NaN, not an infinity. *)
Definition finite_float (f : float) : bool :=
  match f with
  | S754_zero _ | S754_finite _ _ _ => true
  | _ => false
  end.

Lemma fsub_valid x y :
  float_wf x = true -> float_wf y = true ->
  float_wf (fsub x y) = true /\
  (finite_float x = true -> finite_float y = true -> fsub x y <> S754_nan).
Proof.
  destruct x as [sx|sx| |sx mx ex], y as [sy|sy| |sy my ey]; intros Hx Hy;
    try (split; [done || (now destruct sx, sy) | done || (now destruct sx, sy)]).
  apply float_wf_finite in Hx as [(Hx & _)%canonical_bounds _].
  apply float_wf_finite in Hy as [(Hy & _)%canonical_bounds _].
  unfold fsub, SFsub.
  destruct (binary_normalize_valid
              (cond_Zopp sx (Z.pos (fst (shl_align mx ex (Z.min ex ey)))) -
               cond_Zopp sy (Z.pos (fst (shl_align my ey (Z.min ex ey)))))
              (Z.min ex ey)); [lia | done].
Qed.

Lemma fmul_valid x y :
  float_wf x = true -> float_wf y = true -> float_wf (fmul x y) = true.
Proof.
  destruct x as [sx|sx| |sx mx ex], y as [sy|sy| |sy my ey]; try done. intros Hx Hy.
  apply float_wf_finite in Hx as [Hx _]. apply float_wf_finite in Hy as [Hy _].
  unfold canonical in *. rewrite fexp_eq in *.
  unfold fmul, SFmul. pose proof (digits2_pos_mul mx my) as Hd.
  destruct (binary_round_aux_spec (xorb sx sy) (mx * my) (ex + ey))
    as (m & e & -> & Hm & Hc & _); [rewrite fexp_eq; lia|].
  now apply finish_valid.
Qed.
