(* ===== verification/FloatOrder.v ===== *)
(** * FloatOrder: rounding to nearest is monotone

    Rounding, as [FloatRound] specifies it, read on whole numbers: every
    number is counted in units of [2 ^ - K], for a [K] that makes whole
    all the numbers that are rounded.  [grid v] is the exponent the
    format gives a number [v]; a float is a number that is a multiple of
    the power of two of its own grid; [rounds x r] says that [r] is on
    the grid of [x], half a unit of it from [x] at most, even when it is
    half a unit away, and is zero or a float.  From this alone: rounding
    has one result, does not pass a float, on either side, is
    monotone, and gives a float back from which a quarter of its unit or
    less was taken ([rounds_absorb]).  [binary_round_aux] rounds in this
    sense. *)

From Stdlib Require Import ZArith Lia SpecFloat.
From stdpp Require Import base tactics.
From S2P Require Import Prelude PyFloat FloatFacts FloatRound.

#[local] Open Scope Z_scope.
#[local] Abbreviation fexp := (SpecFloat.fexp prec emax).

(** ** Digits of whole numbers *)

Lemma Zdigits2_mono u v : 0 < u <= v -> Zdigits2 u <= Zdigits2 v.
Proof.
  intros [Hu Hv]. pose proof (Zdigits2_bounds u Hu) as [Hlo _].
  pose proof (Zdigits2_bounds v ltac:(lia)) as [_ Hhi].
  assert (H : 2 ^ (Zdigits2 u - 1) < 2 ^ Zdigits2 v) by lia.
  apply Z.pow_lt_mono_r_iff in H; [lia | lia | apply Zdigits2_nonneg].
Qed.

Lemma Zdigits2_shift m k : 0 < m -> 0 <= k -> Zdigits2 (m * 2 ^ k) = Zdigits2 m + k.
Proof.
  intros Hm Hk. pose proof (Zdigits2_bounds m Hm) as [Hlo Hhi].
  pose proof (Zdigits2_nonneg m). pose proof (Z.pow_pos_nonneg 2 k ltac:(lia) Hk).
  assert (0 < Zdigits2 m) by (destruct m; cbn in *; lia).
  apply Zdigits2_unique; [lia|].
  replace (Zdigits2 m + k - 1) with (Zdigits2 m - 1 + k) by lia.
  rewrite !Z.pow_add_r by lia. nia.
Qed.

Section Grid.

Variable K : Z.
Hypothesis HK : 1074 <= K.

(** ** The grid *)

(** The exponent of the format at [v]. *)
Definition grid (v : Z) : Z := Z.max (Zdigits2 v - 53) (K - 1074).

(** A float: a number above zero on its own grid. *)
Definition is_float (v : Z) : Prop := 0 < v /\ (2 ^ grid v | v).

(** [r] is [x] rounded to nearest, ties to even: a number on the grid
    of [x], half a unit from [x] at most, that is zero or a float, and
    an even number of units when it is half a unit from [x]. *)
Definition rounds (x r : Z) : Prop :=
  0 <= r /\ (2 ^ grid x | r) /\ 2 * Z.abs (r - x) <= 2 ^ grid x /\
  (0 < r -> is_float r) /\
  (2 * Z.abs (r - x) = 2 ^ grid x -> Z.even (r / 2 ^ grid x) = true).

Lemma grid_nonneg v : 0 <= grid v.
Proof. unfold grid. lia. Qed.

Lemma grid_mono u v : 0 < u <= v -> grid u <= grid v.
Proof. intros H%Zdigits2_mono. unfold grid. lia. Qed.

Lemma pow2_divide a b : 0 <= a <= b -> (2 ^ a | 2 ^ b).
Proof.
  intros H. exists (2 ^ (b - a)). rewrite <- Z.pow_add_r by lia. f_equal. lia.
Qed.

(** A float is on every grid below its own. *)
Lemma is_float_grid u v : is_float v -> 0 < u <= v -> (2 ^ grid u | v).
Proof.
  intros [_ Hv] Hu. etrans; [|exact Hv].
  apply pow2_divide. split; [apply grid_nonneg | now apply grid_mono].
Qed.

(** A float is at least the least float. *)
Lemma is_float_least v : is_float v -> K - 1074 < Zdigits2 v.
Proof.
  intros [H0 Hd]. pose proof (Zdigits2_bounds v H0) as [_ Hhi].
  apply Z.divide_pos_le in Hd; [|done].
  assert (H : 2 ^ (K - 1074) < 2 ^ Zdigits2 v).
  { eapply Z.le_lt_trans; [|exact Hhi]. etrans; [|exact Hd].
    apply Z.pow_le_mono_r; unfold grid; lia. }
  apply Z.pow_lt_mono_r_iff in H; [lia | lia | apply Zdigits2_nonneg].
Qed.

(** Two multiples of a unit less than a unit apart. *)
Lemma divide_lt_le g a b : 0 < g -> (g | a) -> (g | b) -> a < b + g -> a <= b.
Proof. intros Hg [p ->] [q ->] H. assert (p < q + 1) by nia. nia. Qed.

(** ** Rounding does not pass a float *)

Lemma rounds_le x r X : 0 < x -> rounds x r -> is_float X -> x <= X -> r <= X.
Proof.
  intros Hx (_ & Hg & Hh & _) HX Hle.
  pose proof (Z.pow_pos_nonneg 2 (grid x) ltac:(lia) (grid_nonneg x)).
  apply (divide_lt_le (2 ^ grid x)); [done | done | now apply is_float_grid | lia].
Qed.

Lemma rounds_ge x r X : 0 < x -> rounds x r -> is_float X -> X <= x -> X <= r.
Proof.
  intros Hx (_ & Hg & Hh & _) HX Hle.
  pose proof (Z.pow_pos_nonneg 2 (grid x) ltac:(lia) (grid_nonneg x)) as HG.
  pose proof (Zdigits2_mono X x ltac:(destruct HX; lia)) as Hd.
  pose proof (is_float_least X HX) as Hl.
  destruct (Z.eq_dec (Zdigits2 X) (Zdigits2 x)) as [He|Hne].
  - apply (divide_lt_le (2 ^ grid x)); [done | | done | lia].
    destruct HX as [_ HX]. unfold grid in *. now rewrite <- He.
  - pose proof (Zdigits2_bounds X ltac:(destruct HX; lia)) as [_ HhiX].
    pose proof (Zdigits2_bounds x Hx) as [Hlox _].
    assert (HP : 2 ^ Zdigits2 X <= 2 ^ (Zdigits2 x - 1)) by (apply Z.pow_le_mono_r; lia).
    assert (2 ^ (Zdigits2 x - 1) <= r); [|lia].
    apply (divide_lt_le (2 ^ grid x)); [done | | done | lia].
    apply pow2_divide. unfold grid. lia.
Qed.

(** ** Rounding is monotone *)

Lemma rounds_mono x y rx ry :
  0 < x < y -> rounds x rx -> rounds y ry -> rx <= ry.
Proof.
  intros [Hx Hxy] Hrx Hry. destruct (Z.le_gt_cases rx ry) as [|Hgt]; [done|exfalso].
  pose proof Hrx as (_ & _ & Hhx & Hfx & _). pose proof Hry as (H0 & Hgy & Hhy & Hfy & _).
  specialize (Hfx ltac:(lia)).
  destruct (Z.le_gt_cases x ry) as [Hle|Hlt].
  { pose proof (rounds_le x rx ry Hx Hrx (Hfy ltac:(lia)) Hle). lia. }
  destruct (Z.le_gt_cases rx y) as [Hle|Hlt'].
  { pose proof (rounds_ge y ry rx ltac:(lia) Hry Hfx Hle). lia. }
  pose proof (Z.pow_pos_nonneg 2 (grid y) ltac:(lia) (grid_nonneg y)) as HG.
  pose proof (Z.pow_le_mono_r 2 (grid x) (grid y) ltac:(lia)
                (grid_mono x y ltac:(lia))) as HGx.
  pose proof (is_float_grid y rx Hfx ltac:(lia)) as Hgx.
  pose proof (divide_lt_le (2 ^ grid y) rx ry HG Hgx Hgy). lia.
Qed.

(** ** Rounding has one result *)

Lemma rounds_functional x r r' : rounds x r -> rounds x r' -> r = r'.
Proof.
  intros (_ & [a ->] & Ha & _ & Ta) (_ & [b ->] & Hb & _ & Tb).
  pose proof (Z.pow_pos_nonneg 2 (grid x) ltac:(lia) (grid_nonneg x)) as HG.
  rewrite Z.div_mul in Ta, Tb by lia. set (g := 2 ^ grid x) in *.
  destruct (Z.eq_dec a b) as [->|Hne]; [done|exfalso].
  assert (Hab : a = b + 1 \/ b = a + 1) by nia.
  assert (Ea : Z.even a = true) by (apply Ta; nia).
  assert (Eb : Z.even b = true) by (apply Tb; nia).
  apply Z.even_spec in Ea as [i ->]. apply Z.even_spec in Eb as [j ->]. lia.
Qed.

Lemma rounds_mono_le x y rx ry :
  0 < x <= y -> rounds x rx -> rounds y ry -> rx <= ry.
Proof.
  intros [Hx Hxy] Hrx Hry. destruct (Z.eq_dec x y) as [->|Hne].
  - now rewrite (rounds_functional _ _ _ Hrx Hry).
  - apply (rounds_mono x y); (done || lia).
Qed.

(** A float is its own rounding. *)
Lemma rounds_float v : is_float v -> rounds v v.
Proof.
  intros Hv. pose proof Hv as [Hp Hd].
  pose proof (Z.pow_pos_nonneg 2 (grid v) ltac:(lia) (grid_nonneg v)).
  repeat split; try done; lia.
Qed.

(** ** Rounding a share of a float

    A share of at most one half of a float is rounded on a finer grid
    than that of the float, unless both are on the least grid.  So when
    a float grows, the rounded share grows by no more than the float. *)

(** What rounding gives of a number on its own grid is the number. *)
Lemma rounds_on_grid x r : (2 ^ grid x | x) -> rounds x r -> r = x.
Proof.
  intros [a Ha] (_ & [b ->] & Hb & _).
  pose proof (Z.pow_pos_nonneg 2 (grid x) ltac:(lia) (grid_nonneg x)) as HG.
  set (g := 2 ^ grid x) in *. assert (b = a) as -> by nia. done.
Qed.

(** The results of two roundings are as far apart as the numbers, and
    half a unit more on each side at most. *)
Lemma rounds_spread x y rx ry :
  rounds x rx -> rounds y ry ->
  2 * (ry - rx) <= 2 * (y - x) + 2 ^ grid x + 2 ^ grid y.
Proof. intros (_ & _ & Hx & _) (_ & _ & Hy & _). lia. Qed.

(** Half a number is on a finer grid, or on the least one. *)
Lemma grid_half x d :
  0 < x -> 2 * x <= d -> grid x = K - 1074 \/ grid x < grid d.
Proof.
  intros Hx Hd. pose proof (Zdigits2_shift x 1 Hx ltac:(lia)) as Hs.
  pose proof (Zdigits2_mono (x * 2 ^ 1) d ltac:(lia)). unfold grid. lia.
Qed.

(** A float less a quarter of its unit, or less, rounds back to the
    float: the difference is on a grid one step finer at most, where it
    is half a unit from the float at most, and the float is an even
    number of those units. *)
Lemma rounds_absorb X u :
  is_float X -> 0 < u -> 4 * u <= 2 ^ grid X -> rounds (X - u) X.
Proof.
  intros HX Hu H4. pose proof HX as [Hp [q Hq]].
  pose proof (Z.pow_pos_nonneg 2 (grid X) ltac:(lia) (grid_nonneg X)) as HG.
  assert (HXG : 2 ^ grid X <= X) by (apply Z.divide_pos_le; [done | now exists q]).
  assert (H2 : 2 <= grid X).
  { destruct (Z.le_gt_cases 2 (grid X)) as [|Hlt]; [done|exfalso].
    pose proof (Z.pow_le_mono_r 2 (grid X) 1 ltac:(lia) ltac:(lia)). lia. }
  pose proof (grid_mono (X - u) X ltac:(lia)) as Hle.
  assert (Hge : grid X <= grid (X - u) + 1).
  { pose proof (Zdigits2_shift (X - u) 1 ltac:(lia) ltac:(lia)) as Hs.
    pose proof (Zdigits2_mono X ((X - u) * 2 ^ 1) ltac:(lia)). unfold grid. lia. }
  assert (HP : 2 ^ grid X = 2 * 2 ^ (grid X - 1))
    by (rewrite <- Z.pow_succ_r by lia; f_equal; lia).
  unfold rounds. replace (X - (X - u)) with u by lia. rewrite (Z.abs_eq u) by lia.
  destruct (Z.eq_dec (grid (X - u)) (grid X)) as [->|Hne].
  { repeat split; (done || lia || now exists q). }
  replace (grid (X - u)) with (grid X - 1) by lia.
  assert (Hq2 : X = 2 * q * 2 ^ (grid X - 1)) by lia.
  split; [lia|]. split; [now exists (2 * q)|]. split; [lia|]. split; [done|].
  intros _. replace (X / 2 ^ (grid X - 1)) with (2 * q)
    by (apply Z.div_unique_exact; lia).
  apply Z.even_spec. now exists q.
Qed.

(** Two floats are a unit of the smaller apart at least. *)
Lemma float_gap d1 d2 : is_float d1 -> is_float d2 -> d1 < d2 -> 2 ^ grid d1 <= d2 - d1.
Proof.
  intros H1 H2 Hlt. pose proof H1 as [Hp Hd1].
  pose proof (is_float_grid d1 d2 H2 ltac:(lia)) as Hd2.
  apply Z.divide_pos_le; [lia | now apply Z.divide_sub_r].
Qed.

(** A float above the least grid that is less than a unit of its own
    above another float is a power of two. *)
Lemma float_gap_pow2 d1 d2 :
  is_float d1 -> is_float d2 -> d1 < d2 -> d2 - d1 < 2 ^ grid d2 ->
  K - 1074 < Zdigits2 d2 - 53 -> d2 = 2 ^ (Zdigits2 d2 - 1).
Proof.
  intros [Hp1 Hd1] [Hp2 Hd2] Hlt Hgap Hn.
  pose proof (Z.pow_pos_nonneg 2 (grid d2) ltac:(lia) (grid_nonneg d2)) as HG.
  pose proof (Zdigits2_mono d1 d2 ltac:(lia)) as Hm.
  pose proof (Zdigits2_bounds d1 Hp1) as [_ Hhi]. pose proof (Zdigits2_bounds d2 Hp2) as [Hlo _].
  destruct (Z.eq_dec (Zdigits2 d1) (Zdigits2 d2)) as [He|Hne].
  { unfold grid in *. rewrite He in Hd1.
    pose proof (divide_lt_le _ d2 d1 HG Hd2 Hd1). lia. }
  assert (HP : 2 ^ Zdigits2 d1 <= 2 ^ (Zdigits2 d2 - 1))
    by (apply Z.pow_le_mono_r; [lia|]; pose proof (Zdigits2_nonneg d1); lia).
  assert (Hdiv : (2 ^ grid d2 | 2 ^ (Zdigits2 d2 - 1)))
    by (apply pow2_divide; unfold grid; lia).
  pose proof (divide_lt_le _ d2 (2 ^ (Zdigits2 d2 - 1)) HG Hd2 Hdiv). lia.
Qed.

Section Share.

Variables c j : Z.
Hypothesis Hc : 2 ^ 52 <= c < 2 ^ 53.
Hypothesis Hj : 54 <= j <= K - 1074.

(** The share [c / 2 ^ j] of a power of two above the least grid is on
    its own grid. *)
Lemma share_pow2_on_grid q n :
  0 < q -> q * 2 ^ j = 2 ^ n -> K - 1074 < Zdigits2 (c * q) - 53 ->
  (2 ^ grid (c * q) | c * q).
Proof.
  intros Hqp Hq Hn. assert (Hdc : Zdigits2 c = 53) by (apply Zdigits2_unique; lia).
  pose proof (Z.pow_pos_nonneg 2 j ltac:(lia) ltac:(lia)) as HJ.
  assert (H0n : 0 <= n).
  { destruct (Z.le_gt_cases 0 n); [done|]. rewrite (Z.pow_neg_r 2 n) in Hq by lia.
    pose proof (Z.mul_pos_pos _ _ Hqp HJ). lia. }
  assert (Hjn : j <= n).
  { destruct (Z.le_gt_cases j n) as [|Hgt]; [done|exfalso].
    assert (2 ^ n < 2 ^ j) by (apply Z.pow_lt_mono_r; lia). nia. }
  assert (q = 2 ^ (n - j)) as ->.
  { apply (Z.mul_cancel_r _ _ (2 ^ j)); [lia|].
    rewrite Hq, <- Z.pow_add_r by lia. f_equal. lia. }
  rewrite Zdigits2_shift, Hdc in Hn by lia. unfold grid.
  rewrite Zdigits2_shift, Hdc by lia.
  replace (Z.max (53 + (n - j) - 53) (K - 1074)) with (n - j) by lia. now exists c.
Qed.

(** When a float grows, the rounded share grows by no more. *)
Lemma rounds_share d1 d2 q1 q2 r1 r2 :
  is_float d1 -> is_float d2 -> d1 < d2 ->
  d1 = q1 * 2 ^ j -> d2 = q2 * 2 ^ j ->
  rounds (c * q1) r1 -> rounds (c * q2) r2 ->
  r2 - r1 <= d2 - d1.
Proof.
  intros F1 F2 Hlt E1 E2 R1 R2. pose proof F1 as [Hp1 _]. pose proof F2 as [Hp2 _].
  pose proof (Z.pow_pos_nonneg 2 j ltac:(lia) ltac:(lia)) as HJ.
  assert (HJ54 : 2 ^ 54 <= 2 ^ j) by (apply Z.pow_le_mono_r; lia).
  assert (Hq1 : 0 < q1) by nia. assert (Hq : q1 < q2) by nia.
  assert (Hx1 : 0 < c * q1) by nia.
  assert (H2x1 : 2 * (c * q1) <= d1) by nia. assert (H2x2 : 2 * (c * q2) <= d2) by nia.
  assert (HD : 2 * (c * q2 - c * q1) <= d2 - d1) by nia.
  pose proof (rounds_spread _ _ _ _ R1 R2) as Hsp.
  pose proof (grid_mono (c * q1) (c * q2) ltac:(nia)) as Hg12.
  pose proof (Z.pow_le_mono_r 2 _ _ ltac:(lia) Hg12) as HG12.
  pose proof (Z.pow_pos_nonneg 2 (grid (c * q1)) ltac:(lia) (grid_nonneg _)) as HG1.
  destruct (Z.eq_dec (grid (c * q2)) (K - 1074)) as [Hleast|Hnl].
  - assert (grid (c * q1) = K - 1074) as Hleast1 by (unfold grid in *; lia).
    destruct R1 as (_ & Hr1 & _), R2 as (_ & Hr2 & _). rewrite Hleast1 in *.
    rewrite Hleast in *. destruct F1 as [_ Hd1], F2 as [_ Hd2].
    assert (Hu : forall d, (2 ^ grid d | d) -> (2 ^ (K - 1074) | d))
      by (intros d Hd; transitivity (2 ^ grid d);
          [apply pow2_divide; unfold grid; lia | exact Hd]).
    apply (divide_lt_le (2 ^ (K - 1074))); [lia | | | lia];
      apply Z.divide_sub_r; auto.
  - destruct (grid_half (c * q2) d2 ltac:(nia) H2x2) as [?|Hfine]; [done|].
    pose proof (grid_nonneg (c * q2)) as Hg0.
    assert (HGf : 2 * 2 ^ grid (c * q2) <= 2 ^ grid d2).
    { rewrite (pow2_half (grid d2)) by lia.
      apply Z.mul_le_mono_nonneg_l, Z.pow_le_mono_r; lia. }
    destruct (Z.le_gt_cases (2 ^ grid d2) (d2 - d1)) as [Hbig|Hsmall]; [lia|].
    assert (Hn : K - 1074 < Zdigits2 (c * q2) - 53) by (unfold grid in Hnl; lia).
    assert (Hn2 : K - 1074 < Zdigits2 d2 - 53).
    { pose proof (Zdigits2_mono (c * q2) d2 ltac:(lia)). lia. }
    pose proof (float_gap_pow2 d1 d2 F1 F2 Hlt Hsmall Hn2) as Hpow.
    rewrite E2 in Hpow at 1.
    assert (Hq2 : 0 < q2) by lia.
    rewrite (rounds_on_grid _ _ (share_pow2_on_grid q2 _ Hq2 Hpow Hn) R2) in *.
    pose proof (float_gap d1 d2 F1 F2 Hlt) as Hgap.
    pose proof (grid_mono (c * q1) d1 ltac:(lia)) as Hg1.
    pose proof (Z.pow_le_mono_r 2 _ _ ltac:(lia) Hg1).
    destruct R1 as (_ & _ & Hh1 & _). lia.
Qed.

End Share.

End Grid.

(** ** The floats of binary64 on the grid *)

Section Units.

Variable K : Z.
Hypothesis HK : 1074 <= K.

(** The grid of a number given by mantissa and exponent. *)
Lemma grid_units m e :
  0 < m -> - K <= e -> grid K (m * 2 ^ (e + K)) = fexp (Zdigits2 m + e) + K.
Proof.
  intros Hm He. unfold grid. rewrite Zdigits2_shift, fexp_eq by lia. lia.
Qed.

(** A canonical mantissa and exponent is a float. *)
Lemma is_float_units m e :
  0 < m -> fexp (Zdigits2 m + e) = e -> is_float K (m * 2 ^ (e + K)).
Proof.
  intros Hm Hc. assert (He : - K <= e) by (rewrite fexp_eq in Hc; lia).
  split; [apply Z.mul_pos_pos; [done | apply Z.pow_pos_nonneg; lia]|].
  rewrite grid_units, Hc by done. now exists m.
Qed.

(** [binary_round_aux] rounds. *)
Lemma binary_round_aux_rounds s M E :
  - K <= E -> E <= fexp (Z.pos (digits2_pos M) + E) ->
  exists m e, binary_round_aux prec emax s (Z.pos M) E loc_Exact = finish s m e /\
    0 <= m /\ fexp (Zdigits2 m + e) = e /\
    rounds K (Z.pos M * 2 ^ (E + K)) (m * 2 ^ (e + K)).
Proof.
  intros HE H1.
  destruct (binary_round_aux_spec s M E H1) as (m & e & -> & Hm & Hc & He & Hb & _ & Ht).
  exists m, e. split; [done|]. split; [done|]. split; [done|].
  set (e1 := fexp (Z.pos (digits2_pos M) + E)) in *.
  assert (Hg : grid K (Z.pos M * 2 ^ (E + K)) = e1 + K) by (now rewrite grid_units by lia).
  pose proof (Z.pow_pos_nonneg 2 (E + K) ltac:(lia) ltac:(lia)) as HW.
  assert (He' : 2 ^ (e + K) = 2 ^ (e - E) * 2 ^ (E + K))
    by (rewrite <- Z.pow_add_r by lia; f_equal; lia).
  unfold rounds. rewrite Hg. split; [|split; [|split; [|split]]].
  - apply Z.mul_nonneg_nonneg; [done | apply Z.pow_nonneg; lia].
  - exists (m * 2 ^ (e - e1)). rewrite <- Z.mul_assoc, <- Z.pow_add_r by lia.
    do 2 f_equal. lia.
  - rewrite He', Z.mul_assoc, <- Z.mul_sub_distr_r, Z.abs_mul, (Z.abs_eq (2 ^ _)) by lia.
    assert (Hh : 2 * 2 ^ (e1 - E - 1) * 2 ^ (E + K) <= 2 ^ (e1 + K)).
    { destruct (Z.eq_dec e1 E) as [->|]; [rewrite Z.sub_diag; cbn; lia|].
      rewrite <- (pow2_half (e1 - E)), <- Z.pow_add_r by lia.
      apply Z.pow_le_mono_r; lia. }
    assert (Z.abs (m * 2 ^ (e - E) - Z.pos M) <= 2 ^ (e1 - E - 1)) by lia. nia.
  - intros Hpos. apply is_float_units; [|done].
    pose proof (Z.pow_pos_nonneg 2 (e + K)). nia.
  - intros Htie. replace (m * 2 ^ (e + K)) with (m * 2 ^ (e - e1) * 2 ^ (e1 + K))
      by (rewrite <- Z.mul_assoc, <- Z.pow_add_r by lia; do 2 f_equal; lia).
    rewrite Z.div_mul by (pose proof (Z.pow_pos_nonneg 2 (e1 + K)); lia).
    apply Ht. rewrite He', Z.mul_assoc, <- Z.mul_sub_distr_r, Z.abs_mul in Htie.
    rewrite (Z.abs_eq (2 ^ _)) in Htie by lia.
    replace (2 ^ (e1 + K)) with (2 ^ (e1 - E) * 2 ^ (E + K)) in Htie
      by (rewrite <- Z.pow_add_r by lia; f_equal; lia).
    nia.
Qed.

End Units.

(** [binary_round] rounds: the shift to the left keeps the value. *)
Lemma binary_round_rounds s M E :
  -1074 <= E ->
  exists m e, binary_round prec emax s M E = finish s m e /\
    0 <= m /\ fexp (Zdigits2 m + e) = e /\
    rounds 1074 (Z.pos M * 2 ^ (E + 1074)) (m * 2 ^ (e + 1074)).
Proof.
  intros HE. unfold binary_round.
  destruct (shl_align_fexp_spec M E HE) as (M' & E' & -> & HE' & H1 & _ & <-).
  apply (binary_round_aux_rounds 1074); lia.
Qed.
