(* ===== verification/FloatTimes.v ===== *)
(** * FloatTimes: the floats the player computes

    The arithmetic of lines 110, 111 and 115 of
    [src/src/main_generator.py] on floats that are values of binary64,
    from the specification of rounding in [FloatRound]: the float of an
    [int] is valid; thirty percent of a float above zero is a float below
    it; the difference of a float and a smaller one is above zero and at
    most the float.  So the fade-in time of a duration is below the
    duration, and the waiting time is above zero and at most the
    duration.  By [FloatOrder], thirty percent of a longer time is not
    shorter, and is longer by no more than the time is: the fade-in time
    and the waiting time are monotone.  At the two ends: from [2 ^ 54]
    on, a float less [1.0] rounds back to the float, and thirty percent
    of a float rounds to zero for the least float only. *)

From Stdlib Require Import ZArith Lia SpecFloat.
From stdpp Require Import base tactics option.
From S2P Require Import Prelude PyFloat FloatFacts FloatRound FloatOrder.

#[local] Open Scope Z_scope.
#[local] Abbreviation fexp := (SpecFloat.fexp prec emax).

(** ** Floats above zero *)

(** A valid float above zero, and one that is zero or above. *)
Definition positive_float (f : float) : Prop :=
  match f with
  | S754_finite false m e => canonical m e /\ e <= 971
  | _ => False
  end.

Definition nonneg_float (f : float) : Prop :=
  match f with
  | S754_zero _ => True
  | _ => positive_float f
  end.

Lemma positive_float_wf f : positive_float f -> float_wf f = true.
Proof. destruct f as [| | |[] m e]; try done. now rewrite float_wf_finite. Qed.

Lemma finite_gt m e : num_gt (NFloat (S754_finite false m e)) (NInt 0) = true.
Proof.
  unfold num_gt, num_compare, Z_float_compare. cbn [cond_Zopp].
  destruct (Z.leb_spec 0 e) as [He|He]; [|reflexivity].
  pose proof (Z.pow_pos_nonneg 2 e ltac:(lia) He).
  now destruct (Z.compare_spec 0 (Z.pos m * 2 ^ e)); try lia.
Qed.

Lemma finish_gt m e :
  num_gt (NFloat (finish false (Z.pos m) e)) (NInt 0) = true.
Proof.
  unfold finish. destruct (e <=? emax - prec); [apply finite_gt | reflexivity].
Qed.

(** The conversion of an [int] returns a valid float, above zero for an
    [int] above zero. *)
Lemma float_of_Z_valid z f :
  float_of_Z z = Ok f -> float_wf f = true /\ (0 < z -> positive_float f).
Proof.
  unfold float_of_Z. destruct z as [|p|p]; cbn [binary_normalize].
  - intros [= <-]. split; [done | lia].
  - destruct (binary_round_spec false p 0) as (m & e & -> & Hc); [lia|].
    unfold finish. destruct (Z.leb_spec e (emax - prec)) as [He|He]; intros [= <-].
    split; [now apply float_wf_finite | done].
  - destruct (binary_round_spec true p 0) as (m & e & -> & Hc); [lia|].
    unfold finish. destruct (Z.leb_spec e (emax - prec)) as [He|He]; intros [= <-].
    split; [now apply float_wf_finite | lia].
Qed.

(** It is never NaN: an [int] out of range raises. *)
Lemma float_of_Z_finite z f : float_of_Z z = Ok f -> finite_float f = true.
Proof.
  unfold float_of_Z. pose proof (binary_normalize_valid z 0 ltac:(lia)) as [_ Hn].
  destruct (binary_normalize prec emax z 0 false); try done; now intros [= <-].
Qed.

(** Thirty percent of a float is a float below it. *)
Lemma fmul_0_3_below d :
  positive_float d ->
  nonneg_float (fmul d f_0_3) /\ SFcompare (fmul d f_0_3) d = Some Lt.
Proof.
  destruct d as [| | |[] mx ex]; try done. intros [Hc Hex].
  pose proof (canonical_bounds _ _ Hc) as (He & Hm & _).
  unfold fmul, f_0_3, SFmul. cbn [xorb].
  pose proof (digits2_pos_mul mx 5404319552844595) as Hd.
  change (Z.pos (digits2_pos 5404319552844595)) with 53 in Hd.
  pose proof (digits2_pos_bounds mx) as [Hlo _].
  set (P := (mx * 5404319552844595)%positive) in *.
  unfold canonical in Hc. rewrite fexp_eq in Hc.
  destruct (binary_round_aux_spec false P (ex + -54)) as (m & e & -> & Hm0 & Hce & Hee & [_ Hb] & _);
    rewrite ?fexp_eq in *; [lia|].
  set (n := Z.max (Z.pos (digits2_pos P) + (ex + -54) - 53) (-1074) - (ex + -54)) in *.
  assert (Hhalf : 2 ^ (n - 1) <= Z.pos mx * 2 ^ 53).
  { transitivity (2 ^ (Z.pos (digits2_pos mx) - 1 + 53)).
    - destruct (Z.le_gt_cases 0 (n - 1)); [apply Z.pow_le_mono_r; lia|].
      rewrite Z.pow_neg_r by lia. apply Z.pow_nonneg. lia.
    - rewrite Z.pow_add_r by lia. apply Z.mul_le_mono_nonneg_r; [apply Z.pow_nonneg|]; lia. }
  assert (Hlt : m * 2 ^ (e - (ex + -54)) < Z.pos mx * 2 ^ 54).
  { eapply Z.le_lt_trans; [exact Hb|]. subst P. rewrite Pos2Z.inj_mul.
    change (2 ^ 54) with (5404319552844595 + 2 ^ 53 + 3602879701896397). lia. }
  destruct m as [|m|m]; [done | | lia]. cbn [finish nonneg_float positive_float].
  assert (Hsc : scaled m e < scaled mx ex).
  { apply (Z.mul_lt_mono_pos_r (2 ^ 54)); [done|]. unfold scaled.
    replace (Z.pos m * 2 ^ (e + 1074) * 2 ^ 54)
      with (Z.pos m * 2 ^ (e - (ex + -54)) * 2 ^ (ex + 1074))
      by (rewrite <- !Z.mul_assoc, <- !Z.pow_add_r by lia; do 2 f_equal; lia).
    replace (Z.pos mx * 2 ^ (ex + 1074) * 2 ^ 54)
      with (Z.pos mx * 2 ^ 54 * 2 ^ (ex + 1074)) by ring.
    apply Z.mul_lt_mono_pos_r; [apply Z.pow_pos_nonneg; lia | exact Hlt]. }
  assert (Hcmp : SFcompare (S754_finite false m e) (S754_finite false mx ex) = Some Lt).
  { rewrite canonical_compare; [|done | unfold canonical; rewrite fexp_eq; lia].
    f_equal. now apply Z.compare_lt_iff. }
  assert (e <= ex).
  { cbn [SFcompare] in Hcmp. destruct (Z.compare_spec e ex); [lia | lia | discriminate]. }
  destruct (Z.leb_spec e (emax - prec)) as [_|Hgt]; [|unfold emax, prec in Hgt; lia].
  split; [split; [done | lia] | done].
Qed.

(** A canonical mantissa and exponent whose value is at most a float:
    a float above zero, at most that float. *)
Lemma finish_le m e mx ex :
  canonical m e -> canonical mx ex -> ex <= 971 -> scaled m e <= scaled mx ex ->
  positive_float (finish false (Z.pos m) e) /\
  num_le (NFloat (finish false (Z.pos m) e)) (NFloat (S754_finite false mx ex)) = true.
Proof.
  intros Hc Hx Hex Hle.
  assert (He : e <= ex).
  { destruct (Z.le_gt_cases e ex) as [|Hgt]; [done|].
    pose proof (scaled_lt_exp _ _ _ _ Hx Hc Hgt). lia. }
  unfold finish. destruct (Z.leb_spec e (emax - prec)) as [_|Hbig]; [|unfold emax, prec in *; lia].
  split; [split; [exact Hc | lia]|].
  unfold num_le, num_compare. rewrite canonical_compare by done.
  now destruct (Z.compare_spec (scaled m e) (scaled mx ex)); try lia.
Qed.

(** The difference of a float and a smaller one that is not negative is
    a float above zero and at most the first: the subtraction is exact
    down to the least exponent, so it does not round to zero, and
    rounding does not pass the first operand. *)
Lemma fsub_below x y :
  positive_float x -> nonneg_float y -> SFcompare y x = Some Lt ->
  positive_float (fsub x y) /\ num_le (NFloat (fsub x y)) (NFloat x) = true.
Proof.
  destruct x as [| | |[] mx ex]; try done. intros [Hx Hex].
  destruct y as [sy| | |[] my ey]; try done; intros Hy Hlt.
  { change (fsub (S754_finite false mx ex) (S754_zero sy)) with (S754_finite false mx ex).
    split; [done|]. unfold num_le, num_compare. rewrite canonical_compare by done.
    now rewrite Z.compare_refl. }
  destruct Hy as [Hy Hey]. rewrite canonical_compare in Hlt by done.
  injection Hlt as Hlt. change (scaled my ey < scaled mx ex) in Hlt. unfold scaled in Hlt.
  pose proof (canonical_bounds _ _ Hx) as (He1 & _).
  pose proof (canonical_bounds _ _ Hy) as (He2 & _).
  unfold fsub, SFsub. cbn [cond_Zopp]. set (ez := Z.min ex ey).
  rewrite !shl_align_fst by lia.
  assert (Hsc : forall m e, ez <= e -> Z.pos m * 2 ^ (e - ez) * 2 ^ (ez + 1074) = Z.pos m * 2 ^ (e + 1074)).
  { intros m e He. rewrite <- Z.mul_assoc, <- Z.pow_add_r by lia. do 2 f_equal. lia. }
  pose proof (Hsc mx ex ltac:(lia)) as Hsx. pose proof (Hsc my ey ltac:(lia)) as Hsy.
  pose proof (Z.pow_pos_nonneg 2 (ez + 1074) ltac:(lia) ltac:(lia)) as HW.
  set (X := Z.pos mx * 2 ^ (ex - ez)) in *. set (Y := Z.pos my * 2 ^ (ey - ez)) in *.
  assert (0 < Y) by (apply Z.mul_pos_pos; [lia | apply Z.pow_pos_nonneg; lia]).
  assert (Hpos : 0 < X - Y) by nia.
  destruct (X - Y) as [|M|M] eqn:HM; try lia. cbn [binary_normalize].
  destruct (binary_round_le false M ez mx ex ltac:(lia) Hx) as (m & e & -> & Hc & Hle).
  { unfold scaled. rewrite <- Hsx. apply Z.mul_le_mono_nonneg_r; lia. }
  now apply finish_le.
Qed.

Lemma positive_float_gt f : positive_float f -> num_gt (NFloat f) (NInt 0) = true.
Proof. destruct f as [| | |[] m e]; try done. intros _. apply finite_gt. Qed.

Lemma fsub_positive x y :
  positive_float x -> nonneg_float y -> SFcompare y x = Some Lt ->
  num_gt (NFloat (fsub x y)) (NInt 0) = true.
Proof. intros Hx Hy Hlt. now apply positive_float_gt, fsub_below. Qed.

Lemma canonical_1_0 : canonical 4503599627370496 (-52).
Proof. reflexivity. Qed.

(** The fade-in time of a valid float above zero, the smaller of [1.0]
    and thirty percent of it, is not negative and is below it. *)
Lemma fade_in_below d f :
  positive_float d ->
  py_min (NFloat f_1_0) (NFloat (fmul d f_0_3)) = NFloat f ->
  nonneg_float f /\ SFcompare f d = Some Lt.
Proof.
  intros Hd. destruct (fmul_0_3_below d Hd) as [Hx Hlt].
  unfold py_min, num_lt, num_compare.
  destruct (SFcompare (fmul d f_0_3) f_1_0) as [[]|] eqn:Hc; intros [= <-]; try done.
  all: split; [split; [exact canonical_1_0 | lia]|].
  all: destruct d as [| | |[] mx ex]; try done; destruct Hd as [Hd _].
  all: destruct (fmul _ f_0_3) as [| | |[] m e]; try done; destruct Hx as [Hx _].
  all: unfold f_1_0 in *; rewrite canonical_compare in * by (done || exact canonical_1_0).
  all: injection Hc as Hc; injection Hlt as Hlt; f_equal.
  all: change (scaled m e < scaled mx ex) in Hlt;
    change (scaled 4503599627370496 (-52) < scaled mx ex).
  - apply Z.compare_eq_iff in Hc. lia.
  - apply Z.compare_gt_iff in Hc. lia.
Qed.

(** The wait of such a duration, the duration less its fade-in time, is
    above zero and at most the duration. *)
Lemma wait_below d f :
  positive_float d ->
  py_min (NFloat f_1_0) (NFloat (fmul d f_0_3)) = NFloat f ->
  positive_float (fsub d f) /\ num_le (NFloat (fsub d f)) (NFloat d) = true.
Proof. intros Hd [Hf Hlt]%fade_in_below; [|done]. now apply fsub_below. Qed.

Lemma wait_positive d f :
  positive_float d ->
  py_min (NFloat f_1_0) (NFloat (fmul d f_0_3)) = NFloat f ->
  num_gt (NFloat (fsub d f)) (NInt 0) = true.
Proof. intros Hd Hf. now apply positive_float_gt, wait_below. Qed.

(** ** Floats and [int]s *)

(** The exact comparison of an [int] with a float above zero is the
    comparison of their values in units of [2 ^ -1074]. *)
Lemma Z_float_compare_scaled z m e :
  -1074 <= e ->
  Z_float_compare z (S754_finite false m e) = Some (z * 2 ^ 1074 ?= scaled m e).
Proof.
  intros He. cbn [Z_float_compare cond_Zopp]. f_equal. unfold scaled.
  destruct (Z.leb_spec 0 e) as [H0|H0].
  - rewrite (Z.pow_add_r 2 e 1074), Z.mul_assoc by lia.
    apply Zmult_compare_compat_r, Z.lt_gt, Z.pow_pos_nonneg; lia.
  - replace 1074 with (- e + (e + 1074)) at 1 by lia.
    rewrite (Z.pow_add_r 2 (- e)), Z.mul_assoc by lia.
    apply Zmult_compare_compat_r, Z.lt_gt, Z.pow_pos_nonneg; lia.
Qed.

(** The float of an [int] above zero and below [2 ^ 53] has the value of
    the [int]. *)
Lemma float_of_Z_scaled z f :
  0 < z < 2 ^ 53 -> float_of_Z z = Ok f ->
  exists m e, f = S754_finite false m e /\ canonical m e /\ scaled m e = z * 2 ^ 1074.
Proof.
  intros (q & e & -> & Hd & He & Hq)%float_of_Z_canonical [= <-].
  exists q, e. split; [done|]. split; [unfold canonical; rewrite fexp_eq; lia|].
  unfold scaled. rewrite Hq, <- Z.mul_assoc, <- Z.pow_add_r by lia. do 2 f_equal. lia.
Qed.

(** So a float above zero compares with such an [int] as with its float. *)
Lemma num_compare_exact w z f :
  positive_float w -> 0 < z < 2 ^ 53 -> float_of_Z z = Ok f ->
  num_compare (NFloat w) (NInt z) = num_compare (NFloat w) (NFloat f).
Proof.
  destruct w as [| | |[] mw ew]; try done. intros [Hw _] Hz Hf.
  destruct (float_of_Z_scaled z f Hz Hf) as (m & e & -> & Hc & Hv).
  pose proof (canonical_bounds _ _ Hw) as (He & _).
  cbn [num_compare]. rewrite Z_float_compare_scaled, canonical_compare by done.
  cbn [fmap option_fmap option_map]. f_equal. rewrite Hv. symmetry. apply Z.compare_antisym.
Qed.

(** ** The order of floats that are not negative *)

(** The value of a float that is zero or above, in units of [2 ^ -1074]. *)
Definition fval (f : float) : Z :=
  match f with
  | S754_finite false m e => scaled m e
  | _ => 0
  end.

Lemma scaled_pos m e : -1074 <= e -> 0 < scaled m e.
Proof. intros. apply Z.mul_pos_pos; [done | apply Z.pow_pos_nonneg; lia]. Qed.

Lemma fval_positive f : positive_float f -> 0 < fval f.
Proof.
  destruct f as [| | |[] m e]; try done. intros [Hc%canonical_bounds _].
  now apply scaled_pos.
Qed.

(** Floats that are not negative are ordered as their values are. *)
Lemma nonneg_le f g :
  nonneg_float f -> nonneg_float g ->
  num_le (NFloat f) (NFloat g) = true <-> fval f <= fval g.
Proof.
  intros Hf Hg. unfold num_le, num_compare.
  destruct f as [sf| | |[] mf ef], g as [sg| | |[] mg eg]; try done.
  - pose proof (fval_positive _ Hg). cbn in *. split; [lia | done].
  - pose proof (fval_positive _ Hf). cbn in *. split; [done | lia].
  - destruct Hf as [Hf _], Hg as [Hg _]. rewrite canonical_compare by done. cbn [fval].
    destruct (Z.compare_spec (scaled mf ef) (scaled mg eg)); split; (done || lia).
Qed.

Lemma nonneg_lt f g :
  nonneg_float f -> nonneg_float g ->
  num_lt (NFloat f) (NFloat g) = true <-> fval f < fval g.
Proof.
  intros Hf Hg. unfold num_lt, num_compare.
  destruct f as [sf| | |[] mf ef], g as [sg| | |[] mg eg]; try done.
  - pose proof (fval_positive _ Hg). cbn in *. split; [lia | done].
  - pose proof (fval_positive _ Hf). cbn in *. split; [done | lia].
  - destruct Hf as [Hf _], Hg as [Hg _]. rewrite canonical_compare by done. cbn [fval].
    destruct (Z.compare_spec (scaled mf ef) (scaled mg eg)); split; (done || lia).
Qed.

(** A canonical mantissa and exponent is determined by its value. *)
Lemma canonical_inj m1 e1 m2 e2 :
  canonical m1 e1 -> canonical m2 e2 -> scaled m1 e1 = scaled m2 e2 ->
  m1 = m2 /\ e1 = e2.
Proof.
  intros H1 H2 Hs.
  assert (e1 = e2) as ->.
  { destruct (Z.lt_trichotomy e1 e2) as [Hlt|[->|Hlt]]; [|done|].
    - pose proof (scaled_lt_exp _ _ _ _ H1 H2 Hlt). lia.
    - pose proof (scaled_lt_exp _ _ _ _ H2 H1 Hlt). lia. }
  split; [|done]. pose proof (canonical_bounds _ _ H2) as (He & _).
  unfold scaled in Hs. apply Z.mul_cancel_r in Hs; [lia|].
  pose proof (Z.pow_pos_nonneg 2 (e2 + 1074)). lia.
Qed.

(** The value of what [binary_round_aux] builds, when it is a float that
    is not negative. *)
Lemma fval_finish m e :
  0 <= m -> fexp (Zdigits2 m + e) = e -> nonneg_float (finish false m e) ->
  fval (finish false m e) = m * 2 ^ (e + 1074).
Proof.
  intros Hm Hc. destruct m as [|m|m]; [done | | lia]. unfold finish.
  now destruct (e <=? emax - prec).
Qed.

(** A float above zero and an [int] are ordered as their values are. *)
Lemma int_float_le z f :
  positive_float f ->
  (num_le (NInt z) (NFloat f) = true <-> z * 2 ^ 1074 <= fval f) /\
  (num_le (NFloat f) (NInt z) = true <-> fval f <= z * 2 ^ 1074).
Proof.
  destruct f as [| | |[] m e]; try done. intros [(He & _)%canonical_bounds _].
  unfold num_le. cbn [num_compare fval]. rewrite Z_float_compare_scaled by done.
  cbn [fmap option_fmap option_map].
  destruct (Z.compare_spec (z * 2 ^ 1074) (scaled m e)); cbn [CompOpp];
    (split; split; (done || lia)).
Qed.

(** ** Thirty percent of a longer time is not shorter *)

(** The product with [0.3] rounds the exact product, counted in units
    of [2 ^ -1128]. *)
Lemma fmul_0_3_rounds mx ex :
  canonical mx ex ->
  exists m e, fmul (S754_finite false mx ex) f_0_3 = finish false m e /\
    0 <= m /\ fexp (Zdigits2 m + e) = e /\
    rounds 1128 (scaled mx ex * 5404319552844595) (m * 2 ^ (e + 1128)).
Proof.
  intros Hc. pose proof (canonical_bounds _ _ Hc) as (He & _).
  unfold fmul, f_0_3, SFmul. cbn [xorb].
  pose proof (digits2_pos_mul mx 5404319552844595) as Hd.
  change (Z.pos (digits2_pos 5404319552844595)) with 53 in Hd.
  set (P := (mx * 5404319552844595)%positive) in *.
  destruct (binary_round_aux_rounds 1128 ltac:(lia) false P (ex + -54))
    as (m & e & -> & Hm & Hce & Hr); [lia | rewrite fexp_eq; lia |].
  exists m, e. split; [done|]. split; [done|]. split; [done|].
  replace (scaled mx ex * 5404319552844595) with (Z.pos P * 2 ^ (ex + -54 + 1128));
    [done|].
  unfold scaled. subst P. rewrite Pos2Z.inj_mul.
  replace (ex + -54 + 1128) with (ex + 1074) by lia. ring.
Qed.

Lemma fmul_0_3_mono d1 d2 :
  positive_float d1 -> positive_float d2 ->
  num_le (NFloat d1) (NFloat d2) = true ->
  num_le (NFloat (fmul d1 f_0_3)) (NFloat (fmul d2 f_0_3)) = true.
Proof.
  intros H1 H2 Hle.
  destruct (fmul_0_3_below d1 H1) as [Hn1 _]. destruct (fmul_0_3_below d2 H2) as [Hn2 _].
  apply nonneg_le; [done..|].
  apply nonneg_le in Hle; [|destruct d1 as [| | |[] ? ?]; done
                           |destruct d2 as [| | |[] ? ?]; done].
  destruct d1 as [| | |[] m1 e1]; try done. destruct d2 as [| | |[] m2 e2]; try done.
  destruct H1 as [Hc1 _], H2 as [Hc2 _]. cbn [fval] in Hle.
  destruct (Z.eq_dec (scaled m1 e1) (scaled m2 e2)) as [Heq|Hne].
  { destruct (canonical_inj _ _ _ _ Hc1 Hc2 Heq) as [-> ->]. lia. }
  destruct (fmul_0_3_rounds m1 e1 Hc1) as (n1 & g1 & E1 & Hp1 & Hcan1 & Hr1).
  destruct (fmul_0_3_rounds m2 e2 Hc2) as (n2 & g2 & E2 & Hp2 & Hcan2 & Hr2).
  rewrite E1, E2 in *. rewrite !fval_finish by done.
  pose proof (canonical_bounds _ _ Hc1) as (He1 & _).
  pose proof (scaled_pos m1 e1 He1) as Hs1.
  assert (Hxy : 0 < scaled m1 e1 * 5404319552844595 < scaled m2 e2 * 5404319552844595).
  { split; [apply Z.mul_pos_pos; done | apply Z.mul_lt_mono_pos_r; [done | lia]]. }
  pose proof (rounds_mono 1128 ltac:(lia) _ _ _ _ Hxy Hr1 Hr2) as Hm.
  rewrite fexp_eq in Hcan1, Hcan2.
  replace (g1 + 1128) with (g1 + 1074 + 54) in Hm by lia.
  replace (g2 + 1128) with (g2 + 1074 + 54) in Hm by lia.
  rewrite !(Z.pow_add_r 2 _ 54), !Z.mul_assoc in Hm by lia.
  now apply Z.mul_le_mono_pos_r in Hm.
Qed.

(** ** The cap *)

Lemma nonneg_1_0 : nonneg_float f_1_0.
Proof. split; [exact canonical_1_0 | done]. Qed.

(** The smaller of [1.0] and a float that is not negative, by value. *)
Lemma py_min_fval x :
  nonneg_float x ->
  exists f, py_min (NFloat f_1_0) (NFloat x) = NFloat f /\ nonneg_float f /\
    fval f = Z.min (fval f_1_0) (fval x).
Proof.
  intros Hx. unfold py_min.
  pose proof (nonneg_lt x f_1_0 Hx nonneg_1_0) as Hlt.
  destruct (num_lt (NFloat x) (NFloat f_1_0)).
  - exists x. split; [done|]. split; [done|]. destruct Hlt as [Hlt _].
    specialize (Hlt eq_refl). lia.
  - exists f_1_0. split; [done|]. split; [exact nonneg_1_0|].
    destruct (Z.lt_ge_cases (fval x) (fval f_1_0)) as [H|H]; [|lia].
    now apply Hlt in H.
Qed.

(** The fade-in time of a longer float duration is not shorter. *)
Lemma fade_in_mono d1 d2 f1 f2 :
  positive_float d1 -> positive_float d2 ->
  num_le (NFloat d1) (NFloat d2) = true ->
  py_min (NFloat f_1_0) (NFloat (fmul d1 f_0_3)) = NFloat f1 ->
  py_min (NFloat f_1_0) (NFloat (fmul d2 f_0_3)) = NFloat f2 ->
  num_le (NFloat f1) (NFloat f2) = true.
Proof.
  intros H1 H2 Hle Hf1 Hf2.
  destruct (fmul_0_3_below d1 H1) as [Hn1 _]. destruct (fmul_0_3_below d2 H2) as [Hn2 _].
  pose proof (fmul_0_3_mono d1 d2 H1 H2 Hle) as Hm. apply nonneg_le in Hm; [|done..].
  destruct (py_min_fval _ Hn1) as (g1 & E1 & Hg1 & Hv1).
  destruct (py_min_fval _ Hn2) as (g2 & E2 & Hg2 & Hv2).
  rewrite E1 in Hf1. rewrite E2 in Hf2. injection Hf1 as <-. injection Hf2 as <-.
  apply nonneg_le; [done..|]. lia.
Qed.

(** ** A longer time does not wait less *)

(** The value of a float above zero is a float on the grid. *)
Lemma fval_is_float K f :
  1074 <= K -> positive_float f -> is_float K (fval f * 2 ^ (K - 1074)).
Proof.
  intros HK. destruct f as [| | |[] m e]; try done. intros [Hc _].
  pose proof (canonical_bounds _ _ Hc) as (He & _). cbn [fval]. unfold scaled.
  rewrite <- Z.mul_assoc, <- Z.pow_add_r by lia.
  replace (e + 1074 + (K - 1074)) with (e + K) by lia. now apply is_float_units.
Qed.

(** The difference of a float and a smaller one that is not negative is
    the exact difference, rounded. *)
Lemma fsub_rounds x y :
  positive_float x -> nonneg_float y -> SFcompare y x = Some Lt ->
  rounds 1074 (fval x - fval y) (fval (fsub x y)).
Proof.
  intros Hx Hy Hlt. destruct (fsub_below x y Hx Hy Hlt) as [Hpos _]. revert Hpos.
  destruct x as [| | |[] mx ex]; try done. destruct Hx as [Hx Hex].
  destruct y as [sy| | |[] my ey]; try done.
  { intros _. change (fsub (S754_finite false mx ex) (S754_zero sy)) with (S754_finite false mx ex).
    cbn [fval]. rewrite Z.sub_0_r, <- (Z.mul_1_r (scaled mx ex)).
    apply rounds_float; [done|]. now apply (fval_is_float 1074 (S754_finite false mx ex)). }
  destruct Hy as [Hy Hey]. rewrite canonical_compare in Hlt by done.
  injection Hlt as Hlt. change (scaled my ey < scaled mx ex) in Hlt. cbn [fval].
  pose proof (canonical_bounds _ _ Hx) as (He1 & _).
  pose proof (canonical_bounds _ _ Hy) as (He2 & _).
  unfold fsub, SFsub, scaled in *. cbn [cond_Zopp]. set (ez := Z.min ex ey).
  rewrite !shl_align_fst by lia.
  assert (Hsc : forall m e, ez <= e -> Z.pos m * 2 ^ (e + 1074) = Z.pos m * 2 ^ (e - ez) * 2 ^ (ez + 1074)).
  { intros m e He. rewrite <- Z.mul_assoc, <- Z.pow_add_r by lia. do 2 f_equal. lia. }
  rewrite (Hsc mx ex), (Hsc my ey), <- Z.mul_sub_distr_r in * by lia.
  pose proof (Z.pow_pos_nonneg 2 (ez + 1074) ltac:(lia) ltac:(lia)) as HW.
  destruct (Z.pos mx * 2 ^ (ex - ez) - Z.pos my * 2 ^ (ey - ez)) as [|M|M] eqn:HM; try nia.
  cbn [binary_normalize].
  destruct (binary_round_rounds false M ez ltac:(lia)) as (m & e & -> & Hm & Hc & Hr).
  intros Hpos. rewrite fval_finish; [done..|]. now destruct (finish false m e).
Qed.


(** Thirty percent of a float is the exact product with the float
    nearest [0.3], rounded. *)
Lemma fmul_0_3_fval d :
  positive_float d ->
  rounds 1128 (fval d * 5404319552844595) (fval (fmul d f_0_3) * 2 ^ 54).
Proof.
  intros Hd. destruct (fmul_0_3_below d Hd) as [Hn _]. revert Hn.
  destruct d as [| | |[] m e]; try done. destruct Hd as [Hc _]. cbn [fval].
  destruct (fmul_0_3_rounds m e Hc) as (n & g & -> & Hp & Hcan & Hr).
  intros Hn. rewrite fval_finish by done. rewrite fexp_eq in Hcan.
  replace (n * 2 ^ (g + 1074) * 2 ^ 54) with (n * 2 ^ (g + 1128)); [done|].
  rewrite <- Z.mul_assoc, <- Z.pow_add_r by lia. do 2 f_equal. lia.
Qed.

(** When a float grows, thirty percent of it grows by no more. *)
Lemma fmul_0_3_share d1 d2 :
  positive_float d1 -> positive_float d2 -> fval d1 < fval d2 ->
  fval (fmul d2 f_0_3) - fval (fmul d1 f_0_3) <= fval d2 - fval d1.
Proof.
  intros H1 H2 Hlt.
  pose proof (fval_is_float 1128 d1 ltac:(lia) H1) as F1.
  pose proof (fval_is_float 1128 d2 ltac:(lia) H2) as F2.
  pose proof (fmul_0_3_fval d1 H1) as R1. pose proof (fmul_0_3_fval d2 H2) as R2.
  rewrite (Z.mul_comm (fval _)) in R1. rewrite (Z.mul_comm (fval _)) in R2.
  change (1128 - 1074) with 54 in F1, F2.
  pose proof (rounds_share 1128 ltac:(lia) 5404319552844595 54 ltac:(lia) ltac:(lia)
                _ _ _ _ _ _ F1 F2 ltac:(lia) eq_refl eq_refl R1 R2) as Hs.
  lia.
Qed.

(** A float above zero is determined by its value. *)
Lemma fval_inj f g : positive_float f -> positive_float g -> fval f = fval g -> f = g.
Proof.
  destruct f as [| | |[] m1 e1]; try done. destruct g as [| | |[] m2 e2]; try done.
  intros [H1 _] [H2 _] Hv. now destruct (canonical_inj _ _ _ _ H1 H2 Hv) as [-> ->].
Qed.

(** The waiting time of a longer float duration is not shorter: the
    fade-in time grows by no more than the duration, and the difference
    is rounded to nearest. *)
Lemma wait_mono d1 d2 f1 f2 :
  positive_float d1 -> positive_float d2 ->
  num_le (NFloat d1) (NFloat d2) = true ->
  py_min (NFloat f_1_0) (NFloat (fmul d1 f_0_3)) = NFloat f1 ->
  py_min (NFloat f_1_0) (NFloat (fmul d2 f_0_3)) = NFloat f2 ->
  num_le (NFloat (fsub d1 f1)) (NFloat (fsub d2 f2)) = true.
Proof.
  intros H1 H2 Hle Hf1 Hf2.
  destruct (fade_in_below d1 f1 H1 Hf1) as [Hg1 Hlt1].
  destruct (fade_in_below d2 f2 H2 Hf2) as [Hg2 Hlt2].
  destruct (fsub_below d1 f1 H1 Hg1 Hlt1) as [Hw1 _].
  destruct (fsub_below d2 f2 H2 Hg2 Hlt2) as [Hw2 _].
  pose proof (fval_positive _ Hw1) as Hpos.
  pose proof (fsub_rounds d1 f1 H1 Hg1 Hlt1) as R1.
  pose proof (fsub_rounds d2 f2 H2 Hg2 Hlt2) as R2.
  apply nonneg_le; [now destruct (fsub d1 f1) as [| | |[] ? ?]
                   |now destruct (fsub d2 f2) as [| | |[] ? ?]|].
  apply (rounds_mono_le 1074 ltac:(lia) _ _ _ _) with (3 := R2) (2 := R1).
  assert (Hx1 : 0 < fval d1 - fval f1).
  { assert (Hl : num_lt (NFloat f1) (NFloat d1) = true)
      by (unfold num_lt, num_compare; now rewrite Hlt1).
    apply nonneg_lt in Hl; [lia | done | now destruct d1 as [| | |[] ? ?]]. }
  split; [done|].
  apply nonneg_le in Hle; [|destruct d1 as [| | |[] ? ?]; done
                           |destruct d2 as [| | |[] ? ?]; done].
  destruct (Z.eq_dec (fval d1) (fval d2)) as [Heq|Hne].
  { rewrite (fval_inj d1 d2 H1 H2 Heq), Hf2 in Hf1. injection Hf1 as ->. lia. }
  destruct (fmul_0_3_below d1 H1) as [Hn1 _]. destruct (fmul_0_3_below d2 H2) as [Hn2 _].
  pose proof (fmul_0_3_share d1 d2 H1 H2 ltac:(lia)) as Hs.
  destruct (py_min_fval _ Hn1) as (g1 & E1 & _ & Hv1).
  destruct (py_min_fval _ Hn2) as (g2 & E2 & _ & Hv2).
  rewrite E1 in Hf1. rewrite E2 in Hf2. injection Hf1 as <-. injection Hf2 as <-. lia.
Qed.

(** ** Long durations lose nothing *)

(** A difference that is on its own grid is exact. *)
Lemma fsub_exact_on_grid x y :
  positive_float x -> nonneg_float y -> SFcompare y x = Some Lt ->
  (2 ^ grid 1074 (fval x - fval y) | fval x - fval y) ->
  fval (fsub x y) = fval x - fval y.
Proof.
  intros Hx Hy Hlt Hg.
  exact (rounds_on_grid 1074 ltac:(lia) _ _ Hg (fsub_rounds x y Hx Hy Hlt)).
Qed.

(** One unit less than a float from above [1.0] to [2 ^ 53] is a float. *)
Lemma fsub_1_0_exact d :
  positive_float d -> fval f_1_0 < fval d <= 2 ^ 1127 ->
  positive_float (fsub d f_1_0) /\ fval (fsub d f_1_0) = fval d - fval f_1_0.
Proof.
  intros Hd [Hlo Hhi].
  assert (Hlt : SFcompare f_1_0 d = Some Lt).
  { pose proof (proj2 (nonneg_lt f_1_0 d nonneg_1_0
                         ltac:(destruct d as [| | |[] ? ?]; done)) Hlo) as Hl.
    unfold num_lt, num_compare in Hl. now destruct (SFcompare f_1_0 d) as [[]|]. }
  destruct (fsub_below d f_1_0 Hd nonneg_1_0 Hlt) as [Hp _]. split; [exact Hp|].
  apply fsub_exact_on_grid; [done | exact nonneg_1_0 | done |].
  pose proof (fval_is_float 1074 d ltac:(lia) Hd) as F. rewrite Z.sub_diag, Z.mul_1_r in F.
  change (fval f_1_0) with (2 ^ 1074) in *.
  assert (Hg : grid 1074 (fval d - 2 ^ 1074) <= grid 1074 (fval d))
    by (apply grid_mono; lia).
  apply Z.divide_sub_r.
  - apply (is_float_grid 1074 ltac:(lia) _ _ F). lia.
  - apply pow2_divide. split; [apply grid_nonneg; lia|]. unfold grid.
    assert (Zdigits2 (fval d - 2 ^ 1074) <= 1127); [|lia].
    pose proof (Zdigits2_bounds (fval d - 2 ^ 1074) ltac:(lia)) as [Hb _].
    destruct (Z.le_gt_cases (Zdigits2 (fval d - 2 ^ 1074)) 1127) as [|Hgt]; [done|exfalso].
    assert (2 ^ 1127 <= 2 ^ (Zdigits2 (fval d - 2 ^ 1074) - 1))
      by (apply Z.pow_le_mono_r; lia).
    lia.
Qed.

(** ** Huge durations lose the fade-in *)

(** The float of an [int] above zero is the [int], rounded. *)
Lemma float_of_Z_rounds z f :
  0 < z -> float_of_Z z = Ok f -> rounds 1074 (z * 2 ^ 1074) (fval f).
Proof.
  intros Hz Hf. destruct (float_of_Z_valid z f Hf) as [_ Hp]. specialize (Hp Hz).
  revert Hf Hp. unfold float_of_Z. destruct z as [|M|M]; try done.
  cbn [binary_normalize].
  destruct (binary_round_rounds false M 0 ltac:(lia)) as (m & e & -> & Hm & Hc & Hr).
  intros Hf Hp. assert (f = finish false m e) as ->
    by (destruct (finish false m e); congruence).
  rewrite fval_finish; [done..|]. now destruct (finish false m e).
Qed.

(** From [2 ^ 54] on, a float less [1.0] is the float again: [1.0] is a
    quarter of the unit of such a float at most. *)
Lemma fsub_1_0_absorbed d :
  positive_float d -> 2 ^ 1128 <= fval d -> fsub d f_1_0 = d.
Proof.
  intros Hd Hlo.
  assert (Hlt : SFcompare f_1_0 d = Some Lt).
  { assert (Hl : num_lt (NFloat f_1_0) (NFloat d) = true).
    { apply nonneg_lt; [exact nonneg_1_0 | now destruct d as [| | |[] ? ?]|].
      change (fval f_1_0) with (2 ^ 1074). lia. }
    unfold num_lt, num_compare in Hl. now destruct (SFcompare f_1_0 d) as [[]|]. }
  destruct (fsub_below d f_1_0 Hd nonneg_1_0 Hlt) as [Hp _].
  apply fval_inj; [done..|].
  pose proof (fval_is_float 1074 d ltac:(lia) Hd) as F. rewrite Z.sub_diag, Z.mul_1_r in F.
  apply (rounds_functional 1074 ltac:(lia) (fval d - fval f_1_0));
    [now apply fsub_rounds|].
  apply rounds_absorb; [lia | done | done |]. change (fval f_1_0) with (2 ^ 1074).
  assert (Hg : 1076 <= grid 1074 (fval d)).
  { pose proof (Zdigits2_mono (2 ^ 1128) (fval d) ltac:(lia)) as Hm.
    change (Zdigits2 (2 ^ 1128)) with 1129 in Hm. unfold grid. lia. }
  pose proof (Z.pow_le_mono_r 2 1076 _ ltac:(lia) Hg) as HP.
  change (2 ^ 1076) with (4 * 2 ^ 1074) in HP. lia.
Qed.

(** ** The least duration alone fades in over no time *)

(** Thirty percent of a float of two units of [2 ^ -1074] or more is
    above zero: that of two units is one unit, and the product is
    monotone. *)
Lemma fmul_0_3_positive d :
  positive_float d -> 2 <= fval d -> positive_float (fmul d f_0_3).
Proof.
  intros Hd H2. set (two := S754_finite false 2 (-1074)).
  assert (Ht : positive_float two) by (split; [reflexivity | lia]).
  assert (Hle : num_le (NFloat two) (NFloat d) = true)
    by (apply nonneg_le; [done | now destruct d as [| | |[] ? ?] | exact H2]).
  destruct (fmul_0_3_below d Hd) as [Hn _].
  pose proof (fmul_0_3_mono two d Ht Hd Hle) as Hm.
  apply nonneg_le in Hm; [|done..].
  change (fval (fmul two f_0_3)) with 1 in Hm.
  destruct (fmul d f_0_3) as [| | |[] ? ?]; (done || cbn in Hm; lia).
Qed.
