(* ===== verification/PyValue.v ===== *)
(** * PyValue: the values of a loaded JSON document

    [json.load] returns [None], [bool], [int], [float], [str], [list] and
    [dict] objects; [value] has one constructor for each.  This file holds
    the operations of the interpreter the two source files apply to such
    values: [isinstance], [.get], iteration, hashing, the arithmetic of
    [construct] on values that may not be numbers, and [str] with [repr];
    and a reader of string literals, with which [repr] of a string is
    proved to read back. *)

From Stdlib Require Import ZArith NArith String Ascii List.
From stdpp Require Import base tactics option list strings.
From S2P Require Import Prelude PyFloat.

#[local] Open Scope string_scope.

(** ** Values *)

Unset Elimination Schemes.
Inductive value : Type :=
| VNone
| VBool (b : bool)
| VInt (z : Z)
| VFloat (f : float)
| VStr (s : string)
| VList (l : list value)
| VDict (d : list (string * value)).
Set Elimination Schemes.

(** Induction with the hypothesis on every element of a list and on every
    bound value of a dictionary. *)
Definition value_ind (P : value -> Prop)
  (HNone : P VNone) (HBool : forall b, P (VBool b)) (HInt : forall z, P (VInt z))
  (HFloat : forall f, P (VFloat f)) (HStr : forall s, P (VStr s))
  (HList : forall l, Forall P l -> P (VList l))
  (HDict : forall d, Forall (fun kv => P kv.2) d -> P (VDict d)) :
  forall v, P v :=
  fix go (v : value) : P v :=
    match v with
    | VNone => HNone
    | VBool b => HBool b
    | VInt z => HInt z
    | VFloat f => HFloat f
    | VStr s => HStr s
    | VList l =>
        HList l ((fix go_list (l : list value) : Forall P l :=
                    match l with
                    | [] => Forall_nil_2 P
                    | x :: l' => Forall_cons_2 P x l' (go x) (go_list l')
                    end) l)
    | VDict d =>
        HDict d ((fix go_dict (d : list (string * value)) : Forall (fun kv => P kv.2) d :=
                    match d with
                    | [] => Forall_nil_2 _
                    | kv :: d' => Forall_cons_2 _ kv d' (go kv.2) (go_dict d')
                    end) d)
    end.

(** Equality of values is decidable, lists and dictionaries included. *)
#[export] Instance value_eq_dec : EqDecision value.
Proof.
  refine (fix go (v1 v2 : value) {struct v1} : Decision (v1 = v2) :=
    match v1, v2 with
    | VNone, VNone => left _
    | VBool b1, VBool b2 => cast_if (decide (b1 = b2))
    | VInt z1, VInt z2 => cast_if (decide (z1 = z2))
    | VFloat f1, VFloat f2 => cast_if (decide (f1 = f2))
    | VStr s1, VStr s2 => cast_if (decide (s1 = s2))
    | VList l1, VList l2 => cast_if (@list_eq_dec _ go l1 l2)
    | VDict d1, VDict d2 => cast_if (@list_eq_dec _ (@prod_eq_dec _ _ _ go) d1 d2)
    | _, _ => right _
    end); congruence.
Defined.

(** What [json.load] produces: every dictionary has distinct keys. *)
#[local] Set Warnings "-register-all".
Inductive value_wf : value -> Prop :=
| wf_None : value_wf VNone
| wf_Bool b : value_wf (VBool b)
| wf_Int z : value_wf (VInt z)
| wf_Float f : value_wf (VFloat f)
| wf_Str s : value_wf (VStr s)
| wf_List l : Forall value_wf l -> value_wf (VList l)
| wf_Dict d : dict_wf d -> Forall (fun kv => value_wf kv.2) d -> value_wf (VDict d).

(** ** Type tests, iteration, attribute access *)

(** [isinstance(v, str)], [isinstance(v, list)], [isinstance(v, dict)]. *)
Definition is_str (v : value) : bool := match v with VStr _ => true | _ => false end.
Definition is_list (v : value) : bool := match v with VList _ => true | _ => false end.
Definition is_dict (v : value) : bool := match v with VDict _ => true | _ => false end.

(** Lists and dictionaries have no hash: using one as a key, or testing it
    for membership in a dictionary, raises [TypeError]. *)
Definition hashable (v : value) : bool :=
  match v with VList _ | VDict _ => false | _ => true end.

(** The characters of a string, each a string of length one. *)
Fixpoint chars (s : string) : list string :=
  match s with
  | EmptyString => []
  | String c s' => String c EmptyString :: chars s'
  end.

(** [for item in v]: the elements of a list, the keys of a dictionary, the
    characters of a string; other values are not iterable. *)
Definition py_iter (v : value) : result (list value) :=
  match v with
  | VList l => Ok l
  | VDict d => Ok (VStr <$> d.*1)
  | VStr s => Ok (VStr <$> chars s)
  | _ => Raise TypeError
  end.

(** [item.get(key, default)]: only a dictionary has the method. *)
Definition py_get (item : value) (key : string) (default : value) : result value :=
  match item with
  | VDict d => Ok (dict_get key default d)
  | _ => Raise AttributeError
  end.

(** ** Arithmetic and order on values *)

(** The number a value is in arithmetic: [bool] is a subclass of [int]. *)
Definition as_num (v : value) : option num :=
  match v with
  | VBool b => Some (NInt (Z.b2z b))
  | VInt z => Some (NInt z)
  | VFloat f => Some (NFloat f)
  | _ => None
  end.

(** [a - b]: [TypeError] unless both are numbers. *)
Definition py_sub (a b : value) : result num :=
  match as_num a, as_num b with
  | Some x, Some y => num_sub x y
  | _, _ => Raise TypeError
  end.

(** ** [str] and [repr] *)

(** The part of the interpreter that is assumed: the shortest decimal
    string that reads back as the float. *)
Class PyRuntime : Type := { float_repr : float -> string }.

Definition squote : ascii := "'"%char.
Definition dquote : ascii := "034"%char.
Definition backslash : ascii := "\"%char.

Definition hex_digit (n : N) : ascii :=
  match String.get (N.to_nat n) "0123456789abcdef" with
  | Some c => c
  | None => "0"%char
  end.

Definition hex2 (c : ascii) : string :=
  let n := N_of_ascii c in
  String (hex_digit (n / 16)) (String (hex_digit (n mod 16)) "").

(** Printable code points below 256: ASCII from the space to the tilde,
    Latin-1 from 161 on except the soft hyphen. *)
Definition printable (c : ascii) : bool :=
  let n := N_of_ascii c in
  ((32 <=? n) && (n <? 127) || (161 <=? n) && negb (n =? 173))%N.

(** One character inside the quotes [q]. *)
Definition repr_char (q c : ascii) : string :=
  if Ascii.eqb c q || Ascii.eqb c backslash then String backslash (String c "")
  else if Ascii.eqb c "009"%char then "\t"
  else if Ascii.eqb c "010"%char then "\n"
  else if Ascii.eqb c "013"%char then "\r"
  else if printable c then String c ""
  else "\x" +:+ hex2 c.

Fixpoint has_char (c : ascii) (s : string) : bool :=
  match s with
  | EmptyString => false
  | String c' s' => Ascii.eqb c' c || has_char c s'
  end.

(** Double quotes are chosen when the string has a single quote and no
    double quote. *)
Definition repr_quote (s : string) : ascii :=
  if has_char squote s && negb (has_char dquote s) then dquote else squote.

Fixpoint repr_body (q : ascii) (s : string) : string :=
  match s with
  | EmptyString => ""
  | String c s' => repr_char q c +:+ repr_body q s'
  end.

(** [repr(s)] for a string. *)
Definition repr_str (s : string) : string :=
  let q := repr_quote s in
  String q (repr_body q s +:+ String q "").

(** ** Reading [repr] back

    The reader of a string literal, restricted to the escapes [repr]
    writes. *)

Definition hex_value (c : ascii) : option N :=
  let n := N_of_ascii c in
  if ((48 <=? n) && (n <=? 57))%N then Some (n - 48)%N
  else if ((97 <=? n) && (n <=? 102))%N then Some (n - 87)%N
  else None.

Definition unhex2 (h l : ascii) : option ascii :=
  a ← hex_value h; b ← hex_value l; Some (ascii_of_N (16 * a + b)).

(** The characters up to the closing quote [q], and what follows it. *)
Fixpoint read_body (q : ascii) (s : string) : option (string * string) :=
  match s with
  | EmptyString => None
  | String c s' =>
      if Ascii.eqb c q then Some (EmptyString, s')
      else if Ascii.eqb c backslash then
        match s' with
        | EmptyString => None
        | String e s'' =>
            if Ascii.eqb e "t" then prod_map (String "009") id <$> read_body q s''
            else if Ascii.eqb e "n" then prod_map (String "010") id <$> read_body q s''
            else if Ascii.eqb e "r" then prod_map (String "013") id <$> read_body q s''
            else if Ascii.eqb e "x" then
              match s'' with
              | String h (String l s3) =>
                  c' ← unhex2 h l; prod_map (String c') id <$> read_body q s3
              | _ => None
              end
            else prod_map (String e) id <$> read_body q s''
        end
      else prod_map (String c) id <$> read_body q s'
  end.

(** A whole literal: a quote, the body, the same quote, and nothing more. *)
Definition read_str (s : string) : option string :=
  match s with
  | String q s' =>
      if Ascii.eqb q squote || Ascii.eqb q dquote then
        match read_body q s' with
        | Some (r, EmptyString) => Some r
        | _ => None
        end
      else None
  | EmptyString => None
  end.

Section Str.
Context `{PyRuntime}.

(** [repr(v)]. *)
Fixpoint py_repr (v : value) : string :=
  match v with
  | VNone => "None"
  | VBool true => "True"
  | VBool false => "False"
  | VInt z => string_of_Z z
  | VFloat f => float_repr f
  | VStr s => repr_str s
  | VList l => "[" +:+ join ", " (map py_repr l) +:+ "]"
  | VDict d =>
      "{" +:+ join ", " (map (fun kv => repr_str kv.1 +:+ ": " +:+ py_repr kv.2) d)
      +:+ "}"
  end.

(** [str(v)], which is also what an f-string field without a format
    specification inserts: the string itself, [repr] for everything else. *)
Definition py_str (v : value) : string :=
  match v with
  | VStr s => s
  | _ => py_repr v
  end.

Lemma py_str_str s : py_str (VStr s) = s.
Proof. reflexivity. Qed.

Lemma py_str_not_str v : is_str v = false -> py_str v = py_repr v.
Proof. now destruct v. Qed.

Lemma py_repr_list l :
  py_repr (VList l) = "[" +:+ join ", " (py_repr <$> l) +:+ "]".
Proof. reflexivity. Qed.

End Str.

(** ** Lemmas *)

Lemma py_get_dict d key default :
  py_get (VDict d) key default = Ok (dict_get key default d).
Proof. reflexivity. Qed.

Lemma py_get_not_dict v key default :
  is_dict v = false -> py_get v key default = Raise AttributeError.
Proof. now destruct v. Qed.

(** On a loaded dictionary [get] reads the one binding of the key. *)
Lemma py_get_wf d key v default :
  value_wf (VDict d) -> (key, v) ∈ d -> py_get (VDict d) key default = Ok v.
Proof.
  intros Hwf Hin. inv Hwf. cbn. f_equal.
  apply dict_get_lookup. now apply dict_lookup_wf.
Qed.

Lemma py_sub_nums a b x y :
  as_num a = Some x -> as_num b = Some y -> py_sub a b = num_sub x y.
Proof. unfold py_sub. now intros -> ->. Qed.

Lemma py_sub_not_num_l a b : as_num a = None -> py_sub a b = Raise TypeError.
Proof. unfold py_sub. now intros ->. Qed.

Lemma py_sub_not_num_r a b : as_num b = None -> py_sub a b = Raise TypeError.
Proof. unfold py_sub. intros ->. now destruct (as_num a). Qed.

(** Subtraction can only raise [TypeError] (an operand is no number) or
    [OverflowError] (an [int] operand has no finite float). *)
Lemma py_sub_raise a b e :
  py_sub a b = Raise e -> e = TypeError \/ e = OverflowError.
Proof.
  unfold py_sub, num_sub, num_to_float, float_of_Z.
  repeat case_match; cbn; intros [=]; auto.
Qed.

(** ** [repr] reads back *)

(** One character, by cases on the 256 code points. *)
Lemma read_body_repr_char q c rest :
  q = squote \/ q = dquote ->
  read_body q (repr_char q c +:+ rest) = prod_map (String c) id <$> read_body q rest.
Proof.
  intros [-> | ->]; destruct c as [[] [] [] [] [] [] [] []]; reflexivity.
Qed.

Lemma read_body_repr_body q s rest :
  q = squote \/ q = dquote ->
  read_body q (repr_body q s +:+ String q rest) = Some (s, rest).
Proof.
  intros Hq. induction s as [|c s IH]; cbn [repr_body].
  - now destruct Hq as [-> | ->].
  - now rewrite string_app_assoc, read_body_repr_char, IH.
Qed.

Lemma repr_quote_cases s : repr_quote s = squote \/ repr_quote s = dquote.
Proof. unfold repr_quote. case_match; auto. Qed.

Lemma read_repr_str s : read_str (repr_str s) = Some s.
Proof.
  unfold repr_str, read_str.
  rewrite (read_body_repr_body _ s "" (repr_quote_cases s)).
  now destruct (repr_quote_cases s) as [-> | ->].
Qed.

(** Distinct strings have distinct [repr]s. *)
Lemma repr_str_inj s1 s2 : repr_str s1 = repr_str s2 -> s1 = s2.
Proof.
  intros H. apply (f_equal read_str) in H. rewrite !read_repr_str in H.
  congruence.
Qed.

Lemma chars_length s : length (chars s) = String.length s.
Proof. induction s; cbn; congruence. Qed.

#[export] Hint Rewrite py_get_dict @py_str_str : py.
