(* ===== verification/Templates.v ===== *)
(** * Templates: the registry and the interface of the animation library

    [TEMPLATE_MAP] ([src/src/main_generator.py], lines 20 to 33) maps twelve
    names to the constructors imported from [manim_helpers._templates]
    (lines 4 to 17).  The constructors are not part of the repository: the
    class [Engine] states what the player uses of them, the calling
    convention [template_func(content_str, timestamp)] with an object or an
    exception as outcome.  [test_engine] is an instance that computes. *)

From Stdlib Require Import ZArith String List.
From stdpp Require Import base tactics option list strings.
From S2P Require Import Prelude PyFloat PyValue.

#[local] Open Scope string_scope.

(** The imported constructors, by their names in the source. *)
Inductive template : Type :=
| manim_text_intro
| manim_text_outro
| manim_bullet_points
| manim_image_display
| manim_equation_display
| manim_step_by_step
| manim_graph_plot
| manim_highlight_text
| manim_transformation
| manim_definition_box
| manim_proof_steps
| manim_comparison.

#[export] Instance template_eq_dec : EqDecision template.
Proof. solve_decision. Defined.

Definition TEMPLATE_MAP : list (string * template) :=
  [ ("text_intro", manim_text_intro);
    ("text_outro", manim_text_outro);
    ("bullet_points", manim_bullet_points);
    ("image_display", manim_image_display);
    ("equation_display", manim_equation_display);
    ("step_by_step", manim_step_by_step);
    ("graph_plot", manim_graph_plot);
    ("highlight_text", manim_highlight_text);
    ("transformation", manim_transformation);
    ("definition_box", manim_definition_box);
    ("proof_steps", manim_proof_steps);
    ("comparison", manim_comparison) ].

(** [template_name in TEMPLATE_MAP]: the name is hashed first, which raises
    [TypeError] for a list or a dictionary; a value that is no string
    equals no key. *)
Definition template_known (template_name : value) : result bool :=
  match template_name with
  | VStr s => Ok (dict_mem s TEMPLATE_MAP)
  | _ => if hashable template_name then Ok false else Raise TypeError
  end.

(** [TEMPLATE_MAP[template_name]]. *)
Definition template_lookup (template_name : value) : result template :=
  match template_name with
  | VStr s => dict_getitem s TEMPLATE_MAP
  | _ => if hashable template_name then Raise KeyError else Raise TypeError
  end.

(** The outcome of a constructor call as the player sees it: the object, or
    an exception of which only [str(e)] is used. *)
Inductive constructed (mobject : Type) : Type :=
| Built (manim_obj : mobject)
| Failed (text : string).
Arguments Built {mobject} manim_obj.
Arguments Failed {mobject} text.

(** The animation library: the type of renderable objects, and the twelve
    constructors as one function of the template. *)
Class Engine : Type := {
  mobject : Type;
  template_func : template -> value -> value -> constructed mobject;
}.

(** An engine for running the model: an object records the call that made
    it; a constructor rejects a content that is no string. *)
Definition test_template_func (t : template) (content_str timestamp : value) :
  constructed (template * value * value) :=
  if is_str content_str then Built (t, content_str, timestamp)
  else Failed "content must be a string".

Definition test_engine : Engine :=
  {| mobject := template * value * value; template_func := test_template_func |}.

(** A runtime for running the model: every float prints as [<float>]. *)
Definition test_runtime : PyRuntime := {| float_repr := fun _ => "<float>" |}.

(** ** The registry *)

Lemma TEMPLATE_MAP_wf : dict_wf TEMPLATE_MAP.
Proof. unfold dict_wf. compute_done. Qed.

Lemma TEMPLATE_MAP_size : length TEMPLATE_MAP = 12%nat.
Proof. reflexivity. Qed.

(** The name a constructor is registered under. *)
Definition template_key (t : template) : string :=
  match t with
  | manim_text_intro => "text_intro"
  | manim_text_outro => "text_outro"
  | manim_bullet_points => "bullet_points"
  | manim_image_display => "image_display"
  | manim_equation_display => "equation_display"
  | manim_step_by_step => "step_by_step"
  | manim_graph_plot => "graph_plot"
  | manim_highlight_text => "highlight_text"
  | manim_transformation => "transformation"
  | manim_definition_box => "definition_box"
  | manim_proof_steps => "proof_steps"
  | manim_comparison => "comparison"
  end.

Lemma TEMPLATE_MAP_key name t :
  dict_lookup name TEMPLATE_MAP = Some t <-> name = template_key t.
Proof.
  split; [|intros ->; now destruct t].
  unfold TEMPLATE_MAP.
  repeat (rewrite dict_lookup_cons; case_decide; [intros [= <-]; now subst|]).
  discriminate.
Qed.

(** Every constructor is registered, under exactly one name. *)
Lemma TEMPLATE_MAP_surjective t : dict_lookup (template_key t) TEMPLATE_MAP = Some t.
Proof. now apply TEMPLATE_MAP_key. Qed.

(** C40: names and constructors round-trip through the registry.
    [TEMPLATE_MAP] has twelve distinct keys; [TEMPLATE_MAP[name]] for the
    name a constructor is registered under is that constructor, and a
    lookup that returns a constructor was made with a string, the name of
    that constructor: the registry is a bijection between its twelve names
    and the twelve constructors. *)
Theorem TEMPLATE_MAP_roundtrip :
  dict_wf TEMPLATE_MAP /\ length TEMPLATE_MAP = 12%nat /\
  (forall t, template_lookup (VStr (template_key t)) = Ok t) /\
  (forall name t, template_lookup name = Ok t -> name = VStr (template_key t)).
Proof.
  split; [apply TEMPLATE_MAP_wf|]. split; [reflexivity|]. split.
  - intros t. cbn. unfold dict_getitem. now rewrite TEMPLATE_MAP_surjective.
  - intros name t. destruct name as [| | | |s| |]; try discriminate.
    cbn. unfold dict_getitem.
    destruct (dict_lookup s TEMPLATE_MAP) as [t'|] eqn:E; intros [= ->].
    apply TEMPLATE_MAP_key in E. now subst.
Qed.

(** A name that passed the membership test has a constructor. *)
Lemma template_lookup_known name :
  template_known name = Ok true -> exists t, template_lookup name = Ok t.
Proof.
  destruct name; cbn; try (intros [=]; fail); try (case_match; intros [=]; fail).
  intros [= Hm]. apply dict_getitem_mem in Hm as (t & Ht & _). eauto.
Qed.

(** The membership test raises exactly on an unhashable name. *)
Lemma template_known_raise name e :
  template_known name = Raise e <-> hashable name = false /\ e = TypeError.
Proof.
  destruct name; cbn; split; try (intros [=]; fail); try (intros [[=] _]; fail).
  all: try (intros [= <-]; done); intros [_ ->]; done.
Qed.
