(* ===== verification/PyRead.v ===== *)
(** * PyRead: what [repr] prints reads back

    [str] and the f-strings of [src/src/main_generator.py] print the
    objects of a timeline with [repr] ([PyValue.py_repr]).  This file
    holds a reader of that notation: the keywords, decimal integers,
    string literals, and lists and dictionaries of them.  The reader
    takes a prefix of its input and returns the rest, so that the reader
    of a list calls it on each element.  Its fuel bounds the nesting and
    the number of elements; [size] of the value is enough.

    The theorem is the round trip: on a value without floats, reading
    [repr] gives the value back, hence [repr] tells such values apart.
    [repr] of a float is left to the interpreter ([float_repr]), so a
    value that holds one is outside the theorem. *)

From Stdlib Require Import ZArith NArith Lia String Ascii List DecimalString.
From stdpp Require Import base tactics option list strings.
From S2P Require Import Prelude PyFloat PyValue Templates.

#[local] Open Scope string_scope.

(** ** Prefixes *)

(** The input without the prefix [p], when it starts with [p]. *)
Fixpoint strip_prefix (p s : string) : option string :=
  match p, s with
  | EmptyString, _ => Some s
  | String a p', String b s' => if Ascii.eqb a b then strip_prefix p' s' else None
  | String _ _, EmptyString => None
  end.

(** The first character of [s] is [c]. *)
Definition starts_with (c : ascii) (s : string) : bool :=
  match s with
  | String c' _ => Ascii.eqb c c'
  | EmptyString => false
  end.

(** ** Integers *)

Definition is_digit (c : ascii) : bool :=
  ((48 <=? N_of_ascii c) && (N_of_ascii c <=? 57))%N.

(** The longest prefix of digits, and what follows it. *)
Fixpoint span_digits (s : string) : string * string :=
  match s with
  | String c s' =>
      if is_digit c then prod_map (String c) id (span_digits s') else ("", s)
  | EmptyString => ("", "")
  end.

(** An optional minus sign and at least one digit. *)
Definition read_int (s : string) : option (Z * string) :=
  let '(sign, s') :=
    match strip_prefix "-" s with
    | Some s' => ("-", s')
    | None => ("", s)
    end in
  let '(d, r) := span_digits s' in
  if decide (d = "") then None else z ← Z_of_string (sign +:+ d); Some (z, r).

(** What may follow a numeral: anything but a digit. *)
Definition ok_rest (r : string) : bool :=
  match r with
  | String c _ => negb (is_digit c)
  | EmptyString => true
  end.

(** ** Atoms *)

(** A string literal at the start of the input. *)
Definition read_lit (s : string) : option (string * string) :=
  match s with
  | String q s' =>
      if Ascii.eqb q squote || Ascii.eqb q dquote then read_body q s' else None
  | EmptyString => None
  end.

Definition read_kw (kw : string) (v : value) (s : string) : option (value * string) :=
  r ← strip_prefix kw s; Some (v, r).

(** The first character tells which atom follows. *)
Definition read_atom (s : string) : option (value * string) :=
  if starts_with "N" s then read_kw "None" VNone s
  else if starts_with "T" s then read_kw "True" (VBool true) s
  else if starts_with "F" s then read_kw "False" (VBool false) s
  else if starts_with squote s || starts_with dquote s then
    prod_map VStr id <$> read_lit s
  else prod_map VInt id <$> read_int s.

(** ** Sequences *)

Section Seq.
Context {A : Type} (rd : string -> option (A * string)) (close : ascii).

(** One element or more, with [", "] between them, up to [close]. *)
Fixpoint read_items (m : nat) (s : string) : option (list A * string) :=
  match m with
  | O => None
  | S m =>
      '(x, r) ← rd s;
      match strip_prefix ", " r with
      | Some r' => prod_map (cons x) id <$> read_items m r'
      | None => r' ← strip_prefix (String close "") r; Some ([x], r')
      end
  end.

(** The elements after the opening bracket, up to [close]. *)
Definition read_seq (m : nat) (s : string) : option (list A * string) :=
  match strip_prefix (String close "") s with
  | Some r => Some ([], r)
  | None => read_items m s
  end.

End Seq.

(** ** Values *)

(** An entry of a dictionary: the key, a colon, the value. *)
Definition read_entry (rd : string -> option (value * string)) (s : string) :
    option ((string * value) * string) :=
  '(k, r) ← read_lit s;
  r' ← strip_prefix ": " r;
  '(v, r'') ← rd r';
  Some ((k, v), r'').

Fixpoint read_value (n : nat) (s : string) : option (value * string) :=
  match n with
  | O => None
  | S n =>
      match strip_prefix "[" s, strip_prefix "{" s with
      | Some r, _ => prod_map VList id <$> read_seq (read_value n) "]" n r
      | None, Some r =>
          prod_map VDict id <$> read_seq (read_entry (read_value n)) "}" n r
      | None, None => read_atom s
      end
  end.

(** The values the reader is for: those that hold no float. *)
Fixpoint float_free (v : value) : bool :=
  match v with
  | VFloat _ => false
  | VList l => forallb float_free l
  | VDict d => forallb (fun kv => float_free kv.2) d
  | _ => true
  end.

(** The fuel that reads a value: one for each value inside it. *)
Fixpoint size (v : value) : nat :=
  match v with
  | VList l => S (list_sum (map size l))
  | VDict d => S (list_sum (map (fun kv => size kv.2) d))
  | _ => 1
  end.

(** The whole input as one value; its length is fuel enough. *)
Definition read_repr (s : string) : option value :=
  match read_value (String.length s) s with
  | Some (v, EmptyString) => Some v
  | _ => None
  end.

(** ** Numerals read back *)

Lemma strip_prefix_app p r : strip_prefix p (p +:+ r) = Some r.
Proof.
  induction p as [|c p IH]; [reflexivity|].
  rewrite string_app_cons. cbn. now rewrite Ascii.eqb_refl.
Qed.

Lemma span_digits_uint d rest :
  ok_rest rest = true ->
  span_digits (NilEmpty.string_of_uint d +:+ rest) = (NilEmpty.string_of_uint d, rest).
Proof.
  intros Hr. induction d as [|d IH|d IH|d IH|d IH|d IH|d IH|d IH|d IH|d IH|d IH];
    cbn [NilEmpty.string_of_uint]; rewrite ?string_app_cons; cbn [span_digits];
    rewrite ?IH; try done.
  rewrite string_app_nil_l. destruct rest as [|c r]; [done|].
  cbn in *. now destruct (is_digit c).
Qed.

(** The numeral of a natural number: digits, one at least. *)
Lemma string_of_uint_head d :
  exists c t, NilZero.string_of_uint d = String c t /\ is_digit c = true.
Proof. destruct d; cbn; eauto. Qed.

Lemma span_digits_numeral d rest :
  ok_rest rest = true ->
  span_digits (NilZero.string_of_uint d +:+ rest) = (NilZero.string_of_uint d, rest).
Proof.
  intros Hr. destruct d; try apply (span_digits_uint _ _ Hr).
  apply (span_digits_uint (Decimal.D0 Decimal.Nil) _ Hr).
Qed.

Lemma is_digit_not_minus c : is_digit c = true -> Ascii.eqb "-" c = false.
Proof. destruct c as [[] [] [] [] [] [] [] []]; done. Qed.

(** The numeral [str] prints for an integer, followed by something that
    is not a digit, reads back as the integer. *)
Lemma read_int_string_of_Z z rest :
  ok_rest rest = true -> read_int (string_of_Z z +:+ rest) = Some (z, rest).
Proof.
  intros Hr. pose proof (string_of_Z_roundtrip z) as Hz. revert Hz.
  unfold string_of_Z, read_int.
  destruct (Z.to_int z) as [d|d]; cbn [NilZero.string_of_int]; intros Hz;
    destruct (string_of_uint_head d) as (c & t & Hd & Hc).
  - replace (strip_prefix "-" (NilZero.string_of_uint d +:+ rest)) with (@None string)
      by (rewrite Hd, string_app_cons; cbn [strip_prefix]; now rewrite (is_digit_not_minus c Hc)).
    rewrite (span_digits_numeral d rest Hr), decide_False by now rewrite Hd.
    now rewrite string_app_nil_l, Hz.
  - rewrite string_app_cons. cbn [strip_prefix Ascii.eqb Bool.eqb].
    rewrite (span_digits_numeral d rest Hr), decide_False by now rewrite Hd.
    now rewrite string_app_cons, string_app_nil_l, Hz.
Qed.

(** A numeral starts with a digit or the minus sign. *)
Definition leading (c : ascii) : bool := is_digit c || Ascii.eqb "-" c.

Lemma string_of_Z_head z :
  exists c t, string_of_Z z = String c t /\ leading c = true.
Proof.
  unfold string_of_Z, leading.
  destruct (Z.to_int z) as [d|d]; cbn [NilZero.string_of_int].
  - destruct (string_of_uint_head d) as (c & t & -> & Hc).
    exists c, t. now rewrite Hc.
  - eexists _, _. split; [reflexivity | done].
Qed.

(** ** Atoms read back *)

Lemma read_lit_repr s rest : read_lit (repr_str s +:+ rest) = Some (s, rest).
Proof.
  unfold repr_str, read_lit. rewrite string_app_cons, string_app_assoc, string_app_cons.
  rewrite string_app_nil_l, (read_body_repr_body _ s rest (repr_quote_cases s)).
  now destruct (repr_quote_cases s) as [-> | ->].
Qed.

(** The first character decides: a digit or a minus sign starts a
    numeral, a quote starts a literal. *)
Lemma read_value_leading n c t :
  leading c = true ->
  read_value (S n) (String c t) = prod_map VInt id <$> read_int (String c t).
Proof. destruct c as [[] [] [] [] [] [] [] []]; done. Qed.

Lemma read_value_quote n s rest :
  read_value (S n) (repr_str s +:+ rest) = Some (VStr s, rest).
Proof.
  transitivity (prod_map VStr id <$> read_lit (repr_str s +:+ rest)).
  - unfold repr_str. rewrite string_app_cons.
    now destruct (repr_quote_cases s) as [-> | ->].
  - now rewrite read_lit_repr.
Qed.

(** ** Sequences read back *)

Section SeqFacts.
Context {A : Type} (show : A -> string) (rd : string -> option (A * string)).
Context (close : ascii).
Hypothesis close_not_digit : is_digit close = false.
Hypothesis close_not_comma : Ascii.eqb "," close = false.

(** [rd] reads what [show] prints of [x], and that does not start with
    the closing bracket. *)
Definition reads (x : A) : Prop :=
  (forall r, ok_rest r = true -> rd (show x +:+ r) = Some (x, r)) /\
  exists c t, show x = String c t /\ Ascii.eqb close c = false.

Lemma read_items_join l m rest :
  Forall reads l -> l <> [] -> length l <= m ->
  read_items rd close m (join ", " (show <$> l) +:+ String close rest) = Some (l, rest).
Proof.
  revert m. induction l as [|x [|y l] IH]; intros [|m] Hl Hne Hm;
    try done; try (cbn in Hm; lia); inversion_clear Hl as [|? ? [Hx _] Hl'].
  - cbn [fmap list_fmap]. rewrite join_singleton. cbn [read_items].
    rewrite Hx by (cbn; now rewrite close_not_digit).
    cbn [mbind option_bind strip_prefix].
    now rewrite close_not_comma, Ascii.eqb_refl.
  - rewrite !fmap_cons, join_cons, !string_app_assoc. cbn [read_items].
    rewrite Hx by done. cbn [mbind option_bind]. rewrite strip_prefix_app.
    rewrite <- fmap_cons, IH; [done..|]. cbn in *. lia.
Qed.

Lemma read_seq_join l m rest :
  Forall reads l -> length l <= m ->
  read_seq rd close m (join ", " (show <$> l) +:+ String close rest) = Some (l, rest).
Proof.
  intros Hl Hm. unfold read_seq. destruct l as [|x l].
  - cbn [fmap list_fmap]. rewrite join_nil, string_app_nil_l. cbn [strip_prefix].
    now rewrite Ascii.eqb_refl.
  - replace (strip_prefix _ _) with (@None string); [now apply read_items_join|].
    inversion_clear Hl as [|? ? (_ & c & t & Hc & Hne) _].
    destruct l; rewrite !fmap_cons, ?join_cons, ?join_singleton, Hc, !string_app_cons;
      cbn [strip_prefix]; now rewrite Hne.
Qed.

End SeqFacts.

(** ** Values read back *)

Lemma leading_not_close c :
  leading c = true -> Ascii.eqb "]" c = false /\ Ascii.eqb "}" c = false.
Proof. destruct c as [[] [] [] [] [] [] [] []]; done. Qed.

Lemma size_pos v : 1 <= size v.
Proof. destruct v; cbn; lia. Qed.

(** Fuel for a sequence is fuel for its length and for each element. *)
Lemma list_sum_bound {A} (f : A -> nat) l n :
  (forall x, 1 <= f x) -> list_sum (map f l) <= n ->
  length l <= n /\ Forall (fun x => f x <= n) l.
Proof.
  intros Hf. unfold list_sum. revert n. induction l as [|x l IH]; intros n Hn; cbn in *;
    [split; [lia | constructor]|].
  pose proof (Hf x). destruct (IH (n - f x)) as [Hl Hall]; [lia|].
  split; [lia|]. constructor; [lia|]. eapply Forall_impl; [exact Hall|]. cbn. lia.
Qed.

Lemma read_value_list n t :
  read_value (S n) (String "[" t) = prod_map VList id <$> read_seq (read_value n) "]" n t.
Proof. reflexivity. Qed.

Lemma read_value_dict n t :
  read_value (S n) (String "{" t) =
  prod_map VDict id <$> read_seq (read_entry (read_value n)) "}" n t.
Proof. reflexivity. Qed.

Section Repr.
Context `{PyRuntime}.

(** What [repr] prints of one entry of a dictionary. *)
Definition repr_entry (kv : string * value) : string :=
  repr_str kv.1 +:+ ": " +:+ py_repr kv.2.

Lemma py_repr_list_app l rest :
  py_repr (VList l) +:+ rest = String "[" (join ", " (py_repr <$> l) +:+ String "]" rest).
Proof. cbn [py_repr]. now rewrite !string_app_assoc. Qed.

Lemma py_repr_dict_app d rest :
  py_repr (VDict d) +:+ rest = String "{" (join ", " (repr_entry <$> d) +:+ String "}" rest).
Proof. cbn [py_repr]. now rewrite !string_app_assoc. Qed.

(** [repr] of a value without floats starts with a character that closes
    no bracket. *)
Lemma py_repr_head v :
  float_free v = true ->
  exists c t, py_repr v = String c t /\
    Ascii.eqb "]" c = false /\ Ascii.eqb "}" c = false.
Proof.
  destruct v as [|[]|z|f|s|l|d]; try done; try (by eexists _, _).
  - intros _. destruct (string_of_Z_head z) as (c & t & Hz & Hc).
    exists c, t. split; [exact Hz | now apply leading_not_close].
  - intros _. exists (repr_quote s). eexists. split; [reflexivity|].
    now destruct (repr_quote_cases s) as [-> | ->].
Qed.

Lemma read_entry_repr rd kv r :
  rd (py_repr kv.2 +:+ r) = Some (kv.2, r) ->
  read_entry rd (repr_entry kv +:+ r) = Some (kv, r).
Proof.
  intros Hrd. unfold read_entry, repr_entry. rewrite !string_app_assoc, read_lit_repr.
  cbn [mbind option_bind]. rewrite strip_prefix_app. cbn [mbind option_bind].
  rewrite Hrd. now destruct kv.
Qed.

Lemma read_value_repr v :
  float_free v = true ->
  forall n rest, size v <= n -> ok_rest rest = true ->
    read_value n (py_repr v +:+ rest) = Some (v, rest).
Proof.
  induction v as [|[]|z|f|s|l IH|d IH] using value_ind;
    intros Hf [|n] rest Hn Hr; try done; try (cbn in Hn; lia).
  - cbn [py_repr]. destruct (string_of_Z_head z) as (c & t & Hz & Hc).
    rewrite Hz, string_app_cons, (read_value_leading _ _ _ Hc).
    now rewrite <- string_app_cons, <- Hz, read_int_string_of_Z.
  - apply read_value_quote.
  - rewrite py_repr_list_app, read_value_list.
    cbn in Hn, Hf. apply Is_true_true_2, forallb_True in Hf.
    destruct (list_sum_bound size l n size_pos) as [Hl Hs]; [lia|].
    rewrite (read_seq_join py_repr (read_value n) "]" eq_refl eq_refl l n rest); [done| |done].
    rewrite Forall_forall in IH, Hf, Hs. apply Forall_forall. intros x Hx. split.
    + intros r Hrr. apply IH; auto. now apply Is_true_true_1, Hf.
    + destruct (py_repr_head x) as (c & t & Hc & Hne & _); [now apply Is_true_true_1, Hf|].
      eauto.
  - rewrite py_repr_dict_app, read_value_dict.
    cbn in Hn, Hf. apply Is_true_true_2, forallb_True in Hf.
    destruct (list_sum_bound (fun kv => size kv.2) d n) as [Hl Hs];
      [intros; apply size_pos | lia |].
    rewrite (read_seq_join repr_entry (read_entry (read_value n)) "}" eq_refl eq_refl d n rest);
      [done| |done].
    rewrite Forall_forall in IH, Hf, Hs. apply Forall_forall. intros kv Hx. split.
    + intros r Hrr. apply read_entry_repr, IH; auto. now apply Is_true_true_1, Hf.
    + exists (repr_quote kv.1). eexists. split; [reflexivity|].
      now destruct (repr_quote_cases kv.1) as [-> | ->].
Qed.

(** ** The length of the text is fuel enough *)

Lemma list_sum_le {A} (f g : A -> nat) l :
  Forall (fun x => f x <= g x) l -> list_sum (map f l) <= list_sum (map g l).
Proof. unfold list_sum. induction 1; cbn; lia. Qed.

Lemma join_fmap_length {A} (f : A -> nat) (show : A -> string) sep l :
  Forall (fun x => f x <= String.length (show x)) l ->
  list_sum (map f l) <= String.length (join sep (show <$> l)).
Proof.
  intros Hl. etrans; [apply (list_sum_le _ _ _ Hl)|].
  rewrite join_length, <- list_fmap_compose. apply Nat.le_add_r.
Qed.

Lemma size_le_length v :
  float_free v = true -> size v <= String.length (py_repr v).
Proof.
  induction v as [|[]|z|f|s|l IH|d IH] using value_ind; intros Hf;
    try done; try (cbn; lia).
  - destruct (string_of_Z_head z) as (c & t & Hz & _). cbn. rewrite Hz. cbn. lia.
  - rewrite <- (string_app_nil_r (py_repr _)), py_repr_list_app.
    cbn [size String.length]. rewrite string_app_length. cbn [String.length].
    cbn in Hf. apply Is_true_true_2, forallb_True in Hf.
    enough (list_sum (map size l) <= String.length (join ", " (py_repr <$> l))) by lia.
    apply join_fmap_length.
    rewrite Forall_forall in IH, Hf. apply Forall_forall. intros x Hx.
    now apply IH, Is_true_true_1, Hf.
  - rewrite <- (string_app_nil_r (py_repr _)), py_repr_dict_app.
    cbn [size String.length]. rewrite string_app_length. cbn [String.length].
    cbn in Hf. apply Is_true_true_2, forallb_True in Hf.
    enough (list_sum (map (fun kv => size kv.2) d)
            <= String.length (join ", " (repr_entry <$> d))) by lia.
    apply join_fmap_length.
    rewrite Forall_forall in IH, Hf. apply Forall_forall. intros kv Hx.
    unfold repr_entry. rewrite !string_app_length.
    etrans; [now apply IH, Is_true_true_1, Hf | lia].
Qed.

Lemma read_repr_py_repr v : float_free v = true -> read_repr (py_repr v) = Some v.
Proof.
  intros Hf. unfold read_repr.
  pose proof (read_value_repr v Hf _ "" (size_le_length v Hf) eq_refl) as Hr.
  rewrite string_app_nil_r in Hr. now rewrite Hr.
Qed.

(** C39: [repr] reads back.  For a value that holds no float (a [None],
    a [bool], an [int], a string, or a list or dictionary of such values,
    nested to any depth), reading the text [repr] prints gives the value
    back: the numeral of an [int], the escapes of a string, the brackets,
    commas and colons of lists and dictionaries lose nothing, and the
    length of the text is fuel enough for the reader.  So [repr], and
    with it [str] on everything that is no string, tells such values
    apart. *)
Theorem py_repr_roundtrip v :
  float_free v = true ->
  read_repr (py_repr v) = Some v /\
  forall v', float_free v' = true -> py_repr v = py_repr v' -> v = v'.
Proof.
  intros Hf. split; [now apply read_repr_py_repr|].
  intros v' Hf' E. apply (f_equal read_repr) in E.
  rewrite !read_repr_py_repr in E by done. congruence.
Qed.

End Repr.

(** ** Concrete texts *)

#[local] Existing Instance test_runtime.

(** A list of every kind of value but a float. *)
Definition sample : value :=
  VList [VInt (-12); VStr "it's"; VNone; VBool true; VList [];
         VDict [("k", VList [VInt 0; VBool false]); ("a b", VDict [])]].

Lemma sample_repr :
  py_repr sample =
  "[-12, " +:+ String dquote ("it's" +:+ String dquote
    ", None, True, [], {'k': [0, False], 'a b': {}}]").
Proof. reflexivity. Qed.

(** Texts [repr] does not print are not read; two floats print alike
    with this runtime, so the theorem has nothing to say of them. *)
Lemma read_repr_rejects :
  read_repr "[1, ]" = None /\ read_repr "[1,2]" = None /\
  read_repr "{'k' 1}" = None /\ read_repr "'open" = None /\
  read_repr "1 " = None /\ read_repr "" = None /\
  py_repr (VFloat f_1_0) = py_repr (VFloat f_0_3).
Proof. repeat split; reflexivity. Qed.

Lemma py_repr_roundtrip_witness :
  read_repr (py_repr sample) = Some sample /\
  forall v', float_free v' = true -> py_repr sample = py_repr v' -> sample = v'.
Proof. exact (py_repr_roundtrip sample eq_refl). Defined.
