(* ===== verification/Normalizer.v ===== *)
(** * Normalizer: [convert_content_to_string]

    [src/src/main_generator.py], lines 36 to 58: the content of a timeline
    entry becomes the argument of a template constructor, by the shape of
    the value.  The function is written branch by branch as the source has
    it; the subscripts of the dictionary branches are kept as subscripts
    (they can raise [KeyError] in Python), and that they never do is a
    theorem. *)

From Stdlib Require Import ZArith String Ascii List.
From stdpp Require Import base tactics option list strings.
From S2P Require Import Prelude PyFloat PyValue.

#[local] Open Scope string_scope.

(** The one-character string of a line feed. *)
Definition newline : string := String "010"%char "".

Section Normalizer.
Context `{PyRuntime}.

Definition convert_content_to_string (content : value) : result value :=
  match content with
  | VStr _ => Ok content
  | VList l => Ok (VStr (join newline (py_str <$> l)))
  | VDict d =>
      if dict_mem "left" d && dict_mem "right" d then
        l <- dict_getitem "left" d ;;
        r <- dict_getitem "right" d ;;
        Ok (VStr (py_str l +:+ "|" +:+ py_str r))
      else if dict_mem "equation" d then
        dict_getitem "equation" d
      else if dict_mem "from" d && dict_mem "to" d then
        f <- dict_getitem "from" d ;;
        t <- dict_getitem "to" d ;;
        Ok (VStr (py_str f +:+ " -> " +:+ py_str t))
      else Ok (VStr (py_str content))
  | _ => Ok (VStr (py_str content))
  end.

(** ** One lemma per branch *)

Lemma convert_str s : convert_content_to_string (VStr s) = Ok (VStr s).
Proof. reflexivity. Qed.

Lemma convert_list l :
  convert_content_to_string (VList l) = Ok (VStr (join newline (py_str <$> l))).
Proof. reflexivity. Qed.

Lemma dict_mem_lookup {A} k (d : list (string * A)) v :
  dict_lookup k d = Some v -> dict_mem k d = true.
Proof. unfold dict_mem. now intros ->. Qed.

Lemma dict_getitem_lookup {A} k (d : list (string * A)) v :
  dict_lookup k d = Some v -> dict_getitem k d = Ok v.
Proof. unfold dict_getitem. now intros ->. Qed.

Lemma convert_equation d v :
  dict_mem "left" d && dict_mem "right" d = false ->
  dict_lookup "equation" d = Some v ->
  convert_content_to_string (VDict d) = Ok v.
Proof.
  intros Hlr He. cbn. rewrite Hlr, (dict_mem_lookup _ _ _ He).
  now apply dict_getitem_lookup.
Qed.

Lemma convert_other_dict d :
  dict_mem "left" d && dict_mem "right" d = false ->
  dict_mem "equation" d = false ->
  dict_mem "from" d && dict_mem "to" d = false ->
  convert_content_to_string (VDict d) = Ok (VStr (py_str (VDict d))).
Proof. intros Hlr He Hft. cbn. now rewrite Hlr, He, Hft. Qed.

Lemma convert_other v :
  is_str v = false -> is_list v = false -> is_dict v = false ->
  convert_content_to_string v = Ok (VStr (py_str v)).
Proof. now destruct v. Qed.

(** ** The table of the specification *)

(** The normaliser as section 4.2 of the specification gives it: a total
    function, the first matching shape wins. *)
Definition normalize (content : value) : value :=
  match content with
  | VStr s => VStr s
  | VList l => VStr (join newline (py_str <$> l))
  | VDict d =>
      match dict_lookup "left" d, dict_lookup "right" d with
      | Some l, Some r => VStr (py_str l +:+ "|" +:+ py_str r)
      | _, _ =>
          match dict_lookup "equation" d with
          | Some e => e
          | None =>
              match dict_lookup "from" d, dict_lookup "to" d with
              | Some f, Some t => VStr (py_str f +:+ " -> " +:+ py_str t)
              | _, _ => VStr (py_str content)
              end
          end
      end
  | _ => VStr (py_str content)
  end.

(** The function of the source never raises, and computes the table. *)
Lemma convert_content_to_string_normalize content :
  convert_content_to_string content = Ok (normalize content).
Proof.
  destruct content as [| | | | |l|d]; try reflexivity.
  cbn. unfold dict_mem, dict_getitem.
  destruct (dict_lookup "left" d), (dict_lookup "right" d),
    (dict_lookup "equation" d), (dict_lookup "from" d), (dict_lookup "to" d);
    reflexivity.
Qed.

(** The result is a string, except in the equation branch, which returns
    the value bound to [equation] whatever it is. *)
Lemma normalize_is_str content :
  is_str (normalize content) = true \/
  exists d e, content = VDict d /\ dict_lookup "equation" d = Some e /\
              normalize content = e /\
              dict_mem "left" d && dict_mem "right" d = false.
Proof.
  destruct content as [| | | | |l|d]; try (left; reflexivity).
  cbn. unfold dict_mem.
  destruct (dict_lookup "left" d) as [l|] eqn:El,
    (dict_lookup "right" d) as [r|] eqn:Er,
    (dict_lookup "equation" d) as [e|] eqn:Ee, (dict_lookup "from" d) as [f|],
    (dict_lookup "to" d) as [t|];
    first [left; reflexivity | right; exists d, e; rewrite ?El, ?Er, ?Ee; done].
Qed.

(** Normalising a string changes nothing, so normalising twice is
    normalising once whenever the first result is a string. *)
Lemma normalize_idempotent content :
  is_str (normalize content) = true ->
  normalize (normalize content) = normalize content.
Proof. destruct (normalize content); done. Qed.

(** ** The content as a tagged variant

    Section 9 of the specification proposes, for a typed implementation,
    to decode the content once into a tagged variant and to normalise by
    one exhaustive match.  [shape] is that variant, with the two cases
    the code has beyond the five the specification lists ([Arrow] and
    [Other]); [decode] looks at the value as lines 38 to 57 do, and
    [render_shape] formats each case. *)
Inductive shape : Type :=
| Text (s : string)
| Lines (items : list value)
| Pair (l r : value)
| Equation (e : value)
| Arrow (f t : value)
| Mapping (d : list (string * value))
| Other (v : value).

Definition decode (content : value) : shape :=
  match content with
  | VStr s => Text s
  | VList l => Lines l
  | VDict d =>
      match dict_lookup "left" d, dict_lookup "right" d with
      | Some l, Some r => Pair l r
      | _, _ =>
          match dict_lookup "equation" d with
          | Some e => Equation e
          | None =>
              match dict_lookup "from" d, dict_lookup "to" d with
              | Some f, Some t => Arrow f t
              | _, _ => Mapping d
              end
          end
      end
  | v => Other v
  end.

Definition render_shape (sh : shape) : value :=
  match sh with
  | Text s => VStr s
  | Lines l => VStr (join newline (py_str <$> l))
  | Pair l r => VStr (py_str l +:+ "|" +:+ py_str r)
  | Equation e => e
  | Arrow f t => VStr (py_str f +:+ " -> " +:+ py_str t)
  | Mapping d => VStr (py_str (VDict d))
  | Other v => VStr (py_str v)
  end.

(** The table is the match on the decoded content. *)
Lemma normalize_decode content :
  normalize content = render_shape (decode content).
Proof.
  destruct content as [| | | | |l|d]; try reflexivity. cbn.
  destruct (dict_lookup "left" d), (dict_lookup "right" d),
    (dict_lookup "equation" d), (dict_lookup "from" d), (dict_lookup "to" d);
    reflexivity.
Qed.

(** Only the equation case can return something that is no string. *)
Lemma render_shape_is_str sh :
  (forall e, sh <> Equation e) -> is_str (render_shape sh) = true.
Proof. destruct sh; try done. intros Hne. now destruct (Hne e). Qed.

(** ** Theorems *)

(** C24: [convert_content_to_string] never raises, and its value is the
    table of section 4.2: a string unchanged, a list joined by line feeds,
    [left|right], the equation, [from -> to], or [str] of the content, the
    first matching rule winning.  It is also the exhaustive match of
    section 9 on the content decoded into a tagged variant, once the
    variant has a case for [from]/[to] and one for the values that are
    neither strings, lists nor dictionaries. *)
Theorem convert_content_to_string_total content :
  convert_content_to_string content = Ok (normalize content) /\
  normalize content = render_shape (decode content) /\
  (is_str content = true -> normalize content = content) /\
  (forall l, content = VList l ->
     normalize content = VStr (join newline (py_str <$> l))).
Proof.
  split; [apply convert_content_to_string_normalize|].
  split; [apply normalize_decode|].
  split; [now destruct content | now intros l ->].
Qed.

(** A dictionary with the keys [left] and [right] becomes [left|right],
    whatever other keys it has. *)
Lemma convert_left_right d l r :
  dict_lookup "left" d = Some l -> dict_lookup "right" d = Some r ->
  convert_content_to_string (VDict d) = Ok (VStr (py_str l +:+ "|" +:+ py_str r)).
Proof.
  intros Hl Hr. cbn.
  rewrite (dict_mem_lookup _ _ _ Hl), (dict_mem_lookup _ _ _ Hr).
  now rewrite (dict_getitem_lookup _ _ _ Hl), (dict_getitem_lookup _ _ _ Hr).
Qed.

(** C25: the rules for dictionaries, in their order.  A dictionary with
    the keys [left] and [right] becomes [left|right], whatever other keys
    it has: the first rule wins over the equation and the transformation
    rules.  A dictionary with the keys [from] and [to], without
    [equation] and without both of [left] and [right], becomes
    [from -> to]. *)
Theorem convert_dict_rules d :
  (forall l r,
     dict_lookup "left" d = Some l -> dict_lookup "right" d = Some r ->
     convert_content_to_string (VDict d) = Ok (VStr (py_str l +:+ "|" +:+ py_str r))) /\
  (forall f t,
     dict_mem "left" d && dict_mem "right" d = false ->
     dict_mem "equation" d = false ->
     dict_lookup "from" d = Some f -> dict_lookup "to" d = Some t ->
     convert_content_to_string (VDict d) = Ok (VStr (py_str f +:+ " -> " +:+ py_str t))).
Proof.
  split; [apply convert_left_right|].
  intros f t Hlr He Hf Ht. cbn. rewrite Hlr, He.
  rewrite (dict_mem_lookup _ _ _ Hf), (dict_mem_lookup _ _ _ Ht).
  now rewrite (dict_getitem_lookup _ _ _ Hf), (dict_getitem_lookup _ _ _ Ht).
Qed.

(** C26: the type of the result.  In every branch but the equation the
    result is a string.  The equation branch returns the bound value
    itself: when that is no string, the result of the function is no
    string either, although the function is documented to convert to a
    string. *)
Theorem convert_result_type content v :
  convert_content_to_string content = Ok v ->
  ((forall d, content = VDict d ->
      dict_mem "equation" d = false \/ dict_mem "left" d && dict_mem "right" d = true) ->
   is_str v = true) /\
  (forall d e, content = VDict d ->
     dict_mem "left" d && dict_mem "right" d = false ->
     dict_lookup "equation" d = Some e -> v = e).
Proof.
  intros Hv. split.
  - rewrite convert_content_to_string_normalize in Hv. injection Hv as <-. intros Hd.
    destruct (normalize_is_str content) as [Hs|(d & e & -> & He & _ & Hlr)]; [done|].
    destruct (Hd d eq_refl) as [Hne|Hlr']; [|congruence].
    unfold dict_mem in Hne. now rewrite He in Hne.
  - intros d e -> Hlr He. rewrite (convert_equation _ _ Hlr He) in Hv. congruence.
Qed.

(** C27: the separators are not escaped.  A part that holds the separator
    moves the border between the parts, so different contents give the
    same string: a left part with a bar, a source with an arrow, an item
    of a list with a line feed.  The string does not tell what the
    content was. *)
Theorem convert_separator_ambiguous (a b c : string) :
  convert_content_to_string
    (VDict [("left", VStr (a +:+ "|" +:+ b)); ("right", VStr c)]) =
  convert_content_to_string
    (VDict [("left", VStr a); ("right", VStr (b +:+ "|" +:+ c))]) /\
  convert_content_to_string
    (VDict [("from", VStr (a +:+ " -> " +:+ b)); ("to", VStr c)]) =
  convert_content_to_string
    (VDict [("from", VStr a); ("to", VStr (b +:+ " -> " +:+ c))]) /\
  convert_content_to_string (VList [VStr (a +:+ newline +:+ b)]) =
  convert_content_to_string (VList [VStr a; VStr b]).
Proof.
  rewrite !convert_content_to_string_normalize. cbn.
  now rewrite !string_app_assoc.
Qed.

End Normalizer.

(** ** Concrete runs

    The examples of the specification.  No float is printed, so the runtime
    is irrelevant; a constant one is used. *)

Definition demo_runtime : PyRuntime := {| float_repr := fun _ => "<float>" |}.
#[local] Existing Instance demo_runtime.

Definition content_comparison : list (string * value) :=
  [("left", VStr "2x+3"); ("equation", VStr "y=x"); ("right", VStr "7")].
Definition content_transformation : list (string * value) :=
  [("from", VStr "A"); ("to", VStr "B")].
Definition content_equation : list (string * value) :=
  [("equation", VList [VStr "y"; VStr "x"]); ("from", VStr "A"); ("to", VStr "B")].

Lemma convert_dict_rules_witness :
  convert_content_to_string (VDict content_comparison) = Ok (VStr "2x+3|7") /\
  convert_content_to_string (VDict content_transformation) = Ok (VStr "A -> B").
Proof.
  split.
  - exact (proj1 (convert_dict_rules content_comparison) (VStr "2x+3") (VStr "7")
             eq_refl eq_refl).
  - exact (proj2 (convert_dict_rules content_transformation) (VStr "A") (VStr "B")
             eq_refl eq_refl eq_refl eq_refl).
Defined.

Lemma convert_result_type_witness :
  is_str (VStr "2x+3|7") = true /\
  (forall d e, VDict content_equation = VDict d ->
     dict_mem "left" d && dict_mem "right" d = false ->
     dict_lookup "equation" d = Some e -> VList [VStr "y"; VStr "x"] = e).
Proof.
  split.
  - apply (convert_result_type (VDict content_comparison) (VStr "2x+3|7") eq_refl).
    intros d [= <-]. right. reflexivity.
  - exact (proj2 (convert_result_type (VDict content_equation)
                    (VList [VStr "y"; VStr "x"]) eq_refl)).
Defined.

(** Two contents, one string. *)
Lemma separator_example :
  convert_content_to_string (VDict [("left", VStr "a|b"); ("right", VStr "c")]) =
  convert_content_to_string (VDict [("left", VStr "a"); ("right", VStr "b|c")]).
Proof. reflexivity. Qed.
