(* ===== verification/Player.v ===== *)
(** * Player: [ManimSceneGenerator.construct]

    [src/src/main_generator.py], lines 61 to 121.  [scene] is the state of
    a generator: its attributes [json_path], [template_data] and
    [current_objects], and [output], the calls it has made to the engine
    ([play], [wait]) and to [print], oldest first.  [construct_item] is the
    body of the loop of [construct], statement by statement; [continue] is
    its early return. *)

From Stdlib Require Import ZArith Lia String Ascii List SpecFloat.
From stdpp Require Import base tactics option list strings.
From S2P Require Import Prelude PyFloat FloatFacts FloatRound FloatOrder FloatTimes.
From S2P Require Import PyValue Templates Normalizer.

#[local] Open Scope string_scope.
#[local] Open Scope list_scope.

Section Player.
Context {RT : PyRuntime} {EN : Engine}.

(** ** Output and state *)

(** [manim.FadeOut] of the objects on screen and [manim.FadeIn] of one. *)
Inductive animation : Type :=
| FadeOut (mobjects : list mobject)
| FadeIn (manim_obj : mobject).

(** [self.play(animation, run_time=...)], [self.wait(duration)] and
    [print(text)]. *)
Inductive event : Type :=
| Play (a : animation) (run_time : num)
| Wait (duration : num)
| Print (text : string).

Record scene : Type := Scene {
  json_path : string;
  template_data : value;
  current_objects : list mobject;
  output : list event;
}.

Definition emit (e : event) (s : scene) : scene :=
  Scene (json_path s) (template_data s) (current_objects s) (output s ++ [e]).

Definition with_current_objects (l : list mobject) (s : scene) : scene :=
  Scene (json_path s) (template_data s) l (output s).

Definition play (a : animation) (run_time : num) : M scene unit :=
  modify (emit (Play a run_time)).
Definition wait (duration : num) : M scene unit := modify (emit (Wait duration)).
Definition print (text : string) : M scene unit := modify (emit (Print text)).
Definition set_current_objects (l : list mobject) : M scene unit :=
  modify (with_current_objects l).

(** The truth value of a list: it is not empty. *)
Definition truthy {A} (l : list A) : bool :=
  match l with [] => false | _ => true end.

(** ** The two times of an entry *)

(** [min(1.0, duration * 0.3)], line 110. *)
Definition fade_in_time (duration : num) : result num :=
  x <- num_mul duration (NFloat f_0_3) ;;
  Ok (py_min (NFloat f_1_0) x).

(** [max(0, duration - fade_in_time)], line 111. *)
Definition wait_time (duration fade_in : num) : result num :=
  y <- num_sub duration fade_in ;;
  Ok (py_max (NInt 0) y).

(** ** The player *)

(** The fade-out of what is on screen, lines 106 to 108. *)
Definition fade_out_current : M scene unit :=
  s <- get ;;
  if truthy (current_objects s) then
    play (FadeOut (current_objects s)) (NFloat f_0_5) ;;
    set_current_objects []
  else mret tt.

(** The two warnings, lines 93 and 103. *)
Definition warning_not_found (template_name : value) : string :=
  "Warning: Template '" +:+ py_str template_name +:+ "' not found in TEMPLATE_MAP".
Definition warning_error (template_name : value) (e : string) : string :=
  "Error creating object for template '" +:+ py_str template_name +:+ "': " +:+ e.

(** An entry whose object was built is shown, lines 106 to 118: what is on
    screen fades out, the object fades in, the player waits, and the object
    becomes what is on screen. *)
Definition render (manim_obj : mobject) (duration : num) : M scene unit :=
  fade_out_current ;;
  fade_in <- lift (fade_in_time duration) ;;
  wait_t <- lift (wait_time duration fade_in) ;;
  play (FadeIn manim_obj) fade_in ;;
  (if num_gt wait_t (NInt 0) then wait wait_t else mret tt) ;;
  set_current_objects [manim_obj].

(** The body of the loop, lines 82 to 118. *)
Definition construct_item (item : value) : M scene unit :=
  template_name <- lift (py_get item "templateName" VNone) ;;
  content <- lift (py_get item "content" VNone) ;;
  start_time <- lift (py_get item "startTime" (VInt 0)) ;;
  end_time <- lift (py_get item "endTime" (VInt 0)) ;;
  timestamp <- lift (py_get item "timestamp" start_time) ;;
  duration <- lift (py_sub end_time start_time) ;;
  if num_le duration (NInt 0) then mret tt else
  known <- lift (template_known template_name) ;;
  if negb known then print (warning_not_found template_name) else
  template <- lift (template_lookup template_name) ;;
  content_str <- lift (convert_content_to_string content) ;;
  match template_func template content_str timestamp with
  | Failed e => print (warning_error template_name e)
  | Built manim_obj => render manim_obj duration
  end.

(** [construct], lines 80 to 121. *)
Definition construct : M scene unit :=
  s <- get ;;
  items <- lift (py_iter (template_data s)) ;;
  for_each construct_item items ;;
  s' <- get ;;
  if truthy (current_objects s') then
    play (FadeOut (current_objects s')) (NFloat f_0_5)
  else mret tt.

(** ** Reading the output *)

(** The state after more output. *)
Definition emits (es : list event) (s : scene) : scene :=
  Scene (json_path s) (template_data s) (current_objects s) (output s ++ es).

(** What fading out the objects [l] on screen adds to the output. *)
Definition fade_out_events (l : list mobject) : list event :=
  if truthy l then [Play (FadeOut l) (NFloat f_0_5)] else [].

(** What waiting [w] adds to the output. *)
Definition wait_events (w : num) : list event :=
  if num_gt w (NInt 0) then [Wait w] else [].

(** The fields of an entry as the loop reads them, lines 82 to 87. *)
Definition item_name (d : list (string * value)) : value :=
  dict_get "templateName" VNone d.
Definition item_content (d : list (string * value)) : value :=
  dict_get "content" VNone d.
Definition item_timestamp (d : list (string * value)) : value :=
  dict_get "timestamp" (dict_get "startTime" (VInt 0) d) d.
Definition item_duration (d : list (string * value)) : result num :=
  py_sub (dict_get "endTime" (VInt 0) d) (dict_get "startTime" (VInt 0) d).

Implicit Types (s : scene) (d : list (string * value)) (es : list event).

Lemma emit_emits e s : emit e s = emits [e] s.
Proof. reflexivity. Qed.

Lemma emits_nil s : emits [] s = s.
Proof. destruct s. unfold emits. cbn. now rewrite app_nil_r. Qed.

Lemma emits_emits es1 es2 s : emits es2 (emits es1 s) = emits (es1 ++ es2) s.
Proof. unfold emits. cbn. now rewrite app_assoc. Qed.

Lemma with_current_objects_emits l es s :
  with_current_objects l (emits es s) = emits es (with_current_objects l s).
Proof. reflexivity. Qed.

Lemma with_current_objects_twice l l' s :
  with_current_objects l (with_current_objects l' s) = with_current_objects l s.
Proof. reflexivity. Qed.

Lemma with_current_objects_id s : with_current_objects (current_objects s) s = s.
Proof. now destruct s. Qed.

Lemma current_objects_emits es s : current_objects (emits es s) = current_objects s.
Proof. reflexivity. Qed.

Lemma output_emits es s : output (emits es s) = output s ++ es.
Proof. reflexivity. Qed.

Lemma output_with_current_objects l s : output (with_current_objects l s) = output s.
Proof. reflexivity. Qed.

Lemma current_objects_with l s : current_objects (with_current_objects l s) = l.
Proof. reflexivity. Qed.

(** Fading out leaves nothing on screen. *)
Lemma fade_out_current_run s :
  fade_out_current s =
  (Ok tt, with_current_objects [] (emits (fade_out_events (current_objects s)) s)).
Proof.
  unfold fade_out_current, fade_out_events. run_simpl.
  destruct s as [p td [|o l] out]; cbn; [|reflexivity].
  unfold with_current_objects, emits. cbn. now rewrite app_nil_r.
Qed.

(** ** The two times *)

(** The fade-in time is [min(1.0, x)] for the float product [x]. *)
Lemma fade_in_time_cases duration f :
  fade_in_time duration = Ok f ->
  exists x, num_mul duration (NFloat f_0_3) = Ok (NFloat x) /\
            f = py_min (NFloat f_1_0) (NFloat x).
Proof.
  unfold fade_in_time. destruct (num_mul duration (NFloat f_0_3)) as [x|] eqn:E;
    cbn; [|discriminate].
  destruct (num_mul_float_r _ _ _ E) as [y ->]. intros [= <-]. eauto.
Qed.

(** The fade-in time is a float: [1.0] or the product. *)
Lemma fade_in_time_float duration f :
  fade_in_time duration = Ok f -> exists x, f = NFloat x.
Proof.
  intros (x & _ & ->)%fade_in_time_cases. unfold py_min. case_match; eauto.
Qed.

(** The waiting time is [max(0, y)] for the difference [y]. *)
Lemma wait_time_cases duration f w :
  wait_time duration f = Ok w ->
  exists y, num_sub duration f = Ok y /\ w = py_max (NInt 0) y.
Proof.
  unfold wait_time. destruct (num_sub duration f) as [y|]; cbn; [|discriminate].
  intros [= <-]. eauto.
Qed.

(** When the fade-in time is defined the waiting time is: the conversion of
    the duration that the product made does not fail in the difference. *)
Lemma wait_time_defined duration f :
  fade_in_time duration = Ok f -> exists w, wait_time duration f = Ok w.
Proof.
  intros Hf. destruct (fade_in_time_float _ _ Hf) as [x ->].
  unfold fade_in_time, wait_time in *. destruct duration as [z|g]; cbn in *.
  - destruct (float_of_Z z); cbn in *; [eauto | discriminate].
  - eauto.
Qed.

(** The fade-in time of a duration above zero is a float of positive
    sign and is not NaN: it is [1.0], or a product that is below [1.0]. *)
Lemma fade_in_time_sign duration f :
  num_le duration (NInt 0) = false -> fade_in_time duration = Ok f ->
  exists x, f = NFloat x /\ has_sign false x = true /\ x <> S754_nan.
Proof.
  intros Hd (x & Hx & ->)%fade_in_time_cases.
  apply num_mul_float_inv in Hx as (d & Hd' & ->).
  pose proof (fmul_sign false false d f_0_3 (positive_sign _ _ Hd Hd') eq_refl) as Hs.
  unfold py_min. destruct (num_lt _ _) eqn:Hlt; [|by exists f_1_0].
  eexists. split; [reflexivity|]. split; [exact Hs|]. intros E.
  now rewrite E in Hlt.
Qed.

(** The fade-in time of a float, or of an [int] below [2 ^ 53], is
    defined. *)
Lemma fade_in_time_defined n : exact_num n -> exists f, fade_in_time n = Ok f.
Proof.
  intros [d Hd]%num_to_float_defined. unfold fade_in_time, num_mul.
  destruct n; cbn in *; rewrite ?Hd; cbn; eauto.
Qed.

(** An entry of four time units or more fades in over exactly [1.0].
    For a float duration, or an [int] duration below [2 ^ 53], that is at
    least [4], the product [duration * 0.3] does not round below [1.0], so
    the cap of line 110 applies. *)
Theorem fade_in_time_long duration :
  exact_num duration -> num_le (NInt 4) duration = true ->
  fade_in_time duration = Ok (NFloat f_1_0).
Proof.
  intros He H4. destruct (fade_in_time_defined _ He) as [f Hf]. rewrite Hf.
  apply fade_in_time_cases in Hf as (x & Hx & ->).
  apply num_mul_float_inv in Hx as (d & Hd & ->).
  rewrite <- (num_to_float_le 4 _ _ He Hd) in H4.
  unfold py_min. now rewrite (at_least_one_not_lt _ (fmul_at_least_one _ H4)).
Qed.

(** On a float duration neither time can raise. *)
Lemma fade_in_time_float_total g :
  fade_in_time (NFloat g) = Ok (py_min (NFloat f_1_0) (NFloat (fmul g f_0_3))).
Proof. reflexivity. Qed.

(** The wait is played only when the waiting time is a float above zero. *)
Lemma wait_events_cases w :
  wait_events w = [] \/ (wait_events w = [Wait w] /\ num_lt (NInt 0) w = true).
Proof.
  unfold wait_events. rewrite num_gt_lt. destruct (num_lt (NInt 0) w); auto.
Qed.

(** ** The loop body, by cases *)

Lemma render_run manim_obj duration f w s :
  fade_in_time duration = Ok f -> wait_time duration f = Ok w ->
  render manim_obj duration s =
  (Ok tt, with_current_objects [manim_obj]
            (emits (fade_out_events (current_objects s)
                    ++ [Play (FadeIn manim_obj) f] ++ wait_events w) s)).
Proof.
  intros Hf Hw. unfold render. rewrite run_bind, fade_out_current_run.
  run_simpl. rewrite Hf. run_simpl. rewrite Hw. unfold play, wait, wait_events.
  run_simpl. destruct (num_gt w (NInt 0)); run_simpl;
    unfold set_current_objects; run_simpl; f_equal;
    unfold with_current_objects, emits, emit; cbn; f_equal;
    now rewrite <- !app_assoc.
Qed.

Lemma render_raise manim_obj duration e s :
  fade_in_time duration = Raise e ->
  render manim_obj duration s =
  (Raise e, with_current_objects [] (emits (fade_out_events (current_objects s)) s)).
Proof.
  intros Hf. unfold render. rewrite run_bind, fade_out_current_run.
  run_simpl. now rewrite Hf.
Qed.

(** An entry that is no dictionary has no [get]. *)
Lemma construct_item_not_dict item s :
  is_dict item = false -> construct_item item s = (Raise AttributeError, s).
Proof. now destruct item. Qed.

(** The body on a dictionary, as a decision on the fields of the entry. *)
Lemma construct_item_dict d s :
  construct_item (VDict d) s =
  match item_duration d with
  | Raise e => (Raise e, s)
  | Ok duration =>
      if num_le duration (NInt 0) then (Ok tt, s) else
      match template_known (item_name d) with
      | Raise e => (Raise e, s)
      | Ok false => (Ok tt, emits [Print (warning_not_found (item_name d))] s)
      | Ok true =>
          match template_lookup (item_name d) with
          | Raise e => (Raise e, s)
          | Ok template =>
              match convert_content_to_string (item_content d) with
              | Raise e => (Raise e, s)
              | Ok content_str =>
                  match template_func template content_str (item_timestamp d) with
                  | Failed e =>
                      (Ok tt, emits [Print (warning_error (item_name d) e)] s)
                  | Built manim_obj => render manim_obj duration s
                  end
              end
          end
      end
  end.
Proof.
  unfold construct_item, item_duration, item_name, item_content, item_timestamp.
  run_simpl. destruct (py_sub _ _) as [duration|e]; [|reflexivity].
  destruct (num_le duration _); [reflexivity|]. run_simpl.
  destruct (template_known _) as [[]|e]; cbn [negb]; try reflexivity. run_simpl.
  destruct (template_lookup _) as [template|e]; [|reflexivity]. run_simpl.
  destruct (convert_content_to_string _) as [content_str|e]; [|reflexivity].
  now destruct (template_func _ _ _).
Qed.

(** ** Theorems on the loop body *)

(** C1: an entry whose duration [endTime - startTime] is zero or negative is
    skipped: the body returns normally, makes no call to the engine, prints
    nothing and leaves [current_objects] and every other attribute as they
    were. *)
Theorem construct_item_skips_nonpositive d duration s :
  item_duration d = Ok duration -> num_le duration (NInt 0) = true ->
  construct_item (VDict d) s = (Ok tt, s).
Proof. intros Hd Hle. now rewrite construct_item_dict, Hd, Hle. Qed.

(** C18: a template name that is hashable and is no key of [TEMPLATE_MAP]
    does not raise: the body prints the warning of line 93 and nothing else
    changes, so the loop goes on to the next entry. *)
Theorem construct_item_unknown_template d duration s :
  item_duration d = Ok duration -> num_le duration (NInt 0) = false ->
  template_known (item_name d) = Ok false ->
  construct_item (VDict d) s =
  (Ok tt, emits [Print (warning_not_found (item_name d))] s).
Proof. intros Hd Hle Hk. now rewrite construct_item_dict, Hd, Hle, Hk. Qed.

(** C19: when the constructor of the template raises, the exception is
    caught: the body prints the error of line 103 with the text of the
    exception, plays nothing, and what is on screen stays on screen. *)
Theorem construct_item_constructor_failure d duration template content_str e s :
  item_duration d = Ok duration -> num_le duration (NInt 0) = false ->
  template_lookup (item_name d) = Ok template ->
  template_known (item_name d) = Ok true ->
  convert_content_to_string (item_content d) = Ok content_str ->
  template_func template content_str (item_timestamp d) = Failed e ->
  construct_item (VDict d) s =
  (Ok tt, emits [Print (warning_error (item_name d) e)] s).
Proof.
  intros Hd Hle Hl Hk Hc Hf. now rewrite construct_item_dict, Hd, Hle, Hk, Hl, Hc, Hf.
Qed.

(** The fade-in of an entry of a whole number of time units, four or
    more. *)
Lemma fade_in_time_whole (D : Z) :
  (4 <= D < 2 ^ 53)%Z -> fade_in_time (NInt D) = Ok (NFloat f_1_0).
Proof.
  intros [H4 HD]. apply fade_in_time_long; [cbn; lia|].
  unfold num_le, num_compare. now destruct (Z.compare_spec 4 D); try lia.
Qed.

(** A number Python can hold: any [int], or a float that is a value of
    binary64. *)
Definition valid_num (n : num) : Prop :=
  match n with
  | NInt _ => True
  | NFloat d => float_wf d = true
  end.

(** The float of a valid duration that passes the test of line 89 and is
    not NaN: above zero, or infinite. *)
Lemma duration_float duration (x : float) :
  valid_num duration -> num_le duration (NInt 0) = false ->
  duration <> NFloat S754_nan -> num_to_float duration = Ok x ->
  positive_float x \/ x = S754_infinity false.
Proof.
  destruct duration as [z|g]; cbn [valid_num num_to_float].
  - intros _ Hle _ Hd. left. apply (float_of_Z_valid z x Hd).
    unfold num_le, num_compare in Hle. destruct (Z.compare_spec z 0); (done || lia).
  - intros Hwf Hle Hnan [= <-]. pose proof (positive_sign _ _ Hle eq_refl) as Hs.
    destruct g as [s|[]| |[] m e]; try done; [now right|left].
    now apply float_wf_finite in Hwf.
Qed.

Lemma py_min_float x y : exists f, py_min (NFloat x) (NFloat y) = NFloat f.
Proof. unfold py_min. destruct (num_lt _ _); eauto. Qed.

(** The fade-in time, by the float of the duration. *)
Lemma fade_in_time_inv duration f :
  fade_in_time duration = Ok f ->
  exists x g, num_to_float duration = Ok x /\
    py_min (NFloat f_1_0) (NFloat (fmul x f_0_3)) = NFloat g /\ f = NFloat g.
Proof.
  intros (y & Hy & ->)%fade_in_time_cases.
  apply num_mul_float_inv in Hy as (x & Hx & ->).
  destruct (py_min_float f_1_0 (fmul x f_0_3)) as [g Hg]. rewrite Hg. eauto.
Qed.

(** The waiting time is the difference of the floats when that is above
    zero. *)
Lemma wait_time_float duration (x g : float) :
  num_to_float duration = Ok x -> num_gt (NFloat (fsub x g)) (NInt 0) = true ->
  wait_time duration (NFloat g) = Ok (NFloat (fsub x g)).
Proof.
  intros Hx Hgt. unfold wait_time, num_sub, py_max.
  destruct duration; cbn [num_to_float] in *; rewrite ?Hx; cbn; now rewrite Hgt.
Qed.

(** The waiting time of line 111 of such a duration is above zero. *)
Lemma wait_time_positive duration f :
  valid_num duration -> num_le duration (NInt 0) = false ->
  duration <> NFloat S754_nan -> fade_in_time duration = Ok f ->
  exists w, wait_time duration f = Ok w /\ num_gt w (NInt 0) = true.
Proof.
  intros Hv Hle Hnan (x & g & Hx & Hg & ->)%fade_in_time_inv.
  assert (Hgt : num_gt (NFloat (fsub x g)) (NInt 0) = true).
  { destruct (duration_float _ _ Hv Hle Hnan Hx) as [Hp| ->].
    - now apply wait_positive.
    - injection Hg as <-. reflexivity. }
  exists (NFloat (fsub x g)). split; [now apply wait_time_float | exact Hgt].
Qed.

(** An [int] duration that passes the test of line 89 is above zero. *)
Lemma shown_int_pos (z : Z) : num_le (NInt z) (NInt 0) = false -> (0 < z)%Z.
Proof.
  unfold num_le, num_compare. destruct (Z.compare_spec z 0); (done || lia).
Qed.

(** An [int] duration that passes the test of line 89 and has a float
    of its own. *)
Lemma shown_int (z : Z) :
  num_le (NInt z) (NInt 0) = false -> exact_num (NInt z) -> (0 < z < 2 ^ 53)%Z.
Proof.
  unfold num_le, num_compare. cbn. destruct (Z.compare_spec z 0); (done || lia).
Qed.

(** It is at most the duration, when the duration has a float of its
    own. *)
Lemma wait_time_at_most duration f w :
  valid_num duration -> exact_num duration -> num_le duration (NInt 0) = false ->
  duration <> NFloat S754_nan -> fade_in_time duration = Ok f ->
  wait_time duration f = Ok w -> num_le w duration = true.
Proof.
  intros Hv He Hle Hnan (x & g & Hx & Hg & ->)%fade_in_time_inv.
  destruct (duration_float _ _ Hv Hle Hnan Hx) as [Hp| ->].
  - destruct (wait_below x g Hp Hg) as [Hw Hwx].
    rewrite (wait_time_float _ _ _ Hx (positive_float_gt _ Hw)). intros [= <-].
    destruct duration as [z|y]; [|now injection Hx as ->].
    unfold num_le. now rewrite (num_compare_exact _ z x Hw (shown_int z Hle He) Hx).
  - injection Hg as <-. rewrite (wait_time_float _ _ f_1_0 Hx eq_refl). intros [= <-].
    destruct duration as [z|y]; [|now injection Hx as ->].
    now apply float_of_Z_finite in Hx.
Qed.

(** The fade-in time of such a duration is below the duration. *)
Lemma fade_in_time_below duration f :
  valid_num duration -> exact_num duration -> num_le duration (NInt 0) = false ->
  duration <> NFloat S754_nan -> fade_in_time duration = Ok f ->
  num_lt f duration = true.
Proof.
  intros Hv He Hle Hnan (x & g & Hx & Hg & ->)%fade_in_time_inv.
  destruct (duration_float _ _ Hv Hle Hnan Hx) as [Hp| ->].
  - destruct (fade_in_below x g Hp Hg) as [Hn Hlt].
    destruct duration as [z|y];
      [|injection Hx as ->; unfold num_lt, num_compare; now rewrite Hlt].
    pose proof (shown_int z Hle He) as Hz. unfold num_lt.
    destruct g as [sg| | |[] mg eg]; try done.
    + cbn. destruct (Z.compare_spec z 0); (done || lia).
    + rewrite (num_compare_exact _ z x Hn Hz Hx). unfold num_compare. now rewrite Hlt.
  - injection Hg as <-.
    destruct duration as [z|y]; [now apply float_of_Z_finite in Hx|].
    now injection Hx as ->.
Qed.

(** Two durations that are shown and have floats of their own compare
    as their floats do. *)
Lemma shown_compare duration1 duration2 (x1 x2 : float) :
  exact_num duration1 -> exact_num duration2 ->
  num_le duration1 (NInt 0) = false -> num_le duration2 (NInt 0) = false ->
  num_to_float duration1 = Ok x1 -> num_to_float duration2 = Ok x2 ->
  positive_float x1 -> positive_float x2 ->
  num_compare duration1 duration2 = num_compare (NFloat x1) (NFloat x2).
Proof.
  intros He1 He2 Hs1 Hs2 Hx1 Hx2 Hp1 Hp2.
  destruct duration1 as [z1|y1], duration2 as [z2|y2]; cbn [num_to_float] in *;
    try (injection Hx1 as ->); try (injection Hx2 as ->); [| | |done].
  - destruct (float_of_Z_scaled z1 x1 (shown_int z1 Hs1 He1) Hx1) as (m1 & e1 & -> & Hc1 & Hv1).
    destruct (float_of_Z_scaled z2 x2 (shown_int z2 Hs2 He2) Hx2) as (m2 & e2 & -> & Hc2 & Hv2).
    cbn [num_compare]. rewrite canonical_compare, Hv1, Hv2 by done. f_equal.
    apply Zmult_compare_compat_r. reflexivity.
  - rewrite (num_compare_antisym (NFloat x2) (NInt z1)).
    rewrite (num_compare_exact _ z1 x1 Hp2 (shown_int z1 Hs1 He1) Hx1).
    now rewrite <- num_compare_antisym.
  - exact (num_compare_exact _ z2 x2 Hp1 (shown_int z2 Hs2 He2) Hx2).
Qed.

(** The floats of two such durations, the second not shorter: both above
    zero and in the same order, or the second infinite. *)
Lemma shown_floats duration1 duration2 (x1 x2 : float) :
  valid_num duration1 -> valid_num duration2 ->
  exact_num duration1 -> exact_num duration2 ->
  num_le duration1 (NInt 0) = false -> num_le duration2 (NInt 0) = false ->
  num_le duration1 duration2 = true ->
  num_to_float duration1 = Ok x1 -> num_to_float duration2 = Ok x2 ->
  (positive_float x1 \/ x1 = S754_infinity false) /\
  (positive_float x1 /\ positive_float x2 /\ num_le (NFloat x1) (NFloat x2) = true \/
   x2 = S754_infinity false).
Proof.
  intros Hv1 Hv2 He1 He2 Hs1 Hs2 Hle Hx1 Hx2.
  assert (Hn1 : duration1 <> NFloat S754_nan) by (intros ->; now destruct duration2).
  assert (Hn2 : duration2 <> NFloat S754_nan)
    by (intros ->; destruct duration1 as [|[]]; discriminate).
  pose proof (duration_float _ _ Hv1 Hs1 Hn1 Hx1) as H1. split; [exact H1|].
  destruct (duration_float _ _ Hv2 Hs2 Hn2 Hx2) as [Hp2| ->]; [left|now right].
  destruct H1 as [Hp1| ->].
  - split; [done|]. split; [done|].
    unfold num_le in *. now rewrite <- (shown_compare duration1 duration2).
  - exfalso. destruct duration1 as [z|y]; [now apply float_of_Z_finite in Hx1|].
    injection Hx1 as ->. destruct duration2 as [z|y]; [discriminate|].
    injection Hx2 as ->. now destruct x2 as [| | |[] ? ?].
Qed.

(** The waiting time of a duration whose float is above zero or
    infinite. *)
Lemma wait_time_shown duration (x g : float) w :
  positive_float x \/ x = S754_infinity false ->
  num_to_float duration = Ok x ->
  py_min (NFloat f_1_0) (NFloat (fmul x f_0_3)) = NFloat g ->
  wait_time duration (NFloat g) = Ok w ->
  w = NFloat (fsub x g) /\ (positive_float (fsub x g) \/ fsub x g = S754_infinity false).
Proof.
  intros [Hp| ->] Hx Hg.
  - destruct (wait_below x g Hp Hg) as [Hw _].
    rewrite (wait_time_float _ _ _ Hx (positive_float_gt _ Hw)). intros [= <-]. auto.
  - injection Hg as <-. rewrite (wait_time_float _ _ f_1_0 Hx eq_refl). intros [= <-]. auto.
Qed.

(** C9: a longer entry has the longer times.  For two durations that
    pass the test of line 89 and have floats of their own (valid floats,
    or [int]s below [2 ^ 53]), the fade-in time of the longer one is at
    least that of the shorter, and so is its waiting time: the product
    of line 110 is rounded to nearest, rounding to nearest is monotone,
    and what the rounded product gains from one duration to a longer one
    is no more than what the duration gains, so that the difference of
    line 111 does not decrease before it is rounded. *)
Theorem times_monotone duration1 duration2 f1 f2 w1 w2 :
  valid_num duration1 -> valid_num duration2 ->
  exact_num duration1 -> exact_num duration2 ->
  num_le duration1 (NInt 0) = false -> num_le duration2 (NInt 0) = false ->
  num_le duration1 duration2 = true ->
  fade_in_time duration1 = Ok f1 -> fade_in_time duration2 = Ok f2 ->
  wait_time duration1 f1 = Ok w1 -> wait_time duration2 f2 = Ok w2 ->
  num_le f1 f2 = true /\ num_le w1 w2 = true.
Proof.
  intros Hv1 Hv2 He1 He2 Hs1 Hs2 Hle
    (x1 & g1 & Hx1 & Hg1 & ->)%fade_in_time_inv (x2 & g2 & Hx2 & Hg2 & ->)%fade_in_time_inv
    Hw1 Hw2.
  destruct (shown_floats _ _ _ _ Hv1 Hv2 He1 He2 Hs1 Hs2 Hle Hx1 Hx2) as [H1 H2].
  destruct (wait_time_shown _ _ _ _ H1 Hx1 Hg1 Hw1) as [-> Hp].
  destruct H2 as [(Hp1 & Hp2 & Hx)| ->].
  - destruct (wait_time_shown _ _ _ _ (or_introl Hp2) Hx2 Hg2 Hw2) as [-> _].
    split; [now apply (fade_in_mono x1 x2) | now apply wait_mono].
  - destruct (wait_time_shown _ _ _ _ (or_intror eq_refl) Hx2 Hg2 Hw2) as [-> _].
    injection Hg2 as <-. split; [rewrite <- Hg1; now apply py_min_le_l|].
    destruct Hp as [Hp| ->]; [|done]. now destruct (fsub x1 g1) as [| | |[] ? ?].
Qed.

(** C8: the two times are the exact values, rounded.  For a duration
    that passes the test of line 89 and whose float [x] is finite, count
    in units of [2 ^ -1074].  The product of line 110 is the float [p]
    nearest to [x] times 5404319552844595 / 2 ^ 54, the float of [0.3],
    even at a midpoint; the fade-in time is the smaller of [p] and [1.0];
    the waiting time is the float nearest to the duration less the
    fade-in time, even at a midpoint.  No other values are: the time on
    screen after the fade-out differs from the duration by half a unit
    in the last place of the wait at most. *)
Theorem times_correctly_rounded duration (x : float) f w :
  valid_num duration -> num_le duration (NInt 0) = false ->
  num_to_float duration = Ok x -> finite_float x = true ->
  fade_in_time duration = Ok f -> wait_time duration f = Ok w ->
  exists (g h : float) (p : Z), f = NFloat g /\ w = NFloat h /\
    nonneg_float g /\ positive_float h /\
    rounds 1128 (fval x * 5404319552844595) (p * 2 ^ 54) /\
    fval g = Z.min (fval f_1_0) p /\
    rounds 1074 (fval x - fval g) (fval h) /\
    (forall p', rounds 1128 (fval x * 5404319552844595) (p' * 2 ^ 54) -> p' = p) /\
    (forall v, rounds 1074 (fval x - fval g) v -> v = fval h).
Proof.
  intros Hv Hs Hx Hfin (x' & g & Hx' & Hg & ->)%fade_in_time_inv Hw.
  rewrite Hx in Hx'. injection Hx' as <-.
  assert (Hn : duration <> NFloat S754_nan) by (intros ->; now injection Hx as <-).
  destruct (duration_float _ _ Hv Hs Hn Hx) as [Hp| ->]; [|done].
  destruct (wait_time_shown _ _ _ _ (or_introl Hp) Hx Hg Hw) as [-> _].
  destruct (fade_in_below x g Hp Hg) as [Hng Hlt].
  destruct (fsub_below x g Hp Hng Hlt) as [Hh _].
  destruct (fmul_0_3_below x Hp) as [Hnp _].
  destruct (py_min_fval _ Hnp) as (g' & E & _ & Hval). rewrite E in Hg. injection Hg as ->.
  pose proof (fmul_0_3_fval x Hp) as Rp. pose proof (fsub_rounds x g Hp Hng Hlt) as Rh.
  exists g, (fsub x g), (fval (fmul x f_0_3)).
  do 7 (split; [done|]). split.
  - intros p' Rp'. pose proof (rounds_functional 1128 ltac:(done) _ _ _ Rp' Rp). lia.
  - intros v Rv. exact (rounds_functional 1074 ltac:(done) _ _ _ Rv Rh).
Qed.

(** C5: the fade-in time is in range.  Whatever the duration, [min(1.0,
    duration * 0.3)] never exceeds [1.0]: a product that is larger,
    infinite or NaN is replaced by [1.0].  When the duration passes the
    test of line 89, it is at least zero: rounding keeps the sign of the
    product.  And it is below the duration, when the duration is not NaN
    and has a float of its own (a valid float, or an [int] below
    [2 ^ 53]): the fade-in never takes the whole time of the entry. *)
Theorem fade_in_time_in_range duration f :
  fade_in_time duration = Ok f ->
  num_le f (NFloat f_1_0) = true /\
  (num_le duration (NInt 0) = false ->
   num_le (NInt 0) f = true /\
   (valid_num duration -> exact_num duration -> duration <> NFloat S754_nan ->
    num_lt f duration = true)).
Proof.
  intros Hf. split; [|intros Hd; split].
  - apply fade_in_time_cases in Hf as (x & _ & ->). now apply py_min_le_l.
  - destruct (fade_in_time_sign _ _ Hd Hf) as (x & -> & Hs & Hn).
    now apply has_sign_nonneg.
  - intros Hv He Hnan. now apply fade_in_time_below.
Qed.

(** C6: the waiting time is in range.  It is never negative: the [int]
    zero, or a float strictly above zero.  And it is at most the
    duration, for every duration that passes the test of line 89, is not
    NaN and has a float of its own (a valid float, or an [int] below
    [2 ^ 53]): the difference of line 111 does not round above the
    duration. *)
Theorem wait_time_in_range duration f w :
  wait_time duration f = Ok w ->
  num_le (NInt 0) w = true /\
  (valid_num duration -> exact_num duration -> num_le duration (NInt 0) = false ->
   duration <> NFloat S754_nan -> fade_in_time duration = Ok f ->
   num_le w duration = true).
Proof.
  intros Hw. split.
  - apply wait_time_cases in Hw as (y & _ & ->). apply py_max_zero_nonneg.
  - intros Hv He Hle Hnan Hf. exact (wait_time_at_most _ _ _ Hv He Hle Hnan Hf Hw).
Qed.

(** C7: the wait of an entry is always played.  For every duration that
    passes the test of line 89 and is not NaN (an [int] above zero that
    has a float, a valid float above zero, or the positive infinity), the
    waiting time of line 111 is above zero: thirty percent of the
    duration, capped at [1.0], rounds to a float below the duration, and
    their difference does not round to zero.  The guard of line 115 can
    only fail on NaN. *)
Theorem wait_is_played duration f :
  valid_num duration -> num_le duration (NInt 0) = false ->
  duration <> NFloat S754_nan -> fade_in_time duration = Ok f ->
  exists w, wait_time duration f = Ok w /\ wait_events w = [Wait w].
Proof.
  intros Hv Hle Hnan Hf.
  destruct (wait_time_positive _ _ Hv Hle Hnan Hf) as (w & Hw & Hgt).
  exists w. split; [exact Hw|]. unfold wait_events. now rewrite Hgt.
Qed.

(** The wait of an entry of a whole number of time units that fades in
    over [1.0]: one unit less than the duration, exactly, and above zero. *)
Lemma wait_time_long (D : Z) :
  (2 <= D < 2 ^ 53)%Z ->
  exists w, float_of_Z (D - 1) = Ok w /\
    wait_time (NInt D) (NFloat f_1_0) = Ok (NFloat w) /\
    wait_events (NFloat w) = [Wait (NFloat w)].
Proof.
  intros [H2 HD]. destruct (float_of_Z_defined D) as [x Hx]; [lia|].
  pose proof (fsub_exact D 1 x f_1_0 ltac:(lia) HD Hx eq_refl) as Hw.
  assert (Hgt : num_gt (NFloat (fsub x f_1_0)) (NInt 0) = true)
    by (apply (float_of_Z_positive (D - 1)); [lia | done]).
  exists (fsub x f_1_0). split; [done|]. unfold wait_time, num_sub, wait_events.
  cbn [num_to_float]. rewrite Hx. cbn [mbind result_bind]. unfold py_max.
  now rewrite Hgt.
Qed.

(** A duration of four time units or more passes the test of line 89. *)
Lemma at_least_4_shown duration :
  num_le (NInt 4) duration = true -> num_le duration (NInt 0) = false.
Proof.
  destruct duration as [z|[s|[]| |[] m e]]; try done.
  - unfold num_le, num_compare.
    destruct (Z.compare_spec 4 z), (Z.compare_spec z 0); (done || lia).
  - intros H%Z_le_finite. exfalso. cbn [cond_Zopp] in H.
    destruct (Z.leb_spec 0 e); [pose proof (Z.pow_pos_nonneg 2 e); nia | lia].
  - intros _. apply num_gt_not_le, finite_gt.
Qed.

(** The float of a duration from [4] to [2 ^ 53] that has a float of its
    own. *)
Lemma long_float duration (x : float) :
  valid_num duration -> exact_num duration ->
  num_le (NInt 4) duration = true -> num_le duration (NInt (2 ^ 53)) = true ->
  num_to_float duration = Ok x ->
  positive_float x /\ (fval f_1_0 < fval x <= 2 ^ 1127)%Z.
Proof.
  intros Hv He H4 H53 Hx. pose proof (at_least_4_shown _ H4) as Hs.
  assert (Hn : duration <> NFloat S754_nan) by (intros ->; discriminate).
  destruct (duration_float _ _ Hv Hs Hn Hx) as [Hp| ->].
  2: { exfalso. destruct duration as [z|y]; [now apply float_of_Z_finite in Hx|].
       now injection Hx as ->. }
  split; [exact Hp|]. rewrite <- (num_to_float_le 4 _ _ He Hx) in H4.
  apply (int_float_le 4 x Hp) in H4. change (fval f_1_0) with (2 ^ 1074)%Z.
  change (2 ^ 1127)%Z with (2 ^ 53 * 2 ^ 1074)%Z.
  pose proof (Z.pow_pos_nonneg 2 1074 ltac:(done) ltac:(done)) as HW.
  split; [lia|]. destruct duration as [z|y].
  - destruct (float_of_Z_scaled z x (shown_int z Hs He) Hx) as (m & e & -> & _ & Hval).
    pose proof (shown_int z Hs He). cbn [fval]. rewrite Hval. nia.
  - injection Hx as ->. now apply (int_float_le (2 ^ 53) x Hp).
Qed.

(** The wait of a duration from [4] to [2 ^ 53]: one unit less than the
    duration, exactly. *)
Lemma wait_time_exact duration (x : float) :
  valid_num duration -> exact_num duration ->
  num_le (NInt 4) duration = true -> num_le duration (NInt (2 ^ 53)) = true ->
  num_to_float duration = Ok x ->
  positive_float (fsub x f_1_0) /\ (fval (fsub x f_1_0) + fval f_1_0 = fval x)%Z /\
  wait_time duration (NFloat f_1_0) = Ok (NFloat (fsub x f_1_0)) /\
  wait_events (NFloat (fsub x f_1_0)) = [Wait (NFloat (fsub x f_1_0))].
Proof.
  intros Hv He H4 H53 Hx.
  destruct (long_float _ _ Hv He H4 H53 Hx) as [Hp Hr].
  destruct (fsub_1_0_exact x Hp Hr) as [Hw Hval].
  pose proof (positive_float_gt _ Hw) as Hgt.
  split; [exact Hw|]. split; [lia|]. split; [now apply wait_time_float|].
  unfold wait_events. now rewrite Hgt.
Qed.

(** C21: an entry from four time units to [2 ^ 53] is on screen for its
    duration.  For a duration that has a float of its own (a valid
    float, or an [int]), after the fade-out of what was on screen the
    object fades in over [1.0] and the wait that follows is a float that
    is the duration less one, exactly: neither the product of line 110
    nor the difference of line 111 loses anything to rounding, and the
    wait is played.  For an [int] duration it is the float of
    [duration - 1]. *)
Theorem render_long manim_obj duration s :
  valid_num duration -> exact_num duration ->
  num_le (NInt 4) duration = true -> num_le duration (NInt (2 ^ 53)) = true ->
  exists x w, num_to_float duration = Ok x /\
    positive_float w /\ (fval w + fval f_1_0 = fval x)%Z /\
    (forall D : Z, duration = NInt D -> float_of_Z (D - 1) = Ok w) /\
    render manim_obj duration s =
    (Ok tt, with_current_objects [manim_obj]
              (emits (fade_out_events (current_objects s)
                      ++ [Play (FadeIn manim_obj) (NFloat f_1_0); Wait (NFloat w)]) s)).
Proof.
  intros Hv He H4 H53. destruct (num_to_float_defined _ He) as [x Hx].
  destruct (wait_time_exact _ _ Hv He H4 H53 Hx) as (Hw & Hval & Hwait & Hev).
  exists x, (fsub x f_1_0). split; [done|]. split; [done|]. split; [done|]. split.
  - intros D ->. cbn [num_to_float] in Hx.
    assert (4 <= D)%Z
      by (unfold num_le, num_compare in H4; destruct (Z.compare_spec 4 D); (done || lia)).
    apply (fsub_exact D 1 x f_1_0); [lia | cbn in He; lia | done..].
  - rewrite <- Hev. apply render_run; [now apply fade_in_time_long | done].
Qed.

(** An entry of a whole, positive number of time units always waits: the
    guard of line 115 never skips the wait of such an entry. *)
Lemma times_whole (D : Z) :
  (1 <= D < 2 ^ 53)%Z ->
  exists f w, fade_in_time (NInt D) = Ok f /\ wait_time (NInt D) f = Ok w /\
              wait_events w = [Wait w].
Proof.
  intros [H1 HD]. destruct (Z.le_gt_cases 4 D) as [H4|H4].
  { destruct (wait_time_long D) as (w & _ & Hw & Hev); [lia|].
    exists (NFloat f_1_0), (NFloat w). now rewrite fade_in_time_whole. }
  assert (D = 1 \/ D = 2 \/ D = 3)%Z as [->|[->| ->]] by lia;
    eexists _, _; repeat split; reflexivity.
Qed.

Lemma render_whole manim_obj (D : Z) s :
  (1 <= D < 2 ^ 53)%Z ->
  exists f w,
    render manim_obj (NInt D) s =
    (Ok tt, with_current_objects [manim_obj]
              (emits (fade_out_events (current_objects s)
                      ++ [Play (FadeIn manim_obj) f; Wait w]) s)).
Proof.
  intros (f & w & Hf & Hw & Hev)%times_whole. exists f, w. rewrite <- Hev.
  now apply render_run.
Qed.

(** C11: an entry that renders plays, in this order, the fade-out of what is
    on screen (over 0.5, only when something is on screen), the fade-in of
    the new object over [fade_in_time], and a wait of [wait_time] when that
    is positive; the new object is then the one object of
    [current_objects]. *)
Theorem construct_item_renders d duration template content_str manim_obj f w s :
  item_duration d = Ok duration -> num_le duration (NInt 0) = false ->
  template_known (item_name d) = Ok true ->
  template_lookup (item_name d) = Ok template ->
  convert_content_to_string (item_content d) = Ok content_str ->
  template_func template content_str (item_timestamp d) = Built manim_obj ->
  fade_in_time duration = Ok f -> wait_time duration f = Ok w ->
  construct_item (VDict d) s =
  (Ok tt, with_current_objects [manim_obj]
            (emits (fade_out_events (current_objects s)
                    ++ [Play (FadeIn manim_obj) f] ++ wait_events w) s)).
Proof.
  intros Hd Hle Hk Hl Hc Hb Hf Hw.
  rewrite construct_item_dict, Hd, Hle, Hk, Hl, Hc, Hb. now apply render_run.
Qed.

(** C37: the exceptions of an entry that nothing catches leave the state
    as it was.  An entry that is no dictionary raises [AttributeError] at
    line 82; times that are not numbers make the subtraction of line 87
    raise [TypeError]; a template name that is a list or a dictionary
    cannot be hashed, so the membership test of line 92 raises
    [TypeError].  In each case nothing is played or printed, and the
    object on screen stays. *)
Theorem construct_item_raises_unchanged s :
  (forall item, is_dict item = false ->
     construct_item item s = (Raise AttributeError, s)) /\
  (forall d,
     as_num (dict_get "startTime" (VInt 0) d) = None \/
     as_num (dict_get "endTime" (VInt 0) d) = None ->
     construct_item (VDict d) s = (Raise TypeError, s)) /\
  (forall d duration,
     item_duration d = Ok duration -> num_le duration (NInt 0) = false ->
     hashable (item_name d) = false ->
     construct_item (VDict d) s = (Raise TypeError, s)).
Proof.
  split; [|split].
  - intros item Hn. now apply construct_item_not_dict.
  - intros d Hn. rewrite construct_item_dict. unfold item_duration.
    destruct Hn as [Hn|Hn];
      [rewrite (py_sub_not_num_r _ _ Hn) | rewrite (py_sub_not_num_l _ _ Hn)];
      reflexivity.
  - intros d duration Hd Hle Hh. rewrite construct_item_dict, Hd, Hle.
    now destruct (item_name d).
Qed.

(** ** Frame and invariant *)

(** The slot is empty or holds one object. *)
Definition slot_ok (l : list mobject) : Prop := length l <= 1.

(** [s'] is [s] after more output and with a slot that is the old one, empty,
    or one object. *)
Definition step_of s s' : Prop :=
  exists l es, s' = with_current_objects l (emits es s) /\
    (l = current_objects s \/ slot_ok l).

Lemma step_of_refl s : step_of s s.
Proof.
  exists (current_objects s), []. rewrite emits_nil, with_current_objects_id. auto.
Qed.

Lemma step_of_emits es s : step_of s (emits es s).
Proof.
  exists (current_objects s), es. split; [|auto].
  now rewrite <- (current_objects_emits es s), with_current_objects_id.
Qed.

Lemma step_of_trans s1 s2 s3 : step_of s1 s2 -> step_of s2 s3 -> step_of s1 s3.
Proof.
  intros (l1 & es1 & -> & H1) (l2 & es2 & -> & H2).
  exists l2, (es1 ++ es2). split.
  - unfold with_current_objects, emits. cbn. now rewrite app_assoc.
  - destruct H2 as [->|H2]; [|auto]. now rewrite current_objects_with.
Qed.

Lemma step_of_slot_ok s s' :
  step_of s s' -> slot_ok (current_objects s) -> slot_ok (current_objects s').
Proof. intros (l & es & -> & [->|Hl]); cbn; auto. Qed.

Lemma step_of_output s s' : step_of s s' -> output s `prefix_of` output s'.
Proof. intros (l & es & -> & _). now exists es. Qed.

Lemma step_of_data s s' :
  step_of s s' -> json_path s' = json_path s /\ template_data s' = template_data s.
Proof. now intros (l & es & -> & _). Qed.

Lemma render_step manim_obj duration s :
  step_of s (exec (render manim_obj duration) s).
Proof.
  unfold exec. destruct (fade_in_time duration) as [f|e] eqn:Hf.
  - destruct (wait_time_defined _ _ Hf) as [w Hw].
    rewrite (render_run _ _ _ _ _ Hf Hw). eexists _, _. split; [reflexivity|].
    right. unfold slot_ok. cbn. lia.
  - rewrite (render_raise _ _ _ _ Hf). eexists _, _. split; [reflexivity|].
    right. unfold slot_ok. cbn. lia.
Qed.

Lemma construct_item_step item s : step_of s (exec (construct_item item) s).
Proof.
  unfold exec. destruct (is_dict item) eqn:Hi.
  - destruct item; try discriminate. rewrite construct_item_dict.
    repeat case_match; cbn [snd]; auto using step_of_refl, step_of_emits.
    apply render_step.
  - rewrite construct_item_not_dict by done. apply step_of_refl.
Qed.

Lemma for_each_construct_item_step items s :
  step_of s (exec (for_each construct_item items) s).
Proof.
  apply (for_each_invariant (step_of s)); [|apply step_of_refl].
  intros item s' Hs'. eapply step_of_trans; [exact Hs'|apply construct_item_step].
Qed.

(** [construct] as the loop followed by the last fade-out. *)
Lemma construct_run s :
  construct s =
  match py_iter (template_data s) with
  | Raise e => (Raise e, s)
  | Ok items =>
      match for_each construct_item items s with
      | (Ok _, s') => (Ok tt, emits (fade_out_events (current_objects s')) s')
      | (Raise e, s') => (Raise e, s')
      end
  end.
Proof.
  unfold construct. rewrite run_bind. cbn [get]. rewrite run_lift_bind.
  destruct (py_iter (template_data s)) as [items|e]; [|reflexivity].
  rewrite run_bind. destruct (for_each construct_item items s) as [[[]|e] s'];
    [|reflexivity].
  rewrite run_bind. cbn [get]. unfold fade_out_events, play.
  destruct (truthy (current_objects s')); cbn; [reflexivity|].
  now rewrite emits_nil.
Qed.

(** [construct] returns when its loop does. *)
Lemma construct_returns items s :
  py_iter (template_data s) = Ok items ->
  eval (for_each construct_item items) s = Ok tt -> eval construct s = Ok tt.
Proof.
  unfold eval. rewrite construct_run. intros ->.
  now destruct (for_each construct_item items s) as [[[]|e] s'].
Qed.

Lemma construct_step s : step_of s (exec construct s).
Proof.
  unfold exec. rewrite construct_run.
  destruct (py_iter (template_data s)) as [items|e]; [|apply step_of_refl].
  pose proof (for_each_construct_item_step items s) as Hloop. unfold exec in Hloop.
  destruct (for_each construct_item items s) as [[[]|e] s']; cbn [snd] in *.
  - eapply step_of_trans; [exact Hloop|]. apply step_of_emits.
  - exact Hloop.
Qed.

(** C20: the slot invariant.  If at most one object is on screen when
    [construct] starts, at most one is when it ends, whether it returns or
    raises. *)
Theorem construct_slot_at_most_one s :
  slot_ok (current_objects s) -> slot_ok (current_objects (exec construct s)).
Proof. apply step_of_slot_ok, construct_step. Qed.

(** [construct] only appends to the output and changes neither
    [json_path] nor [template_data]. *)
Theorem construct_preserves_input s :
  output s `prefix_of` output (exec construct s) /\
  json_path (exec construct s) = json_path s /\
  template_data (exec construct s) = template_data s.
Proof.
  split; [apply step_of_output | apply step_of_data]; apply construct_step.
Qed.

(** ** Durations at the edges of binary64 *)

(** The float of a duration of [2 ^ 54] or more: at least four, and the
    positive infinity or a float of that size. *)
Lemma huge_float duration (x : float) :
  valid_num duration -> num_le (NInt (2 ^ 54)) duration = true ->
  num_to_float duration = Ok x ->
  num_le (NInt 4) (NFloat x) = true /\
  (x = S754_infinity false \/ (positive_float x /\ (2 ^ 1128 <= fval x)%Z)).
Proof.
  intros Hv Hle Hx.
  enough (Hc : x = S754_infinity false \/ (positive_float x /\ (2 ^ 1128 <= fval x)%Z)).
  { split; [|exact Hc]. destruct Hc as [->|[Hp Hlo]]; [reflexivity|].
    apply (int_float_le 4 x Hp). change (2 ^ 1128)%Z with (2 ^ 54 * 2 ^ 1074)%Z in Hlo.
    pose proof (Z.pow_pos_nonneg 2 1074 ltac:(done) ltac:(done)). lia. }
  destruct duration as [z|g]; cbn [num_to_float] in Hx.
  - assert (Hz : (2 ^ 54 <= z)%Z)
      by (unfold num_le, num_compare in Hle;
          destruct (Z.compare_spec (2 ^ 54) z); (done || lia)).
    destruct (float_of_Z_valid z x Hx) as [_ Hp]. specialize (Hp ltac:(lia)).
    pose proof (float_of_Z_rounds z x ltac:(lia) Hx) as Hr. right. split; [exact Hp|].
    apply (rounds_ge 1074 ltac:(done) (z * 2 ^ 1074) _ (2 ^ 1128) ltac:(lia) Hr).
    + split; [done | now exists (2 ^ 52)%Z].
    + change (2 ^ 1128)%Z with (2 ^ 54 * 2 ^ 1074)%Z.
      apply Z.mul_le_mono_nonneg_r; [done | exact Hz].
  - injection Hx as ->. destruct x as [sg|[]| |[] m e]; try done; [now left| |right].
    + apply Z_le_finite in Hle. exfalso. cbn [cond_Zopp] in Hle.
      destruct (Z.leb_spec 0 e); [pose proof (Z.pow_pos_nonneg 2 e); nia | lia].
    + assert (Hp : positive_float (S754_finite false m e))
        by now apply float_wf_finite in Hv.
      split; [exact Hp|]. now apply (int_float_le (2 ^ 54) _ Hp) in Hle.
Qed.

(** The two times of such a duration: the cap, and the float of the
    duration, from which the subtraction of line 111 takes nothing. *)
Lemma times_huge duration (x : float) :
  valid_num duration -> num_le (NInt (2 ^ 54)) duration = true ->
  num_to_float duration = Ok x ->
  fade_in_time duration = Ok (NFloat f_1_0) /\
  wait_time duration (NFloat f_1_0) = Ok (NFloat x) /\
  wait_events (NFloat x) = [Wait (NFloat x)].
Proof.
  intros Hv Hle Hx. destruct (huge_float _ _ Hv Hle Hx) as [H4 Hc].
  assert (Hs : fsub x f_1_0 = x)
    by (destruct Hc as [->|[Hp Hlo]]; [reflexivity | now apply fsub_1_0_absorbed]).
  assert (Hgt : num_gt (NFloat x) (NInt 0) = true)
    by (destruct Hc as [->|[Hp _]]; [reflexivity | now apply positive_float_gt]).
  split; [|split].
  - unfold fade_in_time, num_mul, py_min.
    destruct duration; cbn [num_to_float] in Hx |- *; rewrite ?Hx; cbn;
      now rewrite (at_least_one_not_lt _ (fmul_at_least_one _ H4)).
  - pose proof (wait_time_float duration x f_1_0 Hx) as Hw. rewrite Hs in Hw.
    exact (Hw Hgt).
  - unfold wait_events. now rewrite Hgt.
Qed.

(** C22: from [2 ^ 54] time units on, the wait is the whole duration.  For
    every duration of at least [2 ^ 54] that has a float [x] (an [int]
    that does not overflow, a valid float, the positive infinity that
    Python's JSON parser reads from [Infinity]), the object fades in over
    [1.0] and [wait] is called with [x] itself: the difference of line 111
    rounds back to the float of the duration, so the second of the
    fade-in is not taken off the wait, and for an [int] that the
    conversion rounds up the wait is longer than the duration. *)
Theorem render_huge manim_obj duration (x : float) s :
  valid_num duration -> num_le (NInt (2 ^ 54)) duration = true ->
  num_to_float duration = Ok x ->
  render manim_obj duration s =
  (Ok tt, with_current_objects [manim_obj]
            (emits (fade_out_events (current_objects s)
                    ++ [Play (FadeIn manim_obj) (NFloat f_1_0); Wait (NFloat x)]) s)).
Proof.
  intros Hv Hle Hx. destruct (times_huge _ _ Hv Hle Hx) as (Hf & Hw & Hev).
  rewrite <- Hev. now apply render_run.
Qed.

(** The fade-in time of a duration that passes the test of line 89 is
    above zero, unless the duration is the least float. *)
Lemma fade_in_time_positive duration f :
  valid_num duration -> num_le duration (NInt 0) = false ->
  duration <> NFloat (S754_finite false 1 (-1074)) ->
  fade_in_time duration = Ok f -> num_gt f (NInt 0) = true.
Proof.
  intros Hv Hs Hl Hf. pose proof Hf as (x & g & Hx & Hg & ->)%fade_in_time_inv.
  destruct (decide (duration = NFloat S754_nan)) as [->|Hn];
    [injection Hx as <-; now injection Hg as <-|].
  destruct (duration_float _ _ Hv Hs Hn Hx) as [Hp| ->]; [|now injection Hg as <-].
  assert (H2 : (2 <= fval x)%Z).
  { destruct duration as [z|y].
    - pose proof (shown_int_pos z Hs) as Hz.
      pose proof (fval_is_float 1074 f_1_0 ltac:(done) nonneg_1_0) as F.
      change (fval f_1_0 * 2 ^ (1074 - 1074))%Z with (2 ^ 1074)%Z in F.
      pose proof (Z.pow_le_mono_r 2 1 1074 ltac:(done) ltac:(done)) as HW.
      change (2 ^ 1)%Z with 2%Z in HW.
      enough (2 ^ 1074 <= fval x)%Z by lia.
      apply (rounds_ge 1074 ltac:(done) (z * 2 ^ 1074) _ _ ltac:(nia)
               (float_of_Z_rounds z x Hz Hx) F). nia.
    - injection Hx as ->. pose proof (fval_positive _ Hp).
      enough (fval x <> 1)%Z by lia. intros H1. apply Hl. f_equal.
      apply fval_inj; [done | split; [reflexivity | lia] | exact H1]. }
  pose proof (fmul_0_3_positive x Hp H2) as Hpos.
  destruct (py_min_fval _ (ltac:(now destruct (fmul x f_0_3) as [| | |[] ? ?])
                           : nonneg_float (fmul x f_0_3))) as (g' & E & Hn' & Hval).
  rewrite E in Hg. injection Hg as ->. pose proof (fval_positive _ Hpos).
  apply positive_float_gt. change (fval f_1_0) with (2 ^ 1074)%Z in Hval.
  destruct g as [| | |[] ? ?]; (done || cbn [fval] in Hval; lia).
Qed.

(** C23: the times that leave the range the specification gives them.  For
    a duration that passes the test of line 89, the fade-in time is above
    zero or is the float zero, and it is zero for one duration only, the
    least float above zero, whose product with [0.3] rounds to zero: for
    that entry [play] is called with a run time of [0.0].  And the wait
    is left out for one duration only, NaN, which Python's JSON parser
    reads from [NaN] and which passes the test of line 89 because no
    comparison with NaN holds. *)
Theorem times_degenerate duration f w :
  valid_num duration -> num_le duration (NInt 0) = false ->
  fade_in_time duration = Ok f -> wait_time duration f = Ok w ->
  (f = NFloat (S754_zero false) \/ num_gt f (NInt 0) = true) /\
  (f = NFloat (S754_zero false) <-> duration = NFloat (S754_finite false 1 (-1074))) /\
  (wait_events w = [] <-> duration = NFloat S754_nan).
Proof.
  intros Hv Hs Hf Hw.
  destruct (decide (duration = NFloat (S754_finite false 1 (-1074)))) as [->|Hl].
  - injection Hf as <-. injection Hw as <-. repeat split; (done || now left).
  - pose proof (fade_in_time_positive _ _ Hv Hs Hl Hf) as Hgt.
    split; [now right|]. split; [split; [intros ->; discriminate | done]|].
    destruct (decide (duration = NFloat S754_nan)) as [->|Hn].
    + injection Hf as <-. now injection Hw as <-.
    + destruct (wait_time_positive _ _ Hv Hs Hn Hf) as (w' & Hw' & Hpos).
      rewrite Hw in Hw'. injection Hw' as <-. unfold wait_events. rewrite Hpos.
      split; [discriminate | done].
Qed.

(** C38: an [int] duration too large for a float passes the test of line
    89 and the constructor, and raises [OverflowError] at line 110, after
    the fade-out of line 107: the object on screen is gone and the new one
    is not shown. *)
Theorem render_overflow_after_fade_out manim_obj z s :
  float_of_Z z = Raise OverflowError ->
  render manim_obj (NInt z) s =
  (Raise OverflowError,
   with_current_objects [] (emits (fade_out_events (current_objects s)) s)).
Proof.
  intros Hz. apply render_raise. unfold fade_in_time. cbn. now rewrite Hz.
Qed.

End Player.

(** ** Concrete runs

    The theorems above, applied to a timeline entry and a scene that
    compute, with [test_engine] and [test_runtime]. *)

#[local] Existing Instance test_engine.
#[local] Existing Instance test_runtime.

(** An entry with the four usual keys. *)
Definition entry (name content start_time end_time : value) : list (string * value) :=
  [("templateName", name); ("content", content);
   ("startTime", start_time); ("endTime", end_time)].

(** Two objects of the test engine. *)
Definition obj_intro : mobject := (manim_text_intro, VStr "Hi", VInt 0).
Definition obj_comparison : mobject := (manim_comparison, VStr "2x+3|7", VInt 2).

(** A generator as [__init__] leaves it, with nothing played yet. *)
Definition initial (data : value) : scene := Scene "timeline.json" data [] [].

(** A scene with one object on screen. *)
Definition occupied : scene :=
  Scene "timeline.json" VNone [(manim_text_intro, VStr "Hi", VInt 0)] [].

Definition entry_zero : list (string * value) :=
  entry (VStr "text_intro") (VStr "Hi") (VInt 5) (VInt 5).
Definition entry_unknown : list (string * value) :=
  entry (VStr "nope") (VStr "Hi") (VInt 0) (VInt 2).
Definition entry_failing : list (string * value) :=
  entry (VStr "graph_plot") (VDict [("equation", VInt 3)]) (VInt 0) (VInt 2).
Definition entry_outro : list (string * value) :=
  entry (VStr "text_outro") (VStr "Bye") (VInt 2) (VInt 4).
Definition entry_list_name : list (string * value) :=
  entry (VList []) (VStr "Hi") (VInt 0) (VInt 2).
Definition entry_text_time : list (string * value) :=
  entry (VStr "text_intro") (VStr "Hi") (VStr "0") (VInt 2).

Lemma construct_item_skips_nonpositive_witness :
  construct_item (VDict entry_zero) occupied = (Ok tt, occupied).
Proof.
  exact (construct_item_skips_nonpositive entry_zero (NInt 0) occupied eq_refl eq_refl).
Defined.

Lemma construct_item_unknown_template_witness :
  construct_item (VDict entry_unknown) occupied =
  (Ok tt, emits [Print "Warning: Template 'nope' not found in TEMPLATE_MAP"] occupied).
Proof.
  exact (construct_item_unknown_template entry_unknown (NInt 2) occupied
           eq_refl eq_refl eq_refl).
Defined.

Lemma construct_item_constructor_failure_witness :
  construct_item (VDict entry_failing) occupied =
  (Ok tt,
   emits [Print "Error creating object for template 'graph_plot': content must be a string"]
     occupied).
Proof.
  exact (construct_item_constructor_failure entry_failing (NInt 2) manim_graph_plot
           (VInt 3) "content must be a string" occupied
           eq_refl eq_refl eq_refl eq_refl eq_refl eq_refl).
Defined.

Lemma construct_item_renders_witness :
  construct_item (VDict entry_outro) occupied =
  (Ok tt,
   Scene "timeline.json" VNone [(manim_text_outro, VStr "Bye", VInt 2)]
     [Play (FadeOut [(manim_text_intro, VStr "Hi", VInt 0)]) (NFloat f_0_5);
      Play (FadeIn (manim_text_outro, VStr "Bye", VInt 2))
        (NFloat (S754_finite false 5404319552844595 (-53)));
      Wait (NFloat (S754_finite false 6305039478318694 (-52)))]).
Proof.
  exact (construct_item_renders entry_outro (NInt 2) manim_text_outro (VStr "Bye")
           (manim_text_outro, VStr "Bye", VInt 2)
           (NFloat (S754_finite false 5404319552844595 (-53)))
           (NFloat (S754_finite false 6305039478318694 (-52))) occupied
           eq_refl eq_refl eq_refl eq_refl eq_refl eq_refl eq_refl eq_refl).
Defined.

Lemma construct_item_raises_unchanged_witness :
  construct_item (VStr "x") occupied = (Raise AttributeError, occupied) /\
  construct_item (VDict entry_text_time) occupied = (Raise TypeError, occupied) /\
  construct_item (VDict entry_list_name) occupied = (Raise TypeError, occupied).
Proof.
  destruct (construct_item_raises_unchanged occupied) as (Ha & Ht & Hh).
  split; [exact (Ha (VStr "x") eq_refl)|].
  split; [exact (Ht entry_text_time (or_introl eq_refl))|].
  exact (Hh entry_list_name (NInt 2) eq_refl eq_refl eq_refl).
Defined.

Lemma fade_in_time_in_range_witness :
  num_le (NFloat (S754_finite false 5404319552844595 (-53))) (NFloat f_1_0) = true /\
  num_le (NInt 0) (NFloat (S754_finite false 5404319552844595 (-53))) = true /\
  num_lt (NFloat (S754_finite false 5404319552844595 (-53))) (NInt 2) = true.
Proof.
  destruct (fade_in_time_in_range (NInt 2)
              (NFloat (S754_finite false 5404319552844595 (-53))) eq_refl) as [H1 H].
  destruct (H eq_refl) as [H0 Hlt].
  split; [exact H1|]. split; [exact H0|]. exact (Hlt I eq_refl ltac:(discriminate)).
Defined.

Lemma times_monotone_witness :
  num_le (NFloat (S754_finite false 5404319552844595 (-55)))
    (NFloat (S754_finite false 5404319552844595 (-53))) = true /\
  num_le (NFloat (S754_finite false 6305039478318694 (-54)))
    (NFloat (S754_finite false 6305039478318694 (-52))) = true.
Proof.
  exact (times_monotone (NFloat f_0_5) (NInt 2)
           (NFloat (S754_finite false 5404319552844595 (-55)))
           (NFloat (S754_finite false 5404319552844595 (-53)))
           (NFloat (S754_finite false 6305039478318694 (-54)))
           (NFloat (S754_finite false 6305039478318694 (-52)))
           eq_refl I I eq_refl eq_refl eq_refl eq_refl eq_refl eq_refl eq_refl eq_refl).
Defined.

Lemma times_correctly_rounded_witness :
  exists (g h : float) (p : Z),
    NFloat (S754_finite false 5404319552844595 (-55)) = NFloat g /\
    NFloat (S754_finite false 6305039478318694 (-54)) = NFloat h /\
    nonneg_float g /\ positive_float h /\
    rounds 1128 (fval f_0_5 * 5404319552844595) (p * 2 ^ 54) /\
    fval g = Z.min (fval f_1_0) p /\
    rounds 1074 (fval f_0_5 - fval g) (fval h) /\
    (forall p', rounds 1128 (fval f_0_5 * 5404319552844595) (p' * 2 ^ 54) -> p' = p) /\
    (forall v, rounds 1074 (fval f_0_5 - fval g) v -> v = fval h).
Proof.
  exact (times_correctly_rounded (NFloat f_0_5) f_0_5
           (NFloat (S754_finite false 5404319552844595 (-55)))
           (NFloat (S754_finite false 6305039478318694 (-54)))
           eq_refl eq_refl eq_refl eq_refl eq_refl eq_refl).
Defined.

Lemma fade_in_time_long_witness : fade_in_time (NInt 8) = Ok (NFloat f_1_0).
Proof. exact (fade_in_time_long (NInt 8) eq_refl eq_refl). Defined.

Lemma render_long_witness :
  exists x w, num_to_float (NInt 8) = Ok x /\
    positive_float w /\ (fval w + fval f_1_0 = fval x)%Z /\
    (forall D : Z, NInt 8 = NInt D -> float_of_Z (D - 1) = Ok w) /\
    render obj_comparison (NInt 8) occupied =
    (Ok tt, with_current_objects [obj_comparison]
              (emits (fade_out_events (current_objects occupied)
                      ++ [Play (FadeIn obj_comparison) (NFloat f_1_0);
                          Wait (NFloat w)]) occupied)).
Proof. exact (render_long obj_comparison (NInt 8) occupied I eq_refl eq_refl eq_refl). Defined.

Lemma wait_is_played_witness :
  exists w, wait_time (NFloat f_0_5) (NFloat (S754_finite false 5404319552844595 (-55)))
            = Ok w /\ wait_events w = [Wait w].
Proof.
  exact (wait_is_played (NFloat f_0_5) (NFloat (S754_finite false 5404319552844595 (-55)))
           eq_refl eq_refl ltac:(discriminate) eq_refl).
Defined.

Lemma wait_time_in_range_witness :
  num_le (NInt 0) (NFloat (S754_finite false 6305039478318694 (-52))) = true /\
  num_le (NFloat (S754_finite false 6305039478318694 (-52))) (NInt 2) = true.
Proof.
  destruct (wait_time_in_range (NInt 2)
              (NFloat (S754_finite false 5404319552844595 (-53)))
              (NFloat (S754_finite false 6305039478318694 (-52))) eq_refl) as [H0 H1].
  split; [exact H0 | exact (H1 I eq_refl eq_refl ltac:(discriminate) eq_refl)].
Defined.

Lemma construct_slot_at_most_one_witness :
  slot_ok (current_objects (exec construct (initial (VList [VDict entry_outro])))).
Proof.
  exact (construct_slot_at_most_one (initial (VList [VDict entry_outro])) (le_S 0 0 (le_n 0))).
Defined.

Lemma render_overflow_after_fade_out_witness :
  render (manim_text_outro, VStr "Bye", VInt 2) (NInt (2 ^ 1024)) occupied =
  (Raise OverflowError,
   Scene "timeline.json" VNone []
     [Play (FadeOut [(manim_text_intro, VStr "Hi", VInt 0)]) (NFloat f_0_5)]).
Proof.
  exact (render_overflow_after_fade_out (manim_text_outro, VStr "Bye", VInt 2)
           (2 ^ 1024) occupied eq_refl).
Defined.

Lemma render_huge_witness :
  num_lt (NInt 18014398509481987) (NFloat (S754_finite false 4503599627370497 2)) = true /\
  render obj_comparison (NInt 18014398509481987) occupied =
  (Ok tt, with_current_objects [obj_comparison]
            (emits (fade_out_events (current_objects occupied)
                    ++ [Play (FadeIn obj_comparison) (NFloat f_1_0);
                        Wait (NFloat (S754_finite false 4503599627370497 2))]) occupied)).
Proof.
  split; [reflexivity|].
  exact (render_huge obj_comparison (NInt 18014398509481987)
           (S754_finite false 4503599627370497 2) occupied I eq_refl eq_refl).
Defined.

Lemma times_degenerate_witness :
  ((NFloat (S754_zero false) = NFloat (S754_zero false) \/
    num_gt (NFloat (S754_zero false)) (NInt 0) = true) /\
   (NFloat (S754_zero false) = NFloat (S754_zero false) <->
    NFloat (S754_finite false 1 (-1074)) = NFloat (S754_finite false 1 (-1074))) /\
   (wait_events (NFloat (S754_finite false 1 (-1074))) = [] <->
    NFloat (S754_finite false 1 (-1074)) = NFloat S754_nan)) /\
  ((NFloat f_1_0 = NFloat (S754_zero false) \/ num_gt (NFloat f_1_0) (NInt 0) = true) /\
   (NFloat f_1_0 = NFloat (S754_zero false) <->
    NFloat S754_nan = NFloat (S754_finite false 1 (-1074))) /\
   (wait_events (NInt 0) = [] <-> NFloat S754_nan = NFloat S754_nan)).
Proof.
  split.
  - exact (times_degenerate (NFloat (S754_finite false 1 (-1074)))
             (NFloat (S754_zero false)) (NFloat (S754_finite false 1 (-1074)))
             eq_refl eq_refl eq_refl eq_refl).
  - exact (times_degenerate (NFloat S754_nan) (NFloat f_1_0) (NInt 0)
             eq_refl eq_refl eq_refl eq_refl).
Defined.

(** The entries behind the two exceptions of [times_degenerate]: the
    least float fades in over [0.0] and waits for its whole duration, and
    NaN fades in over [1.0] and does not wait. *)
Example render_least_float :
  render obj_comparison (NFloat (S754_finite false 1 (-1074))) occupied =
  (Ok tt, Scene "timeline.json" VNone [obj_comparison]
            [Play (FadeOut [obj_intro]) (NFloat f_0_5);
             Play (FadeIn obj_comparison) (NFloat (S754_zero false));
             Wait (NFloat (S754_finite false 1 (-1074)))]).
Proof. reflexivity. Qed.

Example render_nan :
  render obj_comparison (NFloat S754_nan) occupied =
  (Ok tt, Scene "timeline.json" VNone [obj_comparison]
            [Play (FadeOut [obj_intro]) (NFloat f_0_5);
             Play (FadeIn obj_comparison) (NFloat f_1_0)]).
Proof. reflexivity. Qed.
