(* ===== verification/PlayerSpec.v ===== *)
(** * PlayerSpec: what the player promises, and that [construct] keeps it

    The specification separates two things the loop of [construct] does at
    once.  [plan] decides, from an entry alone, what is to happen: nothing
    ([Skip]), a printed warning ([Warn]), the display of an object with its
    two times ([Show]), or an exception, before anything was played
    ([Abort]) or after the fade-out ([AbortAfterFadeOut]).  [spec_step] is
    the machine of section 4.3 of the specification: a slot that is empty
    or holds one object, and the output each action adds.  The refinement
    theorem states that [construct], run on a scene whose
    [current_objects] is the slot, produces the result, the slot and the
    output of the specification.  [screen_trace] is the language of the
    outputs: the moves of the screen, as a step relation.  [fade_ins] and
    [fade_outs] project an output on the objects it fades in and out. *)

From Stdlib Require Import ZArith Lia String Ascii List SpecFloat.
From stdpp Require Import base tactics option list strings.
From S2P Require Import Prelude PyFloat FloatFacts PyValue Templates Normalizer Player.

#[local] Open Scope string_scope.
#[local] Open Scope list_scope.

Section Spec.
Context {RT : PyRuntime} {EN : Engine}.

(** ** The plan of an entry *)

Inductive action : Type :=
| Skip
| Warn (text : string)
| Show (manim_obj : mobject) (fade_in wait_t : num)
| Abort (e : exn)
| AbortAfterFadeOut (e : exn).

(** The display of a built object: its two times, or the exception of
    their computation. *)
Definition plan_show (manim_obj : mobject) (duration : num) : action :=
  match fade_in_time duration with
  | Raise e => AbortAfterFadeOut e
  | Ok f =>
      match wait_time duration f with
      | Raise e => AbortAfterFadeOut e
      | Ok w => Show manim_obj f w
      end
  end.

(** What a name that is a string leads to. *)
Definition plan_named (name : string) (d : list (string * value)) (duration : num) :
  action :=
  match dict_lookup name TEMPLATE_MAP with
  | None => Warn (warning_not_found (VStr name))
  | Some template =>
      match template_func template (normalize (item_content d)) (item_timestamp d) with
      | Failed e => Warn (warning_error (VStr name) e)
      | Built manim_obj => plan_show manim_obj duration
      end
  end.

Definition plan (item : value) : action :=
  match item with
  | VDict d =>
      match item_duration d with
      | Raise e => Abort e
      | Ok duration =>
          if num_le duration (NInt 0) then Skip
          else match item_name d with
               | VStr name => plan_named name d duration
               | VList _ | VDict _ => Abort TypeError
               | name => Warn (warning_not_found name)
               end
      end
  | _ => Abort AttributeError
  end.

(** ** The slot machine *)

Definition slot : Type := option mobject.

(** The objects of a slot, as [current_objects] lists them. *)
Definition slot_objects (sl : slot) : list mobject := option_list sl.

(** The result, the next slot and the output of one action. *)
Definition spec_step (a : action) (sl : slot) : result unit * slot * list event :=
  match a with
  | Skip => (Ok tt, sl, [])
  | Warn text => (Ok tt, sl, [Print text])
  | Show manim_obj f w =>
      (Ok tt, Some manim_obj,
       fade_out_events (slot_objects sl) ++ [Play (FadeIn manim_obj) f] ++ wait_events w)
  | Abort e => (Raise e, sl, [])
  | AbortAfterFadeOut e => (Raise e, None, fade_out_events (slot_objects sl))
  end.

(** The actions in order, up to the first that raises. *)
Fixpoint spec_run (acts : list action) (sl : slot) : result unit * slot * list event :=
  match acts with
  | [] => (Ok tt, sl, [])
  | a :: acts' =>
      match spec_step a sl with
      | (Ok _, sl', es) =>
          let '(r, sl'', es') := spec_run acts' sl' in (r, sl'', es ++ es')
      | (Raise e, sl', es) => (Raise e, sl', es)
      end
  end.

(** The whole of [construct]: the entries of the timeline, then the
    fade-out of what the slot holds; the slot itself is not emptied. *)
Definition spec_construct (data : value) (sl : slot) : result unit * slot * list event :=
  match py_iter data with
  | Raise e => (Raise e, sl, [])
  | Ok items =>
      match spec_run (plan <$> items) sl with
      | (Ok _, sl', es) => (Ok tt, sl', es ++ fade_out_events (slot_objects sl'))
      | (Raise e, sl', es) => (Raise e, sl', es)
      end
  end.

(** The scene the specification's result describes. *)
Definition apply_spec (r : result unit * slot * list event) (s : scene) :
  result unit * scene :=
  let '(res, sl, es) := r in (res, with_current_objects (slot_objects sl) (emits es s)).

(** ** Refinement *)

Implicit Types (s : scene) (sl : slot) (es : list event).

Lemma apply_spec_keep (r : result unit) sl es s :
  current_objects s = slot_objects sl ->
  apply_spec (r, sl, es) s = (r, emits es s).
Proof.
  intros Hs. cbn. now rewrite <- Hs.
Qed.

Lemma apply_spec_ok_nil sl s :
  current_objects s = slot_objects sl -> apply_spec (Ok tt, sl, []) s = (Ok tt, s).
Proof. intros Hs. now rewrite apply_spec_keep, emits_nil. Qed.

Lemma apply_spec_raise_nil e sl s :
  current_objects s = slot_objects sl -> apply_spec (Raise e, sl, []) s = (Raise e, s).
Proof. intros Hs. now rewrite apply_spec_keep, emits_nil. Qed.

(** The display of a built object is the plan of its display. *)
Lemma render_refines manim_obj duration sl s :
  current_objects s = slot_objects sl ->
  render manim_obj duration s =
  apply_spec (spec_step (plan_show manim_obj duration) sl) s.
Proof.
  intros Hs. unfold plan_show. destruct (fade_in_time duration) as [f|e] eqn:Hf.
  - destruct (wait_time_defined _ _ Hf) as [w Hw]. rewrite Hw. cbn.
    now rewrite (render_run _ _ _ _ _ Hf Hw), Hs.
  - cbn. now rewrite (render_raise _ _ _ _ Hf), Hs.
Qed.

(** The loop body does to the scene what the slot machine does on the plan
    of the entry. *)
Lemma construct_item_refines item sl s :
  current_objects s = slot_objects sl ->
  construct_item item s = apply_spec (spec_step (plan item) sl) s.
Proof.
  intros Hs. destruct (is_dict item) eqn:Hi.
  2:{ rewrite construct_item_not_dict by done. destruct item; try done;
      cbn [plan spec_step]; now rewrite apply_spec_raise_nil. }
  destruct item as [| | | | | |d]; try discriminate.
  rewrite construct_item_dict. cbn [plan].
  destruct (item_duration d) as [duration|e];
    [|cbn [spec_step]; now rewrite apply_spec_raise_nil].
  destruct (num_le duration (NInt 0));
    [cbn [spec_step]; now rewrite apply_spec_ok_nil|].
  destruct (item_name d) as [| | | |name| |]; cbn [template_known hashable];
    try (cbn [spec_step]; now rewrite ?apply_spec_keep, ?emits_nil).
  unfold plan_named, template_lookup, dict_mem, dict_getitem.
  destruct (dict_lookup name TEMPLATE_MAP) as [template|];
    [|cbn [spec_step]; now rewrite apply_spec_keep].
  rewrite convert_content_to_string_normalize.
  destruct (template_func _ _ _);
    [now apply render_refines | cbn [spec_step]; now rewrite apply_spec_keep].
Qed.

Lemma apply_spec_current_objects r sl es s :
  current_objects (apply_spec (r, sl, es) s).2 = slot_objects sl.
Proof. reflexivity. Qed.

Lemma apply_spec_twice (r r' : result unit) sl sl' es es' s :
  apply_spec (r', sl', es') (apply_spec (r, sl, es) s).2 =
  apply_spec (r', sl', es ++ es') s.
Proof. cbn. unfold with_current_objects, emits. cbn. now rewrite app_assoc. Qed.

(** The loop is the run of the plans. *)
Lemma for_each_refines items sl s :
  current_objects s = slot_objects sl ->
  for_each construct_item items s = apply_spec (spec_run (plan <$> items) sl) s.
Proof.
  revert sl s. induction items as [|item items IH]; intros sl s Hs.
  - cbn [fmap list_fmap spec_run]. now rewrite for_each_nil, apply_spec_ok_nil.
  - rewrite for_each_cons, fmap_cons, (construct_item_refines _ _ _ Hs).
    cbn [spec_run]. destruct (spec_step (plan item) sl) as [[[[]|e] sl'] es];
      [|reflexivity].
    cbn [apply_spec]. rewrite (IH sl') by reflexivity.
    destruct (spec_run (plan <$> items) sl') as [[r sl''] es'].
    apply (apply_spec_twice (Ok tt)).
Qed.

(** The functional form of the refinement: [construct] is the
    specification applied to the scene. *)
Lemma construct_refines s sl :
  current_objects s = slot_objects sl ->
  construct s = apply_spec (spec_construct (template_data s) sl) s.
Proof.
  intros Hs. rewrite construct_run. unfold spec_construct.
  destruct (py_iter (template_data s)) as [items|e];
    [|now rewrite apply_spec_raise_nil].
  rewrite (for_each_refines _ _ _ Hs).
  destruct (spec_run (plan <$> items) sl) as [[[[]|e] sl'] es]; [|reflexivity].
  cbn. unfold with_current_objects, emits. cbn. now rewrite app_assoc.
Qed.

(** The scene [s] shows the slot [sl]. *)
Definition shows (sl : slot) (s : scene) : Prop := current_objects s = slot_objects sl.

(** C2: refinement, as a simulation.  If the scene shows the slot of the
    specification when [construct] starts, then [construct] returns or
    raises as the specification does, the scene it ends in shows the
    specification's final slot, its output is the old output followed by
    exactly the events of the specification in their order, and
    [json_path] and [template_data] are untouched. *)
Theorem construct_refines_spec s sl :
  shows sl s ->
  exists r sl' es,
    spec_construct (template_data s) sl = (r, sl', es) /\
    eval construct s = r /\
    shows sl' (exec construct s) /\
    output (exec construct s) = output s ++ es /\
    json_path (exec construct s) = json_path s /\
    template_data (exec construct s) = template_data s.
Proof.
  intros Hs. unfold eval, exec. rewrite (construct_refines _ _ Hs).
  destruct (spec_construct (template_data s) sl) as [[r sl'] es].
  exists r, sl', es. done.
Qed.

(** ** The language of the output *)

(** The moves of the screen.  [screen_trace sl es sl'] holds when the events
    [es], played on a screen showing [sl], are legal and leave [sl']: an
    object fades in on an empty screen only, over a time from [0] to
    [1.0]; a wait
    happens while an object is shown and is strictly positive; a fade-out
    removes exactly the object shown, over [0.5]; printing is always
    possible. *)
Inductive screen_trace : slot -> list event -> slot -> Prop :=
| st_done sl : screen_trace sl [] sl
| st_print sl text es sl' :
    screen_trace sl es sl' -> screen_trace sl (Print text :: es) sl'
| st_fade_in o f es sl' :
    num_le (NInt 0) f = true -> num_le f (NFloat f_1_0) = true ->
    screen_trace (Some o) es sl' ->
    screen_trace None (Play (FadeIn o) f :: es) sl'
| st_wait o w es sl' :
    num_lt (NInt 0) w = true ->
    screen_trace (Some o) es sl' ->
    screen_trace (Some o) (Wait w :: es) sl'
| st_fade_out o es sl' :
    screen_trace None es sl' ->
    screen_trace (Some o) (Play (FadeOut [o]) (NFloat f_0_5) :: es) sl'.

Lemma screen_trace_app sl1 sl2 sl3 es1 es2 :
  screen_trace sl1 es1 sl2 -> screen_trace sl2 es2 sl3 ->
  screen_trace sl1 (es1 ++ es2) sl3.
Proof. induction 1; intros; cbn; eauto using screen_trace. Qed.

Lemma fade_out_events_trace sl :
  screen_trace sl (fade_out_events (slot_objects sl)) None.
Proof. destruct sl; cbn; eauto using screen_trace. Qed.

Lemma wait_events_trace o w : screen_trace (Some o) (wait_events w) (Some o).
Proof.
  destruct (wait_events_cases w) as [->|[-> Hw]]; eauto using screen_trace.
Qed.

(** The actions whose fade-in time is from [0] to [1.0]: every plan is
    one. *)
Definition action_ok (a : action) : Prop :=
  match a with
  | Show _ f _ => num_le (NInt 0) f = true /\ num_le f (NFloat f_1_0) = true
  | _ => True
  end.

(** The fade-in time of a duration above zero is from [0] to [1.0]. *)
Lemma fade_in_time_range duration f :
  num_le duration (NInt 0) = false -> fade_in_time duration = Ok f ->
  num_le (NInt 0) f = true /\ num_le f (NFloat f_1_0) = true.
Proof.
  intros Hd Hf. split.
  - destruct (fade_in_time_sign _ _ Hd Hf) as (x & -> & Hs & Hn).
    now apply has_sign_nonneg.
  - apply fade_in_time_cases in Hf as (x & _ & ->). now apply py_min_le_l.
Qed.

Lemma plan_show_ok manim_obj duration :
  num_le duration (NInt 0) = false -> action_ok (plan_show manim_obj duration).
Proof.
  intros Hd. unfold plan_show. destruct (fade_in_time duration) as [f|] eqn:Hf; [|done].
  destruct (wait_time duration f); [|done]. now apply (fade_in_time_range duration).
Qed.

Lemma plan_ok item : action_ok (plan item).
Proof.
  destruct item as [| | | | | |d]; try done. cbn.
  destruct (item_duration d) as [duration|]; [|done].
  destruct (num_le duration (NInt 0)) eqn:Hd; [done|].
  destruct (item_name d); try done. unfold plan_named.
  repeat case_match; try done. now apply plan_show_ok.
Qed.

Lemma spec_step_trace a sl r sl' es :
  action_ok a -> spec_step a sl = (r, sl', es) ->
  screen_trace sl es (if r is Ok _ then sl' else sl').
Proof.
  destruct a as [|text|o f w|e|e]; cbn; intros Hok [= <- <- <-];
    eauto using screen_trace, fade_out_events_trace.
  eapply screen_trace_app; [apply fade_out_events_trace|].
  destruct Hok. apply st_fade_in; [done..|]. apply wait_events_trace.
Qed.

Lemma spec_run_trace acts sl r sl' es :
  Forall action_ok acts -> spec_run acts sl = (r, sl', es) ->
  screen_trace sl es sl'.
Proof.
  intros Hok. revert sl r sl' es.
  induction Hok as [|a acts Ha _ IH]; intros sl r sl' es; cbn.
  - intros [= <- <- <-]. constructor.
  - destruct (spec_step a sl) as [[[[]|e] sl1] es1] eqn:Hstep.
    + destruct (spec_run acts sl1) as [[r2 sl2] es2] eqn:Hrun. intros [= <- <- <-].
      eapply screen_trace_app; [|eapply IH, Hrun].
      apply (spec_step_trace _ _ _ _ _ Ha Hstep).
    + intros [= <- <- <-]. apply (spec_step_trace _ _ _ _ _ Ha Hstep).
Qed.

(** The output of the specification is a legal sequence of moves, and a
    run that returns leaves the screen empty. *)
Lemma spec_construct_trace data sl r sl' es :
  spec_construct data sl = (r, sl', es) ->
  exists final, screen_trace sl es final /\ (r = Ok tt -> final = None).
Proof.
  unfold spec_construct. destruct (py_iter data) as [items|e].
  2:{ intros [= <- <- <-]. exists sl. split; [constructor | discriminate]. }
  destruct (spec_run (plan <$> items) sl) as [[[[]|e] sl1] es1] eqn:Hrun;
    intros [= <- <- <-];
    apply spec_run_trace in Hrun; try (apply Forall_fmap, Forall_true, plan_ok).
  - exists None. split; [|done].
    eapply screen_trace_app; [exact Hrun | apply fade_out_events_trace].
  - exists sl1. split; [exact Hrun | discriminate].
Qed.

(** C13: what [construct] adds to the output is a legal sequence of moves
    of the screen from the slot it started with: fade-ins and fade-outs
    alternate, every fade-out removes exactly the object of the fade-in
    before it, every fade-in lasts from [0] to [1.0], every wait is
    positive; and when
    [construct] returns, the screen is empty. *)
Theorem construct_output_is_screen_trace s sl :
  current_objects s = slot_objects sl ->
  exists es final,
    output (exec construct s) = output s ++ es /\
    screen_trace sl es final /\
    (eval construct s = Ok tt -> final = None).
Proof.
  intros Hs. unfold exec, eval. rewrite (construct_refines _ _ Hs).
  destruct (spec_construct (template_data s) sl) as [[r sl'] es] eqn:Hspec.
  destruct (spec_construct_trace _ _ _ _ _ Hspec) as (final & Htr & Hfin).
  exists es, final. cbn. auto.
Qed.

(** ** What is shown, and in which order *)

(** The objects the output fades in, and those it fades out, in order. *)
Definition fade_ins (es : list event) : list mobject :=
  omap (fun e => match e with Play (FadeIn o) _ => Some o | _ => None end) es.
Definition fade_outs (es : list event) : list mobject :=
  flat_map (fun e => match e with Play (FadeOut l) _ => l | _ => [] end) es.

(** The object an action shows. *)
Definition shown (a : action) : option mobject :=
  match a with Show o _ _ => Some o | _ => None end.

Lemma fade_ins_app es1 es2 : fade_ins (es1 ++ es2) = fade_ins es1 ++ fade_ins es2.
Proof. apply omap_app. Qed.

Lemma fade_outs_app es1 es2 : fade_outs (es1 ++ es2) = fade_outs es1 ++ fade_outs es2.
Proof. apply flat_map_app. Qed.

Lemma fade_ins_wait w : fade_ins (wait_events w) = [].
Proof. unfold wait_events. now case_match. Qed.

Lemma fade_outs_wait w : fade_outs (wait_events w) = [].
Proof. unfold wait_events. now case_match. Qed.

Lemma fade_ins_fade_out l : fade_ins (fade_out_events l) = [].
Proof. unfold fade_out_events. now case_match. Qed.

Lemma fade_outs_fade_out l : fade_outs (fade_out_events l) = l.
Proof.
  unfold fade_out_events. destruct l; cbn; [done|]. now rewrite app_nil_r.
Qed.

(** A step fades in what its action shows, and fades out what the slot
    held when it shows or aborts after the fade-out. *)
Lemma spec_step_fades a sl r sl' es :
  spec_step a sl = (r, sl', es) ->
  fade_ins es = option_list (shown a) /\
  fade_outs es ++ slot_objects sl' = slot_objects sl ++ option_list (shown a).
Proof.
  destruct a as [|text|o f w|e|e]; cbn; intros [= <- <- <-]; cbn;
    rewrite ?app_nil_r; try done.
  - rewrite !fade_ins_app, !fade_outs_app, fade_ins_fade_out, fade_outs_fade_out.
    cbn. now rewrite fade_ins_wait, fade_outs_wait, !app_nil_r.
  - now rewrite fade_ins_fade_out, fade_outs_fade_out.
Qed.

(** A run fades in the objects of its [Show] actions, in order, and every
    object that was on screen or was faded in is faded out or is in the
    slot at the end. *)
Lemma spec_run_fades acts sl sl' es :
  spec_run acts sl = (Ok tt, sl', es) ->
  fade_ins es = omap shown acts /\
  fade_outs es ++ slot_objects sl' = slot_objects sl ++ omap shown acts.
Proof.
  revert sl sl' es. induction acts as [|a acts IH]; intros sl sl' es; cbn [spec_run].
  - intros [= <- <-]. cbn. now rewrite app_nil_r.
  - destruct (spec_step a sl) as [[[[]|e] sl1] es1] eqn:Hstep; [|discriminate].
    destruct (spec_run acts sl1) as [[r2 sl2] es2] eqn:Hrun. intros [= -> <- <-].
    destruct (spec_step_fades _ _ _ _ _ Hstep) as [Hi Ho].
    destruct (IH _ _ _ Hrun) as [Hi' Ho'].
    rewrite fade_ins_app, fade_outs_app, Hi, Hi'. simpl omap.
    split; [now destruct (shown a)|].
    rewrite <- app_assoc, Ho', app_assoc, Ho, <- app_assoc.
    now destruct (shown a).
Qed.

(** C14: what is shown, and in which order.  When [construct] returns,
    the objects its output fades in are exactly the objects of the
    entries whose plan is to show, in the order of the timeline, each
    once; and the objects it fades out are the object that was on screen
    at the start followed by the same objects in the same order: every
    object is faded out once, before the next is faded in. *)
Theorem construct_shows_in_order s sl items :
  current_objects s = slot_objects sl ->
  py_iter (template_data s) = Ok items -> eval construct s = Ok tt ->
  exists es, output (exec construct s) = output s ++ es /\
    fade_ins es = omap (fun item => shown (plan item)) items /\
    fade_outs es = slot_objects sl ++ fade_ins es.
Proof.
  intros Hs Hit. unfold eval, exec. rewrite (construct_refines _ _ Hs).
  unfold spec_construct. rewrite Hit.
  destruct (spec_run (plan <$> items) sl) as [[[[]|e] sl'] es] eqn:Hrun;
    [|discriminate].
  intros _. eexists. split; [reflexivity|].
  destruct (spec_run_fades _ _ _ _ Hrun) as [Hi Ho].
  rewrite fade_ins_app, fade_outs_app, fade_ins_fade_out, fade_outs_fade_out,
    app_nil_r, Ho, Hi. now rewrite omap_fmap.
Qed.

(** ** Consequences for whole timelines *)

(** A run that returns and showed an object ends with an object in the
    slot: only [Show] fills the slot, and nothing that returns empties it. *)
Lemma spec_run_slot_filled acts sl sl' es :
  spec_run acts sl = (Ok tt, sl', es) ->
  is_Some sl \/ (exists o f w, Show o f w ∈ acts) -> is_Some sl'.
Proof.
  revert sl sl' es. induction acts as [|a acts IH]; intros sl sl' es; cbn.
  - intros [= <- <-] [Hsl|(o & f & w & Hin)]; [done | inv Hin].
  - destruct (spec_step a sl) as [[[[]|e] sl1] es1] eqn:Hstep; [|discriminate].
    destruct (spec_run acts sl1) as [[r2 sl2] es2] eqn:Hrun. intros [= -> <- <-] Hor.
    apply (IH _ _ _ Hrun). destruct a as [|text|o f w|e|e]; cbn in Hstep;
      inv Hstep; try (left; done);
      (destruct Hor as [?|(o' & f' & w' & Hin)]; [left; done|];
       apply elem_of_cons in Hin as [[=]|Hin]; eauto 6).
Qed.

(** C31: the slot is not emptied by the last fade-out.  When [construct]
    starts with nothing on screen, returns, and some entry of the timeline
    was shown, [current_objects] still holds an object at the end, the one
    the last [play] faded out. *)
Theorem construct_leaves_slot_filled s items :
  current_objects s = [] -> py_iter (template_data s) = Ok items ->
  (exists item o f w, item ∈ items /\ plan item = Show o f w) ->
  eval construct s = Ok tt ->
  exists o, current_objects (exec construct s) = [o] /\
            last (output (exec construct s)) = Some (Play (FadeOut [o]) (NFloat f_0_5)).
Proof.
  intros Hs Hit (item & o & f & w & Hin & Hplan). unfold eval, exec.
  rewrite (construct_refines s None Hs). unfold spec_construct. rewrite Hit.
  destruct (spec_run (plan <$> items) None) as [[[[]|e] sl'] es] eqn:Hrun;
    [|discriminate].
  intros _. destruct (spec_run_slot_filled _ _ _ _ Hrun) as [o' ->].
  - right. exists o, f, w. rewrite <- Hplan. now apply list_elem_of_fmap_2.
  - exists o'. split; [reflexivity|]. cbn. now rewrite !app_assoc, last_snoc.
Qed.

(** C12: two entries that are shown, on an empty screen, give exactly:
    fade-in of the first object, its wait, fade-out of the first object,
    fade-in of the second, its wait, fade-out of the second; the entries
    are played in the order of the array. *)
Theorem construct_two_entries s item1 item2 o1 f1 w1 o2 f2 w2 :
  current_objects s = [] -> template_data s = VList [item1; item2] ->
  plan item1 = Show o1 f1 w1 -> plan item2 = Show o2 f2 w2 ->
  eval construct s = Ok tt /\
  output (exec construct s) =
    output s ++ [Play (FadeIn o1) f1] ++ wait_events w1
    ++ [Play (FadeOut [o1]) (NFloat f_0_5); Play (FadeIn o2) f2] ++ wait_events w2
    ++ [Play (FadeOut [o2]) (NFloat f_0_5)].
Proof.
  intros Hs Hd H1 H2. unfold eval, exec.
  rewrite (construct_refines s None Hs), Hd. unfold spec_construct. cbn.
  rewrite H1, H2. cbn. split; [reflexivity|]. do 2 f_equal.
  now rewrite app_nil_r, <- app_assoc.
Qed.

(** The run of a list of plans is the run of its parts, the second from
    the slot the first leaves. *)
Lemma spec_run_app acts1 acts2 sl sl1 es1 :
  spec_run acts1 sl = (Ok tt, sl1, es1) ->
  spec_run (acts1 ++ acts2) sl =
  let '(r, sl2, es2) := spec_run acts2 sl1 in (r, sl2, es1 ++ es2).
Proof.
  revert sl es1. induction acts1 as [|a acts1 IH]; intros sl es1.
  - intros [= <- <-]. cbn. now destruct (spec_run acts2 sl) as [[r sl2] es2].
  - cbn [app spec_run]. destruct (spec_step a sl) as [[[[]|e] sl'] es]; [|done].
    destruct (spec_run acts1 sl') as [[[[]|e] sl''] es'] eqn:E; [|done].
    intros [= <- <-]. rewrite (IH _ _ E).
    destruct (spec_run acts2 sl'') as [[r sl2] es2]. now rewrite app_assoc.
Qed.

(** C30: an entry that only warns (unknown template, failed constructor)
    does not stop the loop, wherever it stands in the timeline and
    whatever is on screen: when the entries before it return, its warning
    is printed after their events, and the entries that follow are played
    from the slot they left, as if the entry were not there.  The run of
    the timeline without the entry has the same result and the same final
    slot, and its output is the same without the warning. *)
Theorem construct_continues_after_warning s sl before item after text sl1 es1 :
  shows sl s -> template_data s = VList (before ++ item :: after) ->
  plan item = Warn text ->
  spec_run (plan <$> before) sl = (Ok tt, sl1, es1) ->
  exists r sl2 es2,
    spec_construct (VList after) sl1 = (r, sl2, es2) /\
    construct s =
      (r, with_current_objects (slot_objects sl2)
            (emits (es1 ++ [Print text] ++ es2) s)) /\
    forall s', shows sl s' -> template_data s' = VList (before ++ after) ->
      construct s' =
      (r, with_current_objects (slot_objects sl2) (emits (es1 ++ es2) s')).
Proof.
  intros Hs Hd Hp Hb. unfold spec_construct. cbn [py_iter].
  assert (Hrun : forall l,
    spec_run (plan <$> before ++ l) sl =
    let '(r, sl2, es2) := spec_run (plan <$> l) sl1 in (r, sl2, es1 ++ es2))
    by (intros l; rewrite fmap_app; now apply spec_run_app).
  pose proof (Hrun (item :: after)) as Hwith. pose proof (Hrun after) as Hwithout.
  cbn [fmap list_fmap spec_run] in Hwith. rewrite Hp in Hwith. cbn [spec_step] in Hwith.
  destruct (spec_run (plan <$> after) sl1) as [[[[]|e] sl2] es2];
    eexists _, sl2, _; (split; [reflexivity|]); split.
  1,3: rewrite (construct_refines s sl Hs), Hd; unfold spec_construct; cbn [py_iter];
       rewrite Hwith; cbn [apply_spec]; now rewrite <- ?app_assoc.
  all: intros s' Hs' Hd'; rewrite (construct_refines s' sl Hs'), Hd';
       unfold spec_construct; cbn [py_iter]; rewrite Hwithout; cbn [apply_spec];
       now rewrite <- ?app_assoc.
Qed.

End Spec.

(** ** Concrete runs

    The timeline of two entries of the specification, and one with an
    unknown template first, run with [test_engine]. *)

#[local] Existing Instance test_engine.
#[local] Existing Instance test_runtime.

Definition entry_intro : value :=
  VDict (entry (VStr "text_intro") (VStr "Hi") (VInt 0) (VInt 2)).
Definition entry_comparison : value :=
  VDict (entry (VStr "comparison")
           (VDict [("left", VStr "2x+3"); ("right", VStr "7")]) (VInt 2) (VInt 10)).
(** [0.6], [1.4] and [7.0]: the fade-in and the wait of a duration of 2, and
    the wait of a duration of 8. *)
Definition f_0_6 : num := NFloat (S754_finite false 5404319552844595 (-53)).
Definition f_1_4 : num := NFloat (S754_finite false 6305039478318694 (-52)).
Definition f_7_0 : num := NFloat (S754_finite false 7881299347898368 (-50)).

Definition two_entries : scene := initial (VList [entry_intro; entry_comparison]).

Lemma construct_two_entries_witness :
  eval construct two_entries = Ok tt /\
  output (exec construct two_entries) =
    [Play (FadeIn obj_intro) f_0_6; Wait f_1_4;
     Play (FadeOut [obj_intro]) (NFloat f_0_5);
     Play (FadeIn obj_comparison) (NFloat f_1_0); Wait f_7_0;
     Play (FadeOut [obj_comparison]) (NFloat f_0_5)].
Proof.
  exact (construct_two_entries two_entries entry_intro entry_comparison
           obj_intro f_0_6 f_1_4 obj_comparison (NFloat f_1_0) f_7_0
           eq_refl eq_refl eq_refl eq_refl).
Defined.

Lemma construct_refines_spec_witness :
  exists r sl' es,
    spec_construct (template_data two_entries) None = (r, sl', es) /\
    eval construct two_entries = r /\
    shows sl' (exec construct two_entries) /\
    output (exec construct two_entries) = output two_entries ++ es /\
    json_path (exec construct two_entries) = json_path two_entries /\
    template_data (exec construct two_entries) = template_data two_entries.
Proof. exact (construct_refines_spec two_entries None eq_refl). Defined.

Lemma construct_output_is_screen_trace_witness :
  exists es final,
    output (exec construct two_entries) = output two_entries ++ es /\
    screen_trace None es final /\
    (eval construct two_entries = Ok tt -> final = None).
Proof. exact (construct_output_is_screen_trace two_entries None eq_refl). Defined.

Lemma construct_shows_in_order_witness :
  exists es, output (exec construct two_entries) = output two_entries ++ es /\
    fade_ins es =
      omap (fun item => shown (plan item)) [entry_intro; entry_comparison] /\
    fade_outs es = slot_objects None ++ fade_ins es.
Proof.
  exact (construct_shows_in_order two_entries None [entry_intro; entry_comparison]
           eq_refl eq_refl eq_refl).
Defined.

Lemma construct_leaves_slot_filled_witness :
  exists o, current_objects (exec construct two_entries) = [o] /\
            last (output (exec construct two_entries)) =
            Some (Play (FadeOut [o]) (NFloat f_0_5)).
Proof.
  apply (construct_leaves_slot_filled two_entries [entry_intro; entry_comparison]);
    try reflexivity.
  exists entry_intro, obj_intro, f_0_6, f_1_4. split; [left | reflexivity].
Defined.

Definition warned : scene :=
  initial (VList [entry_intro; VDict entry_unknown; entry_comparison]).

Lemma construct_continues_after_warning_witness :
  exists r sl2 es2,
    spec_construct (VList [entry_comparison]) (Some obj_intro) = (r, sl2, es2) /\
    construct warned =
      (r, with_current_objects (slot_objects sl2)
            (emits ([Play (FadeIn obj_intro) f_0_6; Wait f_1_4]
                    ++ [Print "Warning: Template 'nope' not found in TEMPLATE_MAP"]
                    ++ es2) warned)) /\
    forall s', shows None s' ->
      template_data s' = VList ([entry_intro] ++ [entry_comparison]) ->
      construct s' =
      (r, with_current_objects (slot_objects sl2)
            (emits ([Play (FadeIn obj_intro) f_0_6; Wait f_1_4] ++ es2) s')).
Proof.
  exact (construct_continues_after_warning warned None [entry_intro] (VDict entry_unknown)
           [entry_comparison] "Warning: Template 'nope' not found in TEMPLATE_MAP"
           (Some obj_intro) [Play (FadeIn obj_intro) f_0_6; Wait f_1_4]
           eq_refl eq_refl eq_refl eq_refl).
Defined.
