(* ===== verification/PlayerHeld.v ===== *)
(** * PlayerHeld: every object shown is held

    [render] ([src/src/main_generator.py], lines 105 to 118) fades an
    object in and then waits, but only when the waiting time of line 111
    is above zero (line 115).  [held] is the executable check that every
    fade-in of an output is followed at once by a wait.  The output of
    [construct] passes it on every timeline whose floats are finite values
    of binary64, whatever else the timeline holds and also when the run
    ends in an exception: by [FloatRound], the fade-in time of a duration
    above zero is below the duration, and their difference does not round
    to zero.  The one output that fails the check is that of a duration
    that is NaN ([Player.times_degenerate]). *)

From Stdlib Require Import ZArith Lia String Ascii List SpecFloat.
From stdpp Require Import base tactics option list strings.
From S2P Require Import Prelude PyFloat FloatFacts FloatRound FloatTimes PyValue.
From S2P Require Import Templates Normalizer Player PlayerSpec.

#[local] Open Scope string_scope.
#[local] Open Scope list_scope.

Section Held.
Context {RT : PyRuntime} {EN : Engine}.

(** ** The check *)

(** Every fade-in of [es] is followed at once by a wait. *)
Fixpoint held (es : list event) : bool :=
  match es with
  | [] => true
  | Play (FadeIn _) _ :: es' =>
      match es' with
      | Wait _ :: _ => held es'
      | _ => false
      end
  | _ :: es' => held es'
  end.

(** The actions that hold what they show. *)
Definition action_held (a : action) : Prop :=
  match a with
  | Show _ _ w => wait_events w = [Wait w]
  | _ => True
  end.

(** ** The timelines *)

(** A value that, read as a time, is not a float or is a finite value of
    binary64. *)
Definition finite_time (v : value) : bool :=
  match v with
  | VFloat f => float_wf f && finite_float f
  | _ => true
  end.

(** An entry whose two times, as lines 84 and 85 read them, are such. *)
Definition finite_entry (item : value) : bool :=
  match item with
  | VDict d =>
      finite_time (dict_get "startTime" (VInt 0) d)
      && finite_time (dict_get "endTime" (VInt 0) d)
  | _ => true
  end.

(** A timeline of such entries; what cannot be iterated has none. *)
Definition finite_times (data : value) : bool :=
  match py_iter data with
  | Ok items => forallb finite_entry items
  | Raise _ => true
  end.

(** ** The output of the specification is held *)

Lemma held_app es1 es2 :
  held es1 = true -> held es2 = true -> held (es1 ++ es2) = true.
Proof.
  induction es1 as [|[[l|o] f|w|text] es1 IH]; cbn; auto.
  destruct es1 as [|[| |] es1]; try discriminate. exact IH.
Qed.

Lemma held_fade_out l : held (fade_out_events l) = true.
Proof. unfold fade_out_events. now destruct (truthy l). Qed.

Lemma spec_step_held a sl r sl' es :
  action_held a -> spec_step a sl = (r, sl', es) -> held es = true.
Proof.
  destruct a as [|text|o f w|e|e]; cbn; intros Hh [= <- <- <-];
    try done; [|apply held_fade_out].
  rewrite Hh. apply held_app; [apply held_fade_out | reflexivity].
Qed.

Lemma spec_run_held acts sl r sl' es :
  Forall action_held acts -> spec_run acts sl = (r, sl', es) -> held es = true.
Proof.
  intros Hh. revert sl r sl' es.
  induction Hh as [|a acts Ha _ IH]; intros sl r sl' es; cbn.
  - now intros [= <- <- <-].
  - destruct (spec_step a sl) as [[[[]|e] sl1] es1] eqn:Hstep.
    + destruct (spec_run acts sl1) as [[r2 sl2] es2] eqn:Hrun. intros [= <- <- <-].
      apply held_app; [apply (spec_step_held _ _ _ _ _ Ha Hstep) | apply (IH _ _ _ _ Hrun)].
    + intros [= <- <- <-]. apply (spec_step_held _ _ _ _ _ Ha Hstep).
Qed.

(** ** The plan of an entry of finite times holds what it shows *)

(** A number that is an [int] or a finite value of binary64. *)
Definition finite_num (n : num) : bool :=
  match n with
  | NInt _ => true
  | NFloat f => float_wf f && finite_float f
  end.

Lemma as_num_finite v x :
  finite_time v = true -> as_num v = Some x -> finite_num x = true.
Proof. destruct v; cbn; intros H [= <-]; done. Qed.

Lemma num_to_float_finite n f :
  finite_num n = true -> num_to_float n = Ok f ->
  float_wf f = true /\ finite_float f = true.
Proof.
  destruct n as [z|g]; cbn.
  - intros _ Hf. split; [apply (float_of_Z_valid z f Hf) | apply (float_of_Z_finite z f Hf)].
  - now intros [? ?]%andb_true_iff [= <-].
Qed.

(** The difference of two such numbers, when it is defined, is a number
    Python can hold and is not NaN. *)
Lemma num_sub_finite x y n :
  finite_num x = true -> finite_num y = true -> num_sub x y = Ok n ->
  valid_num n /\ n <> NFloat S754_nan.
Proof.
  intros Hx Hy [(a & b & -> & -> & ->)|(f & g & Hf & Hg & ->)]%num_sub_inv; [done|].
  destruct (num_to_float_finite _ _ Hx Hf) as [Hwf Hff].
  destruct (num_to_float_finite _ _ Hy Hg) as [Hwg Hfg].
  destruct (fsub_valid f g Hwf Hwg) as [Hw Hn].
  split; [exact Hw | intros [= E]; now apply Hn].
Qed.

Lemma py_sub_finite a b n :
  finite_time a = true -> finite_time b = true -> py_sub a b = Ok n ->
  valid_num n /\ n <> NFloat S754_nan.
Proof.
  intros Ha Hb. unfold py_sub.
  destruct (as_num a) as [x|] eqn:Hx; [|discriminate].
  destruct (as_num b) as [y|] eqn:Hy; [|discriminate].
  apply num_sub_finite; eauto using as_num_finite.
Qed.

Lemma plan_show_held manim_obj duration :
  valid_num duration -> num_le duration (NInt 0) = false ->
  duration <> NFloat S754_nan -> action_held (plan_show manim_obj duration).
Proof.
  intros Hv Hle Hn. unfold plan_show.
  destruct (fade_in_time duration) as [f|] eqn:Hf; [|done].
  destruct (wait_time_positive _ _ Hv Hle Hn Hf) as (w & -> & Hgt).
  cbn. unfold wait_events. now rewrite Hgt.
Qed.

Lemma plan_held item : finite_entry item = true -> action_held (plan item).
Proof.
  destruct item as [| | | | | |d]; try done. cbn.
  intros [Hs He]%andb_true_iff.
  destruct (item_duration d) as [duration|] eqn:Hd; [|done].
  destruct (py_sub_finite _ _ _ He Hs Hd) as [Hv Hn].
  destruct (num_le duration (NInt 0)) eqn:Hle; [done|].
  destruct (item_name d); try done. unfold plan_named.
  repeat case_match; try done. now apply plan_show_held.
Qed.

Lemma spec_construct_held data sl r sl' es :
  finite_times data = true -> spec_construct data sl = (r, sl', es) ->
  held es = true.
Proof.
  unfold spec_construct, finite_times. intros Hfin.
  destruct (py_iter data) as [items|e]; [|now intros [= <- <- <-]].
  assert (Hh : Forall action_held (plan <$> items)).
  { apply Forall_fmap. apply Is_true_true_2, forallb_True in Hfin.
    eapply Forall_impl; [exact Hfin|]. intros item Hi%Is_true_true_1.
    now apply plan_held. }
  destruct (spec_run (plan <$> items) sl) as [[[[]|e] sl1] es1] eqn:Hrun;
    apply (spec_run_held _ _ _ _ _ Hh) in Hrun; intros [= <- <- <-]; [|exact Hrun].
  apply held_app; [exact Hrun | apply held_fade_out].
Qed.

(** C10: every object shown is held.  On a timeline whose floats are
    finite values of binary64 (whatever its [int]s, its names and its
    contents are, and also when the run ends in an exception), every
    fade-in of the output of [construct] is followed at once by a wait:
    the guard of line 115 never drops the wait of line 116. *)
Theorem construct_holds_what_it_shows s sl :
  current_objects s = slot_objects sl ->
  finite_times (template_data s) = true ->
  exists es, output (exec construct s) = output s ++ es /\ held es = true.
Proof.
  intros Hs Hfin. unfold exec. rewrite (construct_refines _ _ Hs).
  destruct (spec_construct (template_data s) sl) as [[r sl'] es] eqn:Hspec.
  exists es. split; [reflexivity | exact (spec_construct_held _ _ _ _ _ Hfin Hspec)].
Qed.

End Held.

(** ** A concrete timeline *)

#[local] Existing Instance test_engine.
#[local] Existing Instance test_runtime.

(** An entry whose [startTime] is NaN: it is faded in and not held. *)
Definition entry_nan : value :=
  VDict (entry (VStr "text_intro") (VStr "Hi") (VFloat S754_nan) (VInt 1)).

Lemma nan_entry_is_not_held :
  finite_times (VList [entry_nan]) = false /\
  held (output (exec construct (initial (VList [entry_nan])))) = false.
Proof. split; reflexivity. Qed.

Lemma construct_holds_what_it_shows_witness :
  exists es, output (exec construct two_entries) = output two_entries ++ es /\
    held es = true.
Proof. exact (construct_holds_what_it_shows two_entries None eq_refl eq_refl). Defined.
