(* ===== verification/PlayerMonitor.v ===== *)
(** * PlayerMonitor: the language of the output, decided

    [PlayerSpec.screen_trace] is the relation that says which sequences of
    [play], [wait] and [print] calls are legal moves of the screen.
    [monitor] is the function that runs a sequence of events against a
    slot and returns the slot it leaves, or [None] at the first illegal
    move; it needs equality of renderable objects to be decidable, to
    check that a fade-out removes the object shown.  The two agree, so the
    relation is decidable and functional, and the output of [construct]
    ([src/src/main_generator.py], lines 80 to 121) passes the monitor. *)

From Stdlib Require Import ZArith String Ascii List SpecFloat.
From stdpp Require Import base tactics option list strings.
From S2P Require Import Prelude PyFloat FloatFacts PyValue Templates Normalizer Player.
From S2P Require Import PlayerSpec.

#[local] Open Scope string_scope.
#[local] Open Scope list_scope.

Section Monitor.
Context {RT : PyRuntime} {EN : Engine} `{!EqDecision mobject}.

(** ** The monitor *)

(** One event on a slot: the slot after it, or [None] when the move is
    not legal. *)
Definition move (sl : slot) (e : event) : option slot :=
  match e, sl with
  | Print _, _ => Some sl
  | Play (FadeIn o) f, None =>
      if num_le (NInt 0) f && num_le f (NFloat f_1_0) then Some (Some o) else None
  | Wait w, Some _ => if num_lt (NInt 0) w then Some sl else None
  | Play (FadeOut l) f, Some o =>
      if decide (l = [o] /\ f = NFloat f_0_5) then Some None else None
  | _, _ => None
  end.

Fixpoint monitor (sl : slot) (es : list event) : option slot :=
  match es with
  | [] => Some sl
  | e :: es' => sl' ← move sl e; monitor sl' es'
  end.

(** ** The monitor decides the language *)

Lemma monitor_sound sl es sl' : monitor sl es = Some sl' -> screen_trace sl es sl'.
Proof.
  revert sl. induction es as [|e es IH]; intros sl; cbn.
  { intros [= <-]. constructor. }
  destruct e as [[l|o] f|w|text], sl as [o'|]; cbn; try discriminate.
  - case_decide as Hd; cbn; [|discriminate]. destruct Hd as [-> ->].
    intros Hes%IH. now apply st_fade_out.
  - destruct (num_le (NInt 0) f) eqn:H0, (num_le f (NFloat f_1_0)) eqn:H1;
      cbn; try discriminate. intros Hes%IH. now apply st_fade_in.
  - destruct (num_lt (NInt 0) w) eqn:Hw; cbn; [|discriminate].
    intros Hes%IH. now apply st_wait.
  - intros Hes%IH. now apply st_print.
  - intros Hes%IH. now apply st_print.
Qed.

Lemma monitor_complete sl es sl' : screen_trace sl es sl' -> monitor sl es = Some sl'.
Proof.
  induction 1 as [sl|sl text es sl' _ IH|o f es sl' H0 H1 _ IH|o w es sl' Hw _ IH
                  |o es sl' _ IH]; cbn;
    rewrite ?H0, ?H1, ?Hw, ?decide_True by done; done.
Qed.

Lemma monitor_spec sl es sl' : monitor sl es = Some sl' <-> screen_trace sl es sl'.
Proof. split; [apply monitor_sound | apply monitor_complete]. Qed.

#[export] Instance screen_trace_dec sl es sl' : Decision (screen_trace sl es sl').
Proof.
  refine (cast_if (decide (monitor sl es = Some sl'))); now rewrite <- monitor_spec.
Defined.

(** The events determine the slot they leave. *)
Lemma screen_trace_functional sl es sl1 sl2 :
  screen_trace sl es sl1 -> screen_trace sl es sl2 -> sl1 = sl2.
Proof. intros H1%monitor_complete H2%monitor_complete. congruence. Qed.

Lemma monitor_app sl es1 es2 :
  monitor sl (es1 ++ es2) = sl' ← monitor sl es1; monitor sl' es2.
Proof.
  revert sl. induction es1 as [|e es1 IH]; intros sl; cbn; [done|].
  destruct (move sl e); cbn; [apply IH | done].
Qed.

(** ** The output of [construct] passes the monitor *)

(** What [construct] adds to the output is accepted from the slot it
    started with, and a run that returns leaves the screen empty. *)
Lemma construct_monitored s sl :
  current_objects s = slot_objects sl ->
  exists es final,
    output (exec construct s) = output s ++ es /\
    monitor sl es = Some final /\
    (eval construct s = Ok tt -> final = None).
Proof.
  intros Hs. unfold exec, eval. rewrite (construct_refines _ _ Hs).
  destruct (spec_construct (template_data s) sl) as [[r sl'] es] eqn:Hspec.
  destruct (spec_construct_trace _ _ _ _ _ Hspec) as (final & Htr & Hfin).
  exists es, final. cbn. auto using monitor_complete.
Qed.

End Monitor.

(** ** Concrete runs *)

#[local] Existing Instance test_engine.
#[local] Existing Instance test_runtime.

(** The six events of two entries are accepted and leave the screen
    empty; without the fade-out between the entries they are not. *)
Lemma two_entries_monitored :
  monitor None (output (exec construct two_entries)) = Some None /\
  monitor None [Play (FadeIn obj_intro) f_0_6; Wait f_1_4;
                Play (FadeIn obj_comparison) (NFloat f_1_0); Wait f_7_0] = None.
Proof. split; reflexivity. Qed.
