(* ===== verification/Schema.v ===== *)
(** * Schema: timelines of the data model play without an exception

    The data model of the timeline (a list of dictionaries whose
    [templateName] is a string and whose [startTime] and [endTime] are
    numbers) is written as the executable check [timeline_conforms].  The
    loop of [construct] ([src/src/main_generator.py], lines 81 to 118)
    can raise [AttributeError], [TypeError], [KeyError] and
    [OverflowError]; on a timeline that conforms it raises none of them.
    An [int] time is bounded by [2 ^ 52] so that a duration is below
    [2 ^ 53] and has a float of its own. *)

From Stdlib Require Import ZArith Lia String Ascii List SpecFloat.
From stdpp Require Import base tactics option list strings.
From S2P Require Import Prelude PyFloat FloatFacts PyValue Templates Normalizer.
From S2P Require Import Player.

#[local] Open Scope string_scope.
#[local] Open Scope list_scope.

Section Schema.
Context {RT : PyRuntime} {EN : Engine}.

(** ** The data model *)

(** A time: a float, or an [int] below [2 ^ 52] in magnitude. *)
Definition time_ok (v : value) : bool :=
  match v with
  | VInt z => (Z.abs z <? 2 ^ 52)%Z
  | VFloat _ => true
  | _ => false
  end.

(** An entry: a dictionary whose name is a string and whose times, as
    lines 84 and 85 read them, are times. *)
Definition entry_conforms (item : value) : bool :=
  match item with
  | VDict d =>
      is_str (item_name d) && time_ok (dict_get "startTime" (VInt 0) d)
      && time_ok (dict_get "endTime" (VInt 0) d)
  | _ => false
  end.

Definition timeline_conforms (data : value) : bool :=
  match data with
  | VList items => forallb entry_conforms items
  | _ => false
  end.

(** ** No step of the loop body raises *)

(** The difference of two times is a duration. *)
Lemma py_sub_times a b :
  time_ok a = true -> time_ok b = true ->
  exists n, py_sub a b = Ok n /\ exact_num n.
Proof.
  destruct a as [| |x|f| | |], b as [| |y|g| | |]; try discriminate; cbn;
    rewrite ?Z.ltb_lt; intros Ha Hb.
  - eexists. split; [reflexivity|]. unfold exact_num.
    change (2 ^ 53)%Z with (2 * 2 ^ 52)%Z. lia.
  - destruct (float_of_Z_defined x) as [f' ->];
      [change (2 ^ 53)%Z with (2 * 2 ^ 52)%Z; lia|]. by eexists.
  - destruct (float_of_Z_defined y) as [g' ->];
      [change (2 ^ 53)%Z with (2 * 2 ^ 52)%Z; lia|]. by eexists.
  - by eexists.
Qed.

Lemma render_returns manim_obj n s :
  exact_num n -> eval (render manim_obj n) s = Ok tt.
Proof.
  intros [f Hf]%fade_in_time_defined. destruct (wait_time_defined _ _ Hf) as [w Hw].
  unfold eval. now rewrite (render_run _ _ _ _ _ Hf Hw).
Qed.

Lemma construct_item_returns item s :
  entry_conforms item = true -> eval (construct_item item) s = Ok tt.
Proof.
  destruct item as [| | | | | |d]; try discriminate. cbn [entry_conforms].
  intros [[Hn Hs]%andb_true_iff He]%andb_true_iff.
  unfold eval. rewrite construct_item_dict. unfold item_duration.
  destruct (py_sub_times _ _ He Hs) as (n & -> & Hd).
  destruct (num_le n (NInt 0)); [done|].
  destruct (template_known (item_name d)) as [[]|e] eqn:Hk;
    [| done | by destruct (item_name d)].
  destruct (template_lookup_known _ Hk) as [t ->].
  rewrite convert_content_to_string_normalize.
  destruct (template_func _ _ _); [now apply render_returns | done].
Qed.

Lemma loop_returns items s :
  forallb entry_conforms items = true ->
  eval (for_each construct_item items) s = Ok tt.
Proof.
  intros Hc%Is_true_true_2%forallb_True. apply for_each_ok.
  eapply Forall_impl; [exact Hc|].
  intros item Hi%Is_true_true_1 s'. now apply construct_item_returns.
Qed.

(** C4: a timeline of the data model plays to its end.  When
    [template_data] is a list of dictionaries whose [templateName] is a
    string and whose [startTime] and [endTime] are floats or [int]s below
    [2 ^ 52] in magnitude, [construct] returns: no entry raises
    [AttributeError], [TypeError], [KeyError] or [OverflowError], whatever
    the content, the names and the constructors do. *)
Theorem conforming_timeline_returns s :
  timeline_conforms (template_data s) = true -> eval construct s = Ok tt.
Proof.
  destruct (template_data s) as [| | | | |items|] eqn:Hd; try discriminate.
  intros Hc. apply (construct_returns items); [now rewrite Hd|].
  now apply loop_returns.
Qed.

End Schema.

(** ** A concrete timeline *)

#[local] Existing Instance test_engine.
#[local] Existing Instance test_runtime.

(** Three entries that are shown, the last without a [startTime], one of
    an unknown template, one whose constructor fails and one of no
    duration. *)
Definition conforming : scene :=
  initial (VList [VDict entry_outro; VDict entry_unknown; VDict entry_failing;
                  VDict entry_zero;
                  VDict (entry (VStr "comparison") (VList [VInt 1; VNone])
                           (VFloat f_0_5) (VInt 9));
                  VDict [("templateName", VStr "text_intro");
                         ("content", VStr "Hi"); ("endTime", VInt 3)]]).

Lemma conforming_timeline_returns_witness : eval construct conforming = Ok tt.
Proof. exact (conforming_timeline_returns conforming eq_refl). Defined.
