(* ===== verification/PlayerSteps.v ===== *)
(** * PlayerSteps: [construct] as a transition system

    [src/src/main_generator.py], lines 80 to 121, one statement at a time.
    A configuration is a control point of [construct] with the scene;
    [step] has one rule for each way a statement can go, and [next] is the
    same relation as a function.  The file proves that the machine is
    deterministic, that every run ends (with the number of steps a
    timeline needs), that its complete runs are exactly the results of the
    function [construct] of [Player], an invariant of every reachable
    configuration that relates [current_objects] to what the output has
    put on the screen, and that an object on screen is faded out unless
    an exception ends the run. *)

From Stdlib Require Import ZArith Lia String Ascii List SpecFloat.
From stdpp Require Import base tactics option list strings relations.
From S2P Require Import Prelude PyFloat FloatFacts PyValue Templates Normalizer.
From S2P Require Import Player PlayerSpec.

#[local] Open Scope string_scope.
#[local] Open Scope list_scope.

Section Steps.
Context {RT : PyRuntime} {EN : Engine}.

(** ** Configurations *)

(** What lines 82 to 104 decide for an entry: it is skipped (line 90), it
    only prints (lines 93 and 103), or its object is built. *)
Inductive prepared : Type :=
| Skipped
| Warned (text : string)
| Ready (manim_obj : mobject) (duration : num).

(** Lines 82 to 104: the fields, the duration and its test, the lookup,
    the normalized content and the constructor call.  Nothing here reads
    or writes the scene. *)
Definition prepare (item : value) : result prepared :=
  template_name <- py_get item "templateName" VNone ;;
  content <- py_get item "content" VNone ;;
  start_time <- py_get item "startTime" (VInt 0) ;;
  end_time <- py_get item "endTime" (VInt 0) ;;
  timestamp <- py_get item "timestamp" start_time ;;
  duration <- py_sub end_time start_time ;;
  if num_le duration (NInt 0) then Ok Skipped else
  known <- template_known template_name ;;
  if negb known then Ok (Warned (warning_not_found template_name)) else
  template <- template_lookup template_name ;;
  content_str <- convert_content_to_string content ;;
  match template_func template content_str timestamp with
  | Failed e => Ok (Warned (warning_error template_name e))
  | Built manim_obj => Ok (Ready manim_obj duration)
  end.

(** The control points of [construct]: before the loop, at the head of
    the loop with the entries left, at lines 106, 110, 115 and 118 of the
    entry being shown, at line 120, and the two ways the method ends. *)
Inductive control : Type :=
| Start
| Loop (items : list value)
| FadeOutOld (manim_obj : mobject) (duration : num) (items : list value)
| FadeInNew (manim_obj : mobject) (duration : num) (items : list value)
| Hold (manim_obj : mobject) (wait_t : num) (items : list value)
| Store (manim_obj : mobject) (items : list value)
| Cleanup
| Returned
| Raised (e : exn).

Definition config : Type := control * scene.

(** The two times of lines 110 and 111, computed before the fade-in is
    played. *)
Definition times (duration : num) : result (num * num) :=
  fade_in <- fade_in_time duration ;;
  wait_t <- wait_time duration fade_in ;;
  Ok (fade_in, wait_t).

(** ** The step relation *)

Inductive step : config -> config -> Prop :=
| step_iter s items :
    py_iter (template_data s) = Ok items ->
    step (Start, s) (Loop items, s)
| step_iter_raise s e :
    py_iter (template_data s) = Raise e ->
    step (Start, s) (Raised e, s)
| step_exhausted s :
    step (Loop [], s) (Cleanup, s)
| step_skip item items s :
    prepare item = Ok Skipped ->
    step (Loop (item :: items), s) (Loop items, s)
| step_warn item items text s :
    prepare item = Ok (Warned text) ->
    step (Loop (item :: items), s) (Loop items, emits [Print text] s)
| step_ready item items manim_obj duration s :
    prepare item = Ok (Ready manim_obj duration) ->
    step (Loop (item :: items), s) (FadeOutOld manim_obj duration items, s)
| step_prepare_raise item items e s :
    prepare item = Raise e ->
    step (Loop (item :: items), s) (Raised e, s)
| step_fade_out manim_obj duration items s :
    step (FadeOutOld manim_obj duration items, s)
         (FadeInNew manim_obj duration items,
          with_current_objects [] (emits (fade_out_events (current_objects s)) s))
| step_fade_in manim_obj duration items fade_in wait_t s :
    times duration = Ok (fade_in, wait_t) ->
    step (FadeInNew manim_obj duration items, s)
         (Hold manim_obj wait_t items, emits [Play (FadeIn manim_obj) fade_in] s)
| step_times_raise manim_obj duration items e s :
    times duration = Raise e ->
    step (FadeInNew manim_obj duration items, s) (Raised e, s)
| step_hold manim_obj wait_t items s :
    step (Hold manim_obj wait_t items, s)
         (Store manim_obj items, emits (wait_events wait_t) s)
| step_store manim_obj items s :
    step (Store manim_obj items, s) (Loop items, with_current_objects [manim_obj] s)
| step_cleanup s :
    step (Cleanup, s) (Returned, emits (fade_out_events (current_objects s)) s).

(** The same machine as a function: the configuration after one step,
    [None] when the method has ended. *)
Definition next (c : config) : option config :=
  let '(ctl, s) := c in
  match ctl with
  | Start =>
      Some match py_iter (template_data s) with
           | Ok items => (Loop items, s)
           | Raise e => (Raised e, s)
           end
  | Loop [] => Some (Cleanup, s)
  | Loop (item :: items) =>
      Some match prepare item with
           | Ok Skipped => (Loop items, s)
           | Ok (Warned text) => (Loop items, emits [Print text] s)
           | Ok (Ready manim_obj duration) => (FadeOutOld manim_obj duration items, s)
           | Raise e => (Raised e, s)
           end
  | FadeOutOld manim_obj duration items =>
      Some (FadeInNew manim_obj duration items,
            with_current_objects [] (emits (fade_out_events (current_objects s)) s))
  | FadeInNew manim_obj duration items =>
      Some match times duration with
           | Ok (fade_in, wait_t) =>
               (Hold manim_obj wait_t items, emits [Play (FadeIn manim_obj) fade_in] s)
           | Raise e => (Raised e, s)
           end
  | Hold manim_obj wait_t items =>
      Some (Store manim_obj items, emits (wait_events wait_t) s)
  | Store manim_obj items => Some (Loop items, with_current_objects [manim_obj] s)
  | Cleanup => Some (Returned, emits (fade_out_events (current_objects s)) s)
  | Returned | Raised _ => None
  end.

(** The method has ended: it returned or raised. *)
Definition final (c : config) : bool :=
  match c.1 with Returned | Raised _ => true | _ => false end.

(** [fuel] steps, or fewer when the method ends before. *)
Fixpoint run (fuel : nat) (c : config) : config :=
  match fuel with
  | 0 => c
  | S fuel' => match next c with Some c' => run fuel' c' | None => c end
  end.

(** The entries left at a control point. *)
Definition entries_left (c : config) : list value :=
  match c.1 with
  | Start => match py_iter (template_data c.2) with Ok items => items | Raise _ => [] end
  | Loop items | FadeOutOld _ _ items | FadeInNew _ _ items | Hold _ _ items
  | Store _ items => items
  | Cleanup | Returned | Raised _ => []
  end.

(** The steps a configuration has left at most: five for an entry, two to
    leave the loop and end. *)
Definition weight (c : config) : nat :=
  5 * length (entries_left c) +
  match c.1 with
  | Start => 3
  | Loop _ => 2
  | FadeOutOld _ _ _ => 6
  | FadeInNew _ _ _ => 5
  | Hold _ _ _ => 4
  | Store _ _ => 3
  | Cleanup => 1
  | Returned | Raised _ => 0
  end.

(** The configuration a result of [construct] stands for. *)
Definition outcome (r : result unit * scene) : config :=
  match r with
  | (Ok _, s) => (Returned, s)
  | (Raise e, s) => (Raised e, s)
  end.

(** What is on the screen at a control point: between the fade-in and the
    assignment of line 118 the new object, after the last fade-out
    nothing, and otherwise what [current_objects] lists. *)
Definition screen (c : config) : slot :=
  match c.1 with
  | Hold manim_obj _ _ | Store manim_obj _ => Some manim_obj
  | FadeInNew _ _ _ | Returned => None
  | _ => head (current_objects c.2)
  end.

(** What holds at a control point: [current_objects] is empty while an
    entry is being shown and holds at most one object elsewhere, and the
    duration of an entry being shown is above zero. *)
Definition slot_at (c : config) : Prop :=
  match c.1 with
  | FadeOutOld _ duration _ =>
      slot_ok (current_objects c.2) /\ num_le duration (NInt 0) = false
  | FadeInNew _ duration _ =>
      current_objects c.2 = [] /\ num_le duration (NInt 0) = false
  | Hold _ _ _ | Store _ _ => current_objects c.2 = []
  | _ => slot_ok (current_objects c.2)
  end.

(** [P] holds now or after some steps. *)
Inductive eventually (P : config -> Prop) (c : config) : Prop :=
| eventually_now : P c -> eventually P c
| eventually_step c' : step c c' -> eventually P c' -> eventually P c.

Implicit Types (c : config) (s : scene) (items : list value).

(** ** The relation and the function *)

Lemma step_next c c' : step c c' <-> next c = Some c'.
Proof.
  split.
  - destruct 1; cbn; repeat match goal with H : _ = _ |- _ => rewrite H end;
      reflexivity.
  - destruct c as [[| [] | | | | | | |] s]; cbn; try discriminate; intros [= <-];
      repeat case_match; subst; eauto using step.
Qed.

Lemma step_deterministic c c1 c2 : step c c1 -> step c c2 -> c1 = c2.
Proof. rewrite !step_next. congruence. Qed.

(** Progress: a configuration steps unless the method has ended. *)
Lemma next_final c : next c = None <-> final c = true.
Proof. destruct c as [[| [] | | | | | | |] s]; cbn; split; congruence. Qed.

Lemma step_progress c : final c = true \/ exists c', step c c'.
Proof.
  destruct (next c) as [c'|] eqn:E.
  - right. exists c'. now apply step_next.
  - left. now apply next_final.
Qed.

Lemma final_no_step c c' : final c = true -> ~ step c c'.
Proof. intros Hf%next_final Hs%step_next. congruence. Qed.

(** ** Termination *)

Lemma step_weight c c' : step c c' -> weight c' < weight c.
Proof.
  destruct 1; unfold weight, entries_left; cbn [fst snd length];
    repeat match goal with H : _ = _ |- _ => rewrite H end; cbn [length]; lia.
Qed.

(** No run is infinite. *)
Lemma step_sn c : sn step c.
Proof.
  remember (weight c) as n eqn:E. revert c E.
  induction (lt_wf n) as [n _ IH]. intros c ->. constructor. intros c' Hs.
  apply (IH (weight c')); [now apply step_weight | reflexivity].
Qed.

Lemma weight_final c : weight c = 0 -> final c = true.
Proof. destruct c as [[] s]; unfold weight; cbn; lia || reflexivity. Qed.

Lemma run_final fuel c : weight c <= fuel -> final (run fuel c) = true.
Proof.
  revert c. induction fuel as [|fuel IH]; intros c Hw; cbn.
  - apply weight_final. lia.
  - destruct (next c) as [c'|] eqn:E; [|now apply next_final].
    apply IH. apply step_next, step_weight in E. lia.
Qed.

Lemma run_steps fuel c : rtc step c (run fuel c).
Proof.
  revert c. induction fuel as [|fuel IH]; intros c; cbn; [done|].
  destruct (next c) as [c'|] eqn:E; [|done].
  eapply rtc_l; [apply step_next, E | apply IH].
Qed.

(** Two complete runs from one configuration end in the same one. *)
Lemma steps_final_unique c c1 c2 :
  rtc step c c1 -> rtc step c c2 -> final c1 = true -> final c2 = true -> c1 = c2.
Proof.
  induction 1 as [c|c c' c1 Hs _ IH]; intros H2 F1 F2.
  - inv H2; [done|]. now apply final_no_step in H.
  - inv H2; [now apply final_no_step in Hs|].
    rewrite (step_deterministic _ _ _ Hs H) in IH. auto.
Qed.

(** ** The machine and the function [construct] *)

(** Where the loop goes after an entry. *)
Definition continue (items : list value) (r : result unit * scene) : config :=
  match r with
  | (Ok _, s) => (Loop items, s)
  | (Raise e, s) => (Raised e, s)
  end.

(** [prepare] on a dictionary, as a decision on the fields of the entry. *)
Lemma prepare_dict d :
  prepare (VDict d) =
  match item_duration d with
  | Raise e => Raise e
  | Ok duration =>
      if num_le duration (NInt 0) then Ok Skipped else
      match template_known (item_name d) with
      | Raise e => Raise e
      | Ok false => Ok (Warned (warning_not_found (item_name d)))
      | Ok true =>
          match template_lookup (item_name d) with
          | Raise e => Raise e
          | Ok template =>
              match convert_content_to_string (item_content d) with
              | Raise e => Raise e
              | Ok content_str =>
                  match template_func template content_str (item_timestamp d) with
                  | Failed e => Ok (Warned (warning_error (item_name d) e))
                  | Built manim_obj => Ok (Ready manim_obj duration)
                  end
              end
          end
      end
  end.
Proof.
  unfold prepare, item_duration, item_name, item_content, item_timestamp.
  cbn [py_get mbind result_bind].
  destruct (py_sub _ _) as [duration|e]; cbn [mbind result_bind]; [|reflexivity].
  destruct (num_le duration _); [reflexivity|].
  now destruct (template_known _) as [[]|e].
Qed.

(** The loop body is [prepare] followed by the display of what was built. *)
Lemma construct_item_prepare item s :
  construct_item item s =
  match prepare item with
  | Ok Skipped => (Ok tt, s)
  | Ok (Warned text) => (Ok tt, emits [Print text] s)
  | Ok (Ready manim_obj duration) => render manim_obj duration s
  | Raise e => (Raise e, s)
  end.
Proof.
  destruct (is_dict item) eqn:Hi.
  2:{ rewrite construct_item_not_dict by done. now destruct item. }
  destruct item as [| | | | | |d]; try discriminate.
  rewrite construct_item_dict, prepare_dict. now repeat case_match.
Qed.

(** Only an entry whose duration is above zero is shown. *)
Lemma prepare_ready item manim_obj duration :
  prepare item = Ok (Ready manim_obj duration) -> num_le duration (NInt 0) = false.
Proof.
  destruct item as [| | | | | |d]; try discriminate. rewrite prepare_dict.
  repeat case_match; intros [=]; now subst.
Qed.

Lemma times_ok duration f w :
  fade_in_time duration = Ok f -> wait_time duration f = Ok w ->
  times duration = Ok (f, w).
Proof. intros Hf Hw. unfold times. rewrite Hf. cbn. now rewrite Hw. Qed.

Lemma times_raise duration e :
  fade_in_time duration = Raise e -> times duration = Raise e.
Proof. unfold times. now intros ->. Qed.

Lemma times_inv duration f w :
  times duration = Ok (f, w) ->
  fade_in_time duration = Ok f /\ wait_time duration f = Ok w.
Proof.
  unfold times. destruct (fade_in_time duration) as [f'|]; [|discriminate].
  cbn. destruct (wait_time duration f') as [w'|] eqn:Hw; cbn; [|discriminate].
  now intros [= <- <-].
Qed.

(** The four statements of lines 106 to 118 are [render]. *)
Lemma render_steps manim_obj duration items s :
  rtc step (FadeOutOld manim_obj duration items, s)
           (continue items (render manim_obj duration s)).
Proof.
  eapply rtc_l; [constructor|].
  destruct (fade_in_time duration) as [f|e] eqn:Hf.
  - destruct (wait_time_defined _ _ Hf) as [w Hw].
    rewrite (render_run _ _ _ _ _ Hf Hw). cbn [continue].
    eapply rtc_l; [apply step_fade_in, (times_ok _ _ _ Hf Hw)|].
    eapply rtc_l; [constructor|]. eapply rtc_l; [constructor|].
    rewrite !with_current_objects_emits, !emits_emits, with_current_objects_twice.
    now rewrite <- ?app_assoc.
  - rewrite (render_raise _ _ _ _ Hf). cbn [continue].
    apply rtc_once, step_times_raise, times_raise, Hf.
Qed.

Lemma item_steps item items s :
  rtc step (Loop (item :: items), s) (continue items (construct_item item s)).
Proof.
  rewrite construct_item_prepare.
  destruct (prepare item) as [[|text|manim_obj duration]|e] eqn:Hp; cbn [continue].
  - apply rtc_once. now constructor.
  - apply rtc_once. now constructor.
  - eapply rtc_l; [apply step_ready, Hp | apply render_steps].
  - apply rtc_once. now constructor.
Qed.

Lemma loop_steps items s :
  rtc step (Loop items, s)
    match for_each construct_item items s with
    | (Ok _, s') => (Cleanup, s')
    | (Raise e, s') => (Raised e, s')
    end.
Proof.
  revert s. induction items as [|item items IH]; intros s.
  - apply rtc_once. constructor.
  - rewrite for_each_cons. etrans; [apply item_steps|].
    destruct (construct_item item s) as [[[]|e] s']; cbn [continue]; [apply IH | done].
Qed.

(** The machine, started before the loop, ends where [construct] does. *)
Lemma construct_steps s : rtc step (Start, s) (outcome (construct s)).
Proof.
  rewrite construct_run. destruct (py_iter (template_data s)) as [items|e] eqn:Hi.
  - eapply rtc_l; [apply step_iter, Hi|]. etrans; [apply loop_steps|].
    destruct (for_each construct_item items s) as [[[]|e] s']; cbn [outcome];
      [apply rtc_once; constructor | done].
  - apply rtc_once. now constructor.
Qed.

Lemma outcome_final r : final (outcome r) = true.
Proof. now destruct r as [[] ?]. Qed.

(** C3: the machine and the function agree.  The complete runs of the
    machine from the first statement of [construct] are exactly the
    results of the function [construct]: the machine can reach the
    configuration that stands for the result, and it is the only
    configuration in which a run can end. *)
Theorem steps_are_construct s c :
  rtc step (Start, s) c /\ final c = true <-> c = outcome (construct s).
Proof.
  split.
  - intros [Hr Hf].
    eapply steps_final_unique; eauto using construct_steps, outcome_final.
  - intros ->. split; [apply construct_steps | apply outcome_final].
Qed.

(** C17: [construct] terminates.  No run of the machine is infinite, and
    five steps for each entry of the timeline and three more are enough
    fuel for [run] to reach the result of [construct]. *)
Theorem construct_terminates s fuel :
  weight (Start, s) <= fuel ->
  sn step (Start, s) /\ run fuel (Start, s) = outcome (construct s).
Proof.
  intros Hw. split; [apply step_sn|].
  eapply steps_final_unique;
    eauto using run_steps, run_final, construct_steps, outcome_final.
Qed.

(** ** What is on the screen *)

Lemma slot_ok_objects (l : list mobject) : slot_ok l -> slot_objects (head l) = l.
Proof. destruct l as [|o [|o' l]]; unfold slot_ok; cbn; [done | done | lia]. Qed.

Lemma fade_out_screen (l : list mobject) :
  slot_ok l -> screen_trace (head l) (fade_out_events l) None.
Proof.
  intros Hl. rewrite <- (slot_ok_objects l Hl) at 2. apply fade_out_events_trace.
Qed.

(** Name the two parts of [slot_at] where an entry is being shown. *)
Ltac split_slot_at Hs Hd :=
  try match type of Hs with _ /\ _ => destruct Hs as [Hs Hd] end.

(** A step keeps [slot_at]. *)
Lemma step_slot_at c c' : step c c' -> slot_at c -> slot_at c'.
Proof.
  unfold slot_at. destruct 1; cbn [fst snd]; intros Hs; split_slot_at Hs Hd;
    try done; try (unfold slot_ok; cbn; lia).
  - eauto using prepare_ready.
  - rewrite Hs. unfold slot_ok. cbn. lia.
Qed.

(** A step is a legal move of the screen. *)
Lemma step_move c c' :
  step c c' -> slot_at c ->
  exists es, output c'.2 = output c.2 ++ es /\ screen_trace (screen c) es (screen c').
Proof.
  unfold slot_at, screen.
  destruct 1; cbn [fst snd]; intros Hs; split_slot_at Hs Hd; try rewrite Hs;
    try (exists []; rewrite app_nil_r; now eauto using screen_trace);
    (eexists; split; [reflexivity|]);
    eauto using screen_trace, fade_out_screen, wait_events_trace.
  apply times_inv in H as [Hf _].
  destruct (fade_in_time_range _ _ Hd Hf). eauto using screen_trace.
Qed.

Lemma step_screen c c' :
  step c c' -> slot_at c ->
  slot_at c' /\
  exists es, output c'.2 = output c.2 ++ es /\ screen_trace (screen c) es (screen c').
Proof. eauto using step_slot_at, step_move. Qed.

Lemma steps_screen c c' :
  rtc step c c' -> slot_at c ->
  slot_at c' /\
  exists es, output c'.2 = output c.2 ++ es /\ screen_trace (screen c) es (screen c').
Proof.
  induction 1 as [c|c c1 c2 Hs _ IH]; intros Hc.
  - split; [done|]. exists []. rewrite app_nil_r. eauto using screen_trace.
  - destruct (step_screen _ _ Hs Hc) as (Hc1 & es1 & Ho1 & Ht1).
    destruct (IH Hc1) as (Hc2 & es2 & Ho2 & Ht2). split; [done|].
    exists (es1 ++ es2). rewrite Ho2, Ho1, app_assoc.
    eauto using screen_trace_app.
Qed.

(** C16: an invariant of every configuration [construct] can reach from a
    scene with at most one object on screen.  [current_objects] is empty
    while an entry is being shown and holds at most one object elsewhere;
    the output so far is a legal sequence of moves of the screen, and it
    leaves on the screen what [screen] says: the object being shown from
    the fade-in to line 118 although [current_objects] does not list it,
    nothing after the last fade-out although [current_objects] may, and
    what [current_objects] lists everywhere else. *)
Theorem reachable_screen s c :
  slot_ok (current_objects s) -> rtc step (Start, s) c ->
  slot_at c /\
  exists es, output c.2 = output s ++ es /\
    screen_trace (head (current_objects s)) es (screen c).
Proof. intros Hs Hr. exact (steps_screen _ _ Hr Hs). Qed.

(** ** An object on screen is faded out *)

(** Events that leave the screen as it is. *)
Definition quiet (e : event) : bool :=
  match e with Play _ _ => false | _ => true end.

(** Since [c] the output has grown by events that leave the screen as it
    is. *)
Definition quiet_since (c c' : config) : Prop :=
  exists es, output c'.2 = output c.2 ++ es /\ forallb quiet es = true.

(** Since [c] the output has grown by such events and then by the
    fade-out of [o]. *)
Definition faded_out (o : mobject) (c c' : config) : Prop :=
  exists es, output c'.2 = output c.2 ++ es ++ [Play (FadeOut [o]) (NFloat f_0_5)] /\
             forallb quiet es = true.

Definition raised (c : config) : Prop := exists e, c.1 = Raised e.

Lemma eventually_mono (P Q : config -> Prop) c :
  (forall c', P c' -> Q c') -> eventually P c -> eventually Q c.
Proof. induction 2; eauto using eventually. Qed.

Lemma slot_ok_head (l : list mobject) o : slot_ok l -> head l = Some o -> l = [o].
Proof. intros Hl Ho. rewrite <- (slot_ok_objects l Hl), Ho. reflexivity. Qed.

Lemma quiet_since_refl s ctl ctl' : quiet_since (ctl, s) (ctl', s).
Proof. exists []. now rewrite app_nil_r. Qed.

Lemma wait_events_quiet w : forallb quiet (wait_events w) = true.
Proof. unfold wait_events. now destruct (num_gt w (NInt 0)). Qed.

Lemma faded_out_after o c c1 c2 :
  quiet_since c c1 -> faded_out o c1 c2 -> faded_out o c c2.
Proof.
  intros (es1 & Ho1 & Hq1) (es2 & Ho2 & Hq2). exists (es1 ++ es2).
  rewrite Ho2, Ho1, forallb_app, Hq1, Hq2, <- !app_assoc. done.
Qed.

(** A step from a configuration that shows [o] raises, fades [o] out, or
    keeps it on screen. *)
Lemma step_shown c c' o :
  step c c' -> slot_at c -> screen c = Some o ->
  raised c' \/ faded_out o c c' \/ (screen c' = Some o /\ quiet_since c c').
Proof.
  unfold slot_at, screen, raised.
  destruct 1; cbn [fst snd]; intros Hs Ho; split_slot_at Hs Hd;
    try discriminate; eauto;
    try (right; right; split; [done | apply quiet_since_refl]).
  - right; right. split; [done|]. now exists [Print text].
  - right; left. exists []. now rewrite (slot_ok_head _ _ Hs Ho).
  - right; right. split; [done|]. exists (wait_events wait_t).
    split; [done | apply wait_events_quiet].
  - right; right. split; [done|]. exists []. cbn. now rewrite app_nil_r.
  - right; left. exists []. now rewrite (slot_ok_head _ _ Hs Ho).
Qed.

(** C15: an object that is on the screen is faded out unless an exception
    ends [construct].  From every configuration that shows [o], the run
    reaches one in which the method has raised, or one in which the
    output has grown by waits and prints only and then by the fade-out of
    [o] over [0.5]: the next animation played is that fade-out. *)
Theorem shown_object_is_faded_out c o :
  slot_at c -> screen c = Some o ->
  eventually (fun c' => raised c' \/ faded_out o c c') c.
Proof.
  induction (step_sn c) as [c _ IH]. intros Hc Ho.
  destruct (step_progress c) as [Hf|[c' Hs]].
  { apply eventually_now. left. destruct c as [[] s]; try discriminate.
    unfold raised. eauto. }
  apply (eventually_step _ _ _ Hs).
  destruct (step_shown _ _ _ Hs Hc Ho) as [Hr|[Hfo|[Ho' Hq]]];
    [apply eventually_now; auto..|].
  apply (eventually_mono (fun c'' => raised c'' \/ faded_out o c' c''));
    [intros c'' [?|?]; eauto using faded_out_after|].
  apply IH; [exact Hs | | exact Ho'].
  now apply (step_screen _ _ Hs Hc).
Qed.

End Steps.

(** ** Concrete runs

    The machine on the timeline of two entries of [PlayerSpec], with
    [test_engine]. *)

#[local] Existing Instance test_engine.
#[local] Existing Instance test_runtime.

(** The first object is on screen and the second entry is still to come. *)
Definition holding : config :=
  (Hold obj_intro f_1_4 [entry_comparison],
   Scene "timeline.json" (VList [entry_intro; entry_comparison]) []
     [Play (FadeIn obj_intro) f_0_6]).

Lemma construct_terminates_witness :
  sn step (Start, two_entries) /\
  run 13 (Start, two_entries) = outcome (construct two_entries).
Proof. exact (construct_terminates two_entries 13 (le_n 13)). Defined.

Lemma reachable_screen_witness :
  slot_at (outcome (construct two_entries)) /\
  exists es,
    output (outcome (construct two_entries)).2 = output two_entries ++ es /\
    screen_trace (head (current_objects two_entries)) es
      (screen (outcome (construct two_entries))).
Proof.
  exact (reachable_screen two_entries (outcome (construct two_entries))
           (le_S 0 0 (le_n 0)) (construct_steps two_entries)).
Defined.

Lemma shown_object_is_faded_out_witness :
  eventually (fun c' => raised c' \/ faded_out obj_intro holding c') holding.
Proof. exact (shown_object_is_faded_out holding obj_intro eq_refl eq_refl). Defined.
