(* ===== verification/PlayerEquiv.v ===== *)
(** * PlayerEquiv: what [construct] reads of an entry

    The loop of [construct] ([src/src/main_generator.py], lines 81 to 87)
    reads an entry through five calls of [get] and nothing else, uses the
    two times in their difference only, and reads [template_data] once.
    Entries with the same name, content, duration and timestamp are
    equivalent ([same_entry]); so are timelines whose entries are
    ([same_timeline]) and scenes that differ in such a timeline only
    ([same_scene]).  The operations of the player are morphisms for these
    equivalences.  Two ways to stay in a class: to agree on the five
    keys ([same_fields]: extra keys and the order of the keys change
    nothing), and to move an entry along the time axis ([shift_entry]). *)

From Stdlib Require Import ZArith Lia String Ascii List SpecFloat.
From Stdlib Require Import Setoid Morphisms.
From stdpp Require Import base tactics option list strings.
From S2P Require Import Prelude PyFloat FloatFacts PyValue Templates Normalizer.
From S2P Require Import Player PlayerSpec PlayerSteps.

#[local] Open Scope string_scope.
#[local] Open Scope list_scope.

(** ** The equivalences *)

(** The keys of lines 82 to 86. *)
Definition entry_keys : list string :=
  ["templateName"; "content"; "startTime"; "endTime"; "timestamp"].

(** Two dictionaries bind the keys the loop reads to the same values. *)
Definition same_fields : relation (list (string * value)) :=
  fun d1 d2 => forall k, k ∈ entry_keys -> dict_lookup k d1 = dict_lookup k d2.

(** Two dictionaries are read alike by the loop: as the same name,
    content, duration and timestamp. *)
Definition same_reading : relation (list (string * value)) :=
  fun d1 d2 =>
    item_name d1 = item_name d2 /\ item_content d1 = item_content d2 /\
    item_duration d1 = item_duration d2 /\ item_timestamp d1 = item_timestamp d2.

Definition same_entry : relation value :=
  fun v1 v2 =>
    match v1, v2 with
    | VDict d1, VDict d2 => same_reading d1 d2
    | _, _ => v1 = v2
    end.

Definition same_timeline : relation value :=
  fun v1 v2 =>
    match v1, v2 with
    | VList l1, VList l2 => Forall2 same_entry l1 l2
    | _, _ => v1 = v2
    end.

#[export] Instance same_fields_equivalence : Equivalence same_fields.
Proof.
  split; [now intros d k | intros d1 d2 H k Hk; symmetry; auto |].
  intros d1 d2 d3 H12 H23 k Hk. now rewrite H12, H23.
Qed.

#[export] Instance same_reading_equivalence : Equivalence same_reading.
Proof.
  split; [done | |].
  - intros d1 d2 (? & ? & ? & ?). repeat split; congruence.
  - intros d1 d2 d3 (? & ? & ? & ?) (? & ? & ? & ?). repeat split; congruence.
Qed.

#[export] Instance same_entry_equivalence : Equivalence same_entry.
Proof.
  split.
  - intros []; cbn; reflexivity.
  - intros [] []; cbn; done || apply symmetry.
  - intros [] [] []; cbn; congruence || apply transitivity.
Qed.

#[export] Instance same_timeline_equivalence : Equivalence same_timeline.
Proof.
  split.
  - intros []; cbn; reflexivity.
  - intros [] []; cbn; done || apply symmetry.
  - intros [] [] []; cbn; congruence || apply transitivity.
Qed.

(** The equivalences are decidable: they compare five lookups an entry. *)
Lemma same_fields_Forall d1 d2 :
  same_fields d1 d2 <->
  Forall (fun k => dict_lookup k d1 = dict_lookup k d2) entry_keys.
Proof. unfold same_fields. now rewrite Forall_forall. Qed.

#[export] Instance same_fields_dec d1 d2 : Decision (same_fields d1 d2).
Proof.
  refine (cast_if (decide (Forall (fun k => dict_lookup k d1 = dict_lookup k d2)
                             entry_keys))); now rewrite same_fields_Forall.
Defined.

#[export] Instance same_reading_dec d1 d2 : Decision (same_reading d1 d2).
Proof. unfold same_reading. apply _. Defined.

#[export] Instance same_entry_dec v1 v2 : Decision (same_entry v1 v2).
Proof. destruct v1, v2; cbn; apply _. Defined.

#[export] Instance same_timeline_dec v1 v2 : Decision (same_timeline v1 v2).
Proof. destruct v1, v2; cbn; apply _. Defined.

(** ** Reading an entry *)

Lemma same_fields_get d1 d2 k default :
  same_fields d1 d2 -> k ∈ entry_keys ->
  dict_get k default d1 = dict_get k default d2.
Proof. intros H Hk. unfold dict_get. now rewrite (H k Hk). Qed.

(** A key of the five is one of [entry_keys]. *)
Ltac entry_key := unfold entry_keys; repeat constructor.

#[export] Instance item_name_proper : Proper (same_fields ==> eq) item_name.
Proof. intros d1 d2 H. apply same_fields_get; [done | entry_key]. Qed.

#[export] Instance item_content_proper : Proper (same_fields ==> eq) item_content.
Proof. intros d1 d2 H. apply same_fields_get; [done | entry_key]. Qed.

#[export] Instance item_duration_proper : Proper (same_fields ==> eq) item_duration.
Proof.
  intros d1 d2 H. unfold item_duration.
  rewrite (same_fields_get d1 d2 "endTime"), (same_fields_get d1 d2 "startTime");
    [done | done | entry_key | done | entry_key].
Qed.

#[export] Instance item_timestamp_proper : Proper (same_fields ==> eq) item_timestamp.
Proof.
  intros d1 d2 H. unfold item_timestamp.
  rewrite (same_fields_get d1 d2 "startTime") by (done || entry_key).
  apply same_fields_get; [done | entry_key].
Qed.

(** Dictionaries that agree on the five keys are read alike. *)
Lemma same_fields_reading d1 d2 : same_fields d1 d2 -> same_reading d1 d2.
Proof.
  intros H. repeat split;
    [apply item_name_proper | apply item_content_proper
    | apply item_duration_proper | apply item_timestamp_proper]; exact H.
Qed.

(** ** Moving an entry along the time axis *)

Definition shift_time (k : Z) (v : value) : value :=
  match v with
  | VInt z => VInt (z + k)
  | _ => v
  end.

Definition is_time (key : string) : bool :=
  String.eqb key "startTime" || String.eqb key "endTime".

(** The entry with [startTime] and [endTime] moved by [k]. *)
Definition shift_entry (k : Z) (d : list (string * value)) : list (string * value) :=
  map (fun kv => (kv.1, if is_time kv.1 then shift_time k kv.2 else kv.2)) d.

Lemma dict_lookup_shift key k d :
  dict_lookup key (shift_entry k d) =
  (fun v => if is_time key then shift_time k v else v) <$> dict_lookup key d.
Proof.
  induction d as [|[key' v] d IH]; [done|]. cbn [shift_entry map fst snd].
  rewrite !dict_lookup_cons. case_decide; [now subst | exact IH].
Qed.

(** An entry with whole times and a timestamp of its own is read alike
    wherever it is on the time axis. *)
Lemma shift_same_reading k d (s e : Z) :
  dict_lookup "startTime" d = Some (VInt s) ->
  dict_lookup "endTime" d = Some (VInt e) ->
  dict_mem "timestamp" d = true ->
  same_reading d (shift_entry k d).
Proof.
  intros Hs He Ht. unfold dict_mem in Ht.
  destruct (dict_lookup "timestamp" d) as [t|] eqn:Htime; [|done].
  unfold same_reading, item_name, item_content, item_duration, item_timestamp, dict_get.
  rewrite !dict_lookup_shift, Hs, He, Htime. cbn.
  repeat split; [destruct (dict_lookup "templateName" d); reflexivity
                | destruct (dict_lookup "content" d); reflexivity |].
  do 2 f_equal. lia.
Qed.

(** An entry that can be moved: whole times and a timestamp of its own. *)
Definition movable (d : list (string * value)) : bool :=
  match dict_lookup "startTime" d, dict_lookup "endTime" d with
  | Some (VInt _), Some (VInt _) => dict_mem "timestamp" d
  | _, _ => false
  end.

(** A timeline of such entries, each moved by an amount of its own, is
    the same timeline to the player. *)
Lemma moved_same_timeline ks ds :
  Forall (fun d => movable d = true) ds -> length ks = length ds ->
  same_timeline (VList (VDict <$> ds)) (VList (VDict <$> zip_with shift_entry ks ds)).
Proof.
  intros Hds. revert ks. cbn [same_timeline].
  induction Hds as [|d ds Hd _ IH]; intros [|k ks] [=]; constructor; [|now apply IH].
  unfold movable in Hd. cbn [same_entry].
  destruct (dict_lookup "startTime" d) as [[]|] eqn:Hs; try done.
  destruct (dict_lookup "endTime" d) as [[]|] eqn:He; try done.
  eapply shift_same_reading; eauto.
Qed.

Section Equiv.
Context {RT : PyRuntime} {EN : Engine}.

Definition same_scene : relation scene :=
  fun s1 s2 =>
    json_path s1 = json_path s2 /\
    same_timeline (template_data s1) (template_data s2) /\
    current_objects s1 = current_objects s2 /\
    output s1 = output s2.

(** The scene with another timeline. *)
Definition with_data (data : value) (s : scene) : scene :=
  Scene (json_path s) data (current_objects s) (output s).

#[export] Instance same_scene_equivalence : Equivalence same_scene.
Proof.
  split.
  - intros s. repeat split; reflexivity.
  - intros s1 s2 (? & ? & ? & ?). repeat split; by symmetry.
  - intros s1 s2 s3 (? & ? & ? & ?) (? & ? & ? & ?).
    repeat split; etrans; eassumption.
Qed.

(** ** The operations are morphisms *)

#[export] Instance prepare_proper : Proper (same_entry ==> eq) prepare.
Proof.
  intros [] [] H; cbn in H; try congruence.
  rewrite !prepare_dict. now destruct H as (<- & <- & <- & <-).
Qed.

#[export] Instance plan_proper : Proper (same_entry ==> eq) plan.
Proof.
  intros [] [] H; cbn in H; try congruence. cbn [plan]. unfold plan_named.
  now destruct H as (<- & <- & <- & <-).
Qed.

#[export] Instance construct_item_proper :
  Proper (same_entry ==> eq ==> eq) construct_item.
Proof. intros i1 i2 H s ? <-. rewrite !construct_item_prepare. now rewrite H. Qed.

(** ** The timeline is read once *)

(** A method that neither reads nor writes [template_data]. *)
Definition frames (m : M scene unit) : Prop :=
  forall data s, m (with_data data s) = ((m s).1, with_data data (m s).2).

Lemma render_frames manim_obj duration : frames (render manim_obj duration).
Proof.
  intros data s. destruct (fade_in_time duration) as [f|e] eqn:Hf.
  - destruct (wait_time_defined _ _ Hf) as [w Hw].
    now rewrite !(render_run _ _ _ _ _ Hf Hw).
  - now rewrite !(render_raise _ _ _ _ Hf).
Qed.

Lemma construct_item_frames item : frames (construct_item item).
Proof.
  intros data s. rewrite !construct_item_prepare.
  destruct (prepare item) as [[|text|manim_obj duration]|e]; try reflexivity.
  apply render_frames.
Qed.

Lemma for_each_frames {A} (body : A -> M scene unit) l :
  (forall x, frames (body x)) -> frames (for_each body l).
Proof.
  intros Hbody data. induction l as [|x l IH]; intros s; [reflexivity|].
  rewrite !for_each_cons, Hbody. destruct (body x s) as [[[]|e] s']; cbn [fst snd];
    [apply IH | reflexivity].
Qed.

(** Equivalent scenes are one scene with two equivalent timelines. *)
Lemma same_scene_with_data s1 s2 :
  same_scene s1 s2 -> s2 = with_data (template_data s2) s1.
Proof. destruct s1, s2. intros (? & _ & ? & ?). cbn in *. now subst. Qed.

Lemma with_data_same data s :
  same_timeline (template_data s) data -> same_scene s (with_data data s).
Proof. intros H. now repeat split. Qed.

Lemma same_scene_emits es s1 s2 :
  same_scene s1 s2 -> same_scene (emits es s1) (emits es s2).
Proof. intros (? & ? & ? & ?). repeat split; cbn; congruence. Qed.

(** The loop on equivalent timelines, from one scene. *)
Lemma for_each_same l1 l2 s :
  Forall2 same_entry l1 l2 ->
  for_each construct_item l2 (with_data (VList l2) s) =
  ((for_each construct_item l1 s).1,
   with_data (VList l2) (for_each construct_item l1 s).2).
Proof.
  intros Hl. rewrite (for_each_frames _ _ construct_item_frames).
  rewrite (for_each_Forall2 construct_item l1 l2); [reflexivity|].
  eapply Forall2_impl; [exact Hl|]. intros i1 i2 Hi s'.
  now apply construct_item_proper.
Qed.

Lemma same_scene_eq s1 s2 :
  same_scene s1 s2 -> template_data s1 = template_data s2 -> s1 = s2.
Proof. destruct s1, s2. intros (? & _ & ? & ?) ?. cbn in *. now subst. Qed.

Lemma same_timeline_cases v1 v2 :
  same_timeline v1 v2 ->
  v1 = v2 \/ exists l1 l2, v1 = VList l1 /\ v2 = VList l2 /\ Forall2 same_entry l1 l2.
Proof. destruct v1, v2; cbn; eauto 6. Qed.

(** C36: [construct] reads of an entry its name, its content, its duration
    and its timestamp, and reads the timeline once.  On scenes that
    differ only in timelines whose entries are read alike it returns or
    raises alike, plays and prints the same, and leaves the same
    [current_objects].  So keys the loop does not read and the order of
    the keys change nothing ([same_fields_reading]);
    nor does the place of an entry on the time axis
    ([moved_same_timeline]): the gap between the end of an entry and the
    start of the next is not waited for, and entries that overlap are
    played one after the other. *)
Theorem construct_proper s1 s2 :
  same_scene s1 s2 ->
  eval construct s1 = eval construct s2 /\
  same_scene (exec construct s1) (exec construct s2).
Proof.
  intros Hs. pose proof Hs as (_ & Hd & _).
  apply same_timeline_cases in Hd as [Heq|(l1 & l2 & E1 & E2 & Hl)].
  { now rewrite (same_scene_eq _ _ Hs Heq). }
  rewrite (same_scene_with_data _ _ Hs), E2. unfold eval, exec.
  rewrite !construct_run. cbn [template_data with_data]. rewrite E1. cbn [py_iter].
  rewrite (for_each_same l1 l2 s1 Hl).
  pose proof (step_of_data _ _ (for_each_construct_item_step l1 s1)) as [_ Hdata].
  unfold exec in Hdata. rewrite E1 in Hdata.
  destruct (for_each construct_item l1 s1) as [[[]|e] s']; cbn [fst snd] in *;
    (split; [done|]); [apply same_scene_emits|]; apply with_data_same;
    now rewrite Hdata.
Qed.

End Equiv.

(** ** A concrete pair of timelines

    The timeline of two entries, and the same with the keys of its
    first entry in another order and a key the player does not read, and
    with its second entry a hundred time units later. *)

#[local] Existing Instance test_engine.
#[local] Existing Instance test_runtime.

Definition entry_intro_reordered : value :=
  VDict [("endTime", VInt 2); ("note", VStr "opening"); ("content", VStr "Hi");
         ("templateName", VStr "text_intro"); ("startTime", VInt 0)].

Definition entry_comparison_moved : value :=
  VDict [("templateName", VStr "comparison");
         ("content", VDict [("left", VStr "2x+3"); ("right", VStr "7")]);
         ("startTime", VInt 102); ("endTime", VInt 110); ("timestamp", VInt 2)].

Definition two_entries_reordered : scene :=
  initial (VList [entry_intro_reordered; entry_comparison_moved]).

Lemma construct_proper_witness :
  eval construct two_entries = eval construct two_entries_reordered /\
  same_scene (exec construct two_entries) (exec construct two_entries_reordered).
Proof.
  exact (construct_proper two_entries two_entries_reordered
           (conj eq_refl
              (conj (bool_decide_unpack
                       (same_timeline (template_data two_entries)
                          (template_data two_entries_reordered)) I)
                 (conj eq_refl eq_refl)))).
Defined.
