(* ===== verification/Loader.v ===== *)
(** * Loader: [ManimSceneGenerator.__init__] and [_load_json]

    [src/src/main_generator.py], lines 63 to 78.  The file system and the
    JSON parser are the interface [FileSystem]: the default path of line
    66, the text of a path, whether a path exists, and the value
    [json.load] returns for the file at a path (or its exception).  The
    methods act on the attributes of the generator, the record [scene] of
    [Player]; [run] is a generator built and then played, and the
    end-to-end theorems compose the loader with the player, its
    specification ([PlayerSpec]) and the data model ([Schema]). *)

From Stdlib Require Import ZArith String Ascii List.
From stdpp Require Import base tactics option list strings.
From S2P Require Import Prelude PyFloat PyValue Templates Normalizer.
From S2P Require Import Player Schema PlayerSpec PlayerHeld.

#[local] Open Scope string_scope.
#[local] Open Scope list_scope.

Class FileSystem : Type := {
  (** [Path(__file__).parent / "output" / "example_manim_json.json"], as text. *)
  default_json_path : string;
  (** [str(Path(p))]. *)
  path_str : string -> string;
  (** [Path(p).exists()]. *)
  path_exists : string -> bool;
  (** [open(p)] followed by [json.load]. *)
  json_load : string -> result value;
}.

Module ManimSceneGenerator.
Section Methods.
Context {RT : PyRuntime} {EN : Engine} {FS : FileSystem}.

Definition set_json_path (p : string) (s : scene) : scene :=
  Scene p (template_data s) (current_objects s) (output s).
Definition set_template_data (v : value) (s : scene) : scene :=
  Scene (json_path s) v (current_objects s) (output s).

(** [_load_json], lines 71 to 78. *)
Definition _load_json : M scene value :=
  s <- get ;;
  if negb (path_exists (json_path s)) then
    raise (FileNotFoundError ("JSON file not found: " +:+ path_str (json_path s)))
  else lift (json_load (json_path s)).

(** [__init__], lines 63 to 69; [None] is the omitted argument. *)
Definition __init__ (json_path : option string) : M scene unit :=
  let json_path := match json_path with None => default_json_path | Some p => p end in
  modify (set_json_path json_path) ;;
  template_data <- _load_json ;;
  modify (set_template_data template_data) ;;
  set_current_objects [].

(** A generator is built, then the engine calls [construct]. *)
Definition run (json_path : option string) : M scene unit :=
  __init__ json_path ;;
  construct.

(** ** Theorems *)

Implicit Types (s : scene) (p : string).

(** The path [__init__] stores. *)
Definition chosen_path (arg : option string) : string :=
  match arg with None => default_json_path | Some p => p end.

Lemma __init___run arg s :
  __init__ arg s =
  let p := chosen_path arg in
  if path_exists p then
    match json_load p with
    | Ok data => (Ok tt, Scene p data [] (output s))
    | Raise e => (Raise e, set_json_path p s)
    end
  else (Raise (FileNotFoundError ("JSON file not found: " +:+ path_str p)),
        set_json_path p s).
Proof.
  unfold __init__, _load_json, chosen_path. run_simpl. cbn [json_path set_json_path].
  destruct (path_exists _); cbn [negb]; [|reflexivity]. run_simpl.
  now destruct (json_load _).
Qed.

(** C32: when no file is at the path, [__init__] raises
    [FileNotFoundError] with the text of line 75, before the file is
    opened, and nothing is played or printed. *)
Theorem init_missing_file arg s :
  path_exists (chosen_path arg) = false ->
  eval (__init__ arg) s =
    Raise (FileNotFoundError ("JSON file not found: " +:+ path_str (chosen_path arg))) /\
  output (exec (__init__ arg) s) = output s /\
  eval (run arg) s = eval (__init__ arg) s /\
  output (exec (run arg) s) = output s.
Proof.
  intros Hp. unfold eval, exec, run. rewrite run_bind, __init___run. cbn zeta.
  now rewrite Hp.
Qed.

(** C33: when the file exists and parses, [__init__] returns a generator
    holding the path, the parsed timeline and an empty [current_objects]:
    the empty slot of the specification. *)
Theorem init_loads_timeline arg data s :
  path_exists (chosen_path arg) = true ->
  json_load (chosen_path arg) = Ok data ->
  __init__ arg s = (Ok tt, Scene (chosen_path arg) data [] (output s)) /\
  shows None (exec (__init__ arg) s).
Proof.
  intros Hp Hl. unfold shows, exec. rewrite __init___run. cbn zeta.
  now rewrite Hp, Hl.
Qed.

(** An exception of the parser (malformed JSON, unreadable file) is
    the exception of [__init__]. *)
Theorem init_parser_error arg e s :
  path_exists (chosen_path arg) = true ->
  json_load (chosen_path arg) = Raise e ->
  eval (__init__ arg) s = Raise e.
Proof.
  intros Hp Hl. unfold eval. rewrite __init___run. cbn zeta. now rewrite Hp, Hl.
Qed.

(** C34: end to end.  A generator built from a file that loads, and then
    played, returns or raises as the specification does on the loaded
    timeline from the empty slot, and its output is the specification's
    events. *)
Theorem run_refines_spec arg data s :
  path_exists (chosen_path arg) = true ->
  json_load (chosen_path arg) = Ok data ->
  exists r sl es,
    spec_construct data None = (r, sl, es) /\
    run arg s = (r, Scene (chosen_path arg) data (slot_objects sl) (output s ++ es)).
Proof.
  intros Hp Hl. unfold run. rewrite run_bind, __init___run. cbn zeta.
  rewrite Hp, Hl. rewrite (construct_refines _ None) by reflexivity.
  cbn [template_data]. destruct (spec_construct data None) as [[r sl] es].
  exists r, sl, es. done.
Qed.

(** C35: a file of the data model plays to its end.  When the file exists
    and holds a timeline that conforms ([templateName] a string,
    [startTime] and [endTime] floats or [int]s below [2 ^ 52]), a
    generator built from it and played raises nothing, and all it plays
    is a legal sequence of moves of the screen from the empty screen to
    the empty screen; when its floats are finite values of binary64,
    every object it fades in is held. *)
Theorem run_conforming_file arg data s :
  path_exists (chosen_path arg) = true ->
  json_load (chosen_path arg) = Ok data ->
  timeline_conforms data = true ->
  exists sl es,
    run arg s = (Ok tt, Scene (chosen_path arg) data (slot_objects sl) (output s ++ es)) /\
    screen_trace None es None /\
    (finite_times data = true -> held es = true).
Proof.
  intros Hp Hl Hc. unfold run. rewrite run_bind, __init___run. cbn zeta.
  rewrite Hp, Hl. set (s0 := Scene _ data [] _).
  assert (Hret : eval construct s0 = Ok tt).
  { destruct data as [| | | | |items|]; try discriminate.
    apply (construct_returns items); [done | now apply loop_returns]. }
  unfold eval in Hret. rewrite (construct_refines _ None) in * by reflexivity.
  cbn [template_data s0] in *.
  destruct (spec_construct data None) as [[r sl] es] eqn:Hspec.
  destruct (spec_construct_trace _ _ _ _ _ Hspec) as (final & Htr & Hfin).
  cbn in Hret. subst r. rewrite Hfin in Htr by done. exists sl, es.
  split; [done|]. split; [done|]. intros Hf. exact (spec_construct_held _ _ _ _ _ Hf Hspec).
Qed.

End Methods.

(** ** Concrete runs *)

(** A file system with two files: a timeline of two entries, and a file
    that does not parse. *)
Definition demo_fs : FileSystem :=
  {| default_json_path := "/app/output/example_manim_json.json";
     path_str := fun p => p;
     path_exists := fun p => String.eqb p "timeline.json" || String.eqb p "bad.json";
     json_load := fun p =>
       if String.eqb p "timeline.json" then Ok (VList [entry_intro; entry_comparison])
       else Raise (ExternalError "Expecting value") |}.

#[local] Existing Instance test_engine.
#[local] Existing Instance test_runtime.
#[local] Existing Instance demo_fs.

(** An object on which no attribute is set yet. *)
Definition blank : scene := Scene "" VNone [] [].

Lemma init_missing_file_witness :
  eval (__init__ None) blank =
    Raise (FileNotFoundError "JSON file not found: /app/output/example_manim_json.json") /\
  output (exec (__init__ None) blank) = [] /\
  eval (run None) blank = eval (__init__ None) blank /\
  output (exec (run None) blank) = [].
Proof. exact (init_missing_file None blank eq_refl). Defined.

Lemma init_loads_timeline_witness :
  __init__ (Some "timeline.json") blank = (Ok tt, two_entries) /\
  shows None (exec (__init__ (Some "timeline.json")) blank).
Proof.
  exact (init_loads_timeline (Some "timeline.json")
           (VList [entry_intro; entry_comparison]) blank eq_refl eq_refl).
Defined.

Lemma init_parser_error_witness :
  eval (__init__ (Some "bad.json")) blank = Raise (ExternalError "Expecting value").
Proof.
  exact (init_parser_error (Some "bad.json") (ExternalError "Expecting value") blank
           eq_refl eq_refl).
Defined.

Lemma run_refines_spec_witness :
  exists r sl es,
    spec_construct (VList [entry_intro; entry_comparison]) None = (r, sl, es) /\
    run (Some "timeline.json") blank =
    (r, Scene "timeline.json" (VList [entry_intro; entry_comparison])
          (slot_objects sl) (output blank ++ es)).
Proof.
  exact (run_refines_spec (Some "timeline.json")
           (VList [entry_intro; entry_comparison]) blank eq_refl eq_refl).
Defined.

Lemma run_conforming_file_witness :
  exists sl es,
    run (Some "timeline.json") blank =
    (Ok tt, Scene "timeline.json" (VList [entry_intro; entry_comparison])
              (slot_objects sl) (output blank ++ es)) /\
    screen_trace None es None /\
    (finite_times (VList [entry_intro; entry_comparison]) = true -> held es = true).
Proof.
  exact (run_conforming_file (Some "timeline.json")
           (VList [entry_intro; entry_comparison]) blank eq_refl eq_refl eq_refl).
Defined.

End ManimSceneGenerator.

(** ** The module run as a script *)

(** Lines 124 and 125: the body is [pass].  No generator is built and
    nothing is played; the scene is built and played by the engine only
    ([ManimSceneGenerator.run]). *)
Definition main {EN : Engine} : M scene unit := mret tt.
