(* ===== verification/Ingestion.v ===== *)
(** * Ingestion: the ingestion flow

    [src/src/ingestion/content.py].  [Content.__init__] sets the two
    attributes and calls [_ingest], which asks the partitioner for the
    elements of the file, joins the texts that are not empty with a blank
    line, counts all the elements, and prints a warning when the joined
    text is blank.  The partitioner ([unstructured.partition.auto]) is the
    interface [Partitioner]; of an element only its [text] is used.  The
    class is the module [Content]; its state is the record [Content.self]. *)

From Stdlib Require Import ZArith Lia String Ascii List.
From stdpp Require Import base tactics option list strings.
From S2P Require Import Prelude.

#[local] Open Scope string_scope.
#[local] Open Scope list_scope.

(** ** [str.strip] *)

(** The code points below 256 that [str.strip] removes: the ASCII controls
    9 to 13 and 28 to 31, the space, and the Latin-1 characters 133 and
    160. *)
Definition is_whitespace (c : ascii) : bool :=
  let n := N_of_ascii c in
  ((9 <=? n) && (n <=? 13) || (28 <=? n) && (n <=? 32) || (n =? 133) || (n =? 160))%N.

Fixpoint lstrip (s : string) : string :=
  match s with
  | EmptyString => EmptyString
  | String c s' => if is_whitespace c then lstrip s' else s
  end.

Fixpoint rstrip (s : string) : string :=
  match s with
  | EmptyString => EmptyString
  | String c s' =>
      match rstrip s' with
      | EmptyString => if is_whitespace c then EmptyString else String c EmptyString
      | r => String c r
      end
  end.

Definition strip (s : string) : string := rstrip (lstrip s).

(** Every character of the string is whitespace. *)
Fixpoint blank (s : string) : bool :=
  match s with
  | EmptyString => true
  | String c s' => is_whitespace c && blank s'
  end.

(** The truth value of a string: it is not empty. *)
Definition nonempty (s : string) : bool :=
  match s with EmptyString => false | _ => true end.

(** A string that no call of [strip] shortens: its first and its last
    character are not whitespace. *)
Definition clean_start (s : string) : bool :=
  match s with
  | EmptyString => true
  | String c _ => negb (is_whitespace c)
  end.

Fixpoint clean_end (s : string) : bool :=
  match s with
  | EmptyString => true
  | String c EmptyString => negb (is_whitespace c)
  | String _ s' => clean_end s'
  end.

Definition trimmed (s : string) : bool := clean_start s && clean_end s.

(** ** The class *)

Module Content.

(** An element of the partitioner, as far as the code reads it. *)
Record element : Type := Element { text : string }.

(** The partitioner: the elements of a file, or its exception. *)
Class Partitioner : Type := { partition : string -> result (list element) }.

(** A [Content] object and what it has printed. *)
Record self : Type := Self {
  allText : string;
  noOfSep : Z;
  printed : list string;
}.

Definition set_allText (t : string) (c : self) : self :=
  Self t (noOfSep c) (printed c).
Definition set_noOfSep (n : Z) (c : self) : self :=
  Self (allText c) n (printed c).
Definition print_line (t : string) (c : self) : self :=
  Self (allText c) (noOfSep c) (printed c ++ [t]).

(** The separator of line 11: two line feeds. *)
Definition blank_line : string := String "010"%char (String "010"%char "").

Section Methods.
Context {PT : Partitioner}.

(** [_ingest], lines 9 to 17. *)
Definition _ingest (file_path : string) : M self unit :=
  elements <- lift (partition file_path) ;;
  modify (set_allText (join blank_line (List.filter nonempty (text <$> elements)))) ;;
  modify (set_noOfSep (Z.of_nat (length elements))) ;;
  c <- get ;;
  if negb (nonempty (strip (allText c))) then
    modify (print_line "[WARN] No extractable text found.")
  else mret tt.

(** [__init__], lines 3 to 7. *)
Definition __init__ (file_path : string) : M self unit :=
  modify (set_allText "") ;;
  modify (set_noOfSep 0) ;;
  _ingest file_path.

End Methods.

(** ** [strip] *)

Lemma lstrip_blank s : lstrip s = "" <-> blank s = true.
Proof.
  induction s as [|c s IH]; cbn; [done|].
  destruct (is_whitespace c); cbn; [exact IH | done].
Qed.

Lemma rstrip_blank s : rstrip s = "" <-> blank s = true.
Proof.
  induction s as [|c s IH]; cbn; [done|].
  destruct (rstrip s) eqn:E, (is_whitespace c); cbn; split; try done.
  - intros _. now apply IH.
  - intros H. apply IH in H. discriminate.
Qed.

Lemma blank_lstrip s : blank (lstrip s) = blank s.
Proof.
  induction s as [|c s IH]; cbn; [done|].
  destruct (is_whitespace c) eqn:E; cbn; [exact IH | now rewrite E].
Qed.

(** Whitespace in front is dropped, and is all that is dropped. *)
Lemma lstrip_app_blank l s : blank l = true -> lstrip (l +:+ s) = lstrip s.
Proof.
  induction l as [|c l IH]; rewrite ?string_app_nil_l, ?string_app_cons; cbn; [done|].
  intros [Hc Hl]%andb_true_iff. rewrite Hc. exact (IH Hl).
Qed.

Lemma lstrip_decompose s : exists l, blank l = true /\ s = l +:+ lstrip s.
Proof.
  induction s as [|c s (l & Hl & IH)]; [by exists ""|]. cbn.
  destruct (is_whitespace c) eqn:Hc; [|by exists ""].
  exists (String c l). cbn. rewrite Hc, Hl, string_app_cons. now rewrite <- IH.
Qed.

Lemma lstrip_clean s : clean_start (lstrip s) = true.
Proof.
  induction s as [|c s IH]; cbn; [done|].
  destruct (is_whitespace c) eqn:Hc; cbn; [exact IH | now rewrite Hc].
Qed.

Lemma lstrip_fixed s : clean_start s = true -> lstrip s = s.
Proof. destruct s as [|c s]; cbn; [done|]. now intros ->%negb_true_iff. Qed.

(** The same at the end. *)
Lemma rstrip_cons c s :
  rstrip (String c s) =
  if nonempty (rstrip s) then String c (rstrip s)
  else if is_whitespace c then "" else String c "".
Proof. cbn. now destruct (rstrip s). Qed.

Lemma rstrip_app_blank s r : blank r = true -> rstrip (s +:+ r) = rstrip s.
Proof.
  intros Hr. induction s as [|c s IH]; rewrite ?string_app_nil_l, ?string_app_cons.
  - now apply rstrip_blank.
  - now rewrite !rstrip_cons, IH.
Qed.

Lemma rstrip_decompose s : exists r, blank r = true /\ s = rstrip s +:+ r.
Proof.
  induction s as [|c s (r & Hr & IH)]; [by exists ""|]. rewrite rstrip_cons.
  destruct (rstrip s) as [|c' s'] eqn:Es; cbn [nonempty].
  - rewrite string_app_nil_l in IH. subst s.
    destruct (is_whitespace c) eqn:Hc.
    + exists (String c r). cbn. now rewrite Hc, Hr, string_app_nil_l.
    + exists r. now rewrite string_app_cons, string_app_nil_l.
  - exists r. rewrite string_app_cons. now rewrite <- IH.
Qed.

Lemma rstrip_clean s : clean_end (rstrip s) = true.
Proof.
  induction s as [|c s IH]; [done|]. rewrite rstrip_cons.
  destruct (rstrip s) as [|c' s'] eqn:Es; cbn [nonempty]; [|exact IH].
  destruct (is_whitespace c) eqn:Hc; cbn; [done | now rewrite Hc].
Qed.

Lemma rstrip_fixed s : clean_end s = true -> rstrip s = s.
Proof.
  induction s as [|c s IH]; [done|]. rewrite rstrip_cons.
  destruct s as [|c' s]; [cbn; now intros ->%negb_true_iff|].
  intros H. rewrite (IH H). reflexivity.
Qed.

(** Stripping the end keeps a clean start. *)
Lemma rstrip_clean_start s : clean_start s = true -> clean_start (rstrip s) = true.
Proof.
  destruct s as [|c s]; [done|]. rewrite rstrip_cons. cbn [clean_start]. intros Hc.
  destruct (nonempty (rstrip s)); [exact Hc|].
  apply negb_true_iff in Hc. rewrite Hc. cbn. now rewrite Hc.
Qed.

(** The stripped string is empty exactly when the string is blank. *)
Lemma strip_blank s : strip s = "" <-> blank s = true.
Proof. unfold strip. now rewrite rstrip_blank, blank_lstrip. Qed.

Lemma nonempty_strip s : nonempty (strip s) = negb (blank s).
Proof.
  destruct (blank s) eqn:E.
  - apply strip_blank in E. now rewrite E.
  - destruct (strip s) eqn:Es; [|done]. apply strip_blank in Es. congruence.
Qed.

Lemma clean_start_app t r : t <> "" -> clean_start (t +:+ r) = clean_start t.
Proof. destruct t; [done|]. now rewrite string_app_cons. Qed.

(** A clean string between whitespace is what [strip] returns. *)
Lemma strip_unique l t r :
  blank l = true -> blank r = true -> trimmed t = true -> strip (l +:+ t +:+ r) = t.
Proof.
  intros Hl Hr [Hs He]%andb_true_iff. unfold strip. rewrite lstrip_app_blank by done.
  destruct (decide (t = "")) as [->|Ht].
  - rewrite string_app_nil_l. now apply lstrip_blank in Hr as ->.
  - rewrite lstrip_fixed by now rewrite clean_start_app.
    rewrite rstrip_app_blank by done. now apply rstrip_fixed.
Qed.

(** C29: [strip] removes the whitespace at both ends and nothing else.
    The result has no whitespace at its start or its end; the string is
    the result between two strings of whitespace; and the result is the
    only such string: whenever the string is a clean string between
    whitespace, [strip] returns that string.  So stripping twice is
    stripping once. *)
Theorem strip_removes_whitespace s :
  trimmed (strip s) = true /\
  (exists l r, blank l = true /\ blank r = true /\ s = l +:+ strip s +:+ r) /\
  (forall l t r, blank l = true -> blank r = true -> trimmed t = true ->
     s = l +:+ t +:+ r -> strip s = t).
Proof.
  split; [|split].
  - unfold trimmed, strip. rewrite rstrip_clean, andb_true_r.
    apply rstrip_clean_start, lstrip_clean.
  - destruct (lstrip_decompose s) as (l & Hl & Hs).
    destruct (rstrip_decompose (lstrip s)) as (r & Hr & Hs').
    exists l, r. unfold strip. now rewrite <- Hs', <- Hs.
  - intros l t r Hl Hr Ht ->. now apply strip_unique.
Qed.

Lemma blank_app s1 s2 : blank (s1 +:+ s2) = blank s1 && blank s2.
Proof.
  induction s1 as [|c s1 IH]; rewrite ?string_app_nil_l, ?string_app_cons; cbn;
    [done|]. now rewrite IH, andb_assoc.
Qed.

(** A joined text is blank exactly when every part is: the separator is. *)
Lemma blank_join sep l :
  blank sep = true -> blank (join sep l) = forallb blank l.
Proof.
  intros Hsep. induction l as [|x [|y l] IH]; [done| |].
  - cbn. now rewrite andb_true_r.
  - rewrite join_cons, !blank_app, IH, Hsep. cbn. reflexivity.
Qed.

Lemma forallb_filter_nonempty l :
  forallb blank (List.filter nonempty l) = forallb blank l.
Proof.
  induction l as [|x l IH]; [done|].
  destruct x as [|c x]; cbn; [exact IH | now rewrite IH].
Qed.

(** ** Theorems *)

Section ContentTheorems.
Context {PT : Partitioner}.
Implicit Types (c : self) (elements : list element).

Definition warning : string := "[WARN] No extractable text found.".

(** The text [_ingest] builds from the elements. *)
Definition joined_text elements : string :=
  join blank_line (List.filter nonempty (text <$> elements)).

(** [_ingest] when the partitioner returns. *)
Lemma _ingest_run file_path elements c :
  partition file_path = Ok elements ->
  _ingest file_path c =
  (Ok tt,
   Self (joined_text elements) (Z.of_nat (length elements))
     (printed c ++ if forallb blank (text <$> elements) then [warning] else [])).
Proof.
  intros Hp. unfold _ingest. run_simpl. rewrite Hp. run_simpl.
  cbn [allText set_allText set_noOfSep]. fold (joined_text elements).
  unfold joined_text at 1.
  rewrite nonempty_strip, negb_involutive, blank_join by reflexivity.
  rewrite forallb_filter_nonempty.
  destruct (forallb blank (text <$> elements)); cbn; [reflexivity|].
  now rewrite app_nil_r.
Qed.

Lemma _ingest_raise file_path e c :
  partition file_path = Raise e -> _ingest file_path c = (Raise e, c).
Proof. intros Hp. unfold _ingest. run_simpl. now rewrite Hp. Qed.

(** C28: what [__init__] builds.  When the partitioner returns, no
    exception is raised; [allText] is the texts that are not empty, in
    the partitioner's order, joined by two line feeds; [noOfSep] is the
    number of all elements, empty ones included; and the warning is
    printed, once, exactly when every element's text is blank (empty or
    made of whitespace), in particular when there is no element.  Nothing
    else is printed. *)
Theorem init_builds_content file_path elements c :
  partition file_path = Ok elements ->
  __init__ file_path c =
  (Ok tt,
   Self (join blank_line (List.filter nonempty (text <$> elements)))
     (Z.of_nat (length elements))
     (printed c ++ if forallb blank (text <$> elements) then [warning] else [])).
Proof.
  intros Hp. unfold __init__. run_simpl. now rewrite (_ingest_run _ _ _ Hp).
Qed.

(** An exception of the partitioner is the exception of [__init__]:
    nothing is printed, and the attributes are the initial ones. *)
Theorem init_partition_error file_path e c :
  partition file_path = Raise e ->
  __init__ file_path c = (Raise e, Self "" 0 (printed c)).
Proof.
  intros Hp. unfold __init__. run_simpl. now rewrite (_ingest_raise _ _ _ Hp).
Qed.

End ContentTheorems.

(** ** Concrete runs *)

(** A partitioner that returns the elements of the example of the
    specification for [doc.txt], nothing for [empty.txt], and fails on
    every other path. *)
Definition demo_partitioner : Partitioner :=
  {| partition := fun file_path =>
       if String.eqb file_path "doc.txt" then
         Ok [Element ""; Element "Hello"; Element ""; Element "World"]
       else if String.eqb file_path "empty.txt" then Ok [Element " "; Element ""]
       else Raise (ExternalError "unsupported file") |}.
#[local] Existing Instance demo_partitioner.

Definition demo_elements : list element :=
  [Element ""; Element "Hello"; Element ""; Element "World"].
Definition blank_content : self := Self "" 0 [].
(** A line feed and a tab. *)
Definition newline_tab : string := String "010"%char (String "009"%char "").

Lemma init_builds_content_witness :
  __init__ "doc.txt" blank_content =
    (Ok tt, Self ("Hello" +:+ blank_line +:+ "World") 4 []) /\
  __init__ "empty.txt" blank_content = (Ok tt, Self " " 2 [warning]).
Proof.
  split.
  - exact (init_builds_content "doc.txt" demo_elements blank_content eq_refl).
  - exact (init_builds_content "empty.txt" [Element " "; Element ""] blank_content
             eq_refl).
Defined.

Lemma strip_removes_whitespace_witness :
  strip (" " +:+ "a b" +:+ newline_tab) = "a b".
Proof.
  destruct (strip_removes_whitespace (" " +:+ "a b" +:+ newline_tab)) as (_ & _ & H).
  exact (H " " "a b" newline_tab eq_refl eq_refl eq_refl eq_refl).
Defined.

Lemma init_partition_error_witness :
  __init__ "x.bin" blank_content =
  (Raise (ExternalError "unsupported file"), blank_content).
Proof.
  exact (init_partition_error "x.bin" (ExternalError "unsupported file")
           blank_content eq_refl).
Defined.

End Content.
